(** * A shallow embedding of the FAT engine in middleware/fatfs/ff.c

    The C integer types of ff.h are modelled as [Z] with the wrap-around of
    every operation written out ([u8], [u16], [u32]); byte buffers
    ([fs->win], the sectors of the medium, user buffers) are lists of bytes;
    the functions of ff.c are state-passing functions over the volume object
    ([FATFS.t]), the block device ([Device]) and the handle ([FIL.t],
    [DIR.t]). *)

From Stdlib Require Import String Ascii.
From Stdlib Require Import ZArith List Lia Bool.
From coqutil Require Import Z.bitblast.
Import ListNotations.
Local Open Scope Z_scope.

(* ===================================================================== *)
(** ** Machine integers *)
(* ===================================================================== *)

(** [BYTE], [WORD], [DWORD] of ff.h. [UINT] is not declared in the headers
    of the repository; it is the 32-bit [unsigned int] of the target. *)
Definition u8 (x : Z) : Z := x mod 256.
Definition u16 (x : Z) : Z := x mod 65536.
Definition u32 (x : Z) : Z := x mod 4294967296.

(** C truth value of an integer expression. *)
Definition nz (x : Z) : bool := negb (x =? 0).

(* ===================================================================== *)
(** ** Byte buffers *)
(* ===================================================================== *)

(** [a[i]]; the code only indexes inside the buffer, outside it the model
    reads 0. *)
Definition ld (a : list Z) (i : Z) : Z := nth (Z.to_nat i) a 0.

Fixpoint st_nat (a : list Z) (n : nat) (v : Z) : list Z :=
  match a, n with
  | [], _ => []
  | _ :: t, O => v :: t
  | h :: t, S n' => h :: st_nat t n' v
  end.

(** [a[i] = v]. *)
Definition st (a : list Z) (i : Z) (v : Z) : list Z := st_nat a (Z.to_nat i) v.

(** [memcpy(a + p, src, n)] and [memset(a + p, v, n)]. *)
Fixpoint memcpy_nat (a : list Z) (p : Z) (src : list Z) (q : Z) (n : nat) : list Z :=
  match n with
  | O => a
  | S n' => memcpy_nat (st a p (ld src q)) (p + 1) src (q + 1) n'
  end.

Definition memcpy (a : list Z) (p : Z) (src : list Z) (q : Z) (n : Z) : list Z :=
  memcpy_nat a p src q (Z.to_nat n).

Fixpoint memset_nat (a : list Z) (p : Z) (v : Z) (n : nat) : list Z :=
  match n with
  | O => a
  | S n' => memset_nat (st a p v) (p + 1) v n'
  end.

Definition memset (a : list Z) (p : Z) (v : Z) (n : Z) : list Z :=
  memset_nat a p v (Z.to_nat n).

(** The [n] bytes [a[p] .. a[p+n-1]]. *)
Definition slice (a : list Z) (p : Z) (n : Z) : list Z :=
  map (fun k => ld a (p + Z.of_nat k)) (seq 0 (Z.to_nat n)).

(** Little-endian access macros of ff.c (lines 23-26). *)
Definition LD_WORD (a : list Z) (p : Z) : Z :=
  u16 (Z.lor (Z.shiftl (u16 (ld a (p + 1))) 8) (u16 (ld a p))).

Definition LD_DWORD (a : list Z) (p : Z) : Z :=
  u32 (Z.lor (Z.lor (Z.lor (Z.shiftl (u32 (ld a (p + 3))) 24)
                           (Z.shiftl (u32 (ld a (p + 2))) 16))
                    (Z.shiftl (u16 (ld a (p + 1))) 8))
             (ld a p)).

Definition ST_WORD (a : list Z) (p : Z) (val : Z) : list Z :=
  st (st a p (u8 val)) (p + 1) (u8 (Z.shiftr (u16 val) 8)).

Definition ST_DWORD (a : list Z) (p : Z) (val : Z) : list Z :=
  st (st (st (st a p (u8 val))
             (p + 1) (u8 (Z.shiftr (u16 val) 8)))
         (p + 2) (u8 (Z.shiftr (u32 val) 16)))
     (p + 3) (u8 (Z.shiftr (u32 val) 24)).

(* ===================================================================== *)
(** ** Constants of ff.c, ff.h, ffconf.h and diskio.h *)
(* ===================================================================== *)

Definition FF_VOLUMES : Z := 1.
Definition FF_MAX_SS : Z := 512.
(** [SS(fs)] is the constant [(UINT)FF_MAX_SS]. *)
Definition SS : Z := FF_MAX_SS.

Definition FS_FAT12 : Z := 1.
Definition FS_FAT16 : Z := 2.
Definition FS_FAT32 : Z := 3.

Definition DIR_Name : Z := 0.
Definition DIR_Attr : Z := 11.
Definition DIR_FstClusHI : Z := 20.
Definition DIR_WrtTime : Z := 22.
Definition DIR_WrtDate : Z := 24.
Definition DIR_FstClusLO : Z := 26.
Definition DIR_FileSize : Z := 28.
Definition DDEM : Z := 229.
Definition SZ_DIRE : Z := 32.

Definition BPB_BytsPerSec : Z := 11.
Definition BPB_SecPerClus : Z := 13.
Definition BPB_RsvdSecCnt : Z := 14.
Definition BPB_NumFATs : Z := 16.
Definition BPB_RootEntCnt : Z := 17.
Definition BPB_TotSec16 : Z := 19.
Definition BPB_FATSz16 : Z := 22.
Definition BPB_TotSec32 : Z := 32.
Definition BS_BootSig : Z := 38.
Definition BS_FilSysType : Z := 54.
Definition BPB_FATSz32 : Z := 36.
Definition BPB_RootClus32 : Z := 44.
Definition BS_FilSysType32 : Z := 82.
Definition MBR_Table : Z := 446.

Definition FA_READ : Z := 1.
Definition FA_WRITE : Z := 2.
Definition FA_CREATE_NEW : Z := 4.
Definition FA_CREATE_ALWAYS : Z := 8.
Definition FA_OPEN_ALWAYS : Z := 16.
(** The "modified" bit that ff.c writes as the literal 0x40. *)
Definition FA_MODIFIED : Z := 64.

Definition AM_DIR : Z := 16.
Definition AM_ARC : Z := 32.

Definition STA_NOINIT : Z := 1.
Definition STA_PROTECT : Z := 4.
Definition DEV_SD : Z := 0.

(** [FRESULT] of ff.h. *)
Inductive FRESULT : Type :=
| FR_OK | FR_DISK_ERR | FR_INT_ERR | FR_NOT_READY | FR_NO_FILE | FR_NO_PATH
| FR_INVALID_NAME | FR_DENIED | FR_EXIST | FR_INVALID_OBJECT
| FR_WRITE_PROTECTED | FR_INVALID_DRIVE | FR_NOT_ENABLED | FR_NO_FILESYSTEM
| FR_MKFS_ABORTED | FR_TIMEOUT | FR_LOCKED | FR_NOT_ENOUGH_CORE
| FR_TOO_MANY_OPEN_FILES | FR_INVALID_PARAMETER.

(** The enumeration value, as stored by [fp->err = (BYTE)(res)]. *)
Definition FRESULT_code (r : FRESULT) : Z :=
  match r with
  | FR_OK => 0 | FR_DISK_ERR => 1 | FR_INT_ERR => 2 | FR_NOT_READY => 3
  | FR_NO_FILE => 4 | FR_NO_PATH => 5 | FR_INVALID_NAME => 6 | FR_DENIED => 7
  | FR_EXIST => 8 | FR_INVALID_OBJECT => 9 | FR_WRITE_PROTECTED => 10
  | FR_INVALID_DRIVE => 11 | FR_NOT_ENABLED => 12 | FR_NO_FILESYSTEM => 13
  | FR_MKFS_ABORTED => 14 | FR_TIMEOUT => 15 | FR_LOCKED => 16
  | FR_NOT_ENOUGH_CORE => 17 | FR_TOO_MANY_OPEN_FILES => 18
  | FR_INVALID_PARAMETER => 19
  end.

Definition FRESULT_eqb (a b : FRESULT) : bool := FRESULT_code a =? FRESULT_code b.

(** [DRESULT] of diskio.h. *)
Inductive DRESULT : Type := RES_OK | RES_ERROR | RES_WRPRT | RES_NOTRDY | RES_PARERR.

Definition is_RES_OK (r : DRESULT) : bool :=
  match r with RES_OK => true | _ => false end.

(* ===================================================================== *)
(** ** The block device (diskio.c over the SD card) *)
(* ===================================================================== *)

(** What reaches the card: every call of the three diskio entry points
    that the engine uses is recorded, so that "no transfer" is observable. *)
Inductive io_event : Type :=
| IoInit
| IoRead (sector count : Z)
| IoWrite (sector count : Z).

(** The card behind diskio.c: [Stat] is the static status byte of diskio.c,
    [sd_present] tells whether [bsp_sd_init] answers [SD_OK], [sd_bad] marks
    the sectors whose transfer the card refuses, [sd_data] is the medium. *)
Record Device : Type := mkDevice {
  Stat : Z;
  sd_present : bool;
  sd_bad : Z -> bool;
  sd_data : Z -> list Z;
  io_log : list io_event
}.

Definition dev_log (d : Device) (e : io_event) : Device :=
  mkDevice (Stat d) (sd_present d) (sd_bad d) (sd_data d) (e :: io_log d).

Definition dev_set_Stat (d : Device) (s : Z) : Device :=
  mkDevice s (sd_present d) (sd_bad d) (sd_data d) (io_log d).

Definition dev_set_data (d : Device) (m : Z -> list Z) : Device :=
  mkDevice (Stat d) (sd_present d) (sd_bad d) m (io_log d).

(** [disk_initialize] (diskio.c lines 25-43). *)
Definition disk_initialize (d : Device) (pdrv : Z) : Z * Device :=
  if pdrv =? DEV_SD then
    let d := dev_log d IoInit in
    let s := if sd_present d then Z.land (Stat d) (Z.lxor 255 STA_NOINIT)
             else STA_NOINIT in
    (s, dev_set_Stat d s)
  else (STA_NOINIT, d).

(** Whether one of the [n] sectors from [sector] on is refused by the card. *)
Fixpoint any_bad (bad : Z -> bool) (sector : Z) (n : nat) : bool :=
  match n with
  | O => false
  | S n' => bad sector || any_bad bad (sector + 1) n'
  end.

(** The [count] sectors from [sector] on, concatenated. *)
Fixpoint read_sectors (m : Z -> list Z) (sector : Z) (n : nat) : list Z :=
  match n with
  | O => []
  | S n' => m sector ++ read_sectors m (sector + 1) n'
  end.

(** [disk_read] (diskio.c lines 69-92): the result and the bytes that were
    stored in the caller's buffer (none when the transfer fails). *)
Definition disk_read (d : Device) (pdrv : Z) (sector count : Z)
  : DRESULT * list Z * Device :=
  if negb (pdrv =? DEV_SD) || (count =? 0) then (RES_PARERR, [], d)
  else if nz (Z.land (Stat d) STA_NOINIT) then (RES_NOTRDY, [], d)
  else
    let d := dev_log d (IoRead sector count) in
    if any_bad (sd_bad d) sector (Z.to_nat count) then (RES_ERROR, [], d)
    else (RES_OK, read_sectors (sd_data d) sector (Z.to_nat count), d).

(** The [k]-th 512-byte block of a buffer. *)
Definition chunk (buff : list Z) (k : Z) : list Z :=
  firstn (Z.to_nat 512) (skipn (Z.to_nat (512 * k)) buff).

(** [disk_write] (diskio.c lines 97-124); a refused transfer leaves the
    medium as it was. *)
Definition disk_write (d : Device) (pdrv : Z) (buff : list Z) (sector count : Z)
  : DRESULT * Device :=
  if negb (pdrv =? DEV_SD) || (count =? 0) then (RES_PARERR, d)
  else if nz (Z.land (Stat d) STA_NOINIT) then (RES_NOTRDY, d)
  else if nz (Z.land (Stat d) STA_PROTECT) then (RES_WRPRT, d)
  else
    let d := dev_log d (IoWrite sector count) in
    if any_bad (sd_bad d) sector (Z.to_nat count) then (RES_ERROR, d)
    else
      (RES_OK,
       dev_set_data d (fun s => if (sector <=? s) && (s <? sector + count)
                                then chunk buff (s - sector)
                                else sd_data d s)).

(** [get_fattime] (diskio.c lines 186-193): a fixed time stamp. *)
Definition get_fattime : Z :=
  Z.lor (Z.lor (Z.lor (Z.lor (Z.lor (Z.shiftl (2025 - 1980) 25) (Z.shiftl 12 21))
                                    (Z.shiftl 12 16))
                             (Z.shiftl 12 11))
                      (Z.shiftl 0 5))
        (Z.shiftr 0 1).

(* ===================================================================== *)
(** ** The objects of ff.h *)
(* ===================================================================== *)

Module FATFS.
(** [FATFS] (ff.h lines 44-87), the fields ff.c reads or writes. *)
Record t : Type := mk {
  fs_type : Z;
  pdrv : Z;
  n_fats : Z;
  wflag : Z;
  id : Z;
  n_rootdir : Z;
  csize : Z;
  last_clst : Z;
  free_clst : Z;
  n_fatent : Z;
  fsize : Z;
  volbase : Z;
  fatbase : Z;
  dirbase : Z;
  database : Z;
  winsect : Z;
  win : list Z
}.

Definition set_fs_type (fs : t) (v : Z) : t :=
  mk v (pdrv fs) (n_fats fs) (wflag fs) (id fs) (n_rootdir fs) (csize fs)
     (last_clst fs) (free_clst fs) (n_fatent fs) (fsize fs) (volbase fs)
     (fatbase fs) (dirbase fs) (database fs) (winsect fs) (win fs).
Definition set_pdrv (fs : t) (v : Z) : t :=
  mk (fs_type fs) v (n_fats fs) (wflag fs) (id fs) (n_rootdir fs) (csize fs)
     (last_clst fs) (free_clst fs) (n_fatent fs) (fsize fs) (volbase fs)
     (fatbase fs) (dirbase fs) (database fs) (winsect fs) (win fs).
Definition set_wflag (fs : t) (v : Z) : t :=
  mk (fs_type fs) (pdrv fs) (n_fats fs) v (id fs) (n_rootdir fs) (csize fs)
     (last_clst fs) (free_clst fs) (n_fatent fs) (fsize fs) (volbase fs)
     (fatbase fs) (dirbase fs) (database fs) (winsect fs) (win fs).
Definition set_last_clst (fs : t) (v : Z) : t :=
  mk (fs_type fs) (pdrv fs) (n_fats fs) (wflag fs) (id fs) (n_rootdir fs) (csize fs)
     v (free_clst fs) (n_fatent fs) (fsize fs) (volbase fs)
     (fatbase fs) (dirbase fs) (database fs) (winsect fs) (win fs).
Definition set_free_clst (fs : t) (v : Z) : t :=
  mk (fs_type fs) (pdrv fs) (n_fats fs) (wflag fs) (id fs) (n_rootdir fs) (csize fs)
     (last_clst fs) v (n_fatent fs) (fsize fs) (volbase fs)
     (fatbase fs) (dirbase fs) (database fs) (winsect fs) (win fs).
Definition set_winsect (fs : t) (v : Z) : t :=
  mk (fs_type fs) (pdrv fs) (n_fats fs) (wflag fs) (id fs) (n_rootdir fs) (csize fs)
     (last_clst fs) (free_clst fs) (n_fatent fs) (fsize fs) (volbase fs)
     (fatbase fs) (dirbase fs) (database fs) v (win fs).
Definition set_win (fs : t) (v : list Z) : t :=
  mk (fs_type fs) (pdrv fs) (n_fats fs) (wflag fs) (id fs) (n_rootdir fs) (csize fs)
     (last_clst fs) (free_clst fs) (n_fatent fs) (fsize fs) (volbase fs)
     (fatbase fs) (dirbase fs) (database fs) (winsect fs) v.
Definition set_n_fats (fs : t) (v : Z) : t :=
  mk (fs_type fs) (pdrv fs) v (wflag fs) (id fs) (n_rootdir fs) (csize fs) (last_clst fs) (free_clst fs) (n_fatent fs) (fsize fs) (volbase fs) (fatbase fs) (dirbase fs) (database fs) (winsect fs) (win fs).
Definition set_id (fs : t) (v : Z) : t :=
  mk (fs_type fs) (pdrv fs) (n_fats fs) (wflag fs) v (n_rootdir fs) (csize fs) (last_clst fs) (free_clst fs) (n_fatent fs) (fsize fs) (volbase fs) (fatbase fs) (dirbase fs) (database fs) (winsect fs) (win fs).
Definition set_n_rootdir (fs : t) (v : Z) : t :=
  mk (fs_type fs) (pdrv fs) (n_fats fs) (wflag fs) (id fs) v (csize fs) (last_clst fs) (free_clst fs) (n_fatent fs) (fsize fs) (volbase fs) (fatbase fs) (dirbase fs) (database fs) (winsect fs) (win fs).
Definition set_csize (fs : t) (v : Z) : t :=
  mk (fs_type fs) (pdrv fs) (n_fats fs) (wflag fs) (id fs) (n_rootdir fs) v (last_clst fs) (free_clst fs) (n_fatent fs) (fsize fs) (volbase fs) (fatbase fs) (dirbase fs) (database fs) (winsect fs) (win fs).
Definition set_n_fatent (fs : t) (v : Z) : t :=
  mk (fs_type fs) (pdrv fs) (n_fats fs) (wflag fs) (id fs) (n_rootdir fs) (csize fs) (last_clst fs) (free_clst fs) v (fsize fs) (volbase fs) (fatbase fs) (dirbase fs) (database fs) (winsect fs) (win fs).
Definition set_fsize (fs : t) (v : Z) : t :=
  mk (fs_type fs) (pdrv fs) (n_fats fs) (wflag fs) (id fs) (n_rootdir fs) (csize fs) (last_clst fs) (free_clst fs) (n_fatent fs) v (volbase fs) (fatbase fs) (dirbase fs) (database fs) (winsect fs) (win fs).
Definition set_volbase (fs : t) (v : Z) : t :=
  mk (fs_type fs) (pdrv fs) (n_fats fs) (wflag fs) (id fs) (n_rootdir fs) (csize fs) (last_clst fs) (free_clst fs) (n_fatent fs) (fsize fs) v (fatbase fs) (dirbase fs) (database fs) (winsect fs) (win fs).
Definition set_fatbase (fs : t) (v : Z) : t :=
  mk (fs_type fs) (pdrv fs) (n_fats fs) (wflag fs) (id fs) (n_rootdir fs) (csize fs) (last_clst fs) (free_clst fs) (n_fatent fs) (fsize fs) (volbase fs) v (dirbase fs) (database fs) (winsect fs) (win fs).
Definition set_dirbase (fs : t) (v : Z) : t :=
  mk (fs_type fs) (pdrv fs) (n_fats fs) (wflag fs) (id fs) (n_rootdir fs) (csize fs) (last_clst fs) (free_clst fs) (n_fatent fs) (fsize fs) (volbase fs) (fatbase fs) v (database fs) (winsect fs) (win fs).
Definition set_database (fs : t) (v : Z) : t :=
  mk (fs_type fs) (pdrv fs) (n_fats fs) (wflag fs) (id fs) (n_rootdir fs) (csize fs) (last_clst fs) (free_clst fs) (n_fatent fs) (fsize fs) (volbase fs) (fatbase fs) (dirbase fs) v (winsect fs) (win fs).
End FATFS.

Module FIL.
(** [FIL] (ff.h lines 90-121). [fs] tells whether the pointer [fp->fs] is
    set (the volume object it points to is passed along with the handle);
    [dir_ptr], a pointer into [fs->win], is the offset it points at. *)
Record t : Type := mk {
  fs : bool;
  id : Z;
  flag : Z;
  err : Z;
  fptr : Z;
  clust : Z;
  dir_sect : Z;
  dir_ptr : Z;
  obj_size : Z;
  sclust : Z
}.

Definition set_fs (fp : t) (v : bool) : t :=
  mk v (id fp) (flag fp) (err fp) (fptr fp) (clust fp) (dir_sect fp)
     (dir_ptr fp) (obj_size fp) (sclust fp).
Definition set_flag (fp : t) (v : Z) : t :=
  mk (fs fp) (id fp) v (err fp) (fptr fp) (clust fp) (dir_sect fp)
     (dir_ptr fp) (obj_size fp) (sclust fp).
Definition set_err (fp : t) (v : Z) : t :=
  mk (fs fp) (id fp) (flag fp) v (fptr fp) (clust fp) (dir_sect fp)
     (dir_ptr fp) (obj_size fp) (sclust fp).
Definition set_fptr (fp : t) (v : Z) : t :=
  mk (fs fp) (id fp) (flag fp) (err fp) v (clust fp) (dir_sect fp)
     (dir_ptr fp) (obj_size fp) (sclust fp).
Definition set_clust (fp : t) (v : Z) : t :=
  mk (fs fp) (id fp) (flag fp) (err fp) (fptr fp) v (dir_sect fp)
     (dir_ptr fp) (obj_size fp) (sclust fp).
Definition set_obj_size (fp : t) (v : Z) : t :=
  mk (fs fp) (id fp) (flag fp) (err fp) (fptr fp) (clust fp) (dir_sect fp)
     (dir_ptr fp) v (sclust fp).
Definition set_sclust (fp : t) (v : Z) : t :=
  mk (fs fp) (id fp) (flag fp) (err fp) (fptr fp) (clust fp) (dir_sect fp)
     (dir_ptr fp) (obj_size fp) v.
End FIL.

Module DIR.
(** [DIR] (ff.h lines 124-142), the fields ff.c reads or writes. *)
Record t : Type := mk {
  fs : bool;
  id : Z;
  index : Z;
  sclust : Z
}.

Definition set_fs (dp : t) (v : bool) : t := mk v (id dp) (index dp) (sclust dp).
Definition set_index (dp : t) (v : Z) : t := mk (fs dp) (id dp) v (sclust dp).
End DIR.

(** [FILINFO] (ff.h lines 145-156); [fname] is the C string without its
    terminator. *)
Record FILINFO : Type := mkFILINFO {
  fsize : Z;
  fdate : Z;
  ftime : Z;
  fattrib : Z;
  fname : list Z
}.

(* ===================================================================== *)
(** ** The sector window (ff.c lines 99-124) *)
(* ===================================================================== *)

Definition sync_window (fs : FATFS.t) (d : Device) : FRESULT * FATFS.t * Device :=
  if nz (FATFS.wflag fs) then
    let '(res, d) := disk_write d (FATFS.pdrv fs) (FATFS.win fs) (FATFS.winsect fs) 1 in
    let fs := FATFS.set_wflag fs 0 in
    if negb (is_RES_OK res) then (FR_DISK_ERR, fs, d) else (FR_OK, fs, d)
  else (FR_OK, fs, d).

Definition move_window (fs : FATFS.t) (d : Device) (sect : Z)
  : FRESULT * FATFS.t * Device :=
  if negb (sect =? FATFS.winsect fs) then
    let '(res, fs, d) := sync_window fs d in
    match res with
    | FR_OK =>
        let '(dres, data, d) := disk_read d (FATFS.pdrv fs) sect 1 in
        if negb (is_RES_OK dres) then
          (FR_DISK_ERR, FATFS.set_winsect fs (u32 (0 - 1)), d)
        else
          (FR_OK, FATFS.set_winsect (FATFS.set_win fs data) sect, d)
    | _ => (res, fs, d)
    end
  else (FR_OK, fs, d).

(* ===================================================================== *)
(** ** The FAT accessor and the cluster mapper (ff.c lines 126-216) *)
(* ===================================================================== *)

Definition get_fat (fs : FATFS.t) (d : Device) (clst : Z) : Z * FATFS.t * Device :=
  if (clst <? 2) || (clst >=? FATFS.n_fatent fs) then (1, fs, d)
  else if FATFS.fs_type fs =? FS_FAT12 then
    let bc := u32 clst in
    let bc := u32 (bc + bc / 2) in
    let sect := u32 (FATFS.fatbase fs + bc / SS) in
    let '(res, fs, d) := move_window fs d sect in
    match res with
    | FR_OK =>
        let wc := ld (FATFS.win fs) (bc mod SS) in
        let bc := u32 (bc + 1) in
        let '(res, fs, d) := move_window fs d (u32 (FATFS.fatbase fs + bc / SS)) in
        match res with
        | FR_OK =>
            let wc := Z.lor wc (Z.shiftl (ld (FATFS.win fs) (bc mod SS)) 8) in
            ((if nz (Z.land clst 1) then Z.shiftr wc 4 else Z.land wc 4095), fs, d)
        | _ => (1, fs, d)
        end
    | _ => (1, fs, d)
    end
  else if FATFS.fs_type fs =? FS_FAT16 then
    let sect := u32 (FATFS.fatbase fs + clst / (SS / 2)) in
    let '(res, fs, d) := move_window fs d sect in
    match res with
    | FR_OK => (LD_WORD (FATFS.win fs) (u32 (clst * 2) mod SS), fs, d)
    | _ => (1, fs, d)
    end
  else if FATFS.fs_type fs =? FS_FAT32 then
    let sect := u32 (FATFS.fatbase fs + clst / (SS / 4)) in
    let '(res, fs, d) := move_window fs d sect in
    match res with
    | FR_OK =>
        (Z.land (LD_DWORD (FATFS.win fs) (u32 (clst * 4) mod SS)) 268435455, fs, d)
    | _ => (1, fs, d)
    end
  else (1, fs, d).

Definition put_fat (fs : FATFS.t) (d : Device) (clst val : Z)
  : FRESULT * FATFS.t * Device :=
  if (clst >=? 2) && (clst <? FATFS.n_fatent fs) then
    if FATFS.fs_type fs =? FS_FAT12 then
      let bc := u32 clst in
      let bc := u32 (bc + bc / 2) in
      let sect := u32 (FATFS.fatbase fs + bc / SS) in
      let '(res, fs, d) := move_window fs d sect in
      match res with
      | FR_OK =>
          let p := bc mod SS in
          let bc := u32 (bc + 1) in
          let b := ld (FATFS.win fs) p in
          let fs := FATFS.set_win fs
                      (st (FATFS.win fs) p
                          (if nz (Z.land clst 1)
                           then u8 (Z.lor (Z.land b 15) (Z.shiftl (u8 val) 4))
                           else u8 val)) in
          let fs := FATFS.set_wflag fs 1 in
          let sect := u32 (FATFS.fatbase fs + bc / SS) in
          let '(res, fs, d) := move_window fs d sect in
          match res with
          | FR_OK =>
              let p := bc mod SS in
              let b := ld (FATFS.win fs) p in
              let fs := FATFS.set_win fs
                          (st (FATFS.win fs) p
                              (if nz (Z.land clst 1)
                               then u8 (Z.shiftr val 4)
                               else u8 (Z.lor (Z.land b 240)
                                              (Z.land (u8 (Z.shiftr val 8)) 15)))) in
              (FR_OK, FATFS.set_wflag fs 1, d)
          | _ => (res, fs, d)
          end
      | _ => (res, fs, d)
      end
    else if FATFS.fs_type fs =? FS_FAT16 then
      let sect := u32 (FATFS.fatbase fs + clst / (SS / 2)) in
      let '(res, fs, d) := move_window fs d sect in
      match res with
      | FR_OK =>
          let fs := FATFS.set_win fs
                      (ST_WORD (FATFS.win fs) (u32 (clst * 2) mod SS) (u16 val)) in
          (FR_OK, FATFS.set_wflag fs 1, d)
      | _ => (res, fs, d)
      end
    else if FATFS.fs_type fs =? FS_FAT32 then
      let sect := u32 (FATFS.fatbase fs + clst / (SS / 4)) in
      let '(res, fs, d) := move_window fs d sect in
      match res with
      | FR_OK =>
          let p := u32 (clst * 4) mod SS in
          let val := Z.lor (Z.land val 268435455)
                           (Z.land (LD_DWORD (FATFS.win fs) p) 4026531840) in
          let fs := FATFS.set_win fs (ST_DWORD (FATFS.win fs) p val) in
          (FR_OK, FATFS.set_wflag fs 1, d)
      | _ => (res, fs, d)
      end
    else (FR_INT_ERR, fs, d)
  else (FR_INT_ERR, fs, d).

Definition clst2sect (fs : FATFS.t) (clst : Z) : Z :=
  let clst := u32 (clst - 2) in
  if clst >=? u32 (FATFS.n_fatent fs - 2) then 0
  else u32 (FATFS.database fs + u32 (FATFS.csize fs * clst)).

(* ===================================================================== *)
(** ** Mounting (ff.c lines 218-357) *)
(* ===================================================================== *)

Definition check_fs (fs : FATFS.t) (d : Device) (sect : Z)
  : FRESULT * FATFS.t * Device :=
  let fs := FATFS.set_winsect (FATFS.set_wflag fs 0) (u32 (0 - 1)) in
  let '(res, fs, d) := move_window fs d sect in
  match res with
  | FR_OK =>
      if negb (LD_WORD (FATFS.win fs) (BS_BootSig - 2) =? 43605)
      then (FR_NO_FILESYSTEM, fs, d)
      else if Z.land (LD_DWORD (FATFS.win fs) BS_FilSysType) 16777215 =? 5521734
      then (FR_OK, fs, d)
      else if Z.land (LD_DWORD (FATFS.win fs) BS_FilSysType32) 16777215 =? 5521734
      then (FR_OK, fs, d)
      else (FR_NO_FILESYSTEM, fs, d)
  | _ => (FR_DISK_ERR, fs, d)
  end.

(** The partition types that [find_volume] recognises. *)
Definition is_fat_partition_type (t : Z) : bool :=
  (t =? 11) || (t =? 12) || (t =? 6) || (t =? 4) || (t =? 1).

Fixpoint find_volume_scan (win : list Z) (i : Z) (n : nat) : Z :=
  match n with
  | O => 0
  | S n' =>
      if is_fat_partition_type (ld win (MBR_Table + i * 16 + 4))
      then u32 (LD_DWORD win (MBR_Table + i * 16 + 8))
      else find_volume_scan win (i + 1) n'
  end.

(** [find_volume]; [part] is between 0 and 4 ([br] has four elements). *)
Definition find_volume (fs : FATFS.t) (part : Z) : Z :=
  if nz part then u32 (LD_DWORD (FATFS.win fs) (MBR_Table + (part - 1) * 16 + 8))
  else if nz (ld (FATFS.win fs) (MBR_Table + 4))
  then find_volume_scan (FATFS.win fs) 0 4
  else 0.

(** The BPB part of [f_mount] (ff.c lines 304-356), on the boot sector in
    the window; [bsect] is the sector it was read from. *)
Definition parse_bpb (fs : FATFS.t) (Fsid : Z) (bsect : Z) : FRESULT * FATFS.t * Z :=
  let w := FATFS.win fs in
  if negb (LD_WORD w BPB_BytsPerSec =? SS) then (FR_NO_FILESYSTEM, fs, Fsid) else
  let farone := LD_WORD w BPB_FATSz16 in
  let farone := if farone =? 0 then LD_DWORD w BPB_FATSz32 else farone in
  let fs := FATFS.set_fsize fs farone in
  let fs := FATFS.set_n_fats fs (ld w BPB_NumFATs) in
  if negb (FATFS.n_fats fs =? 1) && negb (FATFS.n_fats fs =? 2)
  then (FR_NO_FILESYSTEM, fs, Fsid) else
  let farone := u32 (farone * FATFS.n_fats fs) in
  let fs := FATFS.set_csize fs (ld w BPB_SecPerClus) in
  if (FATFS.csize fs =? 0) || nz (Z.land (FATFS.csize fs) (FATFS.csize fs - 1))
  then (FR_NO_FILESYSTEM, fs, Fsid) else
  let fs := FATFS.set_n_rootdir fs (LD_WORD w BPB_RootEntCnt) in
  if nz (FATFS.n_rootdir fs mod (SS / SZ_DIRE)) then (FR_NO_FILESYSTEM, fs, Fsid) else
  let tsect := LD_WORD w BPB_TotSec16 in
  let tsect := if tsect =? 0 then LD_DWORD w BPB_TotSec32 else tsect in
  let nrsv := LD_WORD w BPB_RsvdSecCnt in
  if nrsv =? 0 then (FR_NO_FILESYSTEM, fs, Fsid) else
  let fatbase := u32 (bsect + nrsv) in
  let sysect := u32 (u32 (nrsv + farone) + FATFS.n_rootdir fs / (SS / SZ_DIRE)) in
  if tsect <? sysect then (FR_NO_FILESYSTEM, fs, Fsid) else
  let nclst := u32 (tsect - sysect) / FATFS.csize fs in
  if nclst =? 0 then (FR_NO_FILESYSTEM, fs, Fsid) else
  let fmt := if nclst <=? 4085 then FS_FAT12
             else if nclst <=? 65525 then FS_FAT16 else FS_FAT32 in
  let fs := FATFS.set_fs_type fs fmt in
  let fs := FATFS.set_n_fatent fs (u32 (nclst + 2)) in
  let fs := FATFS.set_volbase fs bsect in
  let fs := FATFS.set_fatbase fs fatbase in
  let fs := FATFS.set_dirbase fs (u32 (fatbase + farone)) in
  let fs := FATFS.set_database fs
              (u32 (u32 (fatbase + farone) + FATFS.n_rootdir fs / (SS / SZ_DIRE))) in
  let fs := if fmt =? FS_FAT32
            then FATFS.set_dirbase fs (LD_DWORD w BPB_RootClus32) else fs in
  let fs := FATFS.set_free_clst (FATFS.set_last_clst fs 4294967295) 4294967295 in
  let Fsid := u16 (Fsid + 1) in
  let fs := FATFS.set_id fs Fsid in
  let fs := FATFS.set_wflag fs 0 in
  (FR_OK, fs, Fsid).

(** [f_mount]. [FatFs] is the slot [FatFs[0]] and [Fsid] the mount counter
    (the two static variables of ff.c); [fs] is the caller's volume object,
    [None] for a null pointer. The result carries the new contents of the
    slot. A volume object that was registered before and is replaced is
    marked unmounted by the code; the model does not keep it. *)
Definition f_mount (FatFs : option FATFS.t) (Fsid : Z) (d : Device)
           (fs : option FATFS.t) (path : list Z) (opt : Z)
  : FRESULT * option FATFS.t * Z * Device :=
  let vol := ld path 0 - 48 in
  if (vol <? 0) || (vol >=? FF_VOLUMES) then (FR_INVALID_DRIVE, FatFs, Fsid, d) else
  let fs := match fs with
            | Some fs => Some (FATFS.set_pdrv (FATFS.set_fs_type fs 0) (u8 vol))
            | None => None
            end in
  if opt =? 0 then (FR_OK, fs, Fsid, d) else
  match fs with
  | None => (FR_INVALID_OBJECT, fs, Fsid, d)
  | Some fs =>
      let '(st, d) := disk_initialize d (FATFS.pdrv fs) in
      if nz (Z.land st STA_NOINIT) then (FR_NOT_READY, Some fs, Fsid, d) else
      let bsect := 0 in
      let '(fmt, fs, d) := check_fs fs d bsect in
      let step :=
        match fmt with
        | FR_NO_FILESYSTEM =>
            let '(dres, data, d) := disk_read d (FATFS.pdrv fs) 0 1 in
            if negb (is_RES_OK dres) then (Some FR_DISK_ERR, fmt, fs, d, bsect) else
            let fs := FATFS.set_win fs data in
            let bsect := find_volume fs 0 in
            if nz bsect then
              let '(fmt, fs, d) := check_fs fs d bsect in
              (None, fmt, fs, d, bsect)
            else (None, fmt, fs, d, bsect)
        | _ => (None, fmt, fs, d, bsect)
        end in
      let '(early, fmt, fs, d, bsect) := step in
      match early with
      | Some r => (r, Some fs, Fsid, d)
      | None =>
          match fmt with
          | FR_OK =>
              let '(res, fs, Fsid) := parse_bpb fs Fsid bsect in
              (res, Some fs, Fsid, d)
          | _ => (fmt, Some fs, Fsid, d)
          end
      end
  end.

(* ===================================================================== *)
(** ** Opening a file (ff.c lines 359-520) *)
(* ===================================================================== *)

(** [(c >= 'a' && c <= 'z') ? c - 32 : c], stored in a [BYTE]. *)
Definition upcase (c : Z) : Z :=
  if (97 <=? c) && (c <=? 122) then u8 (c - 32) else u8 c.

(** A C string is the list of its characters; the character after the last
    one is the terminator 0. First loop of the name conversion (ff.c lines
    416-419): returns what is left of the path at index [j], and [sfn]. *)
Fixpoint sfn_base (p : list Z) (sfn : list Z) (k : Z) : list Z * list Z :=
  match p with
  | c :: p' =>
      if nz c && negb (c =? 46) && (k <? 8)
      then sfn_base p' (st sfn k (upcase c)) (k + 1)
      else (p, sfn)
  | [] => (p, sfn)
  end.

(** Second loop (ff.c lines 423-426). *)
Fixpoint sfn_ext (p : list Z) (sfn : list Z) (k : Z) : list Z :=
  match p with
  | c :: p' =>
      if nz c && (k <? 11)
      then sfn_ext p' (st sfn k (upcase c)) (k + 1)
      else sfn
  | [] => sfn
  end.

(** The conversion of the path to the 11 bytes [sfn] (ff.c lines 413-427
    and, identically, 473-487). *)
Definition make_sfn (path : list Z) : list Z :=
  let '(p, sfn) := sfn_base path (repeat 32 11) 0 in
  match p with
  | c :: p' => if c =? 46 then sfn_ext p' sfn 8 else sfn
  | [] => sfn
  end.

(** [memcmp(a + p, b, n) == 0]. *)
Definition memcmp_eq (a : list Z) (p : Z) (b : list Z) (n : Z) : bool :=
  forallb (fun k => ld a (p + Z.of_nat k) =? ld b (Z.of_nat k)) (seq 0 (Z.to_nat n)).

(** The sector of the root directory (ff.c lines 388-392 and 451-455). *)
Definition root_sect (fs : FATFS.t) : Z :=
  if FATFS.fs_type fs =? FS_FAT32 then clst2sect fs (u32 (FATFS.dirbase fs))
  else FATFS.dirbase fs.

(** The loop condition [i < fs->n_rootdir || (fs->fs_type == FS_FAT32 && i < 512)]. *)
Definition root_cond (fs : FATFS.t) (i : Z) : bool :=
  (i <? FATFS.n_rootdir fs) || ((FATFS.fs_type fs =? FS_FAT32) && (i <? 512)).

(** The number of iterations after which [root_cond] is false. *)
Definition root_bound (fs : FATFS.t) : Z :=
  Z.max (FATFS.n_rootdir fs) (if FATFS.fs_type fs =? FS_FAT32 then 512 else 0).

Inductive scan_result : Type :=
| ScanHit (fs : FATFS.t) (d : Device) (sect dir : Z)
| ScanFail (res : FRESULT) (fs : FATFS.t) (d : Device)
| ScanEnd (fs : FATFS.t) (d : Device).

(** The search loop of [f_open] (ff.c lines 399-445); [n] bounds the
    iterations that are left. *)
Fixpoint open_search (n : nat) (fs : FATFS.t) (d : Device) (sfn : list Z)
         (sect i : Z) : scan_result :=
  match n with
  | O => ScanEnd fs d
  | S n' =>
      if negb (root_cond fs i) then ScanEnd fs d else
      let dir := (i mod (SS / SZ_DIRE)) * SZ_DIRE in
      let '(res, fs, d, sect, dir) :=
        if (i >? 0) && (i mod (SS / SZ_DIRE) =? 0) then
          let sect := u32 (sect + 1) in
          let '(res, fs, d) := move_window fs d sect in
          (res, fs, d, sect, 0)
        else (FR_OK, fs, d, sect, dir) in
      match res with
      | FR_OK =>
          if ld (FATFS.win fs) (dir + DIR_Name) =? 0 then ScanEnd fs d
          else if ld (FATFS.win fs) (dir + DIR_Name) =? DDEM
          then open_search n' fs d sfn sect (i + 1)
          else if nz (Z.land (ld (FATFS.win fs) (dir + DIR_Attr)) AM_DIR)
          then open_search n' fs d sfn sect (i + 1)
          else if memcmp_eq (FATFS.win fs) dir sfn 11 then ScanHit fs d sect dir
          else open_search n' fs d sfn sect (i + 1)
      | _ => ScanFail res fs d
      end
  end.

(** The slot search of the creation part (ff.c lines 459-468). *)
Fixpoint open_free_slot (n : nat) (fs : FATFS.t) (d : Device) (sect i : Z)
  : scan_result :=
  match n with
  | O => ScanEnd fs d
  | S n' =>
      if negb (root_cond fs i) then ScanEnd fs d else
      let dir := (i mod (SS / SZ_DIRE)) * SZ_DIRE in
      let '(res, fs, d, sect, dir) :=
        if (i >? 0) && (i mod (SS / SZ_DIRE) =? 0) then
          let sect := u32 (sect + 1) in
          let '(res, fs, d) := move_window fs d sect in
          (res, fs, d, sect, 0)
        else (FR_OK, fs, d, sect, dir) in
      match res with
      | FR_OK =>
          if (ld (FATFS.win fs) (dir + DIR_Name) =? 0)
             || (ld (FATFS.win fs) (dir + DIR_Name) =? DDEM)
          then ScanHit fs d sect dir
          else open_free_slot n' fs d sect (i + 1)
      | _ => ScanFail res fs d
      end
  end.

(** The directory entry written for a new file (ff.c lines 470-495). *)
Definition new_dir_entry (win : list Z) (dir : Z) (sfn : list Z) : list Z :=
  let win := memset win dir 0 SZ_DIRE in
  let win := memcpy win dir sfn 0 11 in
  let win := st win (dir + DIR_Attr) AM_ARC in
  let tm := get_fattime in
  let win := ST_DWORD win (dir + DIR_WrtTime) tm in
  let win := ST_WORD win (dir + DIR_FstClusLO) 0 in
  let win := ST_WORD win (dir + DIR_FstClusHI) 0 in
  ST_DWORD win (dir + DIR_FileSize) 0.

(** The file name part of a path (ff.c lines 376-377): the drive prefix
    of two characters is skipped, and one slash or backslash after it. *)
Definition path_name (path : list Z) : list Z :=
  let path := skipn 2 path in
  if (ld path 0 =? 47) || (ld path 0 =? 92) then skipn 1 path else path.

(** [f_open]; [FatFs] is the slot [FatFs[0]], returned with the new state of
    the volume object in it. *)
Definition f_open (FatFs : option FATFS.t) (d : Device) (fp : FIL.t)
           (path : list Z) (mode : Z)
  : FRESULT * option FATFS.t * Device * FIL.t :=
  let fp := FIL.set_fs fp false in
  let vol := ld path 0 - 48 in
  if (vol <? 0) || (vol >=? FF_VOLUMES) then (FR_INVALID_DRIVE, FatFs, d, fp) else
  if negb (ld path 1 =? 58) then (FR_INVALID_NAME, FatFs, d, fp) else
  let path := path_name path in
  match FatFs with
  | None => (FR_NOT_ENABLED, FatFs, d, fp)
  | Some fs =>
      if negb (nz (FATFS.fs_type fs)) then (FR_NOT_ENABLED, FatFs, d, fp) else
      let sect := root_sect fs in
      let '(res, fs, d) := move_window fs d sect in
      match res with
      | FR_OK =>
          match open_search (Z.to_nat (root_bound fs)) fs d (make_sfn path) sect 0 with
          | ScanHit fs d sect dir =>
              let w := FATFS.win fs in
              let scl := Z.lor (Z.shiftl (LD_WORD w (dir + DIR_FstClusHI)) 16)
                               (LD_WORD w (dir + DIR_FstClusLO)) in
              (FR_OK, Some fs, d,
               FIL.mk true (FATFS.id fs) (u8 mode) 0 0 scl sect dir
                      (LD_DWORD w (dir + DIR_FileSize)) scl)
          | ScanFail res fs d => (res, Some fs, d, fp)
          | ScanEnd fs d =>
              if nz (Z.land mode (Z.lor (Z.lor FA_CREATE_ALWAYS FA_CREATE_NEW)
                                        FA_OPEN_ALWAYS)) then
                let sect := root_sect fs in
                let '(res, fs, d) := move_window fs d sect in
                match res with
                | FR_OK =>
                    match open_free_slot (Z.to_nat (root_bound fs)) fs d sect 0 with
                    | ScanHit fs d sect dir =>
                        let fs := FATFS.set_win fs
                                    (new_dir_entry (FATFS.win fs) dir (make_sfn path)) in
                        let fs := FATFS.set_wflag fs 1 in
                        let '(res, fs, d) := sync_window fs d in
                        match res with
                        | FR_OK =>
                            (FR_OK, Some fs, d,
                             FIL.mk true (FATFS.id fs) (u8 mode) 0 0 0 sect dir 0 0)
                        | _ => (res, Some fs, d, fp)
                        end
                    | ScanFail res fs d => (res, Some fs, d, fp)
                    | ScanEnd fs d => (FR_DENIED, Some fs, d, fp)
                    end
                | _ => (res, Some fs, d, fp)
                end
              else (FR_NO_FILE, Some fs, d, fp)
          end
      | _ => (res, Some fs, d, fp)
      end
  end.

(* ===================================================================== *)
(** ** Reading and writing (ff.c lines 537-697) *)
(* ===================================================================== *)

(** The macro [ABORT(fs, res)]: [{ fp->err = (BYTE)(res); return res; }]. *)
Definition ABORT (fp : FIL.t) (res : FRESULT) : FRESULT * FIL.t :=
  (res, FIL.set_err fp (u8 (FRESULT_code res))).

Inductive round_result : Type :=
| More (fs : FATFS.t) (d : Device) (fp : FIL.t) (cnt : Z) (data : list Z)
| Stop (res : FRESULT) (fs : FATFS.t) (d : Device) (fp : FIL.t)
| Diverge.

(** One round of the loop of [f_read] (ff.c lines 556-590), entered with
    [btr > 0] and [fptr < obj_size]: [More] carries the handle with [fptr]
    advanced, the count [rcnt] and the [rcnt] bytes stored at [rbuff];
    [Stop] is an [ABORT]. *)
Definition f_read_round (fs : FATFS.t) (d : Device) (fp : FIL.t) (btr : Z)
  : round_result :=
  (* the current cluster *)
  let '(ok, fs, d, fp) :=
    if FIL.fptr fp =? 0 then (true, fs, d, FIL.set_clust fp (FIL.sclust fp))
    else if FIL.fptr fp mod u32 (FATFS.csize fs * SS) =? 0 then
      let '(clst, fs, d) := get_fat fs d (FIL.clust fp) in
      if (clst <? 2) || (clst >=? FATFS.n_fatent fs) then (false, fs, d, fp)
      else (true, fs, d, FIL.set_clust fp clst)
    else (true, fs, d, fp) in
  if negb ok then let '(res, fp) := ABORT fp FR_INT_ERR in Stop res fs d fp else
  let sect := clst2sect fs (FIL.clust fp) in
  if sect =? 0 then let '(res, fp) := ABORT fp FR_INT_ERR in Stop res fs d fp else
  let csect := u32 (FIL.fptr fp / SS) mod FATFS.csize fs in
  let sect := u32 (sect + csect) in
  let cc := btr / SS in
  if cc >? 0 then
    let cc := if u32 (csect + cc) >? FATFS.csize fs
              then u32 (FATFS.csize fs - csect) else cc in
    let '(dres, data, d) := disk_read d (FATFS.pdrv fs) sect cc in
    if negb (is_RES_OK dres) then
      let '(res, fp) := ABORT fp FR_DISK_ERR in Stop res fs d fp else
    let rcnt := u32 (cc * SS) in
    let rcnt := if u32 (FIL.fptr fp + rcnt) >? FIL.obj_size fp
                then u32 (FIL.obj_size fp - FIL.fptr fp) else rcnt in
    More fs d (FIL.set_fptr fp (u32 (FIL.fptr fp + rcnt))) rcnt
         (firstn (Z.to_nat rcnt) data)
  else
    let '(res, fs, d) := move_window fs d sect in
    match res with
    | FR_OK =>
        let rcnt := u32 (SS - u32 (FIL.fptr fp mod SS)) in
        let rcnt := if rcnt >? btr then btr else rcnt in
        let rcnt := if u32 (FIL.fptr fp + rcnt) >? FIL.obj_size fp
                    then u32 (FIL.obj_size fp - FIL.fptr fp) else rcnt in
        More fs d (FIL.set_fptr fp (u32 (FIL.fptr fp + rcnt))) rcnt
             (slice (FATFS.win fs) (FIL.fptr fp mod SS) rcnt)
    | _ => let '(res, fp) := ABORT fp res in Stop res fs d fp
    end.

(** The loop of [f_read] (ff.c lines 553-591). [got] collects the bytes
    stored in the caller's buffer, [*br] is its length. [None]: the loop
    did not end within [fuel] rounds. *)
Fixpoint f_read_loop (fuel : nat) (fs : FATFS.t) (d : Device) (fp : FIL.t)
         (btr : Z) (got : list Z)
  : option (FRESULT * FATFS.t * Device * FIL.t * list Z) :=
  if negb (btr >? 0) then Some (FR_OK, fs, d, fp, got) else
  if FIL.fptr fp >=? FIL.obj_size fp then Some (FR_OK, fs, d, fp, got) else
  match fuel with
  | O => None
  | S fuel' =>
      match f_read_round fs d fp btr with
      | More fs d fp rcnt data =>
          f_read_loop fuel' fs d fp (u32 (btr - rcnt)) (got ++ data)
      | Stop res fs d fp => Some (res, fs, d, fp, got)
      | Diverge => None
      end
  end.

(** [f_read]: the result, the new states, and the bytes read ([*br] is
    their number). Every round of the loop takes at least one byte of
    [btr], so [btr] rounds are enough. *)
Definition f_read (fs : FATFS.t) (d : Device) (fp : FIL.t) (btr : Z)
  : option (FRESULT * FATFS.t * Device * FIL.t * list Z) :=
  if negb (FIL.fs fp) then Some (FR_INVALID_OBJECT, fs, d, fp, [])
  else if nz (FIL.err fp) then Some (FR_INT_ERR, fs, d, fp, [])
  else if negb (nz (Z.land (FIL.flag fp) FA_READ)) then Some (FR_DENIED, fs, d, fp, [])
  else f_read_loop (Z.to_nat btr) fs d fp btr [].

Inductive find_result : Type :=
| FreeAt (clst : Z) (fs : FATFS.t) (d : Device)
| NoFree (fs : FATFS.t) (d : Device).

(** The search for a free cluster, written twice in [f_write] (ff.c lines
    620-628 and 645-653): [do { if (clst >= n_fatent) { clst = 2; if (clst
    == scl) ABORT } if (get_fat(clst) == 0) break; clst++; } while (1)].
    [None]: no end within [fuel] rounds. *)
Fixpoint find_free (fuel : nat) (fs : FATFS.t) (d : Device) (scl clst : Z)
  : option find_result :=
  match fuel with
  | O => None
  | S fuel' =>
      let wrapped := clst >=? FATFS.n_fatent fs in
      let clst := if wrapped then 2 else clst in
      if wrapped && (clst =? scl) then Some (NoFree fs d) else
      let '(fat, fs, d) := get_fat fs d clst in
      if fat =? 0 then Some (FreeAt clst fs d)
      else find_free fuel' fs d scl (u32 (clst + 1))
  end.

Inductive step_result : Type :=
| Go (fs : FATFS.t) (d : Device) (fp : FIL.t)
| Halt (res : FRESULT) (fs : FATFS.t) (d : Device) (fp : FIL.t)
| Lost.

(** "Get or allocate the cluster" of [f_write] (ff.c lines 615-665);
    [Halt] is an [ABORT], [Lost] a search that did not end. *)
Definition f_write_cluster (fuel : nat) (fs : FATFS.t) (d : Device) (fp : FIL.t)
  : step_result :=
  if (FIL.fptr fp =? 0) && (FIL.sclust fp =? 0) then
    let scl := FATFS.last_clst fs in
    let scl := if (scl <? 2) || (scl >=? FATFS.n_fatent fs) then 2 else scl in
    match find_free fuel fs d scl scl with
    | None => Lost
    | Some (NoFree fs d) => let '(res, fp) := ABORT fp FR_DENIED in Halt res fs d fp
    | Some (FreeAt clst fs d) =>
        let '(res, fs, d) := put_fat fs d clst 268435455 in
        match res with
        | FR_OK =>
            let fp := FIL.set_clust (FIL.set_sclust fp clst) clst in
            Go (FATFS.set_last_clst fs clst) d fp
        | _ => let '(res, fp) := ABORT fp res in Halt res fs d fp
        end
    end
  else if FIL.fptr fp mod u32 (FATFS.csize fs * SS) =? 0 then
    if FIL.fptr fp =? 0 then Go fs d (FIL.set_clust fp (FIL.sclust fp))
    else
      let '(clst, fs, d) := get_fat fs d (FIL.clust fp) in
      if clst <? 2 then
        let scl := u32 (FIL.clust fp + 1) in
        let scl := if scl >=? FATFS.n_fatent fs then 2 else scl in
        match find_free fuel fs d scl scl with
        | None => Lost
        | Some (NoFree fs d) => let '(res, fp) := ABORT fp FR_DENIED in Halt res fs d fp
        | Some (FreeAt ncl fs d) =>
            let '(res, fs, d) := put_fat fs d ncl 268435455 in
            match res with
            | FR_OK =>
                let '(res, fs, d) := put_fat fs d (FIL.clust fp) ncl in
                match res with
                | FR_OK => Go (FATFS.set_last_clst fs ncl) d (FIL.set_clust fp ncl)
                | _ => let '(res, fp) := ABORT fp res in Halt res fs d fp
                end
            | _ => let '(res, fp) := ABORT fp res in Halt res fs d fp
            end
        end
      else Go fs d (FIL.set_clust fp clst)
  else Go fs d fp.

(** One round of the loop of [f_write] (ff.c lines 614-692), entered with
    [btw > 0]: [More] carries the handle with [fptr] and [obj_size]
    updated and the count [wcnt]. *)
Definition f_write_round (fuel : nat) (fs : FATFS.t) (d : Device) (fp : FIL.t)
           (wbuff : list Z) (btw : Z) : round_result :=
  match f_write_cluster fuel fs d fp with
  | Lost => Diverge
  | Halt res fs d fp => Stop res fs d fp
  | Go fs d fp =>
      let sect := clst2sect fs (FIL.clust fp) in
      if sect =? 0 then let '(res, fp) := ABORT fp FR_INT_ERR in Stop res fs d fp else
      let csect := u32 (FIL.fptr fp / SS) mod FATFS.csize fs in
      let sect := u32 (sect + csect) in
      let cc := btw / SS in
      let step :=
        if cc >? 0 then
          let cc := if u32 (csect + cc) >? FATFS.csize fs
                    then u32 (FATFS.csize fs - csect) else cc in
          let '(dres, d) := disk_write d (FATFS.pdrv fs) wbuff sect cc in
          if negb (is_RES_OK dres) then (Some FR_DISK_ERR, fs, d, 0)
          else (None, fs, d, u32 (cc * SS))
        else
          let '(res, fs, d) := move_window fs d sect in
          match res with
          | FR_OK =>
              let wcnt := u32 (SS - u32 (FIL.fptr fp mod SS)) in
              let wcnt := if wcnt >? btw then btw else wcnt in
              let fs := FATFS.set_win fs
                          (memcpy (FATFS.win fs) (FIL.fptr fp mod SS) wbuff 0 wcnt) in
              (None, FATFS.set_wflag fs 1, d, wcnt)
          | _ => (Some res, fs, d, 0)
          end in
      let '(failed, fs, d, wcnt) := step in
      match failed with
      | Some res => let '(res, fp) := ABORT fp res in Stop res fs d fp
      | None =>
          let fp := FIL.set_fptr fp (u32 (FIL.fptr fp + wcnt)) in
          let fp := if FIL.fptr fp >? FIL.obj_size fp
                    then FIL.set_obj_size fp (FIL.fptr fp) else fp in
          More fs d fp wcnt []
      end
  end.

(** The loop of [f_write] (ff.c lines 613-696); [wbuff] is what is left of
    the caller's buffer, [bw] the count [*bw]. [None]: no end within
    [rounds] rounds, or a search for a free cluster that did not end. *)
Fixpoint f_write_loop (rounds : nat) (fuel : nat) (fs : FATFS.t) (d : Device)
         (fp : FIL.t) (wbuff : list Z) (btw : Z) (bw : Z)
  : option (FRESULT * FATFS.t * Device * FIL.t * Z) :=
  if negb (btw >? 0) then
    Some (FR_OK, fs, d, FIL.set_flag fp (Z.lor (FIL.flag fp) FA_MODIFIED), bw)
  else
  match rounds with
  | O => None
  | S rounds' =>
      match f_write_round fuel fs d fp wbuff btw with
      | More fs d fp wcnt _ =>
          f_write_loop rounds' fuel fs d fp (skipn (Z.to_nat wcnt) wbuff)
                       (u32 (btw - wcnt)) (u32 (bw + wcnt))
      | Stop res fs d fp => Some (res, fs, d, fp, bw)
      | Diverge => None
      end
  end.

(** [f_write]: the result, the new states and [*bw]. [fuel] bounds each
    search for a free cluster, which the code leaves unbounded. *)
Definition f_write (fuel : nat) (fs : FATFS.t) (d : Device) (fp : FIL.t)
           (buff : list Z) (btw : Z)
  : option (FRESULT * FATFS.t * Device * FIL.t * Z) :=
  if negb (FIL.fs fp) then Some (FR_INVALID_OBJECT, fs, d, fp, 0)
  else if nz (FIL.err fp) then Some (FR_INT_ERR, fs, d, fp, 0)
  else if negb (nz (Z.land (FIL.flag fp) FA_WRITE)) then Some (FR_DENIED, fs, d, fp, 0)
  else f_write_loop (Z.to_nat btw) fuel fs d fp buff btw 0.

(* ===================================================================== *)
(** ** Sync, close and seek (ff.c lines 522-535 and 699-782) *)
(* ===================================================================== *)

Definition f_sync (fs : FATFS.t) (d : Device) (fp : FIL.t)
  : FRESULT * FATFS.t * Device * FIL.t :=
  if negb (FIL.fs fp) then (FR_INVALID_OBJECT, fs, d, fp) else
  if nz (Z.land (FIL.flag fp) FA_MODIFIED) then
    let '(res, fs, d) := move_window fs d (FIL.dir_sect fp) in
    match res with
    | FR_OK =>
        let dir := FIL.dir_ptr fp in
        let w := FATFS.win fs in
        let w := st w (dir + DIR_Attr) (u8 (Z.lor (ld w (dir + DIR_Attr)) AM_ARC)) in
        let w := ST_DWORD w (dir + DIR_FileSize) (FIL.obj_size fp) in
        let w := ST_WORD w (dir + DIR_FstClusLO) (FIL.sclust fp) in
        let w := ST_WORD w (dir + DIR_FstClusHI) (Z.shiftr (FIL.sclust fp) 16) in
        let tm := get_fattime in
        let w := ST_DWORD w (dir + DIR_WrtTime) tm in
        let fs := FATFS.set_wflag (FATFS.set_win fs w) 1 in
        let fp := FIL.set_flag fp (Z.land (FIL.flag fp) 191) in
        let '(res, fs, d) := sync_window fs d in
        (res, fs, d, fp)
    | _ => (res, fs, d, fp)
    end
  else
    let '(res, fs, d) := sync_window fs d in
    (res, fs, d, fp).

Definition f_close (fs : FATFS.t) (d : Device) (fp : FIL.t)
  : FRESULT * FATFS.t * Device * FIL.t :=
  if negb (FIL.fs fp) then (FR_INVALID_OBJECT, fs, d, fp) else
  let '(res, fs, d, fp) := f_sync fs d fp in
  (res, fs, d, FIL.set_fs fp false).

(** The chain walk of [f_lseek] (ff.c lines 767-777). *)
Fixpoint f_lseek_walk (fuel : nat) (fs : FATFS.t) (d : Device) (fp : FIL.t)
         (ofs bcs : Z) : option (FRESULT * FATFS.t * Device * FIL.t) :=
  if negb (ofs >? bcs) then
    Some (FR_OK, fs, d, FIL.set_fptr fp (u32 (FIL.fptr fp + ofs)))
  else
  match fuel with
  | O => None
  | S fuel' =>
      let '(clst, fs, d) := get_fat fs d (FIL.clust fp) in
      if (clst <? 2) || (clst >=? FATFS.n_fatent fs) then
        if negb (nz (Z.land (FIL.flag fp) FA_WRITE)) then Some (FR_INT_ERR, fs, d, fp)
        else Some (FR_OK, fs, d, FIL.set_fptr fp (u32 (FIL.fptr fp + ofs)))
      else
        let fp := FIL.set_clust fp clst in
        let fp := FIL.set_fptr fp (u32 (FIL.fptr fp + bcs)) in
        f_lseek_walk fuel' fs d fp (u32 (ofs - bcs)) bcs
  end.

(** [f_lseek]. Every round of the walk takes a cluster off [ofs], so [ofs]
    rounds are enough. *)
Definition f_lseek (fs : FATFS.t) (d : Device) (fp : FIL.t) (ofs : Z)
  : option (FRESULT * FATFS.t * Device * FIL.t) :=
  if negb (FIL.fs fp) then Some (FR_INVALID_OBJECT, fs, d, fp)
  else if nz (FIL.err fp) then Some (FR_INT_ERR, fs, d, fp)
  else
    let ofs := if (ofs >? FIL.obj_size fp) && negb (nz (Z.land (FIL.flag fp) FA_WRITE))
               then FIL.obj_size fp else ofs in
    let ifptr := FIL.fptr fp in
    let fp := FIL.set_fptr fp 0 in
    if ofs >? 0 then
      let bcs := u32 (FATFS.csize fs * SS) in
      let '(fp, ofs) :=
        if (ifptr >? 0) && ((ofs - 1) / bcs >=? (ifptr - 1) / bcs) then
          let fp := FIL.set_fptr fp (Z.land (ifptr - 1)
                                            (Z.lxor (u32 (bcs - 1)) 4294967295)) in
          (fp, u32 (ofs - FIL.fptr fp))
        else (fp, ofs) in
      let clst := FIL.sclust fp in
      if clst =? 0 then
        if ofs >? 0 then Some (FR_INT_ERR, fs, d, fp)
        else Some (FR_OK, fs, d, FIL.set_clust fp clst)
      else
        let fp := if FIL.fptr fp =? 0 then FIL.set_clust fp clst else fp in
        f_lseek_walk (Z.to_nat ofs) fs d fp ofs bcs
    else Some (FR_OK, fs, d, fp).

(* ===================================================================== *)
(** ** Directories and free space (ff.c lines 784-880 and 932-961) *)
(* ===================================================================== *)

Definition f_opendir (FatFs : option FATFS.t) (dp : DIR.t) (path : list Z)
  : FRESULT * DIR.t :=
  let vol := ld path 0 - 48 in
  if (vol <? 0) || (vol >=? FF_VOLUMES) then (FR_INVALID_DRIVE, dp) else
  match FatFs with
  | None => (FR_NOT_ENABLED, dp)
  | Some fs =>
      if negb (nz (FATFS.fs_type fs)) then (FR_NOT_ENABLED, dp) else
      (FR_OK, DIR.mk true (FATFS.id fs) 0
                     (if FATFS.fs_type fs =? FS_FAT32 then u32 (FATFS.dirbase fs) else 0))
  end.

Definition f_closedir (dp : DIR.t) : FRESULT * DIR.t :=
  if negb (DIR.fs dp) then (FR_INVALID_OBJECT, dp) else (FR_OK, DIR.set_fs dp false).

(** The name copied out by [f_readdir] (ff.c lines 857-867). *)
Fixpoint copy_until_space (w : list Z) (p : Z) (n : nat) : list Z :=
  match n with
  | O => []
  | S n' => if ld w p =? 32 then [] else ld w p :: copy_until_space w (p + 1) n'
  end.

Definition readdir_name (w : list Z) (dir : Z) : list Z :=
  copy_until_space w dir 8
  ++ (if negb (ld w (dir + 8) =? 32) then 46 :: copy_until_space w (dir + 8) 3 else []).

(** The loop of [f_readdir] (ff.c lines 840-879); [start] is [dp->index]
    at the call. *)
Fixpoint f_readdir_loop (n : nat) (fs : FATFS.t) (d : Device) (dp : DIR.t)
         (fno : FILINFO) (start sect i : Z)
  : FRESULT * FATFS.t * Device * DIR.t * FILINFO :=
  match n with
  | O => (FR_OK, fs, d, DIR.set_index dp (u16 i), fno)
  | S n' =>
      if negb (root_cond fs i) then (FR_OK, fs, d, DIR.set_index dp (u16 i), fno) else
      let '(res, fs, d, sect) :=
        if (i >? start) && (i mod (SS / SZ_DIRE) =? 0) then
          let sect := u32 (sect + 1) in
          let '(res, fs, d) := move_window fs d sect in (res, fs, d, sect)
        else (FR_OK, fs, d, sect) in
      match res with
      | FR_OK =>
          let w := FATFS.win fs in
          let dir := (i mod (SS / SZ_DIRE)) * SZ_DIRE in
          if ld w (dir + DIR_Name) =? 0 then (FR_OK, fs, d, DIR.set_index dp (u16 i), fno)
          else if ld w (dir + DIR_Name) =? DDEM
          then f_readdir_loop n' fs d dp fno start sect (i + 1)
          else if nz (Z.land (ld w (dir + DIR_Attr)) 8)
          then f_readdir_loop n' fs d dp fno start sect (i + 1)
          else
            (FR_OK, fs, d, DIR.set_index dp (u16 (i + 1)),
             mkFILINFO (LD_DWORD w (dir + DIR_FileSize)) (LD_WORD w (dir + DIR_WrtDate))
                       (LD_WORD w (dir + DIR_WrtTime)) (ld w (dir + DIR_Attr))
                       (readdir_name w dir))
      | _ => (res, fs, d, dp, fno)
      end
  end.

(** [f_readdir]; [fno] is [None] for a null pointer. *)
Definition f_readdir (fs : FATFS.t) (d : Device) (dp : DIR.t) (fno : option FILINFO)
  : FRESULT * FATFS.t * Device * DIR.t * option FILINFO :=
  if negb (DIR.fs dp) then (FR_INVALID_OBJECT, fs, d, dp, fno) else
  match fno with
  | None => (FR_OK, fs, d, DIR.set_index dp 0, None)
  | Some fno =>
      let fno := mkFILINFO (fsize fno) (fdate fno) (ftime fno) (fattrib fno) [] in
      let sect := if FATFS.fs_type fs =? FS_FAT32 then clst2sect fs (DIR.sclust dp)
                  else FATFS.dirbase fs in
      let sect := u32 (sect + DIR.index dp / (SS / SZ_DIRE)) in
      let '(res, fs, d) := move_window fs d sect in
      match res with
      | FR_OK =>
          let '(res, fs, d, dp, fno) :=
            f_readdir_loop (Z.to_nat (root_bound fs - DIR.index dp)) fs d dp fno
                           (DIR.index dp) sect (DIR.index dp) in
          (res, fs, d, dp, Some fno)
      | _ => (res, fs, d, dp, Some fno)
      end
  end.

(** The counting loop of [f_getfree] (ff.c lines 953-956). *)
Fixpoint count_free (n : nat) (fs : FATFS.t) (d : Device) (clst : Z) (acc : Z)
  : Z * FATFS.t * Device :=
  match n with
  | O => (acc, fs, d)
  | S n' =>
      if negb (clst <? FATFS.n_fatent fs) then (acc, fs, d) else
      let '(fat, fs, d) := get_fat fs d clst in
      count_free n' fs d (u32 (clst + 1)) (if fat =? 0 then u32 (acc + 1) else acc)
  end.

(** [f_getfree]: the result, the slot [FatFs[0]], the device and what was
    stored in [*nclst], if anything. *)
Definition f_getfree (FatFs : option FATFS.t) (d : Device) (path : list Z)
  : FRESULT * option FATFS.t * Device * option Z :=
  let vol := ld path 0 - 48 in
  if (vol <? 0) || (vol >=? FF_VOLUMES) then (FR_INVALID_DRIVE, FatFs, d, None) else
  match FatFs with
  | None => (FR_NOT_ENABLED, FatFs, d, None)
  | Some fs =>
      if negb (nz (FATFS.fs_type fs)) then (FR_NOT_ENABLED, FatFs, d, None) else
      if FATFS.free_clst fs <=? u32 (FATFS.n_fatent fs - 2)
      then (FR_OK, Some fs, d, Some (FATFS.free_clst fs))
      else
        let '(n, fs, d) := count_free (Z.to_nat (FATFS.n_fatent fs - 2)) fs d 2 0 in
        (FR_OK, Some (FATFS.set_free_clst fs n), d, Some n)
  end.

(* ===================================================================== *)
(** ** Predicates used in the statements *)
(* ===================================================================== *)

(** A device that answers every transfer: initialised, not write protected,
    no refused sector. *)
Definition healthy (d : Device) : Prop :=
  Z.land (Stat d) STA_NOINIT = 0 /\ Z.land (Stat d) STA_PROTECT = 0 /\
  forall s, sd_bad d s = false.

(** A sector buffer: [FF_MAX_SS] bytes. *)
Definition sector (w : list Z) : Prop :=
  Z.of_nat (length w) = 512 /\ forall n, 0 <= nth n w 0 < 256.

(** Every sector of the medium is one. *)
Definition dev_ok (d : Device) : Prop := forall s, sector (sd_data d s).

(** A window that is not dirty mirrors its sector. *)
Definition coherent (fs : FATFS.t) (d : Device) : Prop :=
  FATFS.wflag fs = 0 -> FATFS.win fs = sd_data d (FATFS.winsect fs).

(** The contents of sector [s] as the engine sees it: the window when it
    holds [s], the medium otherwise. *)
Definition view (fs : FATFS.t) (d : Device) (s : Z) : list Z :=
  if s =? FATFS.winsect fs then FATFS.win fs else sd_data d s.

(** [fs'] differs from [fs] in the sector window only. *)
Definition window_only (fs fs' : FATFS.t) : Prop :=
  fs' = FATFS.set_wflag (FATFS.set_winsect (FATFS.set_win fs (FATFS.win fs'))
                                           (FATFS.winsect fs'))
                        (FATFS.wflag fs').

(** What [f_mount] leaves in a volume object when it succeeds: a FAT type
    with its range of cluster counts, at least one cluster, a cluster size
    that is a power of two, drive 0, and the fields within their C types. *)
Record mounted (fs : FATFS.t) : Prop := mkMounted {
  m_type : FATFS.fs_type fs = FS_FAT12 \/ FATFS.fs_type fs = FS_FAT16 \/
           FATFS.fs_type fs = FS_FAT32;
  m_pdrv : FATFS.pdrv fs = 0;
  m_fatent : 3 <= FATFS.n_fatent fs < 4294967296;
  m_fat12 : FATFS.fs_type fs = FS_FAT12 -> FATFS.n_fatent fs <= 4087;
  m_fat16 : FATFS.fs_type fs = FS_FAT16 -> FATFS.n_fatent fs <= 65527;
  m_csize : exists k, 0 <= k < 8 /\ FATFS.csize fs = 2 ^ k;
  m_fatbase : 0 <= FATFS.fatbase fs < 4294967296;
  m_database : 0 <= FATFS.database fs < 4294967296;
  m_winsect : 0 <= FATFS.winsect fs < 4294967296;
  m_win : sector (FATFS.win fs)
}.

(** The data area lies inside the 32-bit sector address space and does not
    start at sector 0. *)
Definition data_area_fits (fs : FATFS.t) : Prop :=
  0 < FATFS.database fs /\
  FATFS.database fs + FATFS.csize fs * (FATFS.n_fatent fs - 2) <= 4294967296.

(** The width of a FAT entry. *)
Definition fat_width (fs : FATFS.t) : Z :=
  if FATFS.fs_type fs =? FS_FAT12 then 12
  else if FATFS.fs_type fs =? FS_FAT16 then 16 else 28.

(** The byte of the FAT at byte offset [bc], as the engine sees it. *)
Definition fat_byte (fs : FATFS.t) (d : Device) (bc : Z) : Z :=
  ld (view fs d (u32 (FATFS.fatbase fs + bc / SS))) (bc mod SS).

(** The entry of cluster [clst] held by the FAT, as the engine sees it. *)
Definition fat_entry (fs : FATFS.t) (d : Device) (clst : Z) : Z :=
  if FATFS.fs_type fs =? FS_FAT12 then
    let bc := clst + clst / 2 in
    let wc := Z.lor (fat_byte fs d bc) (Z.shiftl (fat_byte fs d (bc + 1)) 8) in
    if Z.odd clst then Z.shiftr wc 4 else Z.land wc 4095
  else if FATFS.fs_type fs =? FS_FAT16 then
    LD_WORD (view fs d (u32 (FATFS.fatbase fs + clst / 256))) ((clst * 2) mod SS)
  else
    Z.land (LD_DWORD (view fs d (u32 (FATFS.fatbase fs + clst / 128))) ((clst * 4) mod SS))
           268435455.

(** The stored 32-bit word of a FAT32 entry, reserved bits included. *)
Definition fat32_raw (fs : FATFS.t) (d : Device) (clst : Z) : Z :=
  LD_DWORD (view fs d (u32 (FATFS.fatbase fs + clst / 128))) ((clst * 4) mod SS).

(** The state in which the FAT accessor works: a mounted volume on a
    healthy device, with a coherent window. *)
Definition stable (fs : FATFS.t) (d : Device) : Prop :=
  mounted fs /\ healthy d /\ dev_ok d /\ coherent fs d.

(** Cluster numbers that have a FAT entry. *)
Definition valid_clst (fs : FATFS.t) (c : Z) : Prop := 2 <= c < FATFS.n_fatent fs.

(* ===================================================================== *)
(** ** Concrete devices and volumes *)
(* ===================================================================== *)

Definition zero_sector : list Z := repeat 0 (Z.to_nat 512).
Definition ones_sector : list Z := repeat 255 (Z.to_nat 512).

(** A healthy card whose medium is all zeros, and one that is all 0xFF. *)
Definition blank_dev : Device :=
  mkDevice 0 true (fun _ => false) (fun _ => zero_sector) [].
Definition ones_dev : Device :=
  mkDevice 0 true (fun _ => false) (fun _ => ones_sector) [].

(** A mounted FAT12 volume: 1 sector per cluster, 398 clusters, the FAT in
    sectors 1-2, a root directory of 16 entries in sector 3, data from
    sector 4 on; the window is at its reset position. *)
Definition vol12 : FATFS.t :=
  FATFS.mk FS_FAT12 0 1 0 1 16 1 4294967295 4294967295 400 2 0 1 3 4
           4294967295 zero_sector.

(** The same volume with 4 sectors per cluster. *)
Definition vol12c4 : FATFS.t :=
  FATFS.mk FS_FAT12 0 1 0 1 16 4 4294967295 4294967295 400 2 0 1 3 4
           4294967295 zero_sector.

(** A mounted FAT32 volume on the all-0xFF medium: 69998 clusters, the FAT
    from sector 32 on, data from sector 1200 on. *)
Definition vol32 : FATFS.t :=
  FATFS.mk FS_FAT32 0 1 0 1 0 1 4294967295 4294967295 70000 547 0 32 2 1200
           4294967295 ones_sector.

(** A sector given by the bytes that are not zero. *)
Definition sector_of (bytes : list (Z * Z)) : list Z :=
  fold_left (fun w iv => st w (fst iv) (snd iv)) bytes zero_sector.

(** The BPB of the FAT12 volume [vol12]: 512 bytes per sector, 1 sector
    per cluster, 1 reserved sector, 1 FAT of 2 sectors, 16 root entries,
    402 sectors in all, and the file system type "FAT12". *)
Definition bpb12 : list (Z * Z) :=
  [(11, 0); (12, 2); (13, 1); (14, 1); (15, 0); (16, 1); (17, 16); (18, 0);
   (19, 146); (20, 1); (21, 248); (22, 2); (23, 0);
   (54, 70); (55, 65); (56, 84); (57, 49); (58, 50)].

(** A boot sector with this BPB and the signature 0x55 0xAA where the
    format has it, at offset 0x1FE; offsets 36-38 hold the drive number,
    a reserved byte and the extended boot signature 0x29. *)
Definition boot_signed : list Z :=
  sector_of (bpb12 ++ [(36, 128); (37, 0); (38, 41); (510, 85); (511, 170)]).

(** A sector with the same BPB, nothing at offset 0x1FE, and the bytes
    0x55 0xAA at offsets 36-37. *)
Definition boot_unsigned : list Z :=
  sector_of (bpb12 ++ [(36, 85); (37, 170)]).

(** A card as diskio.c has it before [disk_initialize], with the given
    sector 0 on an otherwise blank medium. *)
Definition card_with (boot : list Z) : Device :=
  mkDevice STA_NOINIT true (fun _ => false)
           (fun s => if s =? 0 then boot else zero_sector) [].

(** A volume object as the caller declares it, before any mount. *)
Definition fresh_fs : FATFS.t :=
  FATFS.mk 0 0 0 0 0 0 0 0 0 0 0 0 0 0 0 0 zero_sector.

(** The path "0:". *)
Definition drive0 : list Z := [48; 58].

(** An open directory iterator that has read 7 entries. *)
Definition dp7 : DIR.t := DIR.mk true 1 7 0.

(* ===================================================================== *)
(** ** The 8.3 form of a name, in the words of the specification *)
(* ===================================================================== *)

(** A list of characters padded with spaces to [n] characters. *)
Definition pad (n : nat) (l : list Z) : list Z := l ++ repeat 32 (n - length l).

(** The 8.3 form of a base and an extension: both in upper case, the base
    padded to 8 and the extension to 3 characters. *)
Definition name83 (base ext : list Z) : list Z :=
  pad 8 (map upcase base) ++ pad 3 (map upcase ext).

(** The characters of a base name: bytes other than the terminator and
    the dot. *)
Definition base_char (c : Z) : Prop := 0 < c < 256 /\ c <> 46.

(** The characters of an extension: bytes other than the terminator. *)
Definition ext_char (c : Z) : Prop := 0 < c < 256.

(** [l] stored in [a] from index [k] on. *)
Fixpoint put_list (a : list Z) (k : Z) (l : list Z) : list Z :=
  match l with
  | [] => a
  | x :: l' => put_list (st a k x) (k + 1) l'
  end.

(** The characters of a string literal. *)
Definition chars (s : string) : list Z :=
  map (fun a => Z.of_N (N_of_ascii a)) (list_ascii_of_string s).

Arguments chars s%_string.

(** A 32-byte directory entry: the 11 name bytes, the attribute, the first
    cluster and the size. *)
Definition dir_entry (name : list Z) (attr clst size : Z) : list Z :=
  let e := repeat 0 32 in
  let e := put_list e 0 name in
  let e := st e DIR_Attr attr in
  let e := ST_WORD e DIR_FstClusLO clst in
  let e := ST_WORD e DIR_FstClusHI (Z.shiftr clst 16) in
  ST_DWORD e DIR_FileSize size.

(** A directory sector that starts with the given entries. *)
Definition dir_sector (entries : list (list Z)) : list Z :=
  put_list zero_sector 0 (concat entries).

(** The medium of [vol12] with two files in the root directory (sector 3):
    "LONGFILE" of 5 bytes and "A.TEX" of 7 bytes. *)
Definition two_files_dev : Device :=
  mkDevice 0 true (fun _ => false)
           (fun s => if s =? 3
                     then dir_sector [dir_entry (chars "LONGFILE   ") AM_ARC 2 5;
                                      dir_entry (chars "A       TEX") AM_ARC 3 7]
                     else zero_sector) [].

(** A handle object as the caller declares it, before any open. *)
Definition fresh_fp : FIL.t := FIL.mk false 0 0 0 0 0 0 0 0 0.

(** [fs'] differs from [fs] in the sector window and in the allocation
    hint [last_clst] only. *)
Definition hint_only (fs fs' : FATFS.t) : Prop :=
  fs' = FATFS.set_last_clst
          (FATFS.set_wflag (FATFS.set_winsect (FATFS.set_win fs (FATFS.win fs'))
                                              (FATFS.winsect fs'))
                           (FATFS.wflag fs'))
          (FATFS.last_clst fs').

(** The offset of a handle lies inside its file, and both fit [FSIZE_t]. *)
Definition fptr_in_file (fp : FIL.t) : Prop :=
  0 <= FIL.fptr fp <= FIL.obj_size fp /\ FIL.obj_size fp < 4294967296.

(** The target of a seek: the offset, cut to the file size on a handle
    that was not opened for writing. *)
Definition lseek_target (fp : FIL.t) (ofs : Z) : Z :=
  if (ofs >? FIL.obj_size fp) && negb (nz (Z.land (FIL.flag fp) FA_WRITE))
  then FIL.obj_size fp else ofs.


(* ===================================================================== *)
(** ** Sessions on one handle *)
(* ===================================================================== *)

(** The calls that move the offset of a handle. *)
Inductive file_op : Type :=
| OpOpen (path : list Z) (mode : Z)
| OpRead (btr : Z)
| OpWrite (buff : list Z) (btw : Z)
| OpLseek (ofs : Z).

(** The volume object, the device and the handle. *)
Definition session : Type := (FATFS.t * Device * FIL.t)%type.

Definition ses_fs (s : session) : FATFS.t := fst (fst s).
Definition ses_fp (s : session) : FIL.t := snd s.

(** One call; [None] when a search of [f_write] for a free cluster does
    not end within [fuel] rounds. *)
Definition run_op (fuel : nat) (s : session) (op : file_op)
  : option (FRESULT * session) :=
  let '(fs, d, fp) := s in
  match op with
  | OpOpen path mode =>
      match f_open (Some fs) d fp path mode with
      | (res, Some fs, d, fp) => Some (res, (fs, d, fp))
      | (_, None, _, _) => None
      end
  | OpRead btr =>
      match f_read fs d fp btr with
      | Some (res, fs, d, fp, _) => Some (res, (fs, d, fp))
      | None => None
      end
  | OpWrite buff btw =>
      match f_write fuel fs d fp buff btw with
      | Some (res, fs, d, fp, _) => Some (res, (fs, d, fp))
      | None => None
      end
  | OpLseek ofs =>
      match f_lseek fs d fp ofs with
      | Some (res, fs, d, fp) => Some (res, (fs, d, fp))
      | None => None
      end
  end.

(** A seek that stays inside the file, or is made on a handle that was not
    opened for writing (and is then cut to the file size). *)
Definition seek_within (fp : FIL.t) (op : file_op) : Prop :=
  match op with
  | OpLseek ofs =>
      0 <= ofs < 4294967296 /\
      (Z.land (FIL.flag fp) FA_WRITE = 0 \/ ofs <= FIL.obj_size fp)
  | _ => True
  end.

(** The sessions reached by such calls, whatever their results. *)
Inductive reaches (fuel : nat) : session -> session -> Prop :=
| reaches_refl s : reaches fuel s s
| reaches_step s op res s1 s2 :
    seek_within (ses_fp s) op ->
    run_op fuel s op = Some (res, s1) ->
    reaches fuel s1 s2 ->
    reaches fuel s s2.

(** The card of [blank_dev] with a data sector (the first one of [vol12])
    that it refuses to transfer. *)
Definition bad_data_dev : Device :=
  mkDevice 0 true (fun s => s =? 4) (fun _ => zero_sector) [].

(** [n] bytes 0, 1, ..., 255, 0, 1, ... *)
Definition pattern (n : Z) : list Z :=
  map (fun k => Z.of_nat k mod 256) (seq 0 (Z.to_nat n)).

(** [FA_READ | FA_WRITE | FA_CREATE_ALWAYS]. *)
Definition mode_rw_create : Z := 11.

(** The session after "A.TXT" was created on volume [fs] of device [d],
    and after [n] bytes of [pattern] were then written to it. *)
Definition created (fs : FATFS.t) (d : Device) : option session :=
  match f_open (Some fs) d fresh_fp (chars "0:A.TXT") mode_rw_create with
  | (FR_OK, Some fs, d, fp) => Some (fs, d, fp)
  | _ => None
  end.

Definition written (fs : FATFS.t) (d : Device) (n : Z)
  : option (FRESULT * session * Z) :=
  match created fs d with
  | Some (fs, d, fp) =>
      match f_write 1000 fs d fp (pattern n) n with
      | Some (res, fs, d, fp, bw) => Some (res, (fs, d, fp), bw)
      | None => None
      end
  | None => None
  end.


(* ===================================================================== *)
(** ** Sessions used as examples *)
(* ===================================================================== *)

(** A session, or the unmounted one when there is none. *)
Definition the_session (o : option session) : session :=
  match o with
  | Some s => s
  | None => (fresh_fs, blank_dev, fresh_fp)
  end.

Definition ses_dev (s : session) : Device := snd (fst s).

(** "A.TXT" created on the card that refuses the first data sector, and the
    session after a write of one sector to it has failed. *)
Definition created_bad : session := the_session (created vol12 bad_data_dev).
Definition failed_write : session :=
  match f_write 1000 (ses_fs created_bad) (ses_dev created_bad) (ses_fp created_bad)
                (pattern 512) 512 with
  | Some (_, fs, d, fp, _) => (fs, d, fp)
  | None => created_bad
  end.

(** The session after one more call, unchanged when the call gives none. *)
Definition after (fuel : nat) (s : session) (op : file_op) : session :=
  match run_op fuel s op with
  | Some (_, s') => s'
  | None => s
  end.

(** "A.TXT" created on the blank card, ten bytes written to it, and then a
    seek back to offset 5 and a read of three bytes. *)
Definition created_blank : session := the_session (created vol12 blank_dev).
Definition ten_written : session := after 1000 created_blank (OpWrite (pattern 10) 10).
Definition sought_5 : session := after 1000 ten_written (OpLseek 5).
Definition three_read : session := after 1000 sought_5 (OpRead 3).


(* ===================================================================== *)
(** ** Counting free clusters *)
(* ===================================================================== *)

(** The [n] cluster numbers from [c] on. *)
Fixpoint clusters_from (c : Z) (n : nat) : list Z :=
  match n with
  | O => []
  | S n' => c :: clusters_from (c + 1) n'
  end.

(** How many clusters of [l] have a FAT entry equal to zero. *)
Definition free_among (fs : FATFS.t) (d : Device) (l : list Z) : Z :=
  Z.of_nat (length (filter (fun c => fat_entry fs d c =? 0) l)).

(** The number of FAT entries equal to zero over the clusters in
    [2, n_fatent). *)
Definition free_count (fs : FATFS.t) (d : Device) : Z :=
  free_among fs d (clusters_from 2 (Z.to_nat (FATFS.n_fatent fs - 2))).

(** The volume and the device after the free clusters of [vol12] were
    counted, and the session after "A.TXT" was then created there and ten
    bytes were written to it. *)
Definition counted_fs : FATFS.t :=
  match f_getfree (Some vol12) blank_dev drive0 with
  | (_, Some fs, _, _) => fs
  | _ => vol12
  end.
Definition counted_dev : Device :=
  match f_getfree (Some vol12) blank_dev drive0 with
  | (_, _, d, _) => d
  end.
Definition ten_after_count : session :=
  after 1000 (the_session (created counted_fs counted_dev)) (OpWrite (pattern 10) 10).

(** [n] bytes of [pattern] written to a fresh "A.TXT" on volume [fs] of
    device [d], a seek to offset 0 and a read of [n] bytes: the results of
    the three calls, the count written and the bytes read. *)
Definition round_trip (fs : FATFS.t) (d : Device) (n : Z)
  : option (FRESULT * Z * FRESULT * FRESULT * list Z) :=
  match written fs d n with
  | Some (wres, (fs, d, fp), bw) =>
      match f_lseek fs d fp 0 with
      | Some (sres, fs, d, fp) =>
          match f_read fs d fp n with
          | Some (rres, _, _, _, got) => Some (wres, bw, sres, rres, got)
          | None => None
          end
      | None => None
      end
  | None => None
  end.

(* ===================================================================== *)
(** ** Definitions for the further properties *)
(* ===================================================================== *)

(** [vol12] with a modified window that belongs to sector 4. *)
Definition vol12_dirty4 : FATFS.t :=
  FATFS.set_wflag (FATFS.set_winsect (FATFS.set_win vol12 ones_sector) 4) 1.

(** [blank_dev] with the write-protect bit set in the status byte. *)
Definition protected_dev : Device := dev_set_Stat blank_dev STA_PROTECT.

(** A card that does not answer [bsp_sd_init]. *)
Definition absent_dev : Device :=
  mkDevice STA_NOINIT false (fun _ => false) (fun _ => zero_sector) [].

(** [d'] is [d] with more entries in its log: same status, same card, same
    medium. *)
Definition log_only (d d' : Device) : Prop :=
  Stat d' = Stat d /\ sd_present d' = sd_present d /\ sd_bad d' = sd_bad d /\
  sd_data d' = sd_data d.

(** What [check_fs] answers on the sector in the window. *)
Definition fs_verdict (w : list Z) : FRESULT :=
  if negb (LD_WORD w (BS_BootSig - 2) =? 43605) then FR_NO_FILESYSTEM
  else if Z.land (LD_DWORD w BS_FilSysType) 16777215 =? 5521734 then FR_OK
  else if Z.land (LD_DWORD w BS_FilSysType32) 16777215 =? 5521734 then FR_OK
  else FR_NO_FILESYSTEM.



(** A directory entry of the window that [f_open] accepts as a file named
    [sfn]: it is in use, it is not a directory, and its 11 name bytes are
    those of [sfn]. *)
Definition file_entry (w : list Z) (dir : Z) (sfn : list Z) : Prop :=
  (exists k, 0 <= k < 16 /\ dir = 32 * k) /\
  slice w dir 11 = sfn /\
  Z.land (ld w (dir + DIR_Attr)) AM_DIR = 0.

(** The three mode bits that ask [f_open] to create a missing file. *)
Definition FA_CREATE_ANY : Z := Z.lor (Z.lor FA_CREATE_ALWAYS FA_CREATE_NEW) FA_OPEN_ALWAYS.

(** The invariant under which the byte counts of [f_read] and [f_write] are
    exact: a cluster size that is a power of two up to 128, sectors of 512
    bytes on the medium and in the window. *)
Definition sound (fs : FATFS.t) (d : Device) : Prop :=
  (exists k, 0 <= k < 8 /\ FATFS.csize fs = 2 ^ k) /\ dev_ok d /\ sector (FATFS.win fs).

(** The session after "LONGFILE" (5 bytes) of [two_files_dev] was opened for
    reading. *)
Definition opened_longfile : session :=
  the_session
    (match f_open (Some vol12) two_files_dev fresh_fp (chars "0:LONGFILE") FA_READ with
     | (FR_OK, Some fs, d, fp) => Some (fs, d, fp)
     | _ => None
     end).

(** What an answer of the scan for a free cluster means on the state it was
    started in: the cluster found has an entry, and the entry is zero; a
    denial comes from a scan that started at cluster 2.  Either way only
    the window has moved. *)
Definition free_ok (fs : FATFS.t) (d : Device) (scl : Z) (r : option find_result) : Prop :=
  match r with
  | Some (FreeAt c fs' d') =>
      valid_clst fs c /\ fat_entry fs d c = 0 /\
      window_only fs fs' /\ stable fs' d' /\ (forall t, view fs' d' t = view fs d t)
  | Some (NoFree fs' d') =>
      scl = 2 /\
      window_only fs fs' /\ stable fs' d' /\ (forall t, view fs' d' t = view fs d t)
  | None => True
  end.

(** No cluster of the volume is free. *)
Definition volume_full (fs : FATFS.t) (d : Device) : Prop :=
  forall c, valid_clst fs c -> fat_entry fs d c <> 0.


(** Every operation on the file handle answers [FR_INVALID_OBJECT], moves
    no byte and leaves the volume, the device and the handle as they are. *)
Definition rejected (fp : FIL.t) : Prop :=
  forall (fs : FATFS.t) (d : Device) (fuel : nat) (buff : list Z) (n ofs : Z),
    f_read fs d fp n = Some (FR_INVALID_OBJECT, fs, d, fp, []) /\
    f_write fuel fs d fp buff n = Some (FR_INVALID_OBJECT, fs, d, fp, 0) /\
    f_lseek fs d fp ofs = Some (FR_INVALID_OBJECT, fs, d, fp) /\
    f_sync fs d fp = (FR_INVALID_OBJECT, fs, d, fp) /\
    f_close fs d fp = (FR_INVALID_OBJECT, fs, d, fp).

(** The same for a directory iterator. *)
Definition dir_rejected (dp : DIR.t) : Prop :=
  forall (fs : FATFS.t) (d : Device) (fno : option FILINFO),
    f_readdir fs d dp fno = (FR_INVALID_OBJECT, fs, d, dp, fno) /\
    f_closedir dp = (FR_INVALID_OBJECT, dp).

(** The cluster reached from [c] by following [n] links of the FAT. *)
Fixpoint chain (fs : FATFS.t) (d : Device) (c : Z) (n : nat) : Z :=
  match n with
  | O => c
  | S n' => fat_entry fs d (chain fs d c n')
  end.

(** The sector that holds byte [i] of the file whose first cluster is
    [scl]: cluster number [i / (csize * 512)] of the chain, sector
    [(i / 512) mod csize] of that cluster. *)
Definition file_sector (fs : FATFS.t) (d : Device) (scl i : Z) : Z :=
  clst2sect fs (chain fs d scl (Z.to_nat (i / (FATFS.csize fs * 512))))
  + (i / 512) mod FATFS.csize fs.

(** Byte [i] of that file, and the [n] bytes from byte [p] on. *)
Definition file_byte (fs : FATFS.t) (d : Device) (scl i : Z) : Z :=
  ld (view fs d (file_sector fs d scl i)) (i mod 512).

Definition file_bytes (fs : FATFS.t) (d : Device) (scl p n : Z) : list Z :=
  map (fun k => file_byte fs d scl (p + Z.of_nat k)) (seq 0 (Z.to_nat n)).

(** The chain of the handle has a cluster of the volume for every byte of
    the file. *)
Definition chained (fs : FATFS.t) (d : Device) (fp : FIL.t) : Prop :=
  forall j, 0 <= j -> j * (FATFS.csize fs * 512) < FIL.obj_size fp ->
            valid_clst fs (chain fs d (FIL.sclust fp) (Z.to_nat j)).

(** The handle stands on the cluster of the byte before its offset. *)
Definition positioned (fs : FATFS.t) (d : Device) (fp : FIL.t) : Prop :=
  0 < FIL.fptr fp ->
  FIL.clust fp =
  chain fs d (FIL.sclust fp) (Z.to_nat ((FIL.fptr fp - 1) / (FATFS.csize fs * 512))).

(** A file of 5 bytes in cluster 2, open for reading, and a medium that
    holds the text "HELLO" at the start of that cluster (sector 4 of
    [vol12]). *)
Definition five_fp : FIL.t := FIL.mk true 1 FA_READ 0 0 0 3 0 5 2.

Definition hello_dev : Device :=
  mkDevice 0 true (fun _ => false)
           (fun s => if s =? 4 then put_list zero_sector 0 (chars "HELLO") else zero_sector)
           [].

(** The state in which a file is read back as the medium holds it: a stable
    volume whose window is not modified, with the data area inside the
    sector address space. *)
Definition readable (fs : FATFS.t) (d : Device) : Prop :=
  stable fs d /\ FATFS.wflag fs = 0 /\ data_area_fits fs.

(** The transfer part of one round of [f_read] (ff.c lines 565-590), after
    the current cluster was found. *)
Definition f_read_tail (fs : FATFS.t) (d : Device) (fp : FIL.t) (btr : Z)
  : round_result :=
  let sect := clst2sect fs (FIL.clust fp) in
  if sect =? 0 then let '(res, fp) := ABORT fp FR_INT_ERR in Stop res fs d fp else
  let csect := u32 (FIL.fptr fp / SS) mod FATFS.csize fs in
  let sect := u32 (sect + csect) in
  let cc := btr / SS in
  if cc >? 0 then
    let cc := if u32 (csect + cc) >? FATFS.csize fs
              then u32 (FATFS.csize fs - csect) else cc in
    let '(dres, data, d) := disk_read d (FATFS.pdrv fs) sect cc in
    if negb (is_RES_OK dres) then
      let '(res, fp) := ABORT fp FR_DISK_ERR in Stop res fs d fp else
    let rcnt := u32 (cc * SS) in
    let rcnt := if u32 (FIL.fptr fp + rcnt) >? FIL.obj_size fp
                then u32 (FIL.obj_size fp - FIL.fptr fp) else rcnt in
    More fs d (FIL.set_fptr fp (u32 (FIL.fptr fp + rcnt))) rcnt
         (firstn (Z.to_nat rcnt) data)
  else
    let '(res, fs, d) := move_window fs d sect in
    match res with
    | FR_OK =>
        let rcnt := u32 (SS - u32 (FIL.fptr fp mod SS)) in
        let rcnt := if rcnt >? btr then btr else rcnt in
        let rcnt := if u32 (FIL.fptr fp + rcnt) >? FIL.obj_size fp
                    then u32 (FIL.obj_size fp - FIL.fptr fp) else rcnt in
        More fs d (FIL.set_fptr fp (u32 (FIL.fptr fp + rcnt))) rcnt
             (slice (FATFS.win fs) (FIL.fptr fp mod SS) rcnt)
    | _ => let '(res, fp) := ABORT fp res in Stop res fs d fp
    end.

(** A file of 1500 bytes in clusters 2, 3 and 4 of [vol12], open for
    reading at offset 100, and a medium whose FAT links cluster 2 to 3 and
    3 to 4. *)
Definition three_fp : FIL.t := FIL.mk true 1 FA_READ 0 100 2 3 0 1500 2.

Definition linked_dev : Device :=
  mkDevice 0 true (fun _ => false)
           (fun s => if s =? 1 then put_list zero_sector 3 [3; 64; 0; 255; 15]
                     else zero_sector)
           [].

(** The first sector of the directory that [f_readdir] walks (ff.c lines
    830-834). *)
Definition dir_start (fs : FATFS.t) (dp : DIR.t) : Z :=
  if FATFS.fs_type fs =? FS_FAT32 then clst2sect fs (DIR.sclust dp) else FATFS.dirbase fs.

(** Byte [k] of directory entry number [i], 16 entries to a sector from
    sector [s0] on, as the engine sees it. *)
Definition slot_byte (fs : FATFS.t) (d : Device) (s0 i k : Z) : Z :=
  ld (view fs d (s0 + i / 16)) (i mod 16 * 32 + k).

(** An entry that [f_readdir] passes over: a deleted file or a volume
    label. *)
Definition skipped (fs : FATFS.t) (d : Device) (s0 i : Z) : Prop :=
  slot_byte fs d s0 i DIR_Name <> 0 /\
  (slot_byte fs d s0 i DIR_Name = DDEM \/ Z.land (slot_byte fs d s0 i DIR_Attr) 8 <> 0).

(** An entry that [f_readdir] reports. *)
Definition listed (fs : FATFS.t) (d : Device) (s0 i : Z) : Prop :=
  slot_byte fs d s0 i DIR_Name <> 0 /\ slot_byte fs d s0 i DIR_Name <> DDEM /\
  Z.land (slot_byte fs d s0 i DIR_Attr) 8 = 0.

(** What [f_readdir] reports of entry [i]. *)
Definition slot_info (fs : FATFS.t) (d : Device) (s0 i : Z) : FILINFO :=
  let w := view fs d (s0 + i / 16) in
  let dir := i mod 16 * 32 in
  mkFILINFO (LD_DWORD w (dir + DIR_FileSize)) (LD_WORD w (dir + DIR_WrtDate))
            (LD_WORD w (dir + DIR_WrtTime)) (ld w (dir + DIR_Attr)) (readdir_name w dir).

(** An iterator at the start of the root directory of [vol12]. *)
Definition dp0 : DIR.t := DIR.mk true 1 0 0.

(** A root directory with a deleted entry, a volume label and the file
    "A.TEX" of 7 bytes. *)
Definition listing_dev : Device :=
  mkDevice 0 true (fun _ => false)
           (fun s => if s =? 3
                     then dir_sector [dir_entry (229 :: chars "LD        ") AM_ARC 0 0;
                                      dir_entry (chars "MYDISK     ") 8 0 0;
                                      dir_entry (chars "A       TEX") AM_ARC 3 7]
                     else zero_sector) [].

(* ===================================================================== *)
(** ** File status (ff.c lines 896-930) *)
(* ===================================================================== *)








(* ===================================================================== *)
(** ** String functions (ff.c lines 963-997) *)
(* ===================================================================== *)

(** The loop of [f_gets] (ff.c lines 990-994).  [line] is what was stored
    in [buff] below [p], [i] counts the characters kept other than a final
    line feed.  A carriage return is stored at [p] without moving [p], so
    the next store replaces it.  [None]: the loop did not end within [fuel]
    rounds, or a read did not return. *)
Fixpoint f_gets_loop (fuel : nat) (fs : FATFS.t) (d : Device) (fp : FIL.t)
         (len i : Z) (line : list Z)
  : option (FATFS.t * Device * FIL.t * Z * list Z) :=
  if negb (i <? len - 1) then Some (fs, d, fp, i, line) else
  match fuel with
  | O => None
  | S fuel' =>
      match f_read fs d fp 1 with
      | None => None
      | Some (res, fs, d, fp, got) =>
          if negb (FRESULT_eqb res FR_OK) || negb (Z.of_nat (length got) =? 1)
          then Some (fs, d, fp, i, line)
          else
            let c := ld got 0 in
            if c =? 10 then Some (fs, d, fp, i, line ++ [c])
            else if negb (c =? 13) then f_gets_loop fuel' fs d fp len (i + 1) (line ++ [c])
            else f_gets_loop fuel' fs d fp len i line
      end
  end.

(** [f_gets]: the new states, the bytes stored in [buff] before the
    terminator, and whether the pointer returned is [buff] ([true]) or
    [NULL] ([false]). *)
Definition f_gets (fuel : nat) (fs : FATFS.t) (d : Device) (fp : FIL.t) (len : Z)
  : option (FATFS.t * Device * FIL.t * list Z * bool) :=
  match f_gets_loop fuel fs d fp len 0 [] with
  | Some (fs, d, fp, i, line) => Some (fs, d, fp, line, i >? 0)
  | None => None
  end.

(** A handle from which the file is read back as the medium holds it: open
    with read access and no latched error, inside its file, on the cluster
    of the byte before its offset, over a chain that has a cluster for every
    byte, on a volume that is readable. *)
Definition reads_file (fs : FATFS.t) (d : Device) (fp : FIL.t) : Prop :=
  readable fs d /\ FIL.fs fp = true /\ FIL.err fp = 0 /\
  Z.land (FIL.flag fp) FA_READ <> 0 /\
  0 <= FIL.fptr fp <= FIL.obj_size fp /\ FIL.obj_size fp + 65536 <= 4294967296 /\
  chained fs d fp /\ positioned fs d fp.

(** Of the bytes of a file that [f_gets] has consumed: the ones that stay
    in the buffer (every byte but the carriage returns), and the number of
    those that count as characters of the line (neither carriage return nor
    line feed). *)
Definition gets_stored (l : list Z) : list Z := filter (fun c => negb (c =? 13)) l.

Definition gets_count (l : list Z) : Z :=
  Z.of_nat (length (filter (fun c => negb (c =? 10) && negb (c =? 13)) l)).

(** A file of 3 bytes in cluster 2 of [vol12] that starts with an empty
    line: a line feed, then "HI". *)
Definition lines_fp : FIL.t := FIL.mk true 1 FA_READ 0 0 0 3 0 3 2.

Definition lines_dev : Device :=
  mkDevice 0 true (fun _ => false)
           (fun s => if s =? 4 then put_list zero_sector 0 [10; 72; 73] else zero_sector)
           [].

(** A file of 6 bytes in the same place: "A", carriage return, line feed,
    "B", carriage return, line feed. *)
Definition crlf_fp : FIL.t := FIL.mk true 1 FA_READ 0 0 0 3 0 6 2.

Definition crlf_dev : Device :=
  mkDevice 0 true (fun _ => false)
           (fun s => if s =? 4 then put_list zero_sector 0 [65; 13; 10; 66; 13; 10]
                     else zero_sector)
           [].

(** [f_putc] (ff.c lines 964-972); [c] is the value of the [TCHAR], the
    byte written is [(BYTE)c]. *)
Definition f_putc (fuel : nat) (fs : FATFS.t) (d : Device) (fp : FIL.t) (c : Z)
  : option (Z * FATFS.t * Device * FIL.t) :=
  match f_write fuel fs d fp [u8 c] 1 with
  | None => None
  | Some (res, fs, d, fp, bw) =>
      if negb (FRESULT_eqb res FR_OK) || negb (bw =? 1) then Some (-1, fs, d, fp)
      else Some (c, fs, d, fp)
  end.

(** [f_puts] (ff.c lines 974-982), entered with the count [n]; the string
    ends at its first zero character. *)
Fixpoint f_puts_from (fuel : nat) (fs : FATFS.t) (d : Device) (fp : FIL.t)
         (str : list Z) (n : Z) : option (Z * FATFS.t * Device * FIL.t) :=
  match str with
  | [] => Some (n, fs, d, fp)
  | c :: str' =>
      if negb (nz c) then Some (n, fs, d, fp) else
      match f_putc fuel fs d fp c with
      | None => None
      | Some (r, fs, d, fp) =>
          if r =? -1 then Some (-1, fs, d, fp)
          else f_puts_from fuel fs d fp str' (n + 1)
      end
  end.

Definition f_puts (fuel : nat) (fs : FATFS.t) (d : Device) (fp : FIL.t) (str : list Z)
  : option (Z * FATFS.t * Device * FIL.t) :=
  f_puts_from fuel fs d fp str 0.

(** A writable handle without a latched error, on a volume whose cluster
    size is a power of two. *)
Definition can_write (fs : FATFS.t) (fp : FIL.t) : Prop :=
  (exists k, 0 <= k < 8 /\ FATFS.csize fs = 2 ^ k) /\
  FIL.fs fp = true /\ FIL.err fp = 0 /\ Z.land (FIL.flag fp) FA_WRITE <> 0 /\
  0 <= FIL.fptr fp.

(** A file of 1024 bytes in clusters 2 and 3 of [vol12], open for reading
    at offset 2, and a medium whose FAT links cluster 2 to 3 and that holds
    the text "HELLO" at the start of cluster 2. *)
Definition inside_fp : FIL.t := FIL.mk true 1 FA_READ 0 2 2 3 0 1024 2.

Definition linked_hello_dev : Device :=
  mkDevice 0 true (fun _ => false)
           (fun s => if s =? 1 then put_list zero_sector 3 [3; 64; 0; 255; 15]
                     else if s =? 4 then put_list zero_sector 0 (chars "HELLO")
                     else zero_sector)
           [].

(** Whether the name of directory entry [i] is [sfn]. *)
Definition slot_match (fs : FATFS.t) (d : Device) (s0 : Z) (sfn : list Z) (i : Z) : bool :=
  memcmp_eq (view fs d (s0 + i / 16)) (i mod 16 * 32) sfn 11.

(** An entry that the search of [f_open] passes: a deleted file, a
    directory, or another name. *)
Definition passed (fs : FATFS.t) (d : Device) (s0 : Z) (sfn : list Z) (j : Z) : Prop :=
  slot_byte fs d s0 j DIR_Name <> 0 /\
  (slot_byte fs d s0 j DIR_Name = DDEM \/
   Z.land (slot_byte fs d s0 j DIR_Attr) AM_DIR <> 0 \/
   slot_match fs d s0 sfn j = false).

(** An entry at which the search of [f_open] stops with a hit. *)
Definition found (fs : FATFS.t) (d : Device) (s0 : Z) (sfn : list Z) (k : Z) : Prop :=
  slot_byte fs d s0 k DIR_Name <> 0 /\ slot_byte fs d s0 k DIR_Name <> DDEM /\
  Z.land (slot_byte fs d s0 k DIR_Attr) AM_DIR = 0 /\
  slot_match fs d s0 sfn k = true.

(** An entry that the creation part of [f_open] takes for a new file. *)
Definition vacant (fs : FATFS.t) (d : Device) (s0 : Z) (k : Z) : Prop :=
  slot_byte fs d s0 k DIR_Name = 0 \/ slot_byte fs d s0 k DIR_Name = DDEM.

(** The handle that [f_open] fills in for directory entry [k] (ff.c lines
    431-442). *)
Definition entry_handle (fs : FATFS.t) (d : Device) (s0 k mode : Z) : FIL.t :=
  let w := view fs d (s0 + k / 16) in
  let dir := k mod 16 * 32 in
  let scl := Z.lor (Z.shiftl (LD_WORD w (dir + DIR_FstClusHI)) 16)
                   (LD_WORD w (dir + DIR_FstClusLO)) in
  FIL.mk true (FATFS.id fs) (u8 mode) 0 0 scl (s0 + k / 16) dir
         (LD_DWORD w (dir + DIR_FileSize)) scl.

(** The session after 10 bytes were written to the new file and the offset
    was set back to 0: the window holds the first sector of the file,
    modified and not yet written to the medium. *)
Definition rewound_ten : session := after 1000 ten_written (OpLseek 0).

(** The FAT sector and the directory sector that this session has written
    to the medium. *)
Definition fat_written : list Z := Eval vm_compute in sd_data (ses_dev rewound_ten) 1.
Definition dir_written : list Z := Eval vm_compute in sd_data (ses_dev rewound_ten) 3.

(** A partition table whose first entry, of type 0x0B, starts at sector
    0xFFFFFF00. *)
Definition mbr_high : list Z :=
  sector_of [(450, 11); (454, 0); (455, 255); (456, 255); (457, 255)].

(** A card with that table in sector 0 and the boot sector [boot_unsigned]
    at the start of the partition. *)
Definition high_card : Device :=
  mkDevice STA_NOINIT true (fun _ => false)
           (fun s => if s =? 0 then mbr_high
                     else if s =? 4294967040 then boot_unsigned else zero_sector) [].

(** The volume object after this card was mounted. *)
Definition high_mounted : FATFS.t :=
  match f_mount None 0 high_card (Some fresh_fs) drive0 1 with
  | (_, Some fs, _, _) => fs
  | _ => fresh_fs
  end.

(** The creation bits of a mode:
    [FA_CREATE_ALWAYS | FA_CREATE_NEW | FA_OPEN_ALWAYS] (ff.c line 448). *)
Definition creation_bits : Z := Z.lor (Z.lor FA_CREATE_ALWAYS FA_CREATE_NEW) FA_OPEN_ALWAYS.

(* ===================================================================== *)
(** * Properties *)
(* ===================================================================== *)

(** ** Machine integers and byte buffers *)

Lemma u8_pow x : u8 x = x mod 2 ^ 8.
Proof. reflexivity. Qed.

Lemma u16_pow x : u16 x = x mod 2 ^ 16.
Proof. reflexivity. Qed.

Lemma u32_pow x : u32 x = x mod 2 ^ 32.
Proof. reflexivity. Qed.

Ltac bits :=
  rewrite ?u8_pow, ?u16_pow, ?u32_pow; Z.bitblast;
  try solve [Z.bitblast_core];
  try solve [simpl; Z.bitblast_core; simpl; Z.bitblast_core].

Lemma u32_small x : 0 <= x < 4294967296 -> u32 x = x.
Proof. intros; unfold u32; apply Z.mod_small; lia. Qed.

Lemma u32_range x : 0 <= u32 x < 4294967296.
Proof. unfold u32; apply Z.mod_pos_bound; lia. Qed.

Lemma u8_range x : 0 <= u8 x < 256.
Proof. unfold u8; apply Z.mod_pos_bound; lia. Qed.

Lemma nz_true x : nz x = true <-> x <> 0.
Proof. unfold nz; rewrite negb_true_iff, Z.eqb_neq; tauto. Qed.

Lemma nz_false x : nz x = false <-> x = 0.
Proof. unfold nz; rewrite negb_false_iff, Z.eqb_eq; tauto. Qed.

Lemma length_st_nat a n v : length (st_nat a n v) = length a.
Proof. revert n; induction a; destruct n; simpl; auto. Qed.

Lemma length_st a i v : length (st a i v) = length a.
Proof. apply length_st_nat. Qed.

Lemma nth_st_nat_same a n v : (n < length a)%nat -> nth n (st_nat a n v) 0 = v.
Proof.
  revert n; induction a; destruct n; simpl; intros; try lia; auto.
  apply IHa; lia.
Qed.

Lemma nth_st_nat_other a n m v : n <> m -> nth m (st_nat a n v) 0 = nth m a 0.
Proof.
  revert n m; induction a; destruct n, m; simpl; intros; try congruence; auto.
Qed.

Lemma ld_st_same a i v : 0 <= i < Z.of_nat (length a) -> ld (st a i v) i = v.
Proof. intros; unfold ld, st; apply nth_st_nat_same; lia. Qed.

Lemma ld_st_other a i j v : 0 <= i -> 0 <= j -> i <> j -> ld (st a i v) j = ld a j.
Proof. intros; unfold ld, st; apply nth_st_nat_other; lia. Qed.

Lemma chunk_whole w : Z.of_nat (length w) = 512 -> chunk w 0 = w.
Proof.
  intros H; unfold chunk.
  change (Z.to_nat (512 * 0)) with 0%nat; rewrite skipn_O.
  apply firstn_all2; lia.
Qed.

Lemma LD_WORD_ext a b p :
  ld a p = ld b p -> ld a (p + 1) = ld b (p + 1) -> LD_WORD a p = LD_WORD b p.
Proof. unfold LD_WORD; intros -> ->; reflexivity. Qed.

Lemma LD_DWORD_ext a b p :
  ld a p = ld b p -> ld a (p + 1) = ld b (p + 1) ->
  ld a (p + 2) = ld b (p + 2) -> ld a (p + 3) = ld b (p + 3) ->
  LD_DWORD a p = LD_DWORD b p.
Proof. unfold LD_DWORD; intros -> -> -> ->; reflexivity. Qed.

Lemma LD_WORD_ST_WORD a p v :
  0 <= p -> p + 1 < Z.of_nat (length a) -> LD_WORD (ST_WORD a p v) p = u16 v.
Proof.
  intros Hp Hl; unfold LD_WORD, ST_WORD.
  rewrite ld_st_same by (rewrite length_st; lia).
  rewrite ld_st_other, ld_st_same by lia.
  bits.
Qed.

Lemma LD_DWORD_ST_DWORD a p v :
  0 <= p -> p + 3 < Z.of_nat (length a) -> LD_DWORD (ST_DWORD a p v) p = u32 v.
Proof.
  intros Hp Hl; unfold LD_DWORD, ST_DWORD.
  rewrite ld_st_same by (rewrite !length_st; lia).
  rewrite (ld_st_other _ (p + 3) (p + 2)), ld_st_same by (rewrite ?length_st; lia).
  rewrite (ld_st_other _ (p + 3) (p + 1)), (ld_st_other _ (p + 2) (p + 1)), ld_st_same
    by (rewrite ?length_st; lia).
  rewrite (ld_st_other _ (p + 3) p), (ld_st_other _ (p + 2) p),
    (ld_st_other _ (p + 1) p), ld_st_same by (rewrite ?length_st; lia).
  bits.
Qed.

Lemma ld_ST_WORD_other a p v j :
  0 <= p -> 0 <= j -> j <> p -> j <> p + 1 -> ld (ST_WORD a p v) j = ld a j.
Proof. intros; unfold ST_WORD; rewrite !ld_st_other by lia; reflexivity. Qed.

Lemma ld_ST_DWORD_other a p v j :
  0 <= p -> 0 <= j -> j < p \/ p + 3 < j -> ld (ST_DWORD a p v) j = ld a j.
Proof. intros; unfold ST_DWORD; rewrite !ld_st_other by lia; reflexivity. Qed.

Lemma length_ST_WORD a p v : length (ST_WORD a p v) = length a.
Proof. unfold ST_WORD; rewrite !length_st; reflexivity. Qed.

Lemma length_ST_DWORD a p v : length (ST_DWORD a p v) = length a.
Proof. unfold ST_DWORD; rewrite !length_st; reflexivity. Qed.

(** ** The sector window on a healthy device *)

Lemma window_only_refl fs : window_only fs fs.
Proof. destruct fs; reflexivity. Qed.

Lemma window_only_trans fs1 fs2 fs3 :
  window_only fs1 fs2 -> window_only fs2 fs3 -> window_only fs1 fs3.
Proof.
  unfold window_only; intros H12 H23; rewrite H23 at 1; rewrite H12 at 1.
  destruct fs1, fs2, fs3; reflexivity.
Qed.

Lemma window_only_set fs fs' w s f :
  window_only fs fs' ->
  window_only fs (FATFS.set_wflag (FATFS.set_winsect (FATFS.set_win fs' w) s) f).
Proof.
  unfold window_only; intros H; rewrite H at 1; destruct fs, fs'; reflexivity.
Qed.

Lemma window_only_set_win fs fs' w :
  window_only fs fs' -> window_only fs (FATFS.set_win fs' w).
Proof.
  unfold window_only; intros H; rewrite H at 1; destruct fs, fs'; reflexivity.
Qed.

Lemma window_only_set_wflag fs fs' f :
  window_only fs fs' -> window_only fs (FATFS.set_wflag fs' f).
Proof.
  unfold window_only; intros H; rewrite H at 1; destruct fs, fs'; reflexivity.
Qed.

Lemma window_only_set_winsect fs fs' s :
  window_only fs fs' -> window_only fs (FATFS.set_winsect fs' s).
Proof.
  unfold window_only; intros H; rewrite H at 1; destruct fs, fs'; reflexivity.
Qed.

(** The fields outside the window are those of [fs]. *)
Lemma window_only_fields fs fs' :
  window_only fs fs' ->
  FATFS.fs_type fs' = FATFS.fs_type fs /\ FATFS.pdrv fs' = FATFS.pdrv fs /\
  FATFS.n_fatent fs' = FATFS.n_fatent fs /\ FATFS.fatbase fs' = FATFS.fatbase fs /\
  FATFS.csize fs' = FATFS.csize fs /\ FATFS.database fs' = FATFS.database fs /\
  FATFS.dirbase fs' = FATFS.dirbase fs /\ FATFS.n_rootdir fs' = FATFS.n_rootdir fs /\
  FATFS.last_clst fs' = FATFS.last_clst fs /\ FATFS.free_clst fs' = FATFS.free_clst fs /\
  FATFS.id fs' = FATFS.id fs.
Proof.
  unfold window_only; intros H; rewrite H; destruct fs, fs'; simpl; repeat split.
Qed.

Lemma mounted_window_only fs fs' :
  mounted fs -> window_only fs fs' ->
  0 <= FATFS.winsect fs' < 4294967296 -> sector (FATFS.win fs') ->
  mounted fs'.
Proof.
  intros [] W Hs Hw.
  destruct (window_only_fields _ _ W) as (E1 & E2 & E3 & E4 & E5 & E6 & _).
  constructor; rewrite ?E1, ?E2, ?E3, ?E4, ?E5, ?E6; auto.
Qed.

Lemma any_bad_healthy d s n : healthy d -> any_bad (sd_bad d) s n = false.
Proof.
  intros (_ & _ & H); revert s; induction n; simpl; intros; auto.
  rewrite H, IHn; reflexivity.
Qed.

Lemma healthy_log d e : healthy d -> healthy (dev_log d e).
Proof. unfold healthy; destruct d; simpl; auto. Qed.

Lemma disk_read_healthy d s :
  healthy d -> disk_read d 0 s 1 = (RES_OK, sd_data d s, dev_log d (IoRead s 1)).
Proof.
  intros H; unfold disk_read.
  destruct H as (H1 & H2 & H3).
  change (negb (0 =? DEV_SD) || (1 =? 0)) with false; cbv iota.
  rewrite H1; change (nz 0) with false; cbv iota.
  rewrite any_bad_healthy by (unfold healthy; destruct d; simpl in *; auto).
  change (Z.to_nat 1) with 1%nat; simpl read_sectors.
  rewrite app_nil_r; destruct d; reflexivity.
Qed.

Lemma disk_write_healthy d buff s :
  healthy d ->
  disk_write d 0 buff s 1 =
  (RES_OK, dev_set_data (dev_log d (IoWrite s 1))
             (fun t => if (s <=? t) && (t <? s + 1) then chunk buff (t - s)
                       else sd_data d t)).
Proof.
  intros H; unfold disk_write.
  destruct H as (H1 & H2 & H3).
  change (negb (0 =? DEV_SD) || (1 =? 0)) with false; cbv iota.
  rewrite H1, H2; change (nz 0) with false; cbv iota.
  rewrite any_bad_healthy by (unfold healthy; destruct d; simpl in *; auto).
  destruct d; reflexivity.
Qed.

Ltac splits := repeat match goal with |- _ /\ _ => split end.

Lemma healthy_set_data d m : healthy d -> healthy (dev_set_data d m).
Proof. unfold healthy; destruct d; simpl; auto. Qed.

(** Flushing the window on a healthy device: the medium then holds the
    window under its sector number and nothing else has changed. *)
Lemma sync_window_healthy fs d :
  healthy d -> dev_ok d -> FATFS.pdrv fs = 0 -> sector (FATFS.win fs) ->
  exists fs' d',
    sync_window fs d = (FR_OK, fs', d') /\
    window_only fs fs' /\ FATFS.win fs' = FATFS.win fs /\
    FATFS.winsect fs' = FATFS.winsect fs /\
    healthy d' /\ dev_ok d' /\
    (FATFS.wflag fs <> 0 ->
     FATFS.wflag fs' = 0 /\
     forall t, sd_data d' t = if t =? FATFS.winsect fs then FATFS.win fs else sd_data d t) /\
    (FATFS.wflag fs = 0 -> fs' = fs /\ d' = d).
Proof.
  intros Hh Hd Hp Hw; unfold sync_window.
  destruct (nz (FATFS.wflag fs)) eqn:E.
  - apply nz_true in E.
    rewrite Hp, disk_write_healthy by assumption; cbv iota beta; simpl negb; cbv iota.
    eexists; eexists; split; [reflexivity|].
    assert (V : forall t,
               sd_data (dev_set_data (dev_log d (IoWrite (FATFS.winsect fs) 1))
                          (fun t => if (FATFS.winsect fs <=? t) && (t <? FATFS.winsect fs + 1)
                                    then chunk (FATFS.win fs) (t - FATFS.winsect fs)
                                    else sd_data d t)) t
               = if t =? FATFS.winsect fs then FATFS.win fs else sd_data d t).
    { intros t; unfold dev_set_data; simpl.
      destruct (Z.eqb_spec t (FATFS.winsect fs)) as [->|N].
      * rewrite Z.leb_refl; simpl.
        replace (FATFS.winsect fs <? FATFS.winsect fs + 1) with true by (symmetry; lia).
        replace (FATFS.winsect fs - FATFS.winsect fs) with 0 by lia.
        apply chunk_whole; apply Hw.
      * replace ((FATFS.winsect fs <=? t) && (t <? FATFS.winsect fs + 1)) with false
          by (symmetry; lia).
        reflexivity. }
    splits.
    + apply window_only_set_wflag, window_only_refl.
    + destruct fs; reflexivity.
    + destruct fs; reflexivity.
    + apply healthy_set_data, healthy_log; assumption.
    + intros t; rewrite V; destruct (t =? FATFS.winsect fs); auto.
    + intros _; split; [destruct fs; reflexivity|exact V].
    + intros C; contradiction.
  - apply nz_false in E.
    exists fs, d; splits; auto using window_only_refl; try contradiction.
Qed.

(** Moving the window on a healthy device succeeds, and the engine's view
    of every sector is kept when the window was coherent. *)
Lemma move_window_healthy fs d s :
  healthy d -> dev_ok d -> FATFS.pdrv fs = 0 -> sector (FATFS.win fs) ->
  exists fs' d',
    move_window fs d s = (FR_OK, fs', d') /\
    window_only fs fs' /\ FATFS.winsect fs' = s /\ sector (FATFS.win fs') /\
    healthy d' /\ dev_ok d' /\
    (s = FATFS.winsect fs -> fs' = fs /\ d' = d) /\
    (s <> FATFS.winsect fs -> FATFS.wflag fs' = 0 /\ FATFS.win fs' = sd_data d' s) /\
    (coherent fs d ->
     coherent fs' d' /\ forall t, view fs' d' t = view fs d t).
Proof.
  intros Hh Hd Hp Hw; unfold move_window.
  destruct (Z.eqb_spec s (FATFS.winsect fs)) as [->|N]; simpl negb; cbv iota.
  - exists fs, d; splits; auto using window_only_refl; try contradiction.
  - destruct (sync_window_healthy fs d Hh Hd Hp Hw)
      as (fs1 & d1 & E & W1 & Ew & Es & Hh1 & Hd1 & Hdirty & Hclean).
    rewrite E.
    destruct (window_only_fields _ _ W1) as (_ & Ep & _).
    rewrite Ep, Hp, disk_read_healthy by assumption; simpl negb; cbv iota.
    assert (F1 : FATFS.wflag fs1 = 0).
    { destruct (Z.eq_dec (FATFS.wflag fs) 0) as [Z0|NZ].
      - destruct (Hclean Z0) as [-> _]; assumption.
      - apply Hdirty; assumption. }
    eexists; eexists; split; [reflexivity|].
    assert (Ed : forall t, sd_data (dev_log d1 (IoRead s 1)) t = sd_data d1 t)
      by (intros; destruct d1; reflexivity).
    splits.
    + apply window_only_set_winsect, window_only_set_win; assumption.
    + destruct fs1; reflexivity.
    + destruct fs1; simpl; apply Hd1.
    + apply healthy_log; assumption.
    + intros t; rewrite Ed; apply Hd1.
    + intros C; contradiction.
    + intros _; split; [destruct fs1; simpl in *; assumption|].
      rewrite Ed; destruct fs1; reflexivity.
    + intros C; split.
      * intros _; rewrite Ed; destruct fs1; reflexivity.
      * intros t; unfold view.
        replace (FATFS.winsect (FATFS.set_winsect (FATFS.set_win fs1 (sd_data d1 s)) s))
          with s by (destruct fs1; reflexivity).
        replace (FATFS.win (FATFS.set_winsect (FATFS.set_win fs1 (sd_data d1 s)) s))
          with (sd_data d1 s) by (destruct fs1; reflexivity).
        rewrite Ed.
        assert (V : forall u, sd_data d1 u =
                              if u =? FATFS.winsect fs then FATFS.win fs else sd_data d u).
        { intros u. destruct (Z.eq_dec (FATFS.wflag fs) 0) as [Z0|NZ].
          - destruct (Hclean Z0) as [_ ->].
            destruct (Z.eqb_spec u (FATFS.winsect fs)) as [->|]; auto.
            symmetry; apply C; assumption.
          - apply Hdirty; assumption. }
        destruct (Z.eqb_spec t s) as [->|]; apply V.
Qed.

(** ** The FAT accessor on a stable state *)

Lemma view_win fs d : view fs d (FATFS.winsect fs) = FATFS.win fs.
Proof. unfold view; rewrite Z.eqb_refl; reflexivity. Qed.

Lemma nz_land1 c : nz (Z.land c 1) = Z.odd c.
Proof.
  change 1 with (Z.ones 1); rewrite Z.land_ones by lia.
  change (2 ^ 1) with 2. rewrite Zmod_odd. unfold nz.
  destruct (Z.odd c); reflexivity.
Qed.

Lemma u32_mod_SS x : u32 x mod SS = x mod SS.
Proof.
  unfold u32, SS, FF_MAX_SS.
  apply Z.mod_mod_divide; exists 8388608; reflexivity.
Qed.

Lemma stable_move fs d s :
  stable fs d -> 0 <= s < 4294967296 ->
  exists fs' d',
    move_window fs d s = (FR_OK, fs', d') /\
    window_only fs fs' /\ FATFS.winsect fs' = s /\ stable fs' d' /\
    FATFS.win fs' = view fs d s /\
    forall t, view fs' d' t = view fs d t.
Proof.
  intros (M & Hh & Hd & C) Hs.
  destruct (move_window_healthy fs d s Hh Hd (m_pdrv _ M) (m_win _ M))
    as (fs' & d' & E & W & Es & Hl & Hh' & Hd' & _ & _ & HC).
  destruct (HC C) as (C' & V).
  exists fs', d'; splits; auto.
  - split; [|auto]. eapply mounted_window_only; eauto. rewrite Es; assumption.
  - rewrite <- V, <- Es; symmetry; apply view_win.
Qed.

Lemma fat_entry_same_view fs d fs' d' c :
  window_only fs fs' -> (forall t, view fs' d' t = view fs d t) ->
  fat_entry fs' d' c = fat_entry fs d c.
Proof.
  intros W V; destruct (window_only_fields _ _ W) as (E1 & _ & _ & E4 & _).
  unfold fat_entry, fat_byte; rewrite E1, E4, !V; reflexivity.
Qed.

Lemma get_fat_stable fs d c :
  stable fs d -> valid_clst fs c ->
  exists fs' d',
    get_fat fs d c = (fat_entry fs d c, fs', d') /\
    window_only fs fs' /\ stable fs' d' /\
    forall t, view fs' d' t = view fs d t.
Proof.
  intros S Hc. pose proof S as (M & _). unfold valid_clst in Hc.
  unfold get_fat.
  replace ((c <? 2) || (c >=? FATFS.n_fatent fs)) with false by (symmetry; lia).
  cbv iota.
  destruct (m_type _ M) as [T|[T|T]]; rewrite T.
  - change (FS_FAT12 =? FS_FAT12) with true; cbv iota zeta.
    pose proof (m_fat12 _ M T) as B.
    rewrite (u32_small c) by lia.
    assert (Hh2 : 0 <= c / 2 <= c) by (split; [apply Z.div_pos; lia|apply Z.div_le_upper_bound; lia]).
    rewrite (u32_small (c + c / 2)) by lia.
    assert (Hbc : 0 <= c + c / 2 < 10000) by lia.
    remember (c + c / 2) as bc eqn:Ebc.
    rewrite (u32_small (bc + 1)) by lia.
    destruct (stable_move fs d (u32 (FATFS.fatbase fs + bc / SS)) S (u32_range _))
      as (fs1 & d1 & E1 & W1 & Es1 & S1 & Ew1 & V1).
    rewrite E1.
    destruct (window_only_fields _ _ W1) as (_ & _ & _ & Ef1 & _).
    destruct (stable_move fs1 d1 (u32 (FATFS.fatbase fs1 + (bc + 1) / SS)) S1 (u32_range _))
      as (fs2 & d2 & E2 & W2 & Es2 & S2 & Ew2 & V2).
    rewrite E2.
    exists fs2, d2; splits; auto.
    + f_equal; f_equal. unfold fat_entry. rewrite T.
      change (FS_FAT12 =? FS_FAT12) with true; cbv iota zeta.
      rewrite <- Ebc. unfold fat_byte. rewrite Ew1, Ew2, V1, Ef1, nz_land1. reflexivity.
    + eapply window_only_trans; eauto.
    + intros t; rewrite V2; apply V1.
  - change (FS_FAT16 =? FS_FAT12) with false; change (FS_FAT16 =? FS_FAT16) with true.
    cbv iota zeta.
    change (SS / 2) with 256.
    destruct (stable_move fs d (u32 (FATFS.fatbase fs + c / 256)) S (u32_range _))
      as (fs1 & d1 & E1 & W1 & Es1 & S1 & Ew1 & V1).
    rewrite E1.
    exists fs1, d1; splits; auto.
    f_equal; f_equal. unfold fat_entry. rewrite T.
    change (FS_FAT16 =? FS_FAT12) with false; change (FS_FAT16 =? FS_FAT16) with true.
    cbv iota. rewrite Ew1.
    replace (u32 (c * 2) mod SS) with ((c * 2) mod SS); [reflexivity|].
    symmetry; apply u32_mod_SS.
  - change (FS_FAT32 =? FS_FAT12) with false; change (FS_FAT32 =? FS_FAT16) with false.
    change (FS_FAT32 =? FS_FAT32) with true.
    cbv iota zeta.
    change (SS / 4) with 128.
    destruct (stable_move fs d (u32 (FATFS.fatbase fs + c / 128)) S (u32_range _))
      as (fs1 & d1 & E1 & W1 & Es1 & S1 & Ew1 & V1).
    rewrite E1.
    exists fs1, d1; splits; auto.
    f_equal; f_equal. unfold fat_entry. rewrite T.
    change (FS_FAT32 =? FS_FAT12) with false; change (FS_FAT32 =? FS_FAT16) with false.
    cbv iota. rewrite Ew1.
    replace (u32 (c * 4) mod SS) with ((c * 4) mod SS); [reflexivity|].
    symmetry; apply u32_mod_SS.
Qed.

(** ** Writing a FAT entry *)


Lemma nth_st_nat_range a n v m :
  (forall k, 0 <= nth k a 0 < 256) -> 0 <= v < 256 -> 0 <= nth m (st_nat a n v) 0 < 256.
Proof.
  intros Ha Hv.
  destruct (Nat.eq_dec n m) as [<-|N].
  - destruct (Nat.lt_ge_cases n (length a)).
    + rewrite nth_st_nat_same; auto.
    + rewrite nth_overflow; [lia|rewrite length_st_nat; lia].
  - rewrite nth_st_nat_other; auto.
Qed.

Lemma sector_st w i v : sector w -> 0 <= v < 256 -> sector (st w i v).
Proof.
  intros [L B] Hv; split.
  - rewrite length_st; assumption.
  - intros n; apply nth_st_nat_range; assumption.
Qed.

Lemma sector_ld w i : sector w -> 0 <= ld w i < 256.
Proof. intros [_ B]; apply B. Qed.

Lemma sector_ST_WORD w p v : sector w -> sector (ST_WORD w p v).
Proof. intros; unfold ST_WORD; repeat apply sector_st; auto using u8_range. Qed.

Lemma sector_ST_DWORD w p v : sector w -> sector (ST_DWORD w p v).
Proof. intros; unfold ST_DWORD; repeat apply sector_st; auto using u8_range. Qed.

Lemma u32_add_inj fb q q' :
  0 <= q < 4294967296 -> 0 <= q' < 4294967296 ->
  u32 (fb + q) = u32 (fb + q') -> q = q'.
Proof.
  unfold u32; intros Hq Hq' E.
  Z.to_euclidean_division_equations; lia.
Qed.

(** Storing into the window and marking it dirty. *)
Lemma store_stable fs d w :
  mounted fs -> healthy d -> dev_ok d -> sector w ->
  window_only fs (FATFS.set_wflag (FATFS.set_win fs w) 1) /\
  stable (FATFS.set_wflag (FATFS.set_win fs w) 1) d /\
  forall t, view (FATFS.set_wflag (FATFS.set_win fs w) 1) d t =
            if t =? FATFS.winsect fs then w else sd_data d t.
Proof.
  intros M Hh Hd Hw.
  assert (W : window_only fs (FATFS.set_wflag (FATFS.set_win fs w) 1))
    by (apply window_only_set_wflag, window_only_set_win, window_only_refl).
  split; [assumption|split].
  - unfold stable; splits; auto.
    + eapply mounted_window_only; eauto.
      destruct fs; simpl; apply (m_winsect _ M).
    + intros C; destruct fs; simpl in C; discriminate.
  - intros t; unfold view; destruct fs; reflexivity.
Qed.

Lemma move_mounted fs d s :
  mounted fs -> healthy d -> dev_ok d -> 0 <= s < 4294967296 ->
  exists fs' d',
    move_window fs d s = (FR_OK, fs', d') /\
    window_only fs fs' /\ FATFS.winsect fs' = s /\ mounted fs' /\
    healthy d' /\ dev_ok d' /\
    (coherent fs d ->
     coherent fs' d' /\ forall t, view fs' d' t = view fs d t).
Proof.
  intros M Hh Hd Hs.
  destruct (move_window_healthy fs d s Hh Hd (m_pdrv _ M) (m_win _ M))
    as (fs' & d' & E & W & Es & Hl & Hh' & Hd' & _ & _ & HC).
  exists fs', d'; splits; auto.
  eapply mounted_window_only; eauto. rewrite Es; assumption.
Qed.


Lemma view_after_store fs d w t :
  view (FATFS.set_wflag (FATFS.set_win fs w) 1) d t =
  if t =? FATFS.winsect fs then w else view fs d t.
Proof. unfold view; destruct fs; simpl; destruct (t =? winsect); reflexivity. Qed.

Lemma put_fat16 fs d c v :
  mounted fs -> healthy d -> dev_ok d -> FATFS.fs_type fs = FS_FAT16 ->
  valid_clst fs c ->
  exists fs' d',
    put_fat fs d c v = (FR_OK, fs', d') /\ window_only fs fs' /\ stable fs' d' /\
    fat_entry fs' d' c = u16 v /\
    (coherent fs d -> forall c', valid_clst fs c' -> c' <> c ->
                                 fat_entry fs' d' c' = fat_entry fs d c').
Proof.
  intros M Hh Hd T Hc; unfold valid_clst in Hc.
  unfold put_fat.
  replace ((c >=? 2) && (c <? FATFS.n_fatent fs)) with true by (symmetry; lia).
  rewrite T.
  change (FS_FAT16 =? FS_FAT12) with false; change (FS_FAT16 =? FS_FAT16) with true.
  cbv iota zeta. change (SS / 2) with 256.
  destruct (move_mounted fs d (u32 (FATFS.fatbase fs + c / 256)) M Hh Hd (u32_range _))
    as (fs1 & d1 & E1 & W1 & Es1 & M1 & Hh1 & Hd1 & HC1).
  rewrite E1, u32_mod_SS.
  set (p := (c * 2) mod SS).
  assert (Hp : 0 <= p /\ p + 1 < 512).
  { unfold p, SS, FF_MAX_SS; Z.to_euclidean_division_equations; lia. }
  set (w := ST_WORD (FATFS.win fs1) p (u16 v)).
  assert (Sw : sector w) by (apply sector_ST_WORD, (m_win _ M1)).
  destruct (store_stable fs1 d1 w M1 Hh1 Hd1 Sw) as (W2 & S2 & V2).
  destruct (window_only_fields _ _ W1) as (T1 & _ & _ & F1 & _).
  destruct (window_only_fields _ _ W2) as (T2 & _ & _ & F2 & _).
  exists (FATFS.set_wflag (FATFS.set_win fs1 w) 1), d1; splits; auto.
  - eapply window_only_trans; eauto.
  - unfold fat_entry; rewrite T2, T1, T, F2, F1.
    change (FS_FAT16 =? FS_FAT12) with false; change (FS_FAT16 =? FS_FAT16) with true.
    cbv iota. rewrite view_after_store, Es1, Z.eqb_refl. fold p.
    unfold w; rewrite LD_WORD_ST_WORD.
    + unfold u16; apply Z.mod_mod; lia.
    + lia.
    + destruct (m_win _ M1) as [L _]; lia.
  - intros C c' Hc' N; unfold valid_clst in Hc'.
    destruct (HC1 C) as (_ & V1).
    unfold fat_entry; rewrite T2, T1, T, F2, F1.
    change (FS_FAT16 =? FS_FAT12) with false; change (FS_FAT16 =? FS_FAT16) with true.
    cbv iota. rewrite view_after_store, Es1, <- V1.
    destruct (Z.eqb_spec (u32 (FATFS.fatbase fs + c' / 256)) (u32 (FATFS.fatbase fs + c / 256)))
      as [Eq|Ne]; [|reflexivity].
    rewrite Eq, <- Es1, view_win.
    pose proof (m_fatent _ M) as Hn.
    apply u32_add_inj in Eq; [| Z.to_euclidean_division_equations; lia ..].
    assert (Hp' : (c' * 2) mod SS <> p /\ (c' * 2) mod SS <> p + 1 /\
                  (c' * 2) mod SS + 1 <> p /\ 0 <= (c' * 2) mod SS).
    { unfold p, SS, FF_MAX_SS; Z.to_euclidean_division_equations; lia. }
    apply LD_WORD_ext; unfold w; apply ld_ST_WORD_other; lia.
Qed.

Lemma put_fat32 fs d c v :
  mounted fs -> healthy d -> dev_ok d -> FATFS.fs_type fs = FS_FAT32 ->
  valid_clst fs c ->
  exists fs' d',
    put_fat fs d c v = (FR_OK, fs', d') /\ window_only fs fs' /\ stable fs' d' /\
    fat_entry fs' d' c = Z.land v 268435455 /\
    (coherent fs d ->
     fat32_raw fs' d' c =
       Z.lor (Z.land v 268435455) (Z.land (fat32_raw fs d c) 4026531840) /\
     forall c', valid_clst fs c' -> c' <> c ->
                fat32_raw fs' d' c' = fat32_raw fs d c' /\
                fat_entry fs' d' c' = fat_entry fs d c').
Proof.
  intros M Hh Hd T Hc; unfold valid_clst in Hc.
  unfold put_fat.
  replace ((c >=? 2) && (c <? FATFS.n_fatent fs)) with true by (symmetry; lia).
  rewrite T.
  change (FS_FAT32 =? FS_FAT12) with false; change (FS_FAT32 =? FS_FAT16) with false.
  change (FS_FAT32 =? FS_FAT32) with true.
  cbv iota zeta. change (SS / 4) with 128.
  destruct (move_mounted fs d (u32 (FATFS.fatbase fs + c / 128)) M Hh Hd (u32_range _))
    as (fs1 & d1 & E1 & W1 & Es1 & M1 & Hh1 & Hd1 & HC1).
  rewrite E1, u32_mod_SS.
  set (p := (c * 4) mod SS).
  assert (Hp : 0 <= p /\ p + 3 < 512).
  { unfold p, SS, FF_MAX_SS; Z.to_euclidean_division_equations; lia. }
  set (val := Z.lor (Z.land v 268435455) (Z.land (LD_DWORD (FATFS.win fs1) p) 4026531840)).
  set (w := ST_DWORD (FATFS.win fs1) p val).
  assert (Sw : sector w) by (apply sector_ST_DWORD, (m_win _ M1)).
  destruct (store_stable fs1 d1 w M1 Hh1 Hd1 Sw) as (W2 & S2 & V2).
  destruct (window_only_fields _ _ W1) as (T1 & _ & _ & F1 & _).
  destruct (window_only_fields _ _ W2) as (T2 & _ & _ & F2 & _).
  assert (Hval : u32 val = val).
  { unfold val. change 268435455 with (Z.ones 28).
    change 4026531840 with (Z.shiftl (Z.ones 4) 28). bits. }
  assert (Raw : LD_DWORD w p = val).
  { unfold w; rewrite LD_DWORD_ST_DWORD; auto; try lia.
    destruct (m_win _ M1) as [L _]; lia. }
  exists (FATFS.set_wflag (FATFS.set_win fs1 w) 1), d1; splits; auto.
  - eapply window_only_trans; eauto.
  - unfold fat_entry; rewrite T2, T1, T, F2, F1.
    change (FS_FAT32 =? FS_FAT12) with false; change (FS_FAT32 =? FS_FAT16) with false.
    cbv iota. rewrite view_after_store, Es1, Z.eqb_refl. fold p.
    rewrite Raw. unfold val. change 268435455 with (Z.ones 28).
    change 4026531840 with (Z.shiftl (Z.ones 4) 28). bits.
  - intros C; destruct (HC1 C) as (_ & V1); split.
    + unfold fat32_raw; rewrite F2, F1, view_after_store, Es1, Z.eqb_refl. fold p.
      rewrite Raw; unfold val. rewrite <- V1, <- Es1, view_win. reflexivity.
    + intros c' Hc' N; unfold valid_clst in Hc'.
      assert (R : fat32_raw (FATFS.set_wflag (FATFS.set_win fs1 w) 1) d1 c' = fat32_raw fs d c').
      { unfold fat32_raw; rewrite F2, F1, view_after_store, Es1, <- V1.
        destruct (Z.eqb_spec (u32 (FATFS.fatbase fs + c' / 128))
                             (u32 (FATFS.fatbase fs + c / 128))) as [Eq|Ne]; [|reflexivity].
        rewrite Eq, <- Es1, view_win.
        pose proof (m_fatent _ M) as Hn.
        apply u32_add_inj in Eq; [| Z.to_euclidean_division_equations; lia ..].
        assert (Hp' : ((c' * 4) mod SS + 3 < p \/ p + 3 < (c' * 4) mod SS) /\
                      0 <= (c' * 4) mod SS).
        { unfold p, SS, FF_MAX_SS; Z.to_euclidean_division_equations; lia. }
        apply LD_DWORD_ext; unfold w; apply ld_ST_DWORD_other; lia. }
      split; [exact R|].
      unfold fat32_raw in R; unfold fat_entry; rewrite T2, T1, T.
      change (FS_FAT32 =? FS_FAT12) with false; change (FS_FAT32 =? FS_FAT16) with false.
      cbv iota. rewrite R; reflexivity.
Qed.


Lemma ld_st a i v j :
  0 <= i < Z.of_nat (length a) -> 0 <= j ->
  ld (st a i v) j = if j =? i then v else ld a j.
Proof.
  intros Hi Hj; destruct (Z.eqb_spec j i) as [->|N].
  - apply ld_st_same; assumption.
  - apply ld_st_other; lia.
Qed.

Lemma fat_byte_same_view fs d fs' d' x :
  window_only fs fs' -> (forall t, view fs' d' t = view fs d t) ->
  fat_byte fs' d' x = fat_byte fs d x.
Proof.
  intros W V; destruct (window_only_fields _ _ W) as (_ & _ & _ & E4 & _).
  unfold fat_byte; rewrite E4, V; reflexivity.
Qed.

(** A byte offset into the FAT determines its sector and the offset in it. *)
Lemma fat_pos_inj fb x y :
  0 <= x < 2199023255552 -> 0 <= y < 2199023255552 ->
  u32 (fb + x / SS) = u32 (fb + y / SS) -> x mod SS = y mod SS -> x = y.
Proof.
  unfold SS, FF_MAX_SS; intros Hx Hy Es Ep.
  apply u32_add_inj in Es; [| Z.to_euclidean_division_equations; lia ..].
  Z.to_euclidean_division_equations; lia.
Qed.

(** Storing one byte of the FAT through the window that holds its sector. *)
Lemma poke_byte fs d y n x :
  sector (FATFS.win fs) ->
  FATFS.winsect fs = u32 (FATFS.fatbase fs + y / SS) ->
  0 <= x < 2199023255552 -> 0 <= y < 2199023255552 ->
  fat_byte (FATFS.set_wflag (FATFS.set_win fs (st (FATFS.win fs) (y mod SS) n)) 1) d x =
  if x =? y then n else fat_byte fs d x.
Proof.
  intros [L _] Ew Hx Hy.
  assert (Hm : forall z, 0 <= z mod SS < 512)
    by (intros; unfold SS, FF_MAX_SS; apply Z.mod_pos_bound; lia).
  unfold fat_byte at 1.
  replace (FATFS.fatbase (FATFS.set_wflag (FATFS.set_win fs (st (FATFS.win fs) (y mod SS) n)) 1))
    with (FATFS.fatbase fs) by (destruct fs; reflexivity).
  rewrite view_after_store.
  destruct (Z.eqb_spec (u32 (FATFS.fatbase fs + x / SS)) (FATFS.winsect fs)) as [Es|Ns].
  - rewrite ld_st by (pose proof (Hm y); pose proof (Hm x); lia).
    destruct (Z.eqb_spec (x mod SS) (y mod SS)) as [Ep|Np].
    + rewrite Ew in Es; rewrite (fat_pos_inj _ _ _ Hx Hy Es Ep), Z.eqb_refl; reflexivity.
    + destruct (Z.eqb_spec x y) as [->|_]; [congruence|].
      unfold fat_byte; rewrite Es, view_win; reflexivity.
  - destruct (Z.eqb_spec x y) as [->|_]; [congruence|].
    reflexivity.
Qed.

Lemma fat12_odd_bits b0 v :
  Z.shiftr (Z.lor (u8 (Z.lor (Z.land b0 15) (Z.shiftl (u8 v) 4)))
                  (Z.shiftl (u8 (Z.shiftr v 4)) 8)) 4 = Z.land v 4095.
Proof. change 15 with (Z.ones 4); change 4095 with (Z.ones 12); bits. Qed.

Lemma fat12_even_bits b1 v :
  Z.land (Z.lor (u8 v)
                (Z.shiftl (u8 (Z.lor (Z.land b1 240) (Z.land (u8 (Z.shiftr v 8)) 15))) 8))
         4095 = Z.land v 4095.
Proof.
  change 15 with (Z.ones 4); change 4095 with (Z.ones 12).
  change 240 with (Z.shiftl (Z.ones 4) 4); bits.
Qed.

(** The neighbour above an even cluster keeps its entry: the high nibble of
    the shared byte is preserved. *)
Lemma fat12_keep_high b1 v X :
  0 <= b1 < 256 ->
  Z.shiftr (Z.lor (u8 (Z.lor (Z.land b1 240) (Z.land (u8 (Z.shiftr v 8)) 15)))
                  (Z.shiftl X 8)) 4 =
  Z.shiftr (Z.lor b1 (Z.shiftl X 8)) 4.
Proof.
  intros Hb. assert (E : b1 = b1 mod 2 ^ 8) by (rewrite Z.mod_small; lia).
  rewrite E at 2.
  change 15 with (Z.ones 4); change 240 with (Z.shiftl (Z.ones 4) 4); bits.
Qed.

(** The neighbour below an odd cluster keeps its entry: the low nibble of
    the shared byte is preserved. *)
Lemma fat12_keep_low b0 v X :
  Z.land (Z.lor X (Z.shiftl (u8 (Z.lor (Z.land b0 15) (Z.shiftl (u8 v) 4))) 8)) 4095 =
  Z.land (Z.lor X (Z.shiftl b0 8)) 4095.
Proof.
  change 15 with (Z.ones 4); change 4095 with (Z.ones 12).
  rewrite ?u8_pow; Z.bitblast;
    repeat match goal with
           | |- context [Z.testbit ?a ?i] =>
               rewrite (Z.testbit_neg_r a i) by lia
           end; try solve [Z.bitblast_core].
Qed.


Lemma odd_mod2 c : Z.odd c = true -> c mod 2 = 1.
Proof. intros H; rewrite Zmod_odd, H; reflexivity. Qed.

Lemma even_mod2 c : Z.odd c = false -> c mod 2 = 0.
Proof. intros H; rewrite Zmod_odd, H; reflexivity. Qed.

Lemma put_fat12 fs d c v :
  mounted fs -> healthy d -> dev_ok d -> FATFS.fs_type fs = FS_FAT12 ->
  valid_clst fs c ->
  exists fs' d',
    put_fat fs d c v = (FR_OK, fs', d') /\ window_only fs fs' /\ stable fs' d' /\
    fat_entry fs' d' c = Z.land v 4095 /\
    (coherent fs d -> forall c', valid_clst fs c' -> c' <> c ->
                                 fat_entry fs' d' c' = fat_entry fs d c').
Proof.
  intros M Hh Hd T Hc; unfold valid_clst in Hc.
  pose proof (m_fat12 _ M T) as B.
  unfold put_fat.
  replace ((c >=? 2) && (c <? FATFS.n_fatent fs)) with true by (symmetry; lia).
  rewrite T. change (FS_FAT12 =? FS_FAT12) with true. cbv iota zeta.
  assert (Hh2 : 0 <= c / 2 <= c) by (split; [apply Z.div_pos; lia|apply Z.div_le_upper_bound; lia]).
  rewrite (u32_small c) by lia.
  rewrite (u32_small (c + c / 2)) by lia.
  assert (Hbc : 0 <= c + c / 2 < 10000) by lia.
  remember (c + c / 2) as bc eqn:Ebc.
  rewrite (u32_small (bc + 1)) by lia.
  rewrite nz_land1.
  (* first byte *)
  destruct (move_mounted fs d (u32 (FATFS.fatbase fs + bc / SS)) M Hh Hd (u32_range _))
    as (fs1 & d1 & E1 & W1 & Es1 & M1 & Hh1 & Hd1 & HC1).
  rewrite E1.
  destruct (window_only_fields _ _ W1) as (T1 & _ & _ & F1 & _).
  set (b0 := ld (FATFS.win fs1) (bc mod SS)).
  set (n0 := if Z.odd c then u8 (Z.lor (Z.land b0 15) (Z.shiftl (u8 v) 4)) else u8 v).
  assert (Hn0 : 0 <= n0 < 256) by (unfold n0; destruct (Z.odd c); apply u8_range).
  set (w1 := st (FATFS.win fs1) (bc mod SS) n0).
  assert (Sw1 : sector w1) by (apply sector_st; [apply (m_win _ M1)|assumption]).
  destruct (store_stable fs1 d1 w1 M1 Hh1 Hd1 Sw1) as (W1' & S1' & _).
  set (fs1' := FATFS.set_wflag (FATFS.set_win fs1 w1) 1) in *.
  destruct (window_only_fields _ _ W1') as (T1' & _ & _ & F1' & _).
  (* second byte *)
  destruct (stable_move fs1' d1 (u32 (FATFS.fatbase fs1' + (bc + 1) / SS)) S1' (u32_range _))
    as (fs2 & d2 & E2 & W2 & Es2 & S2 & Ew2 & V2).
  rewrite E2.
  destruct (window_only_fields _ _ W2) as (T2 & _ & _ & F2 & _).
  destruct S2 as (M2 & Hh2' & Hd2 & C2).
  set (b1 := ld (FATFS.win fs2) ((bc + 1) mod SS)).
  set (n1 := if Z.odd c then u8 (Z.shiftr v 4)
             else u8 (Z.lor (Z.land b1 240) (Z.land (u8 (Z.shiftr v 8)) 15))).
  assert (Hn1 : 0 <= n1 < 256) by (unfold n1; destruct (Z.odd c); apply u8_range).
  set (w2 := st (FATFS.win fs2) ((bc + 1) mod SS) n1).
  assert (Sw2 : sector w2) by (apply sector_st; [apply (m_win _ M2)|assumption]).
  destruct (store_stable fs2 d2 w2 M2 Hh2' Hd2 Sw2) as (W2' & S2' & _).
  set (fs2' := FATFS.set_wflag (FATFS.set_win fs2 w2) 1) in *.
  destruct (window_only_fields _ _ W2') as (T2' & _ & _ & F2' & _).
  (* the bytes of the FAT afterwards *)
  assert (Bytes : forall x, 0 <= x < 2199023255552 ->
            fat_byte fs2' d2 x =
            if x =? bc + 1 then n1 else if x =? bc then n0 else fat_byte fs1 d1 x).
  { intros x Hx. unfold fs2', w2.
    rewrite poke_byte
      by first [lia | apply (m_win _ M2) | (rewrite Es2, F2; reflexivity)].
    destruct (x =? bc + 1); [reflexivity|].
    rewrite (fat_byte_same_view fs1' d1 fs2 d2) by assumption.
    unfold fs1', w1.
    rewrite poke_byte
      by first [lia | apply (m_win _ M1) | (rewrite Es1, F1; reflexivity)].
    reflexivity. }
  assert (Eb0 : b0 = fat_byte fs1 d1 bc).
  { unfold b0, fat_byte. rewrite F1, <- Es1, view_win; reflexivity. }
  assert (Eb1 : b1 = fat_byte fs1 d1 (bc + 1)).
  { unfold b1. transitivity (fat_byte fs2 d2 (bc + 1)).
    - unfold fat_byte. rewrite F2, <- Es2, view_win; reflexivity.
    - rewrite (fat_byte_same_view fs1' d1 fs2 d2) by assumption.
      unfold fs1', w1.
      rewrite poke_byte
        by first [lia | apply (m_win _ M1) | (rewrite Es1, F1; reflexivity)].
      replace (bc + 1 =? bc) with false by (symmetry; lia). reflexivity. }
  exists fs2', d2; splits; auto.
  - eapply window_only_trans; [|eassumption].
    eapply window_only_trans; [|eassumption].
    eapply window_only_trans; eassumption.
  - unfold fat_entry. rewrite T2', T2, T1', T1, T.
    change (FS_FAT12 =? FS_FAT12) with true. cbv iota zeta.
    rewrite <- Ebc, !Bytes by lia.
    rewrite Z.eqb_refl. replace (bc =? bc + 1) with false by (symmetry; lia).
    rewrite Z.eqb_refl.
    unfold n0, n1; destruct (Z.odd c).
    + apply fat12_odd_bits.
    + apply fat12_even_bits.
  - intros C c' Hc' N; unfold valid_clst in Hc'.
    destruct (HC1 C) as (_ & V1).
    assert (Old : forall x, fat_byte fs1 d1 x = fat_byte fs d x)
      by (intros; apply fat_byte_same_view; assumption).
    assert (Hh3 : 0 <= c' / 2 <= c')
      by (split; [apply Z.div_pos; lia|apply Z.div_le_upper_bound; lia]).
    unfold fat_entry. rewrite T2', T2, T1', T1, T.
    change (FS_FAT12 =? FS_FAT12) with true. cbv iota zeta.
    rewrite !Bytes, !Old by lia.
    rewrite Old in Eb0, Eb1.
    destruct (Z.odd c) eqn:Oc; [apply odd_mod2 in Oc|apply even_mod2 in Oc];
      (destruct (Z.odd c') eqn:Oc'; [apply odd_mod2 in Oc'|apply even_mod2 in Oc']).
    + (* both odd: no shared byte *)
      replace (c' + c' / 2 =? bc + 1) with false by (symmetry; Z.to_euclidean_division_equations; lia).
      replace (c' + c' / 2 =? bc) with false by (symmetry; Z.to_euclidean_division_equations; lia).
      replace (c' + c' / 2 + 1 =? bc + 1) with false by (symmetry; Z.to_euclidean_division_equations; lia).
      replace (c' + c' / 2 + 1 =? bc) with false by (symmetry; Z.to_euclidean_division_equations; lia).
      reflexivity.
    + (* c odd, c' even: shared when c' = c - 1 *)
      replace (c' + c' / 2 =? bc + 1) with false by (symmetry; Z.to_euclidean_division_equations; lia).
      replace (c' + c' / 2 =? bc) with false by (symmetry; Z.to_euclidean_division_equations; lia).
      replace (c' + c' / 2 + 1 =? bc + 1) with false by (symmetry; Z.to_euclidean_division_equations; lia).
      destruct (Z.eqb_spec (c' + c' / 2 + 1) bc) as [Eq|Ne]; [|reflexivity].
      rewrite Eq, <- Eb0. unfold n0.
      apply fat12_keep_low.
    + (* c even, c' odd: shared when c' = c + 1 *)
      replace (c' + c' / 2 =? bc) with false by (symmetry; Z.to_euclidean_division_equations; lia).
      replace (c' + c' / 2 + 1 =? bc + 1) with false by (symmetry; Z.to_euclidean_division_equations; lia).
      replace (c' + c' / 2 + 1 =? bc) with false by (symmetry; Z.to_euclidean_division_equations; lia).
      destruct (Z.eqb_spec (c' + c' / 2) (bc + 1)) as [Eq|Ne]; [|reflexivity].
      rewrite Eq, <- Eb1. unfold n1.
      apply fat12_keep_high.
      unfold b1; apply sector_ld, (m_win _ M2).
    + (* both even: no shared byte *)
      replace (c' + c' / 2 =? bc + 1) with false by (symmetry; Z.to_euclidean_division_equations; lia).
      replace (c' + c' / 2 =? bc) with false by (symmetry; Z.to_euclidean_division_equations; lia).
      replace (c' + c' / 2 + 1 =? bc + 1) with false by (symmetry; Z.to_euclidean_division_equations; lia).
      replace (c' + c' / 2 + 1 =? bc) with false by (symmetry; Z.to_euclidean_division_equations; lia).
      reflexivity.
Qed.

(** ** The concrete devices and volumes are well formed *)

Lemma sector_repeat b : 0 <= b < 256 -> sector (repeat b (Z.to_nat 512)).
Proof.
  intros Hb; split.
  - rewrite repeat_length; reflexivity.
  - intros n; destruct (Nat.lt_ge_cases n (Z.to_nat 512)).
    + rewrite nth_repeat_lt by assumption; assumption.
    + rewrite nth_overflow by (rewrite repeat_length; assumption); lia.
Qed.

Lemma healthy_blank_dev : healthy blank_dev.
Proof. repeat split. Qed.

Lemma dev_ok_blank_dev : dev_ok blank_dev.
Proof. intros s; apply sector_repeat; lia. Qed.

Lemma healthy_ones_dev : healthy ones_dev.
Proof. repeat split. Qed.

Lemma dev_ok_ones_dev : dev_ok ones_dev.
Proof. intros s; apply sector_repeat; lia. Qed.

Lemma mounted_vol12 : mounted vol12.
Proof.
  constructor; simpl;
    first [ lia | discriminate | reflexivity | (intros; lia)
          | (intros H; discriminate H) | (apply sector_repeat; lia)
          | (exists 0; split; [lia|reflexivity]) | auto ].
Qed.

Lemma mounted_vol12c4 : mounted vol12c4.
Proof.
  constructor; simpl;
    first [ lia | discriminate | reflexivity | (intros; lia)
          | (intros H; discriminate H) | (apply sector_repeat; lia)
          | (exists 2; split; [lia|reflexivity]) | auto ].
Qed.

Lemma mounted_vol32 : mounted vol32.
Proof.
  constructor; simpl;
    first [ lia | discriminate | reflexivity | (intros; lia)
          | (intros H; discriminate H) | (apply sector_repeat; lia)
          | (exists 0; split; [lia|reflexivity]) | auto ].
Qed.

Lemma stable_vol12 : stable vol12 blank_dev.
Proof.
  unfold stable; splits.
  - exact mounted_vol12.
  - exact healthy_blank_dev.
  - exact dev_ok_blank_dev.
  - intros _; reflexivity.
Qed.

Lemma stable_vol32 : stable vol32 ones_dev.
Proof.
  unfold stable; splits.
  - exact mounted_vol32.
  - exact healthy_ones_dev.
  - exact dev_ok_ones_dev.
  - intros _; reflexivity.
Qed.

(** ** The cluster mapper *)

(** C4, amended. On a mounted volume whose data area lies inside the 32-bit
    sector address space, [clst2sect] maps every cluster of [2, n_fatent) to
    [database + (clst - 2) * csize] and every other cluster number, 0 and 1
    included, to the invalid marker 0; no valid cluster is mapped to the
    marker; the map is injective on [2, n_fatent) and the sector ranges of
    two clusters do not overlap; its result depends on three fields of the
    volume object only (it takes no device and returns none: no I/O). *)
Theorem clst2sect_spec (fs : FATFS.t) :
  mounted fs -> data_area_fits fs ->
  (forall c, valid_clst fs c ->
             clst2sect fs c = FATFS.database fs + (c - 2) * FATFS.csize fs) /\
  (forall c, 0 <= c < 4294967296 -> ~ valid_clst fs c -> clst2sect fs c = 0) /\
  (forall c, valid_clst fs c -> clst2sect fs c <> 0) /\
  (forall c1 c2, valid_clst fs c1 -> valid_clst fs c2 ->
                 clst2sect fs c1 = clst2sect fs c2 -> c1 = c2) /\
  (forall c1 c2, valid_clst fs c1 -> valid_clst fs c2 -> c1 < c2 ->
                 clst2sect fs c1 + FATFS.csize fs <= clst2sect fs c2) /\
  (forall fs', FATFS.n_fatent fs' = FATFS.n_fatent fs ->
               FATFS.database fs' = FATFS.database fs ->
               FATFS.csize fs' = FATFS.csize fs ->
               forall c, clst2sect fs' c = clst2sect fs c).
Proof.
  intros M (Hdb & Hfit).
  pose proof (m_fatent _ M) as Hn.
  destruct (m_csize _ M) as (k & Hk & Ek).
  assert (Hcs : 0 < FATFS.csize fs) by (rewrite Ek; apply Z.pow_pos_nonneg; lia).
  assert (Valid : forall c, valid_clst fs c ->
            clst2sect fs c = FATFS.database fs + (c - 2) * FATFS.csize fs).
  { intros c Hc; unfold valid_clst in Hc; unfold clst2sect.
    rewrite (u32_small (c - 2)), (u32_small (FATFS.n_fatent fs - 2)) by lia.
    replace (c - 2 >=? FATFS.n_fatent fs - 2) with false by (symmetry; lia).
    assert (0 <= FATFS.csize fs * (c - 2) <= FATFS.csize fs * (FATFS.n_fatent fs - 3)) by nia.
    rewrite (u32_small (FATFS.csize fs * (c - 2))) by nia.
    rewrite u32_small by nia. ring. }
  splits.
  - exact Valid.
  - intros c Hc Hv; unfold valid_clst in Hv; unfold clst2sect.
    rewrite (u32_small (FATFS.n_fatent fs - 2)) by lia.
    destruct (Z.ltb_spec c 2) as [Lt|Ge].
    + replace (u32 (c - 2)) with (c - 2 + 4294967296)
        by (unfold u32; Z.to_euclidean_division_equations; lia).
      replace (c - 2 + 4294967296 >=? FATFS.n_fatent fs - 2) with true by (symmetry; lia).
      reflexivity.
    + rewrite (u32_small (c - 2)) by lia.
      replace (c - 2 >=? FATFS.n_fatent fs - 2) with true by (symmetry; lia).
      reflexivity.
  - intros c Hc; rewrite (Valid c Hc); unfold valid_clst in Hc; nia.
  - intros c1 c2 H1 H2; rewrite (Valid c1 H1), (Valid c2 H2); nia.
  - intros c1 c2 H1 H2 Lt; rewrite (Valid c1 H1), (Valid c2 H2); nia.
  - intros fs' E1 E2 E3 c; unfold clst2sect; rewrite E1, E2, E3; reflexivity.
Qed.

Lemma clst2sect_spec_witness :
  (forall c, valid_clst vol12c4 c ->
             clst2sect vol12c4 c = FATFS.database vol12c4 + (c - 2) * FATFS.csize vol12c4) /\
  (forall c, 0 <= c < 4294967296 -> ~ valid_clst vol12c4 c -> clst2sect vol12c4 c = 0) /\
  (forall c, valid_clst vol12c4 c -> clst2sect vol12c4 c <> 0) /\
  (forall c1 c2, valid_clst vol12c4 c1 -> valid_clst vol12c4 c2 ->
                 clst2sect vol12c4 c1 = clst2sect vol12c4 c2 -> c1 = c2) /\
  (forall c1 c2, valid_clst vol12c4 c1 -> valid_clst vol12c4 c2 -> c1 < c2 ->
                 clst2sect vol12c4 c1 + FATFS.csize vol12c4 <= clst2sect vol12c4 c2) /\
  (forall fs', FATFS.n_fatent fs' = FATFS.n_fatent vol12c4 ->
               FATFS.database fs' = FATFS.database vol12c4 ->
               FATFS.csize fs' = FATFS.csize vol12c4 ->
               forall c, clst2sect fs' c = clst2sect vol12c4 c).
Proof.
  apply (clst2sect_spec vol12c4).
  - exact mounted_vol12c4.
  - unfold data_area_fits; simpl; lia.
Defined.

(** ** Round trip and frame of the FAT accessor *)

Lemma land_ones_small v n : 0 <= n -> 0 <= v < 2 ^ n -> Z.land v (Z.ones n) = v.
Proof. intros Hn Hv; rewrite Z.land_ones by assumption; apply Z.mod_small; assumption. Qed.

Lemma valid_clst_window_only fs fs' c :
  window_only fs fs' -> valid_clst fs c -> valid_clst fs' c.
Proof.
  intros W; destruct (window_only_fields _ _ W) as (_ & _ & E & _).
  unfold valid_clst; rewrite E; auto.
Qed.

(** Writing a FAT entry on a healthy device: the entry then reads as the
    value, cut to the width of the FAT, and no other entry has changed. *)
Lemma put_fat_stable fs d c v :
  mounted fs -> healthy d -> dev_ok d -> valid_clst fs c ->
  exists fs' d',
    put_fat fs d c v = (FR_OK, fs', d') /\ window_only fs fs' /\ stable fs' d' /\
    fat_entry fs' d' c = Z.land v (Z.ones (fat_width fs)) /\
    (coherent fs d -> forall c', valid_clst fs c' -> c' <> c ->
                                 fat_entry fs' d' c' = fat_entry fs d c').
Proof.
  intros M Hh Hd Hc.
  destruct (m_type _ M) as [T|[T|T]]; unfold fat_width; rewrite T.
  - apply put_fat12; assumption.
  - destruct (put_fat16 fs d c v M Hh Hd T Hc) as (fs' & d' & E & W & S & He & Hf).
    exists fs', d'; splits; auto.
    rewrite He; change (FS_FAT16 =? FS_FAT12) with false.
    change (FS_FAT16 =? FS_FAT16) with true; cbv iota.
    rewrite Z.land_ones by lia; reflexivity.
  - destruct (put_fat32 fs d c v M Hh Hd T Hc) as (fs' & d' & E & W & S & He & Hf).
    exists fs', d'; splits; auto.
    intros C c' Hc' N; apply (Hf C); assumption.
Qed.

(** C2. On a mounted volume and a healthy device, for every cluster [c] of
    [2, n_fatent) and every value [v] that fits the FAT width (12, 16 or 28
    bits), [put_fat] succeeds and [get_fat] of [c] then yields [v], also
    when the FAT12 entry lies across a sector boundary; when the window was
    coherent, the entry of every other cluster reads as before the put, in
    particular that of the FAT12 neighbour whose nibble shares a byte with
    the entry written. *)
Theorem put_fat_get_fat (fs : FATFS.t) (d : Device) (c v : Z) :
  mounted fs -> healthy d -> dev_ok d ->
  valid_clst fs c -> 0 <= v < 2 ^ fat_width fs ->
  exists fs1 d1,
    put_fat fs d c v = (FR_OK, fs1, d1) /\
    fst (fst (get_fat fs1 d1 c)) = v /\
    (coherent fs d ->
     forall c', valid_clst fs c' -> c' <> c ->
                fst (fst (get_fat fs1 d1 c')) = fst (fst (get_fat fs d c'))).
Proof.
  intros M Hh Hd Hc Hv.
  destruct (put_fat_stable fs d c v M Hh Hd Hc) as (fs1 & d1 & E & W & S1 & He & Hf).
  exists fs1, d1; splits; auto.
  - destruct (get_fat_stable fs1 d1 c S1 (valid_clst_window_only _ _ _ W Hc))
      as (fs2 & d2 & G & _).
    rewrite G; simpl; rewrite He.
    apply land_ones_small; [|assumption].
    unfold fat_width; destruct (_ =? _); [lia|destruct (_ =? _); lia].
  - intros C c' Hc' N.
    destruct (get_fat_stable fs1 d1 c' S1 (valid_clst_window_only _ _ _ W Hc'))
      as (fs2 & d2 & G & _).
    assert (S : stable fs d) by (unfold stable; auto).
    destruct (get_fat_stable fs d c' S Hc') as (fs3 & d3 & G' & _).
    rewrite G, G'; simpl; apply Hf; assumption.
Qed.

(** Cluster 341 of a FAT12 volume has its entry in the last byte of one
    sector and the first byte of the next. *)
Lemma put_fat_get_fat_witness :
  (341 + 341 / 2) mod SS = 511 /\
  exists fs1 d1,
    put_fat vol12 blank_dev 341 2748 = (FR_OK, fs1, d1) /\
    fst (fst (get_fat fs1 d1 341)) = 2748 /\
    (coherent vol12 blank_dev ->
     forall c', valid_clst vol12 c' -> c' <> 341 ->
                fst (fst (get_fat fs1 d1 c')) = fst (fst (get_fat vol12 blank_dev c'))).
Proof.
  split; [reflexivity|].
  apply (put_fat_get_fat vol12 blank_dev 341 2748).
  - exact mounted_vol12.
  - exact healthy_blank_dev.
  - exact dev_ok_blank_dev.
  - unfold valid_clst; simpl; lia.
  - simpl; lia.
Defined.

(** C9. On a FAT32 volume in a stable state, [put_fat] of a cluster of
    [2, n_fatent) succeeds, and the stored 32-bit word of the entry is then
    the low 28 bits of the value combined with the top 4 bits that the word
    had before: the top 4 bits are unchanged, the low 28 bits are those of
    the value, and the stored word of every other entry is unchanged. *)
Theorem put_fat_fat32_reserved_bits (fs : FATFS.t) (d : Device) (c v : Z) :
  stable fs d -> FATFS.fs_type fs = FS_FAT32 -> valid_clst fs c ->
  exists fs1 d1,
    put_fat fs d c v = (FR_OK, fs1, d1) /\
    fat32_raw fs1 d1 c =
      Z.lor (Z.land v 268435455) (Z.land (fat32_raw fs d c) 4026531840) /\
    Z.land (fat32_raw fs1 d1 c) 4026531840 = Z.land (fat32_raw fs d c) 4026531840 /\
    Z.land (fat32_raw fs1 d1 c) 268435455 = Z.land v 268435455 /\
    (forall c', valid_clst fs c' -> c' <> c -> fat32_raw fs1 d1 c' = fat32_raw fs d c').
Proof.
  intros (M & Hh & Hd & C) T Hc.
  destruct (put_fat32 fs d c v M Hh Hd T Hc) as (fs1 & d1 & E & W & S1 & He & Hf).
  destruct (Hf C) as (Raw & Others).
  exists fs1, d1; splits; auto.
  - rewrite Raw. change 268435455 with (Z.ones 28).
    change 4026531840 with (Z.shiftl (Z.ones 4) 28). bits.
  - rewrite Raw. change 268435455 with (Z.ones 28).
    change 4026531840 with (Z.shiftl (Z.ones 4) 28). bits.
  - intros c' Hc' N; apply Others; assumption.
Qed.

Lemma put_fat_fat32_reserved_bits_witness :
  fat32_raw vol32 ones_dev 5 = 4294967295 /\
  exists fs1 d1,
    put_fat vol32 ones_dev 5 6 = (FR_OK, fs1, d1) /\
    fat32_raw fs1 d1 5 =
      Z.lor (Z.land 6 268435455) (Z.land (fat32_raw vol32 ones_dev 5) 4026531840) /\
    Z.land (fat32_raw fs1 d1 5) 4026531840 =
      Z.land (fat32_raw vol32 ones_dev 5) 4026531840 /\
    Z.land (fat32_raw fs1 d1 5) 268435455 = Z.land 6 268435455 /\
    (forall c', valid_clst vol32 c' -> c' <> 5 ->
                fat32_raw fs1 d1 c' = fat32_raw vol32 ones_dev c').
Proof.
  split; [vm_compute; reflexivity|].
  apply (put_fat_fat32_reserved_bits vol32 ones_dev 5 6).
  - exact stable_vol32.
  - reflexivity.
  - unfold valid_clst; simpl; lia.
Defined.

(** ** Rewinding a directory *)

(** C10. [f_readdir] on an open iterator with a null [fno] returns [FR_OK],
    sets the index to 0 and leaves the other fields of the iterator, the
    volume object and the device as they were: nothing is read (the log of
    the device is the same). *)
Theorem f_readdir_null_rewinds (fs : FATFS.t) (d : Device) (dp : DIR.t) :
  DIR.fs dp = true ->
  f_readdir fs d dp None =
    (FR_OK, fs, d, DIR.mk (DIR.fs dp) (DIR.id dp) 0 (DIR.sclust dp), None) /\
  io_log (snd (fst (fst (f_readdir fs d dp None)))) = io_log d.
Proof.
  intros H; unfold f_readdir, DIR.set_index; rewrite H; simpl; split; reflexivity.
Qed.

Lemma f_readdir_null_rewinds_witness :
  DIR.index dp7 = 7 /\
  f_readdir vol12 blank_dev dp7 None =
    (FR_OK, vol12, blank_dev, DIR.mk (DIR.fs dp7) (DIR.id dp7) 0 (DIR.sclust dp7), None) /\
  io_log (snd (fst (fst (f_readdir vol12 blank_dev dp7 None)))) = io_log blank_dev.
Proof.
  split; [reflexivity|].
  apply (f_readdir_null_rewinds vol12 blank_dev dp7); reflexivity.
Defined.

(** ** The signature check of the mount *)

(** [check_fs] on a healthy device decides on the word at offset
    [BS_BootSig - 2] = 36 and on the two type tags. *)
Lemma check_fs_healthy fs d sect :
  healthy d -> dev_ok d -> FATFS.pdrv fs = 0 -> sector (FATFS.win fs) ->
  0 <= sect < 4294967295 ->
  fst (fst (check_fs fs d sect)) =
    if negb (LD_WORD (sd_data d sect) 36 =? 43605) then FR_NO_FILESYSTEM
    else if (Z.land (LD_DWORD (sd_data d sect) 54) 16777215 =? 5521734)
            || (Z.land (LD_DWORD (sd_data d sect) 82) 16777215 =? 5521734)
         then FR_OK else FR_NO_FILESYSTEM.
Proof.
  intros Hh Hd Hp Hw Hs; unfold check_fs.
  set (fs0 := FATFS.set_winsect (FATFS.set_wflag fs 0) (u32 (0 - 1))).
  assert (Hp0 : FATFS.pdrv fs0 = 0) by (destruct fs; exact Hp).
  assert (Hw0 : sector (FATFS.win fs0)) by (destruct fs; exact Hw).
  destruct (move_window_healthy fs0 d sect Hh Hd Hp0 Hw0)
    as (fs1 & d1 & E & _ & _ & _ & _ & _ & _ & Hne & _).
  rewrite E.
  assert (Ews : FATFS.winsect fs0 = 4294967295) by (unfold fs0; destruct fs; reflexivity).
  assert (N : sect <> FATFS.winsect fs0) by lia.
  destruct (Hne N) as (_ & Ew).
  assert (Ed : sd_data d1 sect = sd_data d sect).
  { unfold move_window in E.
    replace (sect =? FATFS.winsect fs0) with false in E by (symmetry; apply Z.eqb_neq; exact N).
    simpl negb in E; cbv iota in E; unfold sync_window in E.
    replace (nz (FATFS.wflag fs0)) with false in E by (destruct fs; reflexivity).
    cbv iota in E; rewrite Hp0, disk_read_healthy in E by assumption.
    simpl in E; inversion E; destruct d; reflexivity. }
  rewrite Ew, Ed.
  change (BS_BootSig - 2) with 36; change BS_FilSysType with 54.
  change BS_FilSysType32 with 82.
  destruct (LD_WORD (sd_data d sect) 36 =? 43605); simpl; [|reflexivity].
  destruct (Z.land (LD_DWORD (sd_data d sect) 54) 16777215 =? 5521734); simpl;
    [reflexivity|].
  destruct (Z.land (LD_DWORD (sd_data d sect) 82) 16777215 =? 5521734); reflexivity.
Qed.

(** C3 fails on the code. The boot sector [boot_unsigned] has no signature
    at offset 0x1FE, and [f_mount] accepts it and mounts a FAT12 volume; the
    boot sector [boot_signed] of the same volume has the signature 0xAA55 at
    offset 0x1FE and a FAT type tag, and [f_mount] rejects it with
    [FR_NO_FILESYSTEM]: [check_fs] reads the signature at offset 36. *)
Theorem check_fs_reads_signature_at_36 :
  (LD_WORD boot_unsigned 510 = 0 /\
   exists fs d Fsid,
     f_mount None 0 (card_with boot_unsigned) (Some fresh_fs) drive0 1
       = (FR_OK, Some fs, Fsid, d) /\
     FATFS.fs_type fs = FS_FAT12 /\ FATFS.n_fatent fs = 400) /\
  (LD_WORD boot_signed 510 = 43605 /\
   Z.land (LD_DWORD boot_signed 54) 16777215 = 5521734 /\
   exists fs d Fsid,
     f_mount None 0 (card_with boot_signed) (Some fresh_fs) drive0 1
       = (FR_NO_FILESYSTEM, Some fs, Fsid, d)) /\
  (fst (fst (check_fs fresh_fs (dev_set_Stat (card_with boot_unsigned) 0) 0)) = FR_OK /\
   fst (fst (check_fs fresh_fs (dev_set_Stat (card_with boot_signed) 0) 0))
     = FR_NO_FILESYSTEM).
Proof.
  split; [|split].
  - split; [vm_compute; reflexivity|].
    eexists; eexists; eexists; split; [vm_compute; reflexivity|].
    split; reflexivity.
  - split; [vm_compute; reflexivity|].
    split; [vm_compute; reflexivity|].
    eexists; eexists; eexists; vm_compute; reflexivity.
  - split; vm_compute; reflexivity.
Qed.

(** ** The name conversion of the directory lookup *)


Lemma upcase_base_char c : base_char c -> base_char (upcase c).
Proof.
  unfold base_char, upcase, u8; intros (Hc & Hd).
  destruct ((97 <=? c) && (c <=? 122)) eqn:E.
  - rewrite Z.mod_small by lia. lia.
  - rewrite Z.mod_small by lia. lia.
Qed.

Lemma upcase_idem c : 0 <= c < 256 -> upcase (upcase c) = upcase c.
Proof.
  unfold upcase, u8; intros Hc.
  destruct ((97 <=? c) && (c <=? 122)) eqn:E.
  - rewrite (Z.mod_small (c - 32)) by lia.
    replace ((97 <=? c - 32) && (c - 32 <=? 122)) with false by (symmetry; lia).
    apply Z.mod_small; lia.
  - rewrite (Z.mod_small c) by lia. rewrite E. apply Z.mod_small; lia.
Qed.

Lemma upcase_nz c : 0 <= c < 256 -> nz (upcase c) = nz c.
Proof.
  unfold upcase, u8, nz; intros Hc.
  destruct ((97 <=? c) && (c <=? 122)) eqn:E; rewrite Z.mod_small by lia.
  - replace (c - 32 =? 0) with false by (symmetry; lia).
    replace (c =? 0) with false by (symmetry; lia). reflexivity.
  - reflexivity.
Qed.

Lemma upcase_dot c : 0 <= c < 256 -> (upcase c =? 46) = (c =? 46).
Proof.
  unfold upcase, u8; intros Hc.
  destruct ((97 <=? c) && (c <=? 122)) eqn:E; rewrite Z.mod_small by lia.
  - replace (c - 32 =? 46) with false by (symmetry; lia).
    replace (c =? 46) with false by (symmetry; lia). reflexivity.
  - reflexivity.
Qed.

(** The first loop copies a run of base characters. *)
Lemma sfn_base_app b r sfn k :
  Forall base_char b -> k + Z.of_nat (length b) <= 8 ->
  sfn_base (b ++ r) sfn k =
  sfn_base r (put_list sfn k (map upcase b)) (k + Z.of_nat (length b)).
Proof.
  revert sfn k; induction b as [|c b IH]; intros sfn k Hb Hk.
  - simpl; rewrite Z.add_0_r; reflexivity.
  - inversion Hb as [|? ? (Hc & Hd) Hb']; subst.
    simpl length in Hk; rewrite Nat2Z.inj_succ in Hk.
    cbn [app sfn_base map put_list].
    replace (nz c) with true by (symmetry; apply nz_true; lia).
    replace (c =? 46) with false by (symmetry; lia).
    replace (k <? 8) with true by (symmetry; lia).
    cbn [negb andb]. rewrite IH by (auto; lia).
    simpl length; rewrite Nat2Z.inj_succ. f_equal; lia.
Qed.

Lemma sfn_ext_app e r sfn k :
  Forall ext_char e -> k + Z.of_nat (length e) <= 11 ->
  sfn_ext (e ++ r) sfn k =
  sfn_ext r (put_list sfn k (map upcase e)) (k + Z.of_nat (length e)).
Proof.
  revert sfn k; induction e as [|c e IH]; intros sfn k He Hk.
  - simpl; rewrite Z.add_0_r; reflexivity.
  - inversion He as [|? ? Hc He']; subst. unfold ext_char in Hc.
    simpl length in Hk; rewrite Nat2Z.inj_succ in Hk.
    cbn [app sfn_ext map put_list].
    replace (nz c) with true by (symmetry; apply nz_true; lia).
    replace (k <? 11) with true by (symmetry; lia).
    cbn [andb]. rewrite IH by (auto; lia).
    simpl length; rewrite Nat2Z.inj_succ. f_equal; lia.
Qed.

Lemma sfn_ext_full r sfn : sfn_ext r sfn 11 = sfn.
Proof. destruct r as [|c r]; simpl; [reflexivity|]. destruct (nz c); reflexivity. Qed.

Lemma sfn_base_full r sfn : sfn_base r sfn 8 = (r, sfn).
Proof.
  destruct r as [|c r]; simpl; [reflexivity|].
  destruct (nz c), (c =? 46); reflexivity.
Qed.

Lemma sfn_base_dot r sfn k : sfn_base (46 :: r) sfn k = (46 :: r, sfn).
Proof. simpl; destruct (k <? 8); reflexivity. Qed.

(** What the two loops leave in [sfn]. *)
Lemma put_list_name83 b e :
  (length b <= 8)%nat -> (length e <= 3)%nat ->
  put_list (put_list (repeat 32 11) 0 b) 8 e = pad 8 b ++ pad 3 e.
Proof.
  intros Hb He.
  destruct b as [|b0 [|b1 [|b2 [|b3 [|b4 [|b5 [|b6 [|b7 [|b8 b]]]]]]]]];
    simpl in Hb; try lia;
    destruct e as [|e0 [|e1 [|e2 [|e3 e]]]]; simpl in He; try lia; reflexivity.
Qed.

Lemma make_sfn_dot b e r :
  Forall base_char b -> (length b <= 8)%nat ->
  Forall ext_char e -> (length e <= 3)%nat ->
  (r = [] \/ length e = 3%nat \/ exists r', r = 0 :: r') ->
  make_sfn (b ++ 46 :: e ++ r) = name83 b e.
Proof.
  intros Hb Lb He Le Hr; unfold make_sfn.
  rewrite sfn_base_app by (auto; lia).
  cbn [Z.add]. rewrite sfn_base_dot.
  rewrite Z.eqb_refl.
  rewrite sfn_ext_app by (auto; lia).
  assert (E : sfn_ext r (put_list (put_list (repeat 32 11) 0 (map upcase b)) 8 (map upcase e))
                      (8 + Z.of_nat (length e))
              = put_list (put_list (repeat 32 11) 0 (map upcase b)) 8 (map upcase e)).
  { destruct Hr as [->|[L3|(r' & ->)]].
    - reflexivity.
    - rewrite L3; apply sfn_ext_full.
    - reflexivity. }
  rewrite E. unfold name83.
  apply put_list_name83; rewrite length_map; assumption.
Qed.

Lemma make_sfn_nodot b r :
  Forall base_char b -> (length b <= 8)%nat ->
  (r = [] \/ (length b = 8%nat /\ exists c r', r = c :: r' /\ c <> 46) \/
   exists r', r = 0 :: r') ->
  make_sfn (b ++ r) = name83 b [].
Proof.
  intros Hb Lb Hr; unfold make_sfn.
  rewrite sfn_base_app by (auto; lia).
  cbn [Z.add].
  assert (E : exists r0, sfn_base r (put_list (repeat 32 11) 0 (map upcase b))
                           (Z.of_nat (length b))
                = (r0, put_list (repeat 32 11) 0 (map upcase b)) /\
                (r0 = [] \/ exists c r', r0 = c :: r' /\ c <> 46)).
  { destruct Hr as [->|[(L8 & c & r' & -> & Hc)|(r' & ->)]].
    - exists []; split; [reflexivity|left; reflexivity].
    - exists (c :: r'); split; [rewrite L8; apply sfn_base_full|].
      right; exists c, r'; auto.
    - exists (0 :: r'); split; [reflexivity|].
      right; exists 0, r'; split; [reflexivity|lia]. }
  destruct E as (r0 & -> & Hr0).
  assert (F : (match r0 with
               | [] => put_list (repeat 32 11) 0 (map upcase b)
               | c :: p' => if c =? 46
                            then sfn_ext p' (put_list (repeat 32 11) 0 (map upcase b)) 8
                            else put_list (repeat 32 11) 0 (map upcase b)
               end) = put_list (repeat 32 11) 0 (map upcase b)).
  { destruct Hr0 as [->|(c & r' & -> & Hc)]; [reflexivity|].
    replace (c =? 46) with false by (symmetry; lia); reflexivity. }
  rewrite F. unfold name83.
  change (put_list (repeat 32 11) 0 (map upcase b))
    with (put_list (put_list (repeat 32 11) 0 (map upcase b)) 8 (map upcase [])).
  apply put_list_name83; [rewrite length_map; assumption|simpl; lia].
Qed.

Lemma sfn_base_upcase p sfn k :
  Forall (fun c => 0 <= c < 256) p ->
  sfn_base (map upcase p) sfn k =
  (map upcase (fst (sfn_base p sfn k)), snd (sfn_base p sfn k)).
Proof.
  revert sfn k; induction p as [|c p IH]; intros sfn k Hp; [reflexivity|].
  inversion Hp as [|? ? Hc Hp']; subst.
  cbn [map sfn_base].
  rewrite upcase_nz, upcase_dot, upcase_idem by assumption.
  destruct (nz c && negb (c =? 46) && (k <? 8)); [apply IH; assumption|reflexivity].
Qed.

Lemma sfn_ext_upcase p sfn k :
  Forall (fun c => 0 <= c < 256) p ->
  sfn_ext (map upcase p) sfn k = sfn_ext p sfn k.
Proof.
  revert sfn k; induction p as [|c p IH]; intros sfn k Hp; [reflexivity|].
  inversion Hp as [|? ? Hc Hp']; subst.
  cbn [map sfn_ext].
  rewrite upcase_nz, upcase_idem by assumption.
  destruct (nz c && (k <? 11)); [apply IH; assumption|reflexivity].
Qed.

Lemma sfn_base_rest_bytes p sfn k :
  Forall (fun c => 0 <= c < 256) p ->
  Forall (fun c => 0 <= c < 256) (fst (sfn_base p sfn k)).
Proof.
  revert sfn k; induction p as [|c p IH]; intros sfn k Hp; [exact Hp|].
  inversion Hp as [|? ? Hc Hp']; subst.
  cbn [sfn_base].
  destruct (nz c && negb (c =? 46) && (k <? 8)); [apply IH; assumption|exact Hp].
Qed.

(** The conversion does not see the case of the letters of the path. *)
Lemma make_sfn_upcase p :
  Forall (fun c => 0 <= c < 256) p -> make_sfn (map upcase p) = make_sfn p.
Proof.
  intros Hp; unfold make_sfn.
  rewrite sfn_base_upcase by assumption.
  pose proof (sfn_base_rest_bytes p (repeat 32 11) 0 Hp) as Hr.
  destruct (sfn_base p (repeat 32 11) 0) as [r sfn]; cbn [fst snd] in *.
  destruct r as [|c r]; [reflexivity|].
  inversion Hr as [|? ? Hc Hr']; subst.
  cbn [map]. rewrite upcase_dot by assumption.
  destruct (c =? 46); [apply sfn_ext_upcase; assumption|reflexivity].
Qed.

(** [f_open] uses the file name through its conversion only. *)
Lemma f_open_by_sfn FatFs d fp p q mode :
  ld p 0 = ld q 0 -> ld p 1 = ld q 1 ->
  make_sfn (path_name p) = make_sfn (path_name q) ->
  f_open FatFs d fp p mode = f_open FatFs d fp q mode.
Proof. intros E0 E1 E; unfold f_open; rewrite E0, E1, E; reflexivity. Qed.

(** C7 fails on the code: "LONGFILENAME.TXT" and "a.text" are not
    rejected, they open the files "LONGFILE" and "A.TEX". *)
Lemma f_open_accepts_long_names :
  (exists fs d fp,
      f_open (Some vol12) two_files_dev fresh_fp (chars "0:LONGFILENAME.TXT") FA_READ
        = (FR_OK, fs, d, fp) /\ FIL.obj_size fp = 5 /\ FIL.sclust fp = 2) /\
  (exists fs d fp,
      f_open (Some vol12) two_files_dev fresh_fp (chars "0:a.text") FA_READ
        = (FR_OK, fs, d, fp) /\ FIL.obj_size fp = 7 /\ FIL.sclust fp = 3).
Proof.
  split; eexists; eexists; eexists; (split; [vm_compute; reflexivity|split; reflexivity]).
Qed.


(** ** What the engine leaves unchanged, on any device *)

Lemma hint_only_refl fs : hint_only fs fs.
Proof. destruct fs; reflexivity. Qed.

Lemma hint_only_trans fs1 fs2 fs3 :
  hint_only fs1 fs2 -> hint_only fs2 fs3 -> hint_only fs1 fs3.
Proof.
  unfold hint_only; intros H12 H23; rewrite H23 at 1; rewrite H12 at 1.
  destruct fs1, fs2, fs3; reflexivity.
Qed.

Lemma window_hint_only fs fs' : window_only fs fs' -> hint_only fs fs'.
Proof.
  unfold window_only, hint_only; intros H; rewrite H at 1.
  destruct fs, fs'; simpl in *. inversion H; subst; reflexivity.
Qed.

Lemma hint_only_set_last_clst fs fs' c :
  hint_only fs fs' -> hint_only fs (FATFS.set_last_clst fs' c).
Proof.
  unfold hint_only; intros H; rewrite H at 1; destruct fs, fs'; reflexivity.
Qed.

Lemma hint_only_fields fs fs' :
  hint_only fs fs' ->
  FATFS.fs_type fs' = FATFS.fs_type fs /\ FATFS.pdrv fs' = FATFS.pdrv fs /\
  FATFS.n_fatent fs' = FATFS.n_fatent fs /\ FATFS.fatbase fs' = FATFS.fatbase fs /\
  FATFS.csize fs' = FATFS.csize fs /\ FATFS.database fs' = FATFS.database fs /\
  FATFS.dirbase fs' = FATFS.dirbase fs /\ FATFS.n_rootdir fs' = FATFS.n_rootdir fs /\
  FATFS.free_clst fs' = FATFS.free_clst fs /\ FATFS.id fs' = FATFS.id fs.
Proof.
  unfold hint_only; intros H; rewrite H; destruct fs, fs'; simpl; repeat split.
Qed.

Lemma sync_window_frame fs d res fs' d' :
  sync_window fs d = (res, fs', d') -> window_only fs fs'.
Proof.
  unfold sync_window.
  destruct (nz (FATFS.wflag fs)).
  - destruct (disk_write d (FATFS.pdrv fs) (FATFS.win fs) (FATFS.winsect fs) 1) as [r d1].
    destruct (negb (is_RES_OK r)); intros H; inversion H; subst;
      apply window_only_set_wflag, window_only_refl.
  - intros H; inversion H; subst; apply window_only_refl.
Qed.

Lemma move_window_frame fs d s res fs' d' :
  move_window fs d s = (res, fs', d') -> window_only fs fs'.
Proof.
  unfold move_window.
  destruct (negb (s =? FATFS.winsect fs)).
  - destruct (sync_window fs d) as [[r fs1] d1] eqn:E.
    apply sync_window_frame in E.
    destruct r;
      try (intros H; inversion H; subst; assumption).
    destruct (disk_read d1 (FATFS.pdrv fs1) s 1) as [[dr data] d2].
    destruct (negb (is_RES_OK dr)); intros H; inversion H; subst.
    + apply window_only_set_winsect; assumption.
    + apply window_only_set_winsect, window_only_set_win; assumption.
  - intros H; inversion H; subst; apply window_only_refl.
Qed.

Ltac use_move E :=
  match goal with
  | |- context [move_window ?fs ?d ?s] =>
      let r := fresh "r" in
      let fs1 := fresh "fs" in
      let d1 := fresh "d" in
      destruct (move_window fs d s) as [[r fs1] d1] eqn:E;
      pose proof (move_window_frame _ _ _ _ _ _ E)
  end.

Ltac close_frame :=
  intros; 
  match goal with
  | H : (_, _, _) = (_, _, _) |- _ => inversion H; subst; clear H
  end;
  eauto using window_only_refl, window_only_trans, window_only_set_win,
    window_only_set_wflag, window_only_set_winsect.

Lemma get_fat_frame fs d c v fs' d' :
  get_fat fs d c = (v, fs', d') -> window_only fs fs'.
Proof.
  unfold get_fat.
  destruct ((c <? 2) || (c >=? FATFS.n_fatent fs)); [close_frame|].
  destruct (FATFS.fs_type fs =? FS_FAT12).
  { use_move E1. destruct r; try close_frame.
    use_move E2. destruct r; close_frame. }
  destruct (FATFS.fs_type fs =? FS_FAT16).
  { use_move E1. destruct r; close_frame. }
  destruct (FATFS.fs_type fs =? FS_FAT32).
  { use_move E1. destruct r; close_frame. }
  close_frame.
Qed.

Lemma put_fat_frame fs d c v res fs' d' :
  put_fat fs d c v = (res, fs', d') -> window_only fs fs'.
Proof.
  unfold put_fat.
  destruct ((c >=? 2) && (c <? FATFS.n_fatent fs)); [|close_frame].
  destruct (FATFS.fs_type fs =? FS_FAT12).
  { use_move E1. destruct r; try close_frame.
    cbv zeta.
    match goal with
    | |- context [move_window ?fsx ?d ?s] =>
        assert (Wx : window_only fs fsx)
          by (apply window_only_set_wflag, window_only_set_win; assumption)
    end.
    use_move E2. destruct r; close_frame. }
  destruct (FATFS.fs_type fs =? FS_FAT16).
  { use_move E1. destruct r; close_frame. }
  destruct (FATFS.fs_type fs =? FS_FAT32).
  { use_move E1. destruct r; close_frame. }
  close_frame.
Qed.


Lemma FRESULT_code_range r : 0 <= FRESULT_code r < 20.
Proof. destruct r; simpl; lia. Qed.

Lemma FRESULT_code_u8 r : u8 (FRESULT_code r) = FRESULT_code r.
Proof. pose proof (FRESULT_code_range r); unfold u8; apply Z.mod_small; lia. Qed.

Lemma FRESULT_code_nz r : r <> FR_OK -> FRESULT_code r <> 0.
Proof. destruct r; simpl; intros; try lia; congruence. Qed.

(** Case analysis along the calls of a function body. *)
Ltac walk :=
  repeat first
    [ match goal with
      | |- context [get_fat ?fs ?d ?c] =>
          let E := fresh "Eg" in
          destruct (get_fat fs d c) as [[? ?] ?] eqn:E; apply get_fat_frame in E
      | |- context [put_fat ?fs ?d ?c ?v] =>
          let E := fresh "Ep" in
          destruct (put_fat fs d c v) as [[? ?] ?] eqn:E; apply put_fat_frame in E
      | |- context [move_window ?fs ?d ?s] =>
          let E := fresh "Em" in
          destruct (move_window fs d s) as [[? ?] ?] eqn:E; apply move_window_frame in E
      | |- context [sync_window ?fs ?d] =>
          let E := fresh "Es" in
          destruct (sync_window fs d) as [[? ?] ?] eqn:E; apply sync_window_frame in E
      | |- context [disk_read ?d ?p ?s ?c] =>
          destruct (disk_read d p s c) as [[? ?] ?]
      | |- context [disk_write ?d ?p ?b ?s ?c] =>
          destruct (disk_write d p b s c) as [? ?]
      end
    | match goal with
      | |- context [if ?b then _ else _] => destruct b eqn:?
      | |- context [match ?r with FR_OK => _ | _ => _ end] => destruct r
      end
    | progress cbv beta iota zeta ].

(** One round of [f_read]: what it changes. *)
Lemma f_read_round_spec fs d fp btr :
  match f_read_round fs d fp btr with
  | More fs' d' fp' rcnt data =>
      window_only fs fs' /\ FIL.err fp' = FIL.err fp /\
      FIL.obj_size fp' = FIL.obj_size fp /\ FIL.flag fp' = FIL.flag fp /\
      FIL.fs fp' = FIL.fs fp /\
      FIL.fptr fp' = u32 (FIL.fptr fp + rcnt) /\
      (u32 (FIL.fptr fp + rcnt) <= FIL.obj_size fp \/
       rcnt = u32 (FIL.obj_size fp - FIL.fptr fp))
  | Stop res fs' d' fp' =>
      window_only fs fs' /\ res <> FR_OK /\ FIL.err fp' = FRESULT_code res /\
      FIL.fptr fp' = FIL.fptr fp /\ FIL.obj_size fp' = FIL.obj_size fp /\
      FIL.flag fp' = FIL.flag fp /\ FIL.fs fp' = FIL.fs fp
  | Diverge => False
  end.
Proof.
  unfold f_read_round, ABORT. walk.
  all: try rewrite FRESULT_code_u8.
  all: splits; try reflexivity; try discriminate;
    eauto using window_only_refl, window_only_trans.
  all: try (destruct fp; reflexivity).
  all: try (destruct fp; simpl in *; lia).
Qed.


Lemma find_free_frame fuel fs d scl clst :
  match find_free fuel fs d scl clst with
  | Some (FreeAt _ fs' _) => window_only fs fs'
  | Some (NoFree fs' _) => window_only fs fs'
  | None => True
  end.
Proof.
  revert fs d clst; induction fuel as [|fuel IH]; intros fs d clst; [exact I|].
  cbn [find_free]. cbv zeta.
  destruct ((clst >=? FATFS.n_fatent fs) &&
            ((if clst >=? FATFS.n_fatent fs then 2 else clst) =? scl)).
  - apply window_only_refl.
  - destruct (get_fat fs d (if clst >=? FATFS.n_fatent fs then 2 else clst))
      as [[fat fs1] d1] eqn:E.
    apply get_fat_frame in E.
    destruct (fat =? 0); [assumption|].
    specialize (IH fs1 d1 (u32 ((if clst >=? FATFS.n_fatent fs then 2 else clst) + 1))).
    destruct (find_free fuel fs1 d1 scl _) as [[c fs2 d2|fs2 d2]|];
      eauto using window_only_trans.
Qed.

Ltac use_find :=
  match goal with
  | |- context [find_free ?fuel ?fs ?d ?scl ?clst] =>
      let H := fresh "Hf" in
      pose proof (find_free_frame fuel fs d scl clst) as H;
      destruct (find_free fuel fs d scl clst) as [[? ? ?|? ?]|]
  end.

(** The cluster step of [f_write]: what it changes. *)
Lemma f_write_cluster_spec fuel fs d fp :
  match f_write_cluster fuel fs d fp with
  | Go fs' d' fp' =>
      hint_only fs fs' /\ FIL.err fp' = FIL.err fp /\
      FIL.fptr fp' = FIL.fptr fp /\ FIL.obj_size fp' = FIL.obj_size fp /\
      FIL.flag fp' = FIL.flag fp /\ FIL.fs fp' = FIL.fs fp
  | Halt res fs' d' fp' =>
      hint_only fs fs' /\ res <> FR_OK /\ FIL.err fp' = FRESULT_code res /\
      FIL.fptr fp' = FIL.fptr fp /\ FIL.obj_size fp' = FIL.obj_size fp /\
      FIL.flag fp' = FIL.flag fp /\ FIL.fs fp' = FIL.fs fp
  | Lost => True
  end.
Proof.
  unfold f_write_cluster, ABORT. cbv zeta.
  repeat first [ use_find | progress walk ].
  all: try rewrite FRESULT_code_u8.
  all: splits; try reflexivity; try discriminate; try exact I;
    try (apply hint_only_set_last_clst);
    try (apply window_hint_only);
    eauto using window_only_refl, window_only_trans.
  all: try (destruct fp; reflexivity).
Qed.

(** One round of [f_write]: what it changes. *)
Lemma f_write_round_spec fuel fs d fp wbuff btw :
  match f_write_round fuel fs d fp wbuff btw with
  | More fs' d' fp' wcnt _ =>
      hint_only fs fs' /\ FIL.err fp' = FIL.err fp /\
      FIL.flag fp' = FIL.flag fp /\ FIL.fs fp' = FIL.fs fp /\
      FIL.fptr fp' = u32 (FIL.fptr fp + wcnt) /\
      FIL.obj_size fp' = Z.max (FIL.obj_size fp) (FIL.fptr fp')
  | Stop res fs' d' fp' =>
      hint_only fs fs' /\ res <> FR_OK /\ FIL.err fp' = FRESULT_code res /\
      FIL.fptr fp' = FIL.fptr fp /\ FIL.obj_size fp' = FIL.obj_size fp /\
      FIL.flag fp' = FIL.flag fp /\ FIL.fs fp' = FIL.fs fp
  | Diverge => True
  end.
Proof.
  unfold f_write_round.
  pose proof (f_write_cluster_spec fuel fs d fp) as Hc.
  destruct (f_write_cluster fuel fs d fp) as [fs1 d1 fp1|res fs1 d1 fp1|];
    [|exact Hc|exact I].
  destruct Hc as (H1 & He & Hp & Ho & Hfl & Hfs).
  unfold ABORT. walk.
  all: try rewrite FRESULT_code_u8.
  all: splits; try reflexivity; try discriminate; try congruence.
  all: try (eapply hint_only_trans; [eassumption|]; apply window_hint_only;
            eauto using window_only_refl, window_only_trans, window_only_set_win,
              window_only_set_wflag).
  all: try (destruct fp1; simpl in *; congruence).
  all: try (destruct fp1; simpl in *; subst; lia).
Qed.


(** The loop of [f_read]: the volume changes in its window only, an error
    result is latched in [fp->err], and the offset stays inside the file. *)
Lemma f_read_loop_spec fuel fs d fp btr got res fs' d' fp' got' :
  f_read_loop fuel fs d fp btr got = Some (res, fs', d', fp', got') ->
  window_only fs fs' /\
  (res <> FR_OK -> FIL.err fp' = FRESULT_code res) /\
  (res = FR_OK -> FIL.err fp' = FIL.err fp) /\
  FIL.obj_size fp' = FIL.obj_size fp /\ FIL.flag fp' = FIL.flag fp /\
  FIL.fs fp' = FIL.fs fp /\
  (fptr_in_file fp -> fptr_in_file fp').
Proof.
  revert fs d fp btr got; induction fuel as [|fuel IH]; intros fs d fp btr got;
    cbn [f_read_loop].
  - destruct (negb (btr >? 0));
      [|destruct (FIL.fptr fp >=? FIL.obj_size fp); [|discriminate]];
      intros H; inversion H; subst; splits; auto using window_only_refl; congruence.
  - destruct (negb (btr >? 0)).
    { intros H; inversion H; subst; splits; auto using window_only_refl; congruence. }
    destruct (FIL.fptr fp >=? FIL.obj_size fp) eqn:Guard.
    { intros H; inversion H; subst; splits; auto using window_only_refl; congruence. }
    pose proof (f_read_round_spec fs d fp btr) as R.
    destruct (f_read_round fs d fp btr) as [fs1 d1 fp1 rcnt data|r fs1 d1 fp1|];
      [| |contradiction].
    + destruct R as (W & He & Ho & Hfl & Hfs & Hp & Hc).
      intros H; apply IH in H.
      destruct H as (W' & L1 & L2 & Ho' & Hfl' & Hfs' & Hin).
      splits; [eapply window_only_trans; eassumption | exact L1
              | intros Hr; rewrite (L2 Hr); assumption
              | congruence | congruence | congruence | ].
      * intros (Hr1 & Hr2); apply Hin.
        unfold fptr_in_file; rewrite Ho, Hp.
        pose proof (u32_range (FIL.fptr fp + rcnt)).
        destruct Hc as [Hc| ->]; [lia|].
        rewrite (u32_small (FIL.obj_size fp - FIL.fptr fp)) by lia.
        replace (FIL.fptr fp + (FIL.obj_size fp - FIL.fptr fp)) with (FIL.obj_size fp) by lia.
        rewrite u32_small by lia. lia.
    + destruct R as (W & Hn & He & Hp & Ho & Hfl & Hfs).
      intros H; inversion H; subst; splits; auto; try congruence.
      unfold fptr_in_file; rewrite Hp, Ho; auto.
Qed.

(** The loop of [f_write]: the volume changes in its window and its
    allocation hint only, an error result is latched in [fp->err], and the
    offset stays inside the file. *)
Lemma f_write_loop_spec rounds fuel fs d fp wbuff btw bw res fs' d' fp' bw' :
  f_write_loop rounds fuel fs d fp wbuff btw bw = Some (res, fs', d', fp', bw') ->
  hint_only fs fs' /\
  (res <> FR_OK -> FIL.err fp' = FRESULT_code res) /\
  (res = FR_OK -> FIL.err fp' = FIL.err fp) /\
  FIL.fs fp' = FIL.fs fp /\
  (fptr_in_file fp -> fptr_in_file fp').
Proof.
  revert fs d fp wbuff btw bw; induction rounds as [|rounds IH];
    intros fs d fp wbuff btw bw; cbn [f_write_loop].
  - destruct (negb (btw >? 0)); [|discriminate].
    intros H; inversion H; subst; splits; auto using hint_only_refl; try congruence;
      destruct fp; auto.
  - destruct (negb (btw >? 0)).
    { intros H; inversion H; subst; splits; auto using hint_only_refl; try congruence;
        destruct fp; auto. }
    pose proof (f_write_round_spec fuel fs d fp wbuff btw) as R.
    destruct (f_write_round fuel fs d fp wbuff btw) as [fs1 d1 fp1 wcnt data|r fs1 d1 fp1|];
      [| |discriminate].
    + destruct R as (W & He & Hfl & Hfs & Hp & Ho).
      intros H; apply IH in H.
      destruct H as (W' & L1 & L2 & Hfs' & Hin).
      splits; [eapply hint_only_trans; eassumption | exact L1
              | intros Hr; rewrite (L2 Hr); assumption | congruence | ].
      * intros (Hr1 & Hr2); apply Hin.
        unfold fptr_in_file; rewrite Ho, Hp.
        pose proof (u32_range (FIL.fptr fp + wcnt)). lia.
    + destruct R as (W & Hn & He & Hp & Ho & Hfl & Hfs).
      intros H; inversion H; subst; splits; auto; try congruence.
      unfold fptr_in_file; rewrite Hp, Ho; auto.
Qed.

(** Rounding down to a multiple of the cluster size, as [f_lseek] does it
    with a mask. *)
Lemma cluster_mask x n :
  0 <= x < 4294967296 -> 0 <= n <= 32 ->
  Z.land x (Z.lxor (u32 (2 ^ n - 1)) 4294967295) = x / 2 ^ n * 2 ^ n.
Proof.
  intros Hx Hn.
  assert (P : 0 < 2 ^ n <= 4294967296).
  { split; [apply Z.pow_pos_nonneg; lia|].
    change 4294967296 with (2 ^ 32); apply Z.pow_le_mono_r; lia. }
  rewrite u32_small by lia.
  rewrite <- Z.shiftr_div_pow2, <- Z.shiftl_mul_pow2 by lia.
  replace (2 ^ n - 1) with (Z.ones n) by (rewrite Z.ones_equiv; lia).
  change 4294967295 with (Z.ones 32).
  apply Z.bits_inj'; intros i Hi.
  rewrite Z.land_spec, Z.lxor_spec, !Z.testbit_ones_nonneg by lia.
  destruct (Z.ltb_spec i n) as [Lt|Ge].
  - rewrite Z.shiftl_spec_low by lia.
    replace (i <? 32) with true by (symmetry; lia).
    apply andb_false_r.
  - rewrite Z.shiftl_spec, Z.shiftr_spec by lia.
    replace (i - n + n) with i by lia.
    destruct (Z.ltb_spec i 32) as [Lt|Ge'].
    + apply andb_true_r.
    + rewrite andb_false_r.
      symmetry; apply (Z.bits_above_log2 x i); try lia.
      destruct (Z.eq_dec x 0) as [->|]; [simpl; lia|].
      apply Z.log2_lt_pow2; try lia.
      apply Z.lt_le_trans with (2 ^ 32); [lia|].
      apply Z.pow_le_mono_r; lia.
Qed.

(** The chain walk of [f_lseek]. *)
Lemma f_lseek_walk_spec fuel fs d fp ofs bcs res fs' d' fp' :
  f_lseek_walk fuel fs d fp ofs bcs = Some (res, fs', d', fp') ->
  0 <= bcs -> 0 <= ofs -> 0 <= FIL.fptr fp -> FIL.fptr fp + ofs < 4294967296 ->
  window_only fs fs' /\ FIL.err fp' = FIL.err fp /\
  FIL.obj_size fp' = FIL.obj_size fp /\ FIL.flag fp' = FIL.flag fp /\
  FIL.fs fp' = FIL.fs fp /\
  0 <= FIL.fptr fp' <= FIL.fptr fp + ofs /\
  (res = FR_OK -> FIL.fptr fp' = FIL.fptr fp + ofs).
Proof.
  revert fs d fp ofs; induction fuel as [|fuel IH]; intros fs d fp ofs;
    cbn [f_lseek_walk]; intros H Hb Ho Hp Hs.
  - destruct (negb (ofs >? bcs)); [|discriminate].
    inversion H; subst; splits; auto using window_only_refl;
      try (destruct fp; reflexivity);
      destruct fp; simpl in *; rewrite u32_small by lia; lia.
  - destruct (negb (ofs >? bcs)) eqn:G.
    { inversion H; subst; splits; auto using window_only_refl;
        try (destruct fp; reflexivity);
        destruct fp; simpl in *; rewrite u32_small by lia; lia. }
    destruct (get_fat fs d (FIL.clust fp)) as [[clst fs1] d1] eqn:Eg.
    apply get_fat_frame in Eg.
    destruct ((clst <? 2) || (clst >=? FATFS.n_fatent fs1)).
    + destruct (negb (nz (Z.land (FIL.flag fp) FA_WRITE))).
      * inversion H; subst; splits; auto; try lia; discriminate.
      * inversion H; subst; splits; auto;
          try (destruct fp; reflexivity);
          destruct fp; simpl in *; rewrite u32_small by lia; lia.
    + apply IH in H; try lia.
      * destruct H as (W & He & Hob & Hfl & Hfs & Hr & Hok).
        destruct fp; simpl in *.
        rewrite (u32_small (fptr + bcs)), (u32_small (ofs - bcs)) in * by lia.
        splits; try (eapply window_only_trans; eassumption);
          try congruence; try lia.
        intros R; rewrite (Hok R); lia.
      * apply u32_range.
      * destruct fp; simpl in *; apply u32_range.
      * destruct fp; simpl in *.
        rewrite (u32_small (fptr + bcs)), (u32_small (ofs - bcs)) by lia. lia.
Qed.


Lemma f_lseek_spec fs d fp ofs res fs' d' fp' :
  f_lseek fs d fp ofs = Some (res, fs', d', fp') ->
  (exists k, 0 <= k < 8 /\ FATFS.csize fs = 2 ^ k) ->
  0 <= ofs < 4294967296 ->
  0 <= FIL.fptr fp < 4294967296 -> 0 <= FIL.obj_size fp < 4294967296 ->
  window_only fs fs' /\ FIL.err fp' = FIL.err fp /\
  FIL.obj_size fp' = FIL.obj_size fp /\ FIL.flag fp' = FIL.flag fp /\
  FIL.fs fp' = FIL.fs fp /\
  (((FIL.fs fp = false \/ FIL.err fp <> 0) /\ fp' = fp) \/
   (0 <= FIL.fptr fp' <= lseek_target fp ofs /\
    (res = FR_OK -> FIL.fptr fp' = lseek_target fp ofs))).
Proof.
  intros H (k & Hk & Ek) Hofs Hfp Hob; revert H.
  unfold f_lseek. fold (lseek_target fp ofs).
  assert (HT : 0 <= lseek_target fp ofs < 4294967296)
    by (unfold lseek_target; destruct (_ && _); lia).
  set (T := lseek_target fp ofs) in *.
  destruct (negb (FIL.fs fp)) eqn:A.
  { intros H; inversion H; subst; splits; auto using window_only_refl.
    left; split; [left; apply negb_true_iff; exact A|reflexivity]. }
  destruct (nz (FIL.err fp)) eqn:B.
  { intros H; inversion H; subst; splits; auto using window_only_refl.
    left; split; [right; apply nz_true; exact B|reflexivity]. }
  cbv zeta.
  destruct (T >? 0) eqn:TP.
  2:{ intros H; inversion H; subst; splits; auto using window_only_refl;
        try (destruct fp; reflexivity).
      right; destruct fp; simpl; split; [lia|intros _; lia]. }
  assert (Hbcs : u32 (FATFS.csize fs * SS) = 2 ^ (k + 9)).
  { rewrite Ek; unfold SS, FF_MAX_SS; change 512 with (2 ^ 9).
    rewrite <- Z.pow_add_r by lia.
    apply u32_small; split; [apply Z.pow_nonneg; lia|].
    change 4294967296 with (2 ^ 32); apply Z.pow_lt_mono_r; lia. }
  rewrite Hbcs.
  assert (Pb : 0 < 2 ^ (k + 9)) by (apply Z.pow_pos_nonneg; lia).
  set (bcs := 2 ^ (k + 9)) in *.
  (* the handle and the offset after the first step *)
  assert (Adj : exists fp1 ofs1,
             (if (FIL.fptr fp >? 0) && ((T - 1) / bcs >=? (FIL.fptr fp - 1) / bcs)
              then (FIL.set_fptr (FIL.set_fptr fp 0)
                                 (Z.land (FIL.fptr fp - 1) (Z.lxor (u32 (bcs - 1)) 4294967295)),
                    u32 (T - FIL.fptr
                           (FIL.set_fptr (FIL.set_fptr fp 0)
                              (Z.land (FIL.fptr fp - 1)
                                      (Z.lxor (u32 (bcs - 1)) 4294967295)))))
              else (FIL.set_fptr fp 0, T)) = (fp1, ofs1) /\
             0 <= FIL.fptr fp1 /\ 0 < ofs1 /\ FIL.fptr fp1 + ofs1 = T /\
             FIL.err fp1 = FIL.err fp /\ FIL.obj_size fp1 = FIL.obj_size fp /\
             FIL.flag fp1 = FIL.flag fp /\ FIL.fs fp1 = FIL.fs fp /\
             FIL.sclust fp1 = FIL.sclust fp).
  { destruct ((FIL.fptr fp >? 0) && ((T - 1) / bcs >=? (FIL.fptr fp - 1) / bcs)) eqn:C.
    - eexists; eexists; split; [reflexivity|].
      apply andb_true_iff in C; destruct C as (C1 & C2).
      unfold bcs at 1 2 3 4 5 6 7 8 9.
      rewrite cluster_mask by lia. fold bcs.
      assert (R1 : 0 <= (FIL.fptr fp - 1) / bcs * bcs <= FIL.fptr fp - 1).
      { split; [apply Z.mul_nonneg_nonneg; [apply Z.div_pos|]; lia|].
        rewrite Z.mul_comm; apply Z.mul_div_le; lia. }
      assert (R2 : (FIL.fptr fp - 1) / bcs * bcs <= T - 1).
      { apply Z.le_trans with ((T - 1) / bcs * bcs).
        - apply Z.mul_le_mono_nonneg_r; lia.
        - rewrite Z.mul_comm; apply Z.mul_div_le; lia. }
      destruct fp; simpl in *.
      rewrite u32_small by lia. splits; auto; lia.
    - exists (FIL.set_fptr fp 0), T; split; [reflexivity|].
      destruct fp; simpl in *; splits; auto; lia. }
  destruct Adj as (fp1 & ofs1 & -> & A0 & A1 & A2 & Ae & Ao & Afl & Afs & Asc).
  destruct (FIL.sclust fp1 =? 0).
  - replace (ofs1 >? 0) with true by (symmetry; lia).
    intros H; inversion H; subst; splits; auto using window_only_refl.
    right; split; [lia|discriminate].
  - intros H.
    apply f_lseek_walk_spec in H; try lia;
      try (destruct (FIL.fptr fp1 =? 0); destruct fp1; simpl in *; lia).
    destruct H as (W & He & Hob' & Hfl & Hfs & Hr & Hok).
    assert (E : forall c,
               FIL.fptr (if FIL.fptr fp1 =? 0 then FIL.set_clust fp1 c else fp1) = FIL.fptr fp1
               /\ FIL.err (if FIL.fptr fp1 =? 0 then FIL.set_clust fp1 c else fp1) = FIL.err fp1
               /\ FIL.obj_size (if FIL.fptr fp1 =? 0 then FIL.set_clust fp1 c else fp1)
                  = FIL.obj_size fp1
               /\ FIL.flag (if FIL.fptr fp1 =? 0 then FIL.set_clust fp1 c else fp1)
                  = FIL.flag fp1
               /\ FIL.fs (if FIL.fptr fp1 =? 0 then FIL.set_clust fp1 c else fp1) = FIL.fs fp1)
      by (intros; destruct (FIL.fptr fp1 =? 0); destruct fp1; auto).
    destruct (E (FIL.sclust fp1)) as (E1 & E2 & E3 & E4 & E5).
    rewrite E1 in *; rewrite E2 in *; rewrite E3 in *; rewrite E4 in *; rewrite E5 in *.
    splits; try congruence; auto.
    right; split; [lia|]. intros R; rewrite (Hok R); lia.
Qed.

Lemma f_sync_spec fs d fp res fs' d' fp' :
  f_sync fs d fp = (res, fs', d', fp') ->
  window_only fs fs' /\ FIL.err fp' = FIL.err fp /\ FIL.fptr fp' = FIL.fptr fp /\
  FIL.obj_size fp' = FIL.obj_size fp /\ FIL.fs fp' = FIL.fs fp.
Proof.
  unfold f_sync. walk.
  all: intros H; inversion H; subst; clear H; splits; try reflexivity;
    eauto using window_only_refl, window_only_trans, window_only_set_win,
      window_only_set_wflag.
Qed.

Lemma f_close_spec fs d fp res fs' d' fp' :
  f_close fs d fp = (res, fs', d', fp') ->
  window_only fs fs' /\ FIL.err fp' = FIL.err fp /\ FIL.fptr fp' = FIL.fptr fp /\
  FIL.obj_size fp' = FIL.obj_size fp /\ (FIL.fs fp = true -> FIL.fs fp' = false).
Proof.
  unfold f_close.
  destruct (negb (FIL.fs fp)) eqn:A.
  - intros H; inversion H; subst; splits; auto using window_only_refl.
    intros B; rewrite B in A; discriminate.
  - destruct (f_sync fs d fp) as [[[r fs1] d1] fp1] eqn:E.
    apply f_sync_spec in E; destruct E as (W & He & Hp & Ho & Hfs).
    intros H; inversion H; subst; splits; auto; destruct fp1; auto.
Qed.

Lemma open_search_frame n fs d sfn sect i :
  match open_search n fs d sfn sect i with
  | ScanHit fs' _ _ _ => window_only fs fs'
  | ScanFail r fs' _ => window_only fs fs' /\ r <> FR_OK
  | ScanEnd fs' _ => window_only fs fs'
  end.
Proof.
  revert fs d sect i; induction n as [|n IH]; intros fs d sect i; cbn [open_search];
    [apply window_only_refl|].
  destruct (negb (root_cond fs i)); [apply window_only_refl|].
  cbv zeta.
  destruct ((i >? 0) && (i mod (SS / SZ_DIRE) =? 0)).
  - destruct (move_window fs d (u32 (sect + 1))) as [[r fs1] d1] eqn:E.
    apply move_window_frame in E.
    destruct r; try (split; [assumption|discriminate]).
    repeat match goal with
           | |- context [if ?b then _ else _] => destruct b
           end; try assumption;
      match goal with
      | |- context [open_search n ?a ?b ?c ?e ?f] =>
          specialize (IH a b e f); destruct (open_search n a b c e f);
          try (destruct IH; split); eauto using window_only_trans
      end.
  - repeat match goal with
           | |- context [if ?b then _ else _] => destruct b
           end; try apply window_only_refl; apply IH.
Qed.

Lemma open_free_slot_frame n fs d sect i :
  match open_free_slot n fs d sect i with
  | ScanHit fs' _ _ _ => window_only fs fs'
  | ScanFail r fs' _ => window_only fs fs' /\ r <> FR_OK
  | ScanEnd fs' _ => window_only fs fs'
  end.
Proof.
  revert fs d sect i; induction n as [|n IH]; intros fs d sect i; cbn [open_free_slot];
    [apply window_only_refl|].
  destruct (negb (root_cond fs i)); [apply window_only_refl|].
  cbv zeta.
  destruct ((i >? 0) && (i mod (SS / SZ_DIRE) =? 0)).
  - destruct (move_window fs d (u32 (sect + 1))) as [[r fs1] d1] eqn:E.
    apply move_window_frame in E.
    destruct r; try (split; [assumption|discriminate]).
    repeat match goal with
           | |- context [if ?b then _ else _] => destruct b
           end; try assumption;
      match goal with
      | |- context [open_free_slot n ?a ?b ?e ?f] =>
          specialize (IH a b e f); destruct (open_free_slot n a b e f);
          try (destruct IH; split); eauto using window_only_trans
      end.
  - repeat match goal with
           | |- context [if ?b then _ else _] => destruct b
           end; try apply window_only_refl; apply IH.
Qed.

Lemma LD_DWORD_range a p : 0 <= LD_DWORD a p < 4294967296.
Proof. unfold LD_DWORD; apply u32_range. Qed.

(** [f_open]: the volume changes in its window only; a handle that was
    opened starts at offset 0 with no error; a handle that was not is the
    old one, detached. *)
Lemma f_open_spec FatFs d fp path mode res FatFs' d' fp' :
  f_open FatFs d fp path mode = (res, FatFs', d', fp') ->
  match FatFs, FatFs' with
  | Some fs, Some fs' => window_only fs fs'
  | None, None => True
  | _, _ => False
  end /\
  (res = FR_OK ->
   FIL.fs fp' = true /\ FIL.err fp' = 0 /\ FIL.fptr fp' = 0 /\
   0 <= FIL.obj_size fp' < 4294967296 /\ FIL.flag fp' = u8 mode) /\
  (res <> FR_OK -> fp' = FIL.set_fs fp false).
Proof.
  unfold f_open. cbv zeta.
  destruct ((ld path 0 - 48 <? 0) || (ld path 0 - 48 >=? FF_VOLUMES)).
  { intros H; inversion H; subst; splits; try discriminate; auto.
    destruct FatFs'; auto using window_only_refl. }
  destruct (negb (ld path 1 =? 58)).
  { intros H; inversion H; subst; splits; try discriminate; auto.
    destruct FatFs'; auto using window_only_refl. }
  destruct FatFs as [fs|].
  2:{ intros H; inversion H; subst; splits; try discriminate; auto. }
  destruct (negb (nz (FATFS.fs_type fs))).
  { intros H; inversion H; subst; splits; try discriminate; auto using window_only_refl. }
  destruct (move_window fs d (root_sect fs)) as [[r fs1] d1] eqn:E1.
  apply move_window_frame in E1.
  destruct r;
    try (intros H; inversion H; subst; splits; try discriminate; auto; congruence).
  pose proof (open_search_frame (Z.to_nat (root_bound fs1)) fs1 d1
                (make_sfn (path_name path)) (root_sect fs) 0) as Hs.
  destruct (open_search _ fs1 d1 _ _ 0) as [fs2 d2 sect dir|r fs2 d2|fs2 d2].
  - intros H; inversion H; subst; splits; eauto using window_only_trans.
    + intros _; simpl; splits; auto; apply LD_DWORD_range.
    + congruence.
  - destruct Hs as (Hs & Hr).
    intros H; inversion H; subst; splits; eauto using window_only_trans; congruence.
  - destruct (nz (Z.land mode (Z.lor (Z.lor FA_CREATE_ALWAYS FA_CREATE_NEW) FA_OPEN_ALWAYS))).
    2:{ intros H; inversion H; subst; splits; eauto using window_only_trans;
          try discriminate; auto. }
    destruct (move_window fs2 d2 (root_sect fs2)) as [[r fs3] d3] eqn:E3.
    apply move_window_frame in E3.
    assert (W3 : window_only fs fs3) by eauto using window_only_trans.
    destruct r;
      try (intros H; inversion H; subst; splits; try discriminate; auto; congruence).
    pose proof (open_free_slot_frame (Z.to_nat (root_bound fs3)) fs3 d3
                  (root_sect fs2) 0) as Hf.
    destruct (open_free_slot _ fs3 d3 _ 0) as [fs4 d4 sect dir|r fs4 d4|fs4 d4].
    + match goal with
      | |- context [sync_window ?a ?b] =>
          destruct (sync_window a b) as [[r fs5] d5] eqn:E5;
          apply sync_window_frame in E5
      end.
      assert (W5 : window_only fs fs5).
      { eapply window_only_trans; [|exact E5].
        apply window_only_set_wflag, window_only_set_win.
        eauto using window_only_trans. }
      destruct r; intros H; inversion H; subst; splits; try discriminate; auto;
        try congruence.
      intros _; simpl; splits; auto; lia.
    + destruct Hf as (Hf & Hr).
      intros H; inversion H; subst; splits; eauto using window_only_trans; congruence.
    + intros H; inversion H; subst; splits; eauto using window_only_trans;
        try discriminate; auto.
Qed.

(* ===================================================================== *)
(** ** The error flag of a handle *)
(* ===================================================================== *)

(** C5, amended.  When [f_read] or [f_write] ends with an error after its
    entry checks, the code of that error is stored in the error flag of the
    handle and is not zero.  While the flag is set, [f_read], [f_write] and
    [f_lseek] return [FR_INT_ERR] at once and leave the volume, the device
    and the handle as they were.  [f_sync] and [f_close] do not consult the
    flag and leave it as it is, [f_close] detaches the handle, and a
    successful [f_open] clears it. *)
Theorem error_flag_latch :
  (forall fs d fp btr res fs' d' fp' got,
      f_read fs d fp btr = Some (res, fs', d', fp', got) ->
      FIL.fs fp = true -> FIL.err fp = 0 -> Z.land (FIL.flag fp) FA_READ <> 0 ->
      res <> FR_OK -> FIL.err fp' = FRESULT_code res /\ FIL.err fp' <> 0) /\
  (forall fuel fs d fp buff btw res fs' d' fp' bw,
      f_write fuel fs d fp buff btw = Some (res, fs', d', fp', bw) ->
      FIL.fs fp = true -> FIL.err fp = 0 -> Z.land (FIL.flag fp) FA_WRITE <> 0 ->
      res <> FR_OK -> FIL.err fp' = FRESULT_code res /\ FIL.err fp' <> 0) /\
  (forall fs d fp,
      FIL.fs fp = true -> FIL.err fp <> 0 ->
      (forall btr, f_read fs d fp btr = Some (FR_INT_ERR, fs, d, fp, [])) /\
      (forall fuel buff btw,
          f_write fuel fs d fp buff btw = Some (FR_INT_ERR, fs, d, fp, 0)) /\
      (forall ofs, f_lseek fs d fp ofs = Some (FR_INT_ERR, fs, d, fp))) /\
  (forall fs d fp res fs' d' fp',
      f_sync fs d fp = (res, fs', d', fp') -> FIL.err fp' = FIL.err fp) /\
  (forall fs d fp res fs' d' fp',
      f_close fs d fp = (res, fs', d', fp') ->
      FIL.err fp' = FIL.err fp /\ (FIL.fs fp = true -> FIL.fs fp' = false)) /\
  (forall FatFs d fp path mode FatFs' d' fp',
      f_open FatFs d fp path mode = (FR_OK, FatFs', d', fp') ->
      FIL.fs fp' = true /\ FIL.err fp' = 0).
Proof.
  splits.
  - intros fs d fp btr res fs' d' fp' got H Hfs Herr Hfl Hres.
    unfold f_read in H; rewrite Hfs, Herr in H.
    change (negb true) with false in H; change (nz 0) with false in H.
    cbv iota in H.
    replace (nz (Z.land (FIL.flag fp) FA_READ)) with true in H
      by (symmetry; apply nz_true; assumption).
    change (negb true) with false in H; cbv iota in H.
    apply f_read_loop_spec in H.
    destruct H as (_ & L & _); split; [auto|].
    rewrite (L Hres); apply FRESULT_code_nz; assumption.
  - intros fuel fs d fp buff btw res fs' d' fp' bw H Hfs Herr Hfl Hres.
    unfold f_write in H; rewrite Hfs, Herr in H.
    change (negb true) with false in H; change (nz 0) with false in H.
    cbv iota in H.
    replace (nz (Z.land (FIL.flag fp) FA_WRITE)) with true in H
      by (symmetry; apply nz_true; assumption).
    change (negb true) with false in H; cbv iota in H.
    apply f_write_loop_spec in H.
    destruct H as (_ & L & _); split; [auto|].
    rewrite (L Hres); apply FRESULT_code_nz; assumption.
  - intros fs d fp Hfs Herr.
    apply nz_true in Herr.
    splits; intros; [unfold f_read|unfold f_write|unfold f_lseek];
      rewrite Hfs, Herr; reflexivity.
  - intros fs d fp res fs' d' fp' H; apply f_sync_spec in H; tauto.
  - intros fs d fp res fs' d' fp' H; apply f_close_spec in H; tauto.
  - intros FatFs d fp path mode FatFs' d' fp' H; apply f_open_spec in H.
    destruct H as (_ & H & _); destruct (H eq_refl) as (? & ? & _); auto.
Qed.

(** A write of one sector to a fresh file on the card that refuses the first
    data sector ends with [FR_DISK_ERR]; the code is latched, and reads,
    writes and seeks on the handle then fail at once. *)
Lemma error_flag_latch_witness :
  (FIL.err (ses_fp failed_write) = FRESULT_code FR_DISK_ERR /\
   FIL.err (ses_fp failed_write) <> 0) /\
  (forall btr,
      f_read (ses_fs failed_write) (ses_dev failed_write) (ses_fp failed_write) btr =
      Some (FR_INT_ERR, ses_fs failed_write, ses_dev failed_write,
            ses_fp failed_write, [])) /\
  (forall fuel buff btw,
      f_write fuel (ses_fs failed_write) (ses_dev failed_write) (ses_fp failed_write)
              buff btw =
      Some (FR_INT_ERR, ses_fs failed_write, ses_dev failed_write,
            ses_fp failed_write, 0)) /\
  (forall ofs,
      f_lseek (ses_fs failed_write) (ses_dev failed_write) (ses_fp failed_write) ofs =
      Some (FR_INT_ERR, ses_fs failed_write, ses_dev failed_write, ses_fp failed_write)).
Proof.
  split.
  - apply (proj1 (proj2 error_flag_latch) 1000%nat
             (ses_fs created_bad) (ses_dev created_bad) (ses_fp created_bad)
             (pattern 512) 512 FR_DISK_ERR
             (ses_fs failed_write) (ses_dev failed_write) (ses_fp failed_write) 0).
    + vm_compute; reflexivity.
    + vm_compute; reflexivity.
    + vm_compute; reflexivity.
    + vm_compute; discriminate.
    + discriminate.
  - apply (proj1 (proj2 (proj2 error_flag_latch))
             (ses_fs failed_write) (ses_dev failed_write) (ses_fp failed_write)).
    + vm_compute; reflexivity.
    + vm_compute; discriminate.
Defined.

(** After that failed write the flag is set, and [f_sync] and [f_close]
    still return [FR_OK] and write the dirty window, FAT sector 1, to the
    card. *)
Lemma f_sync_ignores_error_flag :
  f_write 1000 (ses_fs created_bad) (ses_dev created_bad) (ses_fp created_bad)
          (pattern 512) 512
    = Some (FR_DISK_ERR, ses_fs failed_write, ses_dev failed_write,
            ses_fp failed_write, 0) /\
  FIL.fs (ses_fp failed_write) = true /\ FIL.err (ses_fp failed_write) = 1 /\
  (exists fs' d' fp',
      f_sync (ses_fs failed_write) (ses_dev failed_write) (ses_fp failed_write)
        = (FR_OK, fs', d', fp') /\
      io_log d' = IoWrite 1 1 :: io_log (ses_dev failed_write)) /\
  (exists fs' d' fp',
      f_close (ses_fs failed_write) (ses_dev failed_write) (ses_fp failed_write)
        = (FR_OK, fs', d', fp') /\
      io_log d' = IoWrite 1 1 :: io_log (ses_dev failed_write)).
Proof.
  split; [vm_compute; reflexivity|].
  split; [vm_compute; reflexivity|].
  split; [vm_compute; reflexivity|].
  split; eexists; eexists; eexists;
    (split; [vm_compute; reflexivity | vm_compute; reflexivity]).
Qed.

(* ===================================================================== *)
(** ** The offset of a handle *)
(* ===================================================================== *)

Lemma seek_within_target fp ofs :
  seek_within fp (OpLseek ofs) -> 0 <= FIL.obj_size fp ->
  lseek_target fp ofs <= FIL.obj_size fp.
Proof.
  unfold seek_within, lseek_target, nz; intros (Ho & [Hw|Hle]) Hob.
  - rewrite Hw; change (0 =? 0) with true; cbv [negb].
    destruct (ofs >? FIL.obj_size fp) eqn:E; cbv [andb]; lia.
  - replace (ofs >? FIL.obj_size fp) with false by (symmetry; lia); cbv [andb]; lia.
Qed.

(** One call keeps the cluster size and the offset inside the file. *)
Lemma run_op_fptr fuel s op res s' :
  run_op fuel s op = Some (res, s') ->
  seek_within (ses_fp s) op ->
  (exists k, 0 <= k < 8 /\ FATFS.csize (ses_fs s) = 2 ^ k) ->
  fptr_in_file (ses_fp s) ->
  FATFS.csize (ses_fs s') = FATFS.csize (ses_fs s) /\ fptr_in_file (ses_fp s').
Proof.
  destruct s as [[fs d] fp]; unfold ses_fs, ses_fp.
  change (fst (fst (fs, d, fp))) with fs; change (snd (fs, d, fp)) with fp.
  intros H Hseek Hk Hin; unfold run_op in H;
    destruct op as [path mode|btr|buff btw|ofs]; cbv beta iota in H.
  - destruct (f_open (Some fs) d fp path mode) as [[[r F] d1] fp1] eqn:E.
    apply f_open_spec in E; destruct E as (W & Hok & Herr).
    destruct F as [fs1|]; [|discriminate H].
    inversion H; subst.
    change (fst (fst (fs1, d1, fp1))) with fs1; change (snd (fs1, d1, fp1)) with fp1.
    destruct (window_only_fields _ _ W) as (_ & _ & _ & _ & Ec & _).
    split; [assumption|].
    destruct res; try (rewrite Herr by discriminate; destruct fp; exact Hin).
    destruct (Hok eq_refl) as (_ & _ & Hp & Ho & _).
    unfold fptr_in_file; rewrite Hp; lia.
  - destruct (f_read fs d fp btr) as [[[[[r fs1] d1] fp1] got]|] eqn:E; [|discriminate H].
    inversion H; subst.
    change (fst (fst (fs1, d1, fp1))) with fs1; change (snd (fs1, d1, fp1)) with fp1.
    unfold f_read in E.
    destruct (negb (FIL.fs fp)); [inversion E; subst; auto|].
    destruct (nz (FIL.err fp)); [inversion E; subst; auto|].
    destruct (negb (nz (Z.land (FIL.flag fp) FA_READ))); [inversion E; subst; auto|].
    apply f_read_loop_spec in E; destruct E as (W & _ & _ & _ & _ & _ & Hi).
    destruct (window_only_fields _ _ W) as (_ & _ & _ & _ & Ec & _).
    auto.
  - destruct (f_write fuel fs d fp buff btw) as [[[[[r fs1] d1] fp1] bw]|] eqn:E;
      [|discriminate H].
    inversion H; subst.
    change (fst (fst (fs1, d1, fp1))) with fs1; change (snd (fs1, d1, fp1)) with fp1.
    unfold f_write in E.
    destruct (negb (FIL.fs fp)); [inversion E; subst; auto|].
    destruct (nz (FIL.err fp)); [inversion E; subst; auto|].
    destruct (negb (nz (Z.land (FIL.flag fp) FA_WRITE))); [inversion E; subst; auto|].
    apply f_write_loop_spec in E; destruct E as (W & _ & _ & _ & Hi).
    destruct (hint_only_fields _ _ W) as (_ & _ & _ & _ & Ec & _).
    auto.
  - destruct (f_lseek fs d fp ofs) as [[[[r fs1] d1] fp1]|] eqn:E; [|discriminate H].
    inversion H; subst.
    change (fst (fst (fs1, d1, fp1))) with fs1; change (snd (fs1, d1, fp1)) with fp1.
    pose proof Hin as ((Hp1 & Hp2) & Hp3).
    pose proof (seek_within_target fp ofs Hseek ltac:(lia)) as HT.
    destruct Hseek as (Hofs & _).
    apply f_lseek_spec in E; try assumption; try lia.
    destruct E as (W & _ & Ho & _ & _ & Hp).
    destruct (window_only_fields _ _ W) as (_ & _ & _ & _ & Ec & _).
    split; [assumption|].
    destruct Hp as [(_ & ->)|(Hr & _)]; [assumption|].
    unfold fptr_in_file; rewrite Ho; lia.
Qed.

(** C6, amended.  On a volume whose cluster size is a power of two, start
    from a handle whose offset lies inside its file (a handle that was never
    opened is one).  Over every sequence of [f_open], [f_read], [f_write]
    and [f_lseek] calls on it, whatever their results, in which each seek is
    either made on a handle that was not opened for writing or asks for an
    offset inside the file, the offset of the handle stays inside the file
    between the calls. *)
Theorem fptr_stays_in_file (fuel : nat) (s s' : session) :
  reaches fuel s s' ->
  (exists k, 0 <= k < 8 /\ FATFS.csize (ses_fs s) = 2 ^ k) ->
  fptr_in_file (ses_fp s) ->
  fptr_in_file (ses_fp s').
Proof.
  induction 1 as [s|s op res s1 s2 Hseek Hrun Hreach IH]; intros Hk Hin; [assumption|].
  destruct (run_op_fptr _ _ _ _ _ Hrun Hseek Hk Hin) as (Ec & Hin1).
  apply IH; [|assumption].
  destruct Hk as (k & Hk & Ek); exists k; split; [assumption|congruence].
Qed.

(** Ten bytes written to a fresh file, a seek back to offset 5 and a read of
    three bytes leave the offset at 8, inside the file. *)
Lemma fptr_stays_in_file_witness :
  reaches 1000 created_blank three_read /\
  FIL.fptr (ses_fp three_read) = 8 /\
  fptr_in_file (ses_fp three_read).
Proof.
  assert (R : reaches 1000 created_blank three_read).
  { apply (reaches_step 1000 created_blank (OpWrite (pattern 10) 10) FR_OK
             ten_written three_read); [exact I | vm_compute; reflexivity |].
    apply (reaches_step 1000 ten_written (OpLseek 5) FR_OK sought_5 three_read);
      [ split; [lia | right; vm_compute; discriminate]
      | vm_compute; reflexivity |].
    apply (reaches_step 1000 sought_5 (OpRead 3) FR_OK three_read three_read);
      [exact I | vm_compute; reflexivity | apply reaches_refl]. }
  split; [exact R|].
  split; [vm_compute; reflexivity|].
  apply (fptr_stays_in_file 1000 created_blank three_read R).
  - exists 0; split; [lia | vm_compute; reflexivity].
  - vm_compute; repeat split; discriminate.
Defined.

(** On a handle opened for writing a seek past the end succeeds and leaves
    the offset beyond the size; a read that follows takes bytes from there. *)
Lemma f_lseek_past_end_on_write_handle :
  created vol12 blank_dev = Some created_blank /\
  run_op 1000 created_blank (OpWrite (pattern 10) 10) = Some (FR_OK, ten_written) /\
  (exists fs d fp,
      f_lseek (ses_fs ten_written) (ses_dev ten_written) (ses_fp ten_written) 100
        = Some (FR_OK, fs, d, fp) /\
      FIL.fptr fp = 100 /\ FIL.obj_size fp = 10 /\
      ~ fptr_in_file fp).
Proof.
  split; [vm_compute; reflexivity|].
  split; [vm_compute; reflexivity|].
  eexists; eexists; eexists; split; [vm_compute; reflexivity|].
  split; [reflexivity|]. split; [reflexivity|].
  unfold fptr_in_file; cbn [FIL.fptr FIL.obj_size]; lia.
Qed.

(* ===================================================================== *)
(** ** Counting free clusters *)
(* ===================================================================== *)

Lemma free_among_same_view fs d fs' d' l :
  window_only fs fs' -> (forall t, view fs' d' t = view fs d t) ->
  free_among fs' d' l = free_among fs d l.
Proof.
  intros W V; unfold free_among; f_equal; f_equal.
  apply filter_ext; intros c; rewrite (fat_entry_same_view _ _ _ _ c W V); reflexivity.
Qed.

Lemma free_among_cons fs d c l :
  free_among fs d (c :: l) = (if fat_entry fs d c =? 0 then 1 else 0) + free_among fs d l.
Proof.
  unfold free_among; cbn [filter].
  destruct (fat_entry fs d c =? 0); cbn [length]; lia.
Qed.

Lemma free_among_range fs d l : 0 <= free_among fs d l <= Z.of_nat (length l).
Proof.
  unfold free_among; pose proof (filter_length_le (fun c => fat_entry fs d c =? 0) l); lia.
Qed.

Lemma length_clusters_from n : forall c, length (clusters_from c n) = n.
Proof. induction n as [|n IH]; intros c; cbn [clusters_from length]; [|rewrite IH]; reflexivity. Qed.

(** The counting loop on a stable state: it adds the number of zero entries
    and moves the window only. *)
Lemma count_free_stable n : forall fs d c acc,
  stable fs d -> 2 <= c -> c + Z.of_nat n <= FATFS.n_fatent fs ->
  0 <= acc -> acc + Z.of_nat n < 4294967296 ->
  exists fs' d',
    count_free n fs d c acc = (acc + free_among fs d (clusters_from c n), fs', d') /\
    window_only fs fs' /\ stable fs' d' /\
    forall t, view fs' d' t = view fs d t.
Proof.
  induction n as [|n IH]; intros fs d c acc S Hc Hn Ha Hb.
  - exists fs, d; cbn [count_free clusters_from]; splits; auto using window_only_refl.
    unfold free_among; cbn [filter length]; f_equal; f_equal; lia.
  - cbn [count_free clusters_from].
    replace (c <? FATFS.n_fatent fs) with true by (symmetry; lia).
    change (negb true) with false; cbv iota.
    destruct (get_fat_stable fs d c S) as (fs1 & d1 & E & W & S1 & V); [unfold valid_clst; lia|].
    rewrite E.
    destruct (window_only_fields _ _ W) as (_ & _ & En & _).
    pose proof S as (M & _); pose proof (m_fatent _ M) as Hf.
    rewrite (u32_small (c + 1)) by lia.
    set (acc' := if fat_entry fs d c =? 0 then u32 (acc + 1) else acc).
    assert (Ea : acc' = acc + (if fat_entry fs d c =? 0 then 1 else 0)).
    { unfold acc'; destruct (fat_entry fs d c =? 0); [rewrite u32_small|]; lia. }
    destruct (IH fs1 d1 (c + 1) acc' S1) as (fs2 & d2 & E2 & W2 & S2 & V2);
      try (rewrite ?En, ?Ea; destruct (fat_entry fs d c =? 0); lia).
    exists fs2, d2; splits; auto.
    + rewrite E2, (free_among_same_view _ _ _ _ _ W V), free_among_cons, Ea.
      f_equal; f_equal; lia.
    + eapply window_only_trans; eauto.
    + intros t; rewrite V2; apply V.
Qed.

Lemma view_set_free_clst fs n d t : view (FATFS.set_free_clst fs n) d t = view fs d t.
Proof. destruct fs; reflexivity. Qed.

Lemma fat_entry_set_free_clst fs n d c :
  fat_entry (FATFS.set_free_clst fs n) d c = fat_entry fs d c.
Proof. destruct fs; reflexivity. Qed.

Lemma f_write_free_clst fuel fs d fp buff btw res fs' d' fp' bw :
  f_write fuel fs d fp buff btw = Some (res, fs', d', fp', bw) ->
  FATFS.free_clst fs' = FATFS.free_clst fs.
Proof.
  unfold f_write; intros H.
  destruct (negb (FIL.fs fp)); [inversion H; subst; auto|].
  destruct (nz (FIL.err fp)); [inversion H; subst; auto|].
  destruct (negb (nz (Z.land (FIL.flag fp) FA_WRITE))); [inversion H; subst; auto|].
  apply f_write_loop_spec in H; destruct H as (W & _).
  apply hint_only_fields in W; tauto.
Qed.

(** C8, amended.  On drive 0 of an enabled volume, [f_getfree] returns the
    cached count of free clusters when it is at most [n_fatent - 2] and
    touches nothing.  Otherwise, on a stable state, it returns the number of
    FAT entries equal to zero over the clusters in [2, n_fatent), stores it
    in the cache, leaves every FAT entry as it was, and the next call
    returns the stored count.  [f_write] never changes the cache: a count
    that was cached before a write is what [f_getfree] returns after it. *)
Theorem f_getfree_cache (fs : FATFS.t) (d : Device) (path : list Z) :
  ld path 0 = 48 -> FATFS.fs_type fs <> 0 ->
  (FATFS.free_clst fs <= u32 (FATFS.n_fatent fs - 2) ->
   f_getfree (Some fs) d path = (FR_OK, Some fs, d, Some (FATFS.free_clst fs))) /\
  (stable fs d -> FATFS.n_fatent fs - 2 < FATFS.free_clst fs ->
   exists fs' d',
     f_getfree (Some fs) d path = (FR_OK, Some fs', d', Some (free_count fs d)) /\
     FATFS.free_clst fs' = free_count fs d /\
     0 <= free_count fs d <= FATFS.n_fatent fs - 2 /\
     (forall c, fat_entry fs' d' c = fat_entry fs d c) /\
     f_getfree (Some fs') d' path = (FR_OK, Some fs', d', Some (free_count fs d))) /\
  (forall fuel fp buff btw res fs' d' fp' bw,
      f_write fuel fs d fp buff btw = Some (res, fs', d', fp', bw) ->
      FATFS.free_clst fs' = FATFS.free_clst fs /\
      (FATFS.free_clst fs <= u32 (FATFS.n_fatent fs - 2) ->
       f_getfree (Some fs') d' path
         = (FR_OK, Some fs', d', Some (FATFS.free_clst fs)))).
Proof.
  intros Hp Ht.
  assert (G : forall fs0 d0, FATFS.fs_type fs0 <> 0 ->
                FATFS.free_clst fs0 <= u32 (FATFS.n_fatent fs0 - 2) ->
                f_getfree (Some fs0) d0 path
                  = (FR_OK, Some fs0, d0, Some (FATFS.free_clst fs0))).
  { intros fs0 d0 Ht0 Hc; unfold f_getfree; rewrite Hp.
    change ((48 - 48 <? 0) || (48 - 48 >=? FF_VOLUMES)) with false; cbv iota.
    replace (nz (FATFS.fs_type fs0)) with true by (symmetry; apply nz_true; assumption).
    change (negb true) with false; cbv iota.
    replace (FATFS.free_clst fs0 <=? u32 (FATFS.n_fatent fs0 - 2)) with true
      by (symmetry; lia).
    reflexivity. }
  splits.
  - apply G; assumption.
  - intros S Hc; pose proof S as (M & _); pose proof (m_fatent _ M) as Hf.
    assert (Hr : 0 <= free_count fs d <= FATFS.n_fatent fs - 2).
    { unfold free_count.
      pose proof (free_among_range fs d
                    (clusters_from 2 (Z.to_nat (FATFS.n_fatent fs - 2)))) as R.
      rewrite length_clusters_from in R; lia. }
    destruct (count_free_stable (Z.to_nat (FATFS.n_fatent fs - 2)) fs d 2 0 S)
      as (fs1 & d1 & E & W & S1 & V); try lia.
    destruct (window_only_fields _ _ W) as (Et & _ & En & _).
    assert (E0 : f_getfree (Some fs) d path
                 = (FR_OK, Some (FATFS.set_free_clst fs1 (free_count fs d)), d1,
                    Some (free_count fs d))).
    { unfold f_getfree; rewrite Hp.
      change ((48 - 48 <? 0) || (48 - 48 >=? FF_VOLUMES)) with false; cbv iota.
      replace (nz (FATFS.fs_type fs)) with true by (symmetry; apply nz_true; assumption).
      change (negb true) with false; cbv iota.
      rewrite (u32_small (FATFS.n_fatent fs - 2)) by lia.
      replace (FATFS.free_clst fs <=? FATFS.n_fatent fs - 2) with false
        by (symmetry; lia).
      rewrite E; reflexivity. }
    exists (FATFS.set_free_clst fs1 (free_count fs d)), d1.
    assert (Ef : FATFS.free_clst (FATFS.set_free_clst fs1 (free_count fs d))
                 = free_count fs d) by (destruct fs1; reflexivity).
    splits; auto; try lia.
    + intros c; rewrite fat_entry_set_free_clst; apply fat_entry_same_view; assumption.
    + rewrite <- Ef at 3; apply G.
      * destruct fs1; cbn in *; congruence.
      * rewrite Ef; replace (FATFS.n_fatent (FATFS.set_free_clst fs1 (free_count fs d)))
          with (FATFS.n_fatent fs) by (destruct fs1; cbn in *; congruence).
        rewrite u32_small by lia; lia.
  - intros fuel fp buff btw res fs' d' fp' bw H.
    pose proof (f_write_free_clst _ _ _ _ _ _ _ _ _ _ _ H) as Ef.
    split; [assumption|]; intros Hc.
    rewrite <- Ef; apply G.
    + unfold f_write in H.
      destruct (negb (FIL.fs fp)); [inversion H; subst; auto|].
      destruct (nz (FIL.err fp)); [inversion H; subst; auto|].
      destruct (negb (nz (Z.land (FIL.flag fp) FA_WRITE))); [inversion H; subst; auto|].
      apply f_write_loop_spec in H; destruct H as (W & _).
      apply hint_only_fields in W; destruct W as (-> & _); assumption.
    + rewrite Ef.
      replace (FATFS.n_fatent fs') with (FATFS.n_fatent fs); [assumption|].
      unfold f_write in H.
      destruct (negb (FIL.fs fp)); [inversion H; subst; auto|].
      destruct (nz (FIL.err fp)); [inversion H; subst; auto|].
      destruct (negb (nz (Z.land (FIL.flag fp) FA_WRITE))); [inversion H; subst; auto|].
      apply f_write_loop_spec in H; destruct H as (W & _).
      apply hint_only_fields in W; destruct W as (_ & _ & -> & _); reflexivity.
Qed.

(** On the blank volume the scan finds all 398 clusters free, and the
    second call answers from the cache. *)
Lemma f_getfree_cache_witness :
  free_count vol12 blank_dev = 398 /\
  exists fs' d',
    f_getfree (Some vol12) blank_dev drive0
      = (FR_OK, Some fs', d', Some (free_count vol12 blank_dev)) /\
    FATFS.free_clst fs' = free_count vol12 blank_dev /\
    f_getfree (Some fs') d' drive0
      = (FR_OK, Some fs', d', Some (free_count vol12 blank_dev)).
Proof.
  split; [vm_compute; reflexivity|].
  assert (H1 : ld drive0 0 = 48) by reflexivity.
  assert (H2 : FATFS.fs_type vol12 <> 0) by discriminate.
  assert (H3 : FATFS.n_fatent vol12 - 2 < FATFS.free_clst vol12)
    by (vm_compute; reflexivity).
  pose proof (proj1 (proj2 (f_getfree_cache vol12 blank_dev drive0 H1 H2))
                stable_vol12 H3) as X.
  destruct X as (fs' & d' & E & F & _ & _ & E').
  exists fs', d'; split; [exact E | split; [exact F | exact E']].
Defined.

(** The count cached before a write that takes a cluster is still the
    answer after it, although one cluster fewer is free. *)
Lemma f_getfree_stale_after_write :
  f_getfree (Some vol12) blank_dev drive0
    = (FR_OK, Some counted_fs, counted_dev, Some 398) /\
  (exists s, created counted_fs counted_dev = Some s /\
             run_op 1000 s (OpWrite (pattern 10) 10) = Some (FR_OK, ten_after_count)) /\
  FIL.sclust (ses_fp ten_after_count) = 2 /\
  fat_entry (ses_fs ten_after_count) (ses_dev ten_after_count) 2 = 4095 /\
  free_count (ses_fs ten_after_count) (ses_dev ten_after_count) = 397 /\
  f_getfree (Some (ses_fs ten_after_count)) (ses_dev ten_after_count) drive0
    = (FR_OK, Some (ses_fs ten_after_count), ses_dev ten_after_count, Some 398).
Proof.
  split; [vm_compute; reflexivity|].
  split; [eexists; split; [vm_compute; reflexivity | vm_compute; reflexivity]|].
  splits; vm_compute; reflexivity.
Qed.

(* ===================================================================== *)
(** ** Writing and reading back *)
(* ===================================================================== *)

(** C1, on the code.  On the FAT12 volume [vol12c4] of a blank healthy
    card, with sectors of 512 bytes and clusters of 2048 bytes, a fresh file
    gives back what was written to it for 0, 100, 512 and 2048 bytes.  A
    write of 2049 or of 4096 bytes stops at the first cluster boundary with
    [FR_INT_ERR] after 2048 bytes: the FAT entry of the current cluster is
    the end-of-chain mark, which is not below 2, so no cluster is allocated,
    the mark becomes the current cluster and [clst2sect] has no sector for
    it.  The error is latched, so the seek and the read that follow fail and
    nothing is read back.  On the volume that [f_mount] leaves, with clusters
    of one sector, a write of 1024 bytes stops after 512 in the same way. *)
Theorem f_write_stops_at_cluster_boundary :
  round_trip vol12c4 blank_dev 0 = Some (FR_OK, 0, FR_OK, FR_OK, pattern 0) /\
  round_trip vol12c4 blank_dev 100 = Some (FR_OK, 100, FR_OK, FR_OK, pattern 100) /\
  round_trip vol12c4 blank_dev 512 = Some (FR_OK, 512, FR_OK, FR_OK, pattern 512) /\
  round_trip vol12c4 blank_dev 2048 = Some (FR_OK, 2048, FR_OK, FR_OK, pattern 2048) /\
  round_trip vol12c4 blank_dev 2049
    = Some (FR_INT_ERR, 2048, FR_INT_ERR, FR_INT_ERR, []) /\
  round_trip vol12c4 blank_dev 4096
    = Some (FR_INT_ERR, 2048, FR_INT_ERR, FR_INT_ERR, []) /\
  (exists s,
      written vol12c4 blank_dev 4096 = Some (FR_INT_ERR, s, 2048) /\
      FIL.fptr (ses_fp s) = 2048 /\ FIL.sclust (ses_fp s) = 2 /\
      fat_entry (ses_fs s) (ses_dev s) 2 = 4095 /\
      FIL.clust (ses_fp s) = 4095 /\ clst2sect (ses_fs s) 4095 = 0 /\
      FIL.err (ses_fp s) = FRESULT_code FR_INT_ERR) /\
  (exists fs d Fsid,
      f_mount None 0 (card_with boot_unsigned) (Some fresh_fs) drive0 1
        = (FR_OK, Some fs, Fsid, d) /\
      FATFS.csize fs = 1 /\
      round_trip fs d 512 = Some (FR_OK, 512, FR_OK, FR_OK, pattern 512) /\
      round_trip fs d 1024 = Some (FR_INT_ERR, 512, FR_INT_ERR, FR_INT_ERR, [])).
Proof.
  splits;
    try match goal with |- @eq (option _) _ _ => vm_compute; reflexivity end.
  - eexists; split; [vm_compute; reflexivity|].
    splits; vm_compute; reflexivity.
  - eexists; eexists; eexists; split; [vm_compute; reflexivity|].
    splits; vm_compute; reflexivity.
Qed.

(* ===================================================================== *)
(** * Further properties of the engine *)
(* ===================================================================== *)

(** ** The byte-order macros *)

Lemma byte1_of_word v : u8 (Z.shiftr (u16 v) 8) = (v / 256) mod 256.
Proof.
  unfold u8, u16; rewrite Z.shiftr_div_pow2 by lia; change (2 ^ 8) with 256.
  Z.to_euclidean_division_equations; lia.
Qed.

Lemma byte2_of_dword v : u8 (Z.shiftr (u32 v) 16) = (v / 65536) mod 256.
Proof.
  unfold u8, u32; rewrite Z.shiftr_div_pow2 by lia; change (2 ^ 16) with 65536.
  Z.to_euclidean_division_equations; lia.
Qed.

Lemma byte3_of_dword v : u8 (Z.shiftr (u32 v) 24) = (v / 16777216) mod 256.
Proof.
  unfold u8, u32; rewrite Z.shiftr_div_pow2 by lia; change (2 ^ 24) with 16777216.
  Z.to_euclidean_division_equations; lia.
Qed.

(** X1.  [ST_WORD] and [ST_DWORD] store a value in little-endian order, low
    byte first, inside a buffer that holds the bytes addressed; [LD_WORD]
    and [LD_DWORD] at the same place give the value back, cut to 16 and to
    32 bits; the stores keep the length of the buffer and every byte outside
    the two or four addressed. *)
Theorem byte_order_round_trip (a : list Z) (p v : Z) :
  0 <= p -> p + 3 < Z.of_nat (length a) ->
  LD_WORD (ST_WORD a p v) p = v mod 65536 /\
  LD_DWORD (ST_DWORD a p v) p = v mod 4294967296 /\
  (ld (ST_DWORD a p v) p = v mod 256 /\
   ld (ST_DWORD a p v) (p + 1) = (v / 256) mod 256 /\
   ld (ST_DWORD a p v) (p + 2) = (v / 65536) mod 256 /\
   ld (ST_DWORD a p v) (p + 3) = (v / 16777216) mod 256) /\
  (ld (ST_WORD a p v) p = v mod 256 /\
   ld (ST_WORD a p v) (p + 1) = (v / 256) mod 256) /\
  length (ST_WORD a p v) = length a /\ length (ST_DWORD a p v) = length a /\
  (forall j, 0 <= j -> j <> p -> j <> p + 1 -> ld (ST_WORD a p v) j = ld a j) /\
  (forall j, 0 <= j -> j < p \/ p + 3 < j -> ld (ST_DWORD a p v) j = ld a j).
Proof.
  intros Hp Hl.
  splits.
  - rewrite LD_WORD_ST_WORD by lia; reflexivity.
  - rewrite LD_DWORD_ST_DWORD by lia; reflexivity.
  - unfold ST_DWORD.
    rewrite !(ld_st_other _ _ p) by lia; rewrite ld_st_same by lia; reflexivity.
  - unfold ST_DWORD.
    rewrite !(ld_st_other _ _ (p + 1)) by lia.
    rewrite ld_st_same by (rewrite length_st; lia); apply byte1_of_word.
  - unfold ST_DWORD.
    rewrite !(ld_st_other _ _ (p + 2)) by lia.
    rewrite ld_st_same by (rewrite !length_st; lia); apply byte2_of_dword.
  - unfold ST_DWORD.
    rewrite ld_st_same by (rewrite !length_st; lia); apply byte3_of_dword.
  - unfold ST_WORD.
    rewrite !(ld_st_other _ _ p) by lia; rewrite ld_st_same by lia; reflexivity.
  - unfold ST_WORD.
    rewrite ld_st_same by (rewrite length_st; lia); apply byte1_of_word.
  - apply length_ST_WORD.
  - apply length_ST_DWORD.
  - intros j Hj N1 N2; apply ld_ST_WORD_other; lia.
  - intros j Hj N; apply ld_ST_DWORD_other; lia.
Qed.

(** The value 0x12345678 stored at offset 28 of a sector of zeros. *)
Lemma byte_order_round_trip_witness :
  LD_DWORD (ST_DWORD zero_sector 28 305419896) 28 = 305419896 /\
  slice (ST_DWORD zero_sector 28 305419896) 28 4 = [120; 86; 52; 18].
Proof.
  assert (H0 : 0 <= 28) by lia.
  assert (H1 : 28 + 3 < Z.of_nat (length zero_sector)) by (vm_compute; reflexivity).
  pose proof (byte_order_round_trip zero_sector 28 305419896 H0 H1)
    as (_ & E & _).
  split; [rewrite E; reflexivity | vm_compute; reflexivity].
Defined.

(** ** The sector window *)

(** X2.  On a mounted volume with a coherent window and a healthy device,
    [move_window] succeeds and leaves the window on the sector asked for,
    holding what the engine saw in that sector before.  No sector changes
    for the engine: a modified window is written back before it is
    replaced.  When the window really moves, it is clean afterwards and the
    medium holds everything the engine sees; when the sector is the one in
    the window already, nothing happens at all. *)
Theorem move_window_write_back (fs : FATFS.t) (d : Device) (s : Z) :
  stable fs d -> 0 <= s < 4294967296 ->
  exists fs' d',
    move_window fs d s = (FR_OK, fs', d') /\
    FATFS.winsect fs' = s /\ FATFS.win fs' = view fs d s /\
    stable fs' d' /\
    (forall t, view fs' d' t = view fs d t) /\
    (s <> FATFS.winsect fs ->
     FATFS.wflag fs' = 0 /\ forall t, sd_data d' t = view fs d t) /\
    (s = FATFS.winsect fs -> fs' = fs /\ d' = d).
Proof.
  intros S Hs.
  destruct (stable_move fs d s S Hs) as (fs' & d' & E & W & Es & S' & Ew & V).
  exists fs', d'; splits; auto.
  - intros N.
    destruct S as (M & Hh & Hd & C).
    destruct (move_window_healthy fs d s Hh Hd (m_pdrv _ M) (m_win _ M))
      as (fs2 & d2 & E2 & _ & _ & _ & _ & _ & _ & Hne & _).
    rewrite E in E2; inversion E2; subst fs2 d2.
    destruct (Hne N) as (F & Ed); split; [assumption|].
    intros t; rewrite <- V; unfold view.
    destruct (t =? FATFS.winsect fs') eqn:Et; [|reflexivity].
    apply Z.eqb_eq in Et; subst t; rewrite Es; symmetry; assumption.
  - intros ->.
    destruct S as (M & Hh & Hd & C).
    destruct (move_window_healthy fs d (FATFS.winsect fs) Hh Hd (m_pdrv _ M) (m_win _ M))
      as (fs2 & d2 & E2 & _ & _ & _ & _ & _ & Heq & _).
    rewrite E in E2; inversion E2; subst fs2 d2.
    apply Heq; reflexivity.
Qed.

Lemma move_window_write_back_witness :
  exists fs' d',
    move_window vol12 blank_dev 3 = (FR_OK, fs', d') /\
    FATFS.winsect fs' = 3 /\ FATFS.win fs' = view vol12 blank_dev 3 /\
    io_log d' = [IoRead 3 1].
Proof.
  assert (H : 0 <= 3 < 4294967296) by lia.
  destruct (move_window_write_back vol12 blank_dev 3 stable_vol12 H)
    as (fs' & d' & E & Es & Ew & _).
  exists fs', d'; splits; try assumption.
  assert (E2 : snd (move_window vol12 blank_dev 3) = d') by (rewrite E; reflexivity).
  rewrite <- E2; vm_compute; reflexivity.
Defined.

(** X3.  When the window has to move and the card refuses the transfer,
    [move_window] returns [FR_DISK_ERR].  If it is the read of the new
    sector that is refused (the window was clean), the window is marked as
    holding no sector ([winsect] is 0xFFFFFFFF) and its buffer is kept.  If
    it is the write-back of a modified window that is refused, or the card
    is write protected, the new sector is not read, the window stays on its
    sector, and it is marked clean although the medium was not changed. *)
Theorem move_window_refused (fs : FATFS.t) (d : Device) (s : Z) :
  FATFS.pdrv fs = 0 -> Z.land (Stat d) STA_NOINIT = 0 -> s <> FATFS.winsect fs ->
  (FATFS.wflag fs = 0 -> sd_bad d s = true ->
   move_window fs d s
     = (FR_DISK_ERR, FATFS.set_winsect fs 4294967295, dev_log d (IoRead s 1))) /\
  (FATFS.wflag fs <> 0 -> Z.land (Stat d) STA_PROTECT = 0 ->
   sd_bad d (FATFS.winsect fs) = true ->
   move_window fs d s
     = (FR_DISK_ERR, FATFS.set_wflag fs 0, dev_log d (IoWrite (FATFS.winsect fs) 1))) /\
  (FATFS.wflag fs <> 0 -> Z.land (Stat d) STA_PROTECT <> 0 ->
   move_window fs d s = (FR_DISK_ERR, FATFS.set_wflag fs 0, d)).
Proof.
  intros Hp Hi Hs.
  assert (Es : negb (s =? FATFS.winsect fs) = true)
    by (apply negb_true_iff, Z.eqb_neq; assumption).
  assert (Ei : nz (Z.land (Stat d) STA_NOINIT) = false) by (apply nz_false; assumption).
  splits.
  - intros Hw Hb.
    unfold move_window, sync_window; rewrite Es.
    replace (nz (FATFS.wflag fs)) with false by (symmetry; apply nz_false; assumption).
    unfold disk_read; rewrite Hp.
    change (negb (0 =? DEV_SD) || (1 =? 0)) with false; cbv iota.
    rewrite Ei; cbv iota zeta.
    change (Z.to_nat 1) with 1%nat; cbn [any_bad].
    replace (sd_bad (dev_log d (IoRead s 1)) s) with true
      by (destruct d; symmetry; exact Hb).
    reflexivity.
  - intros Hw Hpr Hb.
    unfold move_window, sync_window; rewrite Es.
    replace (nz (FATFS.wflag fs)) with true by (symmetry; apply nz_true; assumption).
    unfold disk_write; rewrite Hp.
    change (negb (0 =? DEV_SD) || (1 =? 0)) with false; cbv iota.
    rewrite Ei; cbv iota.
    replace (nz (Z.land (Stat d) STA_PROTECT)) with false
      by (symmetry; apply nz_false; assumption).
    cbv iota zeta.
    change (Z.to_nat 1) with 1%nat; cbn [any_bad].
    replace (sd_bad (dev_log d (IoWrite (FATFS.winsect fs) 1)) (FATFS.winsect fs))
      with true by (destruct d; symmetry; exact Hb).
    reflexivity.
  - intros Hw Hpr.
    unfold move_window, sync_window; rewrite Es.
    replace (nz (FATFS.wflag fs)) with true by (symmetry; apply nz_true; assumption).
    unfold disk_write; rewrite Hp.
    change (negb (0 =? DEV_SD) || (1 =? 0)) with false; cbv iota.
    rewrite Ei; cbv iota.
    replace (nz (Z.land (Stat d) STA_PROTECT)) with true
      by (symmetry; apply nz_true; assumption).
    reflexivity.
Qed.

(** The card that refuses sector 4: a read of it, the write-back of a window
    on it, and a write-back on a protected card. *)
Lemma move_window_refused_witness :
  move_window vol12 bad_data_dev 4
    = (FR_DISK_ERR, FATFS.set_winsect vol12 4294967295,
       dev_log bad_data_dev (IoRead 4 1)) /\
  move_window vol12_dirty4 bad_data_dev 3
    = (FR_DISK_ERR, FATFS.set_wflag vol12_dirty4 0,
       dev_log bad_data_dev (IoWrite 4 1)) /\
  move_window vol12_dirty4 protected_dev 3
    = (FR_DISK_ERR, FATFS.set_wflag vol12_dirty4 0, protected_dev).
Proof.
  assert (P1 : FATFS.pdrv vol12 = 0) by reflexivity.
  assert (P2 : FATFS.pdrv vol12_dirty4 = 0) by reflexivity.
  assert (I1 : Z.land (Stat bad_data_dev) STA_NOINIT = 0) by reflexivity.
  assert (I2 : Z.land (Stat protected_dev) STA_NOINIT = 0) by reflexivity.
  assert (N1 : 4 <> FATFS.winsect vol12) by (vm_compute; discriminate).
  assert (N2 : 3 <> FATFS.winsect vol12_dirty4) by (vm_compute; discriminate).
  assert (W1 : FATFS.wflag vol12 = 0) by reflexivity.
  assert (W2 : FATFS.wflag vol12_dirty4 <> 0) by (vm_compute; discriminate).
  assert (B : sd_bad bad_data_dev 4 = true) by reflexivity.
  assert (Q1 : Z.land (Stat bad_data_dev) STA_PROTECT = 0) by reflexivity.
  assert (Q2 : Z.land (Stat protected_dev) STA_PROTECT <> 0) by (vm_compute; discriminate).
  split; [|split].
  - exact (proj1 (move_window_refused vol12 bad_data_dev 4 P1 I1 N1) W1 B).
  - exact (proj1 (proj2 (move_window_refused vol12_dirty4 bad_data_dev 3 P2 I1 N2))
             W2 Q1 B).
  - exact (proj2 (proj2 (move_window_refused vol12_dirty4 protected_dev 3 P2 I2 N2))
             W2 Q2).
Defined.

(** ** The disk layer *)

(** X4.  [disk_initialize] of drive 0 clears the not-initialised bit of the
    status when the card answers and sets the status to exactly that bit
    when it does not; any other drive number is answered with
    [STA_NOINIT] and does not reach the card.  While the bit is set,
    [disk_read] and [disk_write] return [RES_NOTRDY]; on a protected card
    [disk_write] returns [RES_WRPRT]; a count of 0 or another drive gives
    [RES_PARERR].  None of these refusals reaches the card or changes the
    medium. *)
Theorem disk_layer_gates (d : Device) :
  (sd_present d = true ->
   Z.land (fst (disk_initialize d 0)) STA_NOINIT = 0 /\
   Stat (snd (disk_initialize d 0)) = fst (disk_initialize d 0)) /\
  (sd_present d = false ->
   fst (disk_initialize d 0) = STA_NOINIT /\
   forall buff s n,
     disk_read (snd (disk_initialize d 0)) 0 s n
       = (if n =? 0 then RES_PARERR else RES_NOTRDY, [], snd (disk_initialize d 0)) /\
     disk_write (snd (disk_initialize d 0)) 0 buff s n
       = (if n =? 0 then RES_PARERR else RES_NOTRDY, snd (disk_initialize d 0))) /\
  (forall pdrv, pdrv <> 0 -> disk_initialize d pdrv = (STA_NOINIT, d)) /\
  (forall pdrv buff s n, pdrv <> 0 \/ n = 0 ->
     disk_read d pdrv s n = (RES_PARERR, [], d) /\
     disk_write d pdrv buff s n = (RES_PARERR, d)) /\
  (Z.land (Stat d) STA_NOINIT = 0 -> Z.land (Stat d) STA_PROTECT <> 0 ->
   forall buff s n, n <> 0 -> disk_write d 0 buff s n = (RES_WRPRT, d)).
Proof.
  splits.
  - intros Hp; unfold disk_initialize; change (0 =? DEV_SD) with true; cbv iota zeta.
    replace (sd_present (dev_log d IoInit)) with true by (destruct d; symmetry; exact Hp).
    cbn [fst snd]; split; [|destruct d; reflexivity].
    change (Z.lxor 255 STA_NOINIT) with 254; change STA_NOINIT with 1.
    rewrite <- Z.land_assoc; change (Z.land 254 1) with 0; apply Z.land_0_r.
  - intros Hp; unfold disk_initialize; change (0 =? DEV_SD) with true; cbv iota zeta.
    replace (sd_present (dev_log d IoInit)) with false by (destruct d; symmetry; exact Hp).
    cbn [fst snd]; split; [reflexivity|].
    intros buff s n; unfold disk_read, disk_write.
    change (negb (0 =? DEV_SD)) with false; cbn [orb].
    destruct (n =? 0); [split; reflexivity|].
    replace (Stat (dev_set_Stat (dev_log d IoInit) STA_NOINIT)) with STA_NOINIT
      by (destruct d; reflexivity).
    change (nz (Z.land STA_NOINIT STA_NOINIT)) with true; split; reflexivity.
  - intros pdrv Hp; unfold disk_initialize.
    replace (pdrv =? DEV_SD) with false by (symmetry; apply Z.eqb_neq; exact Hp).
    reflexivity.
  - intros pdrv buff s n [Hp|Hn]; unfold disk_read, disk_write.
    + replace (pdrv =? DEV_SD) with false by (symmetry; apply Z.eqb_neq; exact Hp).
      split; reflexivity.
    + subst n; rewrite orb_true_r; split; reflexivity.
  - intros Hi Hpr buff s n Hn; unfold disk_write.
    change (negb (0 =? DEV_SD)) with false.
    replace (n =? 0) with false by (symmetry; apply Z.eqb_neq; exact Hn).
    cbn [orb].
    replace (nz (Z.land (Stat d) STA_NOINIT)) with false
      by (symmetry; apply nz_false; assumption).
    replace (nz (Z.land (Stat d) STA_PROTECT)) with true
      by (symmetry; apply nz_true; assumption).
    reflexivity.
Qed.

Lemma disk_layer_gates_witness :
  fst (disk_initialize absent_dev 0) = STA_NOINIT /\
  disk_read (snd (disk_initialize absent_dev 0)) 0 7 1
    = (RES_NOTRDY, [], snd (disk_initialize absent_dev 0)) /\
  disk_write protected_dev 0 zero_sector 7 1 = (RES_WRPRT, protected_dev).
Proof.
  assert (A : sd_present absent_dev = false) by reflexivity.
  destruct (proj1 (proj2 (disk_layer_gates absent_dev)) A) as (E & R).
  destruct (R zero_sector 7 1) as (Er & _).
  split; [exact E|]. split; [exact Er|].
  assert (I : Z.land (Stat protected_dev) STA_NOINIT = 0) by reflexivity.
  assert (Q : Z.land (Stat protected_dev) STA_PROTECT <> 0) by (vm_compute; discriminate).
  assert (N : 1 <> 0) by lia.
  exact (proj2 (proj2 (proj2 (proj2 (disk_layer_gates protected_dev)))) I Q
           zero_sector 7 1 N).
Defined.

(** ** Mounting *)

Lemma log_only_refl d : log_only d d.
Proof. repeat split. Qed.

Lemma log_only_trans d1 d2 d3 : log_only d1 d2 -> log_only d2 d3 -> log_only d1 d3.
Proof. unfold log_only; intros (? & ? & ? & ?) (? & ? & ? & ?); splits; congruence. Qed.

Lemma log_only_log d e : log_only d (dev_log d e).
Proof. destruct d; repeat split. Qed.

(** A clean window moves without a write. *)
Lemma move_window_clean fs d s res fs' d' :
  move_window fs d s = (res, fs', d') -> FATFS.wflag fs = 0 ->
  log_only d d' /\ FATFS.wflag fs' = 0 /\
  (res = FR_OK ->
   FATFS.winsect fs' = s /\
   (s <> FATFS.winsect fs -> FATFS.win fs' = sd_data d s) /\
   (s = FATFS.winsect fs -> fs' = fs)) /\
  (res <> FR_OK -> FATFS.win fs' = FATFS.win fs) /\
  (res = FR_OK \/ res = FR_DISK_ERR).
Proof.
  intros H Hw; unfold move_window, sync_window in H.
  replace (nz (FATFS.wflag fs)) with false in H by (symmetry; apply nz_false; assumption).
  destruct (s =? FATFS.winsect fs) eqn:Es; cbn [negb] in H; cbv iota in H.
  - apply Z.eqb_eq in Es; inversion H; subst; splits; auto using log_only_refl;
      try tauto; congruence.
  - apply Z.eqb_neq in Es.
    unfold disk_read in H.
    destruct (negb (FATFS.pdrv fs =? DEV_SD) || (1 =? 0)).
    { cbn [is_RES_OK negb] in H; inversion H; subst.
      splits; auto using log_only_refl; try (destruct fs; reflexivity); congruence. }
    destruct (nz (Z.land (Stat d) STA_NOINIT)).
    { cbn [is_RES_OK negb] in H; inversion H; subst.
      splits; auto using log_only_refl; try (destruct fs; reflexivity); congruence. }
    cbv zeta in H.
    destruct (any_bad (sd_bad (dev_log d (IoRead s 1))) s (Z.to_nat 1)).
    { cbn [is_RES_OK negb] in H; inversion H; subst.
      splits; auto using log_only_log; try (destruct fs; reflexivity); congruence. }
    cbn [is_RES_OK negb] in H; inversion H; subst.
    splits; auto using log_only_log; try (destruct fs; reflexivity); try congruence.
    intros _; splits; try (destruct fs; reflexivity); [|tauto].
    intros _. change (Z.to_nat 1) with 1%nat; cbn [read_sectors].
    rewrite app_nil_r; destruct fs, d; reflexivity.
Qed.

(** [check_fs] reads the sector into a clean window and answers on what the
    window holds. *)
Lemma check_fs_inv fs d s res fs' d' :
  check_fs fs d s = (res, fs', d') ->
  log_only d d' /\ window_only fs fs' /\ FATFS.wflag fs' = 0 /\
  (res = FR_DISK_ERR \/
   (res = fs_verdict (FATFS.win fs') /\ FATFS.winsect fs' = s /\
    FATFS.win fs' = if s =? 4294967295 then FATFS.win fs else sd_data d s)).
Proof.
  unfold check_fs; intros H.
  set (fs0 := FATFS.set_winsect (FATFS.set_wflag fs 0) (u32 (0 - 1))) in H.
  assert (W0 : window_only fs fs0)
    by (apply window_only_set_winsect, window_only_set_wflag, window_only_refl).
  assert (F0 : FATFS.wflag fs0 = 0) by (destruct fs; reflexivity).
  assert (S0 : FATFS.winsect fs0 = 4294967295) by (destruct fs; reflexivity).
  assert (B0 : FATFS.win fs0 = FATFS.win fs) by (destruct fs; reflexivity).
  destruct (move_window fs0 d s) as [[r fs1] d1] eqn:E.
  pose proof (move_window_frame _ _ _ _ _ _ E) as W1.
  destruct (move_window_clean _ _ _ _ _ _ E F0) as (L & F1 & Hok & _ & _).
  assert (W : window_only fs fs1) by (eapply window_only_trans; eassumption).
  destruct r; try (inversion H; subst; splits; auto; fail).
  destruct (Hok eq_refl) as (Es & Hne & Heq).
  assert (Ew : FATFS.win fs1 = if s =? 4294967295 then FATFS.win fs else sd_data d s).
  { destruct (s =? 4294967295) eqn:E4.
    - apply Z.eqb_eq in E4; rewrite Heq by congruence; assumption.
    - apply Z.eqb_neq in E4; apply Hne; congruence. }
  assert (R : res = fs_verdict (FATFS.win fs1) /\ fs' = fs1 /\ d' = d1).
  { unfold fs_verdict.
    destruct (negb (LD_WORD (FATFS.win fs1) (BS_BootSig - 2) =? 43605));
      [inversion H; auto|].
    destruct (Z.land (LD_DWORD (FATFS.win fs1) BS_FilSysType) 16777215 =? 5521734);
      [inversion H; auto|].
    destruct (Z.land (LD_DWORD (FATFS.win fs1) BS_FilSysType32) 16777215 =? 5521734);
      inversion H; auto. }
  destruct R as (-> & -> & ->).
  splits; auto.
Qed.



(** The cluster count that [f_mount] computes from the boot sector [w]. *)


Lemma sector_check w :
  Z.of_nat (length w) = 512 ->
  forallb (fun b => (0 <=? b) && (b <? 256)) w = true -> sector w.
Proof.
  intros Hl Hb; split; [assumption|].
  intros n; rewrite forallb_forall in Hb.
  destruct (Nat.lt_ge_cases n (length w)) as [L|G].
  - specialize (Hb _ (nth_In w 0 L)); lia.
  - rewrite nth_overflow by lia; lia.
Qed.



Lemma dev_ok_log_only d d' : log_only d d' -> dev_ok d -> dev_ok d'.
Proof. intros (_ & _ & _ & E) H s; rewrite E; apply H. Qed.







Lemma f_mount_probe_frame fs d fmt fs2 d2 :
  check_fs fs d 0 = (fmt, fs2, d2) ->
  forall early fmt' fs' d' bsect,
    (match fmt with
     | FR_NO_FILESYSTEM =>
         let '(dres, data, d) := disk_read d2 (FATFS.pdrv fs2) 0 1 in
         if negb (is_RES_OK dres) then (Some FR_DISK_ERR, fmt, fs2, d, 0) else
         let fs := FATFS.set_win fs2 data in
         let bsect := find_volume fs 0 in
         if nz bsect then
           let '(fmt, fs, d) := check_fs fs d bsect in
           (None, fmt, fs, d, bsect)
         else (None, fmt, fs, d, bsect)
     | _ => (None, fmt, fs2, d2, 0)
     end) = (early, fmt', fs', d', bsect) ->
    window_only fs fs'.
Proof.
  intros C early fmt' fs' d' bsect H.
  destruct (check_fs_inv _ _ _ _ _ _ C) as (_ & W1 & _).
  destruct fmt; try (inversion H; subst; exact W1).
  destruct (disk_read d2 (FATFS.pdrv fs2) 0 1) as [[dres data] d3].
  destruct dres; cbn [is_RES_OK negb] in H; try (inversion H; subst; exact W1).
  cbv zeta in H.
  assert (W2 : window_only fs (FATFS.set_win fs2 data))
    by (apply window_only_set_win; exact W1).
  destruct (nz (find_volume (FATFS.set_win fs2 data) 0)); [|inversion H; subst; exact W2].
  destruct (check_fs (FATFS.set_win fs2 data) d3 _) as [[f4 fs4] d4] eqn:C2.
  destruct (check_fs_inv _ _ _ _ _ _ C2) as (_ & W3 & _).
  inversion H; subst; eapply window_only_trans; eassumption.
Qed.

Lemma parse_bpb_fail fs Fsid bsect res fs' Fsid' :
  parse_bpb fs Fsid bsect = (res, fs', Fsid') -> res <> FR_OK ->
  FATFS.fs_type fs' = FATFS.fs_type fs /\ Fsid' = Fsid.
Proof.
  intros H Hr; unfold parse_bpb in H; cbv zeta in H.
  repeat match type of H with
         | (if ?c then _ else _) = _ =>
             destruct c;
               [inversion H; subst;
                split; [first [reflexivity|destruct fs; reflexivity]|reflexivity]|]
         end.
  inversion H; subst; congruence.
Qed.

(** X6.  [f_mount] that does not mount leaves the volume unmounted.  A
    drive number other than 0 is refused with [FR_INVALID_DRIVE] and nothing
    changes.  Otherwise the volume object given is registered with its type
    cleared; with option 0 that is all ([FR_OK], no access to the card), and
    whenever the result is not [FR_OK] the type stays cleared and the mount
    counter is not advanced.  A null volume object with a mount option is
    refused with [FR_INVALID_OBJECT] and empties the slot; a card that does
    not answer gives [FR_NOT_READY].  In all these cases [f_open],
    [f_opendir] and [f_getfree] on drive 0 answer [FR_NOT_ENABLED]. *)
Theorem f_mount_unmounted (FatFs : option FATFS.t) (Fsid : Z) (d : Device)
        (fs : option FATFS.t) (path : list Z) (opt : Z)
        (res : FRESULT) (FatFs' : option FATFS.t) (Fsid' : Z) (d' : Device) :
  f_mount FatFs Fsid d fs path opt = (res, FatFs', Fsid', d') ->
  (ld path 0 <> 48 ->
   res = FR_INVALID_DRIVE /\ FatFs' = FatFs /\ Fsid' = Fsid /\ d' = d) /\
  (ld path 0 = 48 -> opt = 0 -> res = FR_OK /\ d' = d) /\
  (ld path 0 = 48 -> opt <> 0 -> fs = None ->
   res = FR_INVALID_OBJECT /\ FatFs' = None /\ d' = d) /\
  (ld path 0 = 48 -> opt <> 0 -> fs <> None -> sd_present d = false ->
   res = FR_NOT_READY) /\
  (ld path 0 = 48 -> res <> FR_OK \/ opt = 0 ->
   match FatFs' with Some fs' => FATFS.fs_type fs' = 0 | None => fs = None end /\
   Fsid' = Fsid /\
   (forall dd fp p mode,
       ld p 0 = 48 -> ld p 1 = 58 ->
       f_open FatFs' dd fp p mode = (FR_NOT_ENABLED, FatFs', dd, FIL.set_fs fp false)) /\
   (forall dp p, ld p 0 = 48 -> f_opendir FatFs' dp p = (FR_NOT_ENABLED, dp)) /\
   (forall dd p, ld p 0 = 48 -> f_getfree FatFs' dd p = (FR_NOT_ENABLED, FatFs', dd, None))).
Proof.
  intros H.
  assert (Hbad : ld path 0 <> 48 ->
                 (ld path 0 - 48 <? 0) || (ld path 0 - 48 >=? FF_VOLUMES) = true).
  { intros N; unfold FF_VOLUMES; apply orb_true_iff.
    destruct (ld path 0 - 48 <? 0) eqn:E; [left; reflexivity|right; lia]. }
  assert (Core : ld path 0 = 48 -> res <> FR_OK \/ opt = 0 ->
                 match FatFs' with
                 | Some fs' => FATFS.fs_type fs' = 0
                 | None => fs = None
                 end /\ Fsid' = Fsid).
  { intros E Hc; unfold f_mount in H; rewrite E in H.
    change ((48 - 48 <? 0) || (48 - 48 >=? FF_VOLUMES)) with false in H; cbv iota in H.
    destruct (opt =? 0) eqn:Eo.
    { inversion H; subst; destruct fs as [fs|]; split; reflexivity. }
    apply Z.eqb_neq in Eo; destruct Hc as [Hr|Hc]; [|contradiction].
    destruct fs as [fs|]; [|inversion H; subst; split; reflexivity].
    cbv iota in H.
    set (fs1 := FATFS.set_pdrv (FATFS.set_fs_type fs 0) (u8 (48 - 48))) in H.
    assert (T1 : FATFS.fs_type fs1 = 0) by (destruct fs; reflexivity).
    destruct (disk_initialize d (FATFS.pdrv fs1)) as [st d1].
    destruct (nz (Z.land st STA_NOINIT)); [inversion H; subst; split; auto|].
    cbv zeta in H.
    destruct (check_fs fs1 d1 0) as [[fmt fs2] d2] eqn:C.
    match type of H with
    | (match ?X with pair _ _ => _ end) = _ =>
        destruct X as [[[[early fmt'] fs4] d4] bsect] eqn:Sp
    end.
    pose proof (f_mount_probe_frame _ _ _ _ _ C _ _ _ _ _ Sp) as W.
    destruct (window_only_fields _ _ W) as (T4 & _).
    destruct early as [r|]; [inversion H; subst; split; congruence|].
    destruct fmt'; try (inversion H; subst; split; congruence).
    destruct (parse_bpb fs4 Fsid bsect) as [[r5 fs5] Fsid5] eqn:Pb.
    inversion H; subst r5 FatFs' Fsid5 d4; clear H.
    destruct (parse_bpb_fail _ _ _ _ _ _ Pb Hr) as (T5 & ->); split; congruence. }
  splits.
  - intros N; unfold f_mount in H; rewrite (Hbad N) in H; inversion H; auto.
  - intros E Ho; unfold f_mount in H; rewrite E, Ho in H.
    change ((48 - 48 <? 0) || (48 - 48 >=? FF_VOLUMES)) with false in H; cbv iota in H.
    change (0 =? 0) with true in H; cbv iota in H; inversion H; auto.
  - intros E Ho ->; unfold f_mount in H; rewrite E in H.
    change ((48 - 48 <? 0) || (48 - 48 >=? FF_VOLUMES)) with false in H; cbv iota in H.
    replace (opt =? 0) with false in H by (symmetry; apply Z.eqb_neq; exact Ho).
    inversion H; auto.
  - intros E Ho Hs Hp; unfold f_mount in H; rewrite E in H.
    change ((48 - 48 <? 0) || (48 - 48 >=? FF_VOLUMES)) with false in H; cbv iota in H.
    replace (opt =? 0) with false in H by (symmetry; apply Z.eqb_neq; exact Ho).
    destruct fs as [fs|]; [|congruence]. cbv iota in H.
    replace (FATFS.pdrv (FATFS.set_pdrv (FATFS.set_fs_type fs 0) (u8 (48 - 48)))) with 0
      in H by (destruct fs; reflexivity).
    unfold disk_initialize in H; change (0 =? DEV_SD) with true in H.
    cbv iota zeta in H.
    replace (sd_present (dev_log d IoInit)) with false in H
      by (destruct d; symmetry; exact Hp).
    change (nz (Z.land STA_NOINIT STA_NOINIT)) with true in H; cbv iota in H.
    inversion H; reflexivity.
  - intros E Hc; destruct (Core E Hc) as (T & Ef).
    splits; try assumption.
    + intros dd fp p mode E0 E1.
      unfold f_open; rewrite E0, E1.
      change ((48 - 48 <? 0) || (48 - 48 >=? FF_VOLUMES)) with false.
      change (negb (58 =? 58)) with false; cbv iota zeta.
      destruct FatFs' as [fs'|]; [|reflexivity].
      rewrite T; reflexivity.
    + intros dp p E0.
      unfold f_opendir; rewrite E0.
      change ((48 - 48 <? 0) || (48 - 48 >=? FF_VOLUMES)) with false; cbv iota zeta.
      destruct FatFs' as [fs'|]; [|reflexivity].
      rewrite T; reflexivity.
    + intros dd p E0.
      unfold f_getfree; rewrite E0.
      change ((48 - 48 <? 0) || (48 - 48 >=? FF_VOLUMES)) with false; cbv iota zeta.
      destruct FatFs' as [fs'|]; [|reflexivity].
      rewrite T; reflexivity.
Qed.

(** Mounting on a card that does not answer, and opening a file then. *)
Lemma f_mount_unmounted_witness :
  exists fs' d',
    f_mount None 0 absent_dev (Some fresh_fs) drive0 1
      = (FR_NOT_READY, Some fs', 0, d') /\
    FATFS.fs_type fs' = 0 /\
    f_open (Some fs') d' fresh_fp (chars "0:A.TXT") FA_READ
      = (FR_NOT_ENABLED, Some fs', d', FIL.set_fs fresh_fp false).
Proof.
  destruct (f_mount None 0 absent_dev (Some fresh_fs) drive0 1)
    as [[[res FatFs'] Fsid'] d'] eqn:E.
  pose proof (f_mount_unmounted _ _ _ _ _ _ _ _ _ _ E) as (_ & _ & _ & Hn & Hu).
  assert (P : ld drive0 0 = 48) by reflexivity.
  assert (O : 1 <> 0) by lia.
  assert (S : Some fresh_fs <> None) by discriminate.
  assert (A : sd_present absent_dev = false) by reflexivity.
  pose proof (Hn P O S A) as Er; subst res.
  assert (R : FR_NOT_READY <> FR_OK \/ 1 = 0) by (left; discriminate).
  destruct (Hu P R) as (T & Ef & Ho & _).
  destruct FatFs' as [fs'|]; [|discriminate T].
  exists fs', d'; subst Fsid'; split; [reflexivity|]. split; [exact T|].
  apply Ho; reflexivity.
Defined.

(** ** Opening a file *)

Lemma length_sfn_base p : forall sfn k,
  length (snd (sfn_base p sfn k)) = length sfn.
Proof.
  induction p as [|c p IH]; intros sfn k; cbn [sfn_base]; [reflexivity|].
  destruct (nz c && negb (c =? 46) && (k <? 8)); [|reflexivity].
  rewrite IH, length_st; reflexivity.
Qed.

Lemma length_sfn_ext p : forall sfn k, length (sfn_ext p sfn k) = length sfn.
Proof.
  induction p as [|c p IH]; intros sfn k; cbn [sfn_ext]; [reflexivity|].
  destruct (nz c && (k <? 11)); [|reflexivity].
  rewrite IH, length_st; reflexivity.
Qed.

Lemma length_make_sfn p : length (make_sfn p) = 11%nat.
Proof.
  unfold make_sfn.
  pose proof (length_sfn_base p (repeat 32 11) 0) as L.
  destruct (sfn_base p (repeat 32 11) 0) as [r sfn]; cbn [snd] in L.
  destruct r as [|c r]; [exact L|].
  destruct (c =? 46); [rewrite length_sfn_ext|]; exact L.
Qed.

Lemma length_memcpy_nat n : forall a p src q,
  length (memcpy_nat a p src q n) = length a.
Proof.
  induction n as [|n IH]; intros a p src q; cbn [memcpy_nat]; [reflexivity|].
  rewrite IH, length_st; reflexivity.
Qed.

Lemma length_memset_nat n : forall a p v, length (memset_nat a p v n) = length a.
Proof.
  induction n as [|n IH]; intros a p v; cbn [memset_nat]; [reflexivity|].
  rewrite IH, length_st; reflexivity.
Qed.

Lemma ld_memcpy_nat n : forall a p src q j,
  0 <= p -> p + Z.of_nat n <= Z.of_nat (length a) -> 0 <= j ->
  ld (memcpy_nat a p src q n) j =
  if (p <=? j) && (j <? p + Z.of_nat n) then ld src (q + (j - p)) else ld a j.
Proof.
  induction n as [|n IH]; intros a p src q j Hp Hl Hj; cbn [memcpy_nat].
  - change (Z.of_nat 0) with 0.
    replace ((p <=? j) && (j <? p + 0)) with false by (symmetry; lia).
    reflexivity.
  - rewrite IH by (rewrite ?length_st; lia).
    rewrite ld_st by lia.
    rewrite Nat2Z.inj_succ in *; unfold Z.succ in *.
    pose proof (Nat2Z.is_nonneg n) as Hn; remember (Z.of_nat n) as N eqn:EN; clear EN.
    destruct (j =? p) eqn:E.
    + apply Z.eqb_eq in E; subst j.
      replace ((p + 1 <=? p) && (p <? p + 1 + N)) with false by (symmetry; lia).
      replace ((p <=? p) && (p <? p + (N + 1))) with true by (symmetry; lia).
      f_equal; lia.
    + apply Z.eqb_neq in E.
      destruct ((p + 1 <=? j) && (j <? p + 1 + N)) eqn:B.
      * replace ((p <=? j) && (j <? p + (N + 1))) with true by (symmetry; lia).
        f_equal; lia.
      * replace ((p <=? j) && (j <? p + (N + 1))) with false by (symmetry; lia).
        reflexivity.
Qed.

Lemma sector_memcpy w p src q n :
  sector w -> (forall k, 0 <= ld src k < 256) -> sector (memcpy w p src q n).
Proof.
  intros Hw Hs; unfold memcpy; generalize (Z.to_nat n) as m.
  intros m; revert w p q Hw.
  induction m as [|m IH]; intros w p q Hw; cbn [memcpy_nat]; [exact Hw|].
  apply IH, sector_st; auto.
Qed.

Lemma sector_memset w p v n : sector w -> 0 <= v < 256 -> sector (memset w p v n).
Proof.
  intros Hw Hv; unfold memset; generalize (Z.to_nat n) as m.
  intros m; revert w p Hw.
  induction m as [|m IH]; intros w p Hw; cbn [memset_nat]; [exact Hw|].
  apply IH, sector_st; auto.
Qed.

Lemma move_window_ok_winsect fs d s fs' d' :
  move_window fs d s = (FR_OK, fs', d') -> FATFS.winsect fs' = s.
Proof.
  unfold move_window; intros H.
  destruct (s =? FATFS.winsect fs) eqn:E; cbn [negb] in H; cbv iota in H.
  - apply Z.eqb_eq in E; inversion H; subst; auto.
  - destruct (sync_window fs d) as [[r fs1] d1].
    destruct r; try discriminate.
    destruct (disk_read d1 (FATFS.pdrv fs1) s 1) as [[dres data] d2].
    destruct (negb (is_RES_OK dres)); inversion H; subst.
    destruct fs1; reflexivity.
Qed.

Lemma sync_window_sector fs d res fs' d' :
  sync_window fs d = (res, fs', d') -> dev_ok d -> sector (FATFS.win fs) ->
  FATFS.win fs' = FATFS.win fs /\ FATFS.winsect fs' = FATFS.winsect fs /\
  dev_ok d' /\ (res = FR_OK -> FATFS.wflag fs' = 0).
Proof.
  unfold sync_window; intros H Hd Hw.
  destruct (nz (FATFS.wflag fs)) eqn:En.
  - destruct (disk_write d (FATFS.pdrv fs) (FATFS.win fs) (FATFS.winsect fs) 1)
      as [r d1] eqn:Ew.
    assert (Hd1 : dev_ok d1).
    { unfold disk_write in Ew.
      destruct (negb (FATFS.pdrv fs =? DEV_SD) || (1 =? 0)); [inversion Ew; subst; auto|].
      destruct (nz (Z.land (Stat d) STA_NOINIT)); [inversion Ew; subst; auto|].
      destruct (nz (Z.land (Stat d) STA_PROTECT)); [inversion Ew; subst; auto|].
      cbv zeta in Ew.
      destruct (any_bad _ _ _); inversion Ew; subst.
      - intros t; destruct d; apply Hd.
      - intros t; cbn [sd_data dev_set_data].
        destruct ((FATFS.winsect fs <=? t) && (t <? FATFS.winsect fs + 1)) eqn:B.
        + replace (t - FATFS.winsect fs) with 0 by lia.
          rewrite chunk_whole by apply Hw; exact Hw.
        + destruct d; apply Hd. }
    destruct (negb (is_RES_OK r)); inversion H; subst;
      (splits; try (destruct fs; reflexivity); auto; congruence).
  - apply nz_false in En; inversion H; subst; splits; auto.
Qed.

Lemma move_window_sector fs d s res fs' d' :
  move_window fs d s = (res, fs', d') -> dev_ok d -> sector (FATFS.win fs) ->
  sector (FATFS.win fs') /\ dev_ok d'.
Proof.
  unfold move_window; intros H Hd Hw.
  destruct (negb (s =? FATFS.winsect fs)); [|inversion H; subst; auto].
  destruct (sync_window fs d) as [[r fs1] d1] eqn:Es.
  destruct (sync_window_sector _ _ _ _ _ Es Hd Hw) as (Ew & _ & Hd1 & _).
  assert (Hw1 : sector (FATFS.win fs1)) by (rewrite Ew; exact Hw).
  destruct r; try (inversion H; subst; auto; fail).
  unfold disk_read in H.
  destruct (negb (FATFS.pdrv fs1 =? DEV_SD) || (1 =? 0)).
  { cbn [is_RES_OK negb] in H; inversion H; subst; split; [destruct fs1; exact Hw1|auto]. }
  destruct (nz (Z.land (Stat d1) STA_NOINIT)).
  { cbn [is_RES_OK negb] in H; inversion H; subst; split; [destruct fs1; exact Hw1|auto]. }
  cbv zeta in H.
  assert (Hd2 : dev_ok (dev_log d1 (IoRead s 1))) by (intros t; destruct d1; apply Hd1).
  destruct (any_bad _ _ _).
  { cbn [is_RES_OK negb] in H; inversion H; subst; split; [destruct fs1; exact Hw1|auto]. }
  cbn [is_RES_OK negb] in H; inversion H; subst; split; [|auto].
  change (Z.to_nat 1) with 1%nat; cbn [read_sectors]; rewrite app_nil_r.
  destruct fs1; cbn; destruct d1; apply Hd1.
Qed.

Lemma slice_S a p n :
  slice a p (Z.of_nat (S n)) = slice a p (Z.of_nat n) ++ [ld a (p + Z.of_nat n)].
Proof.
  unfold slice; rewrite !Nat2Z.id, seq_S, map_app; reflexivity.
Qed.

Lemma slice_all a : slice a 0 (Z.of_nat (length a)) = a.
Proof.
  unfold slice; rewrite Nat2Z.id.
  apply nth_ext with (d := 0) (d' := 0); [rewrite length_map, length_seq; reflexivity|].
  intros n Hn; rewrite length_map, length_seq in Hn.
  rewrite (nth_indep _ 0 (ld a (0 + Z.of_nat 0))) by (rewrite length_map, length_seq; exact Hn).
  rewrite map_nth with (f := fun k => ld a (0 + Z.of_nat k)).
  rewrite seq_nth by exact Hn; unfold ld; cbn [Z.add]; rewrite Nat2Z.id; reflexivity.
Qed.

Lemma slice_ext a b p q n :
  (forall k, 0 <= k < n -> ld a (p + k) = ld b (q + k)) -> slice a p n = slice b q n.
Proof.
  intros H; unfold slice; apply map_ext_in; intros k Hk; apply in_seq in Hk.
  apply H; lia.
Qed.

Lemma memcmp_eq_slice a p b :
  length b = 11%nat -> memcmp_eq a p b 11 = true -> slice a p 11 = b.
Proof.
  intros Hl Hm; unfold memcmp_eq in Hm; rewrite forallb_forall in Hm.
  transitivity (slice b 0 (Z.of_nat (length b))); [|apply slice_all].
  rewrite Hl; change (Z.of_nat 11) with 11.
  apply slice_ext; intros k Hk.
  specialize (Hm (Z.to_nat k)); rewrite Z2Nat.id in Hm by lia.
  cbn [Z.add]; apply Z.eqb_eq, Hm, in_seq; lia.
Qed.

Lemma dir_offset i : 0 <= i -> exists k, 0 <= k < 16 /\ i mod (SS / SZ_DIRE) * SZ_DIRE = 32 * k.
Proof.
  intros Hi; change (SS / SZ_DIRE) with 16; change SZ_DIRE with 32.
  exists (i mod 16); split; [apply Z.mod_pos_bound; lia|lia].
Qed.

(** What the search loop returns. *)
Lemma open_search_hit n : forall fs d sfn sect i,
  dev_ok d -> sector (FATFS.win fs) -> FATFS.winsect fs = sect -> 0 <= i ->
  length sfn = 11%nat ->
  match open_search n fs d sfn sect i with
  | ScanHit fs' d' sect' dir =>
      dev_ok d' /\ sector (FATFS.win fs') /\ FATFS.winsect fs' = sect' /\
      file_entry (FATFS.win fs') dir sfn
  | ScanFail _ fs' d' => True
  | ScanEnd fs' d' => dev_ok d' /\ sector (FATFS.win fs')
  end.
Proof.
  induction n as [|n IH]; intros fs d sfn sect i Hd Hw Hs Hi Hl; cbn [open_search];
    [auto|].
  destruct (negb (root_cond fs i)); [auto|].
  destruct ((i >? 0) && (i mod (SS / SZ_DIRE) =? 0)) eqn:Eb.
  - destruct (move_window fs d (u32 (sect + 1))) as [[r fs1] d1] eqn:Em.
    destruct (move_window_sector _ _ _ _ _ _ Em Hd Hw) as (Hw1 & Hd1).
    destruct r; try exact I.
    pose proof (move_window_ok_winsect _ _ _ _ _ Em) as Es1.
    apply andb_true_iff in Eb; destruct Eb as (_ & Eb); apply Z.eqb_eq in Eb.
    destruct (ld (FATFS.win fs1) (0 + DIR_Name) =? 0); [auto|].
    destruct (ld (FATFS.win fs1) (0 + DIR_Name) =? DDEM);
      [apply IH; auto; lia|].
    destruct (nz (Z.land (ld (FATFS.win fs1) (0 + DIR_Attr)) AM_DIR)) eqn:Ea;
      [apply IH; auto; lia|].
    destruct (memcmp_eq (FATFS.win fs1) 0 sfn 11) eqn:Ec; [|apply IH; auto; lia].
    splits; auto.
    split; [exists 0; split; lia|].
    split; [apply memcmp_eq_slice; assumption|apply nz_false; exact Ea].
  - set (dir := i mod (SS / SZ_DIRE) * SZ_DIRE).
    destruct (ld (FATFS.win fs) (dir + DIR_Name) =? 0); [auto|].
    destruct (ld (FATFS.win fs) (dir + DIR_Name) =? DDEM);
      [apply IH; auto; lia|].
    destruct (nz (Z.land (ld (FATFS.win fs) (dir + DIR_Attr)) AM_DIR)) eqn:Ea;
      [apply IH; auto; lia|].
    destruct (memcmp_eq (FATFS.win fs) dir sfn 11) eqn:Ec; [|apply IH; auto; lia].
    splits; auto.
    split; [apply dir_offset; exact Hi|].
    split; [apply memcmp_eq_slice; assumption|apply nz_false; exact Ea].
Qed.

Lemma open_free_slot_hit n : forall fs d sect i,
  dev_ok d -> sector (FATFS.win fs) -> FATFS.winsect fs = sect -> 0 <= i ->
  match open_free_slot n fs d sect i with
  | ScanHit fs' d' sect' dir =>
      dev_ok d' /\ sector (FATFS.win fs') /\ FATFS.winsect fs' = sect' /\
      exists k, 0 <= k < 16 /\ dir = 32 * k
  | _ => True
  end.
Proof.
  induction n as [|n IH]; intros fs d sect i Hd Hw Hs Hi; cbn [open_free_slot];
    [auto|].
  destruct (negb (root_cond fs i)); [auto|].
  destruct ((i >? 0) && (i mod (SS / SZ_DIRE) =? 0)) eqn:Eb.
  - destruct (move_window fs d (u32 (sect + 1))) as [[r fs1] d1] eqn:Em.
    destruct (move_window_sector _ _ _ _ _ _ Em Hd Hw) as (Hw1 & Hd1).
    destruct r; try exact I.
    pose proof (move_window_ok_winsect _ _ _ _ _ Em) as Es1.
    destruct ((ld (FATFS.win fs1) (0 + DIR_Name) =? 0)
              || (ld (FATFS.win fs1) (0 + DIR_Name) =? DDEM));
      [|apply IH; auto; lia].
    splits; auto; exists 0; split; lia.
  - destruct ((ld (FATFS.win fs) (i mod (SS / SZ_DIRE) * SZ_DIRE + DIR_Name) =? 0)
              || (ld (FATFS.win fs) (i mod (SS / SZ_DIRE) * SZ_DIRE + DIR_Name) =? DDEM));
      [|apply IH; auto; lia].
    splits; auto; apply dir_offset; exact Hi.
Qed.

Lemma bytes_st_nat a n v :
  (forall k, 0 <= ld a k < 256) -> 0 <= v < 256 -> forall k, 0 <= ld (st a n v) k < 256.
Proof.
  intros Ha Hv k; unfold ld, st; apply nth_st_nat_range; [|exact Hv].
  intros m; specialize (Ha (Z.of_nat m)); unfold ld in Ha; rewrite Nat2Z.id in Ha; exact Ha.
Qed.

Lemma upcase_range c : 0 <= upcase c < 256.
Proof. unfold upcase; destruct (_ && _); apply u8_range. Qed.

Lemma bytes_sfn_base p : forall sfn k,
  (forall j, 0 <= ld sfn j < 256) -> forall j, 0 <= ld (snd (sfn_base p sfn k)) j < 256.
Proof.
  induction p as [|c p IH]; intros sfn k Hs; cbn [sfn_base]; [exact Hs|].
  destruct (nz c && negb (c =? 46) && (k <? 8)); [|exact Hs].
  apply IH, bytes_st_nat; [exact Hs|apply upcase_range].
Qed.

Lemma bytes_sfn_ext p : forall sfn k,
  (forall j, 0 <= ld sfn j < 256) -> forall j, 0 <= ld (sfn_ext p sfn k) j < 256.
Proof.
  induction p as [|c p IH]; intros sfn k Hs; cbn [sfn_ext]; [exact Hs|].
  destruct (nz c && (k <? 11)); [|exact Hs].
  apply IH, bytes_st_nat; [exact Hs|apply upcase_range].
Qed.

Lemma bytes_make_sfn p : forall j, 0 <= ld (make_sfn p) j < 256.
Proof.
  unfold make_sfn.
  assert (H0 : forall j, 0 <= ld (repeat 32 11) j < 256).
  { intros j; unfold ld.
    destruct (Nat.lt_ge_cases (Z.to_nat j) 11) as [L|G].
    - rewrite nth_repeat_lt by exact L; lia.
    - rewrite nth_overflow by (rewrite repeat_length; exact G); lia. }
  pose proof (bytes_sfn_base p (repeat 32 11) 0 H0) as B.
  destruct (sfn_base p (repeat 32 11) 0) as [r sfn]; cbn [snd] in B.
  destruct r as [|c r]; [exact B|].
  destruct (c =? 46); [apply bytes_sfn_ext|]; exact B.
Qed.

(** The entry that the creation part writes into the window. *)
Lemma new_dir_entry_spec w dir sfn :
  sector w -> (exists k, 0 <= k < 16 /\ dir = 32 * k) ->
  length sfn = 11%nat -> (forall j, 0 <= ld sfn j < 256) ->
  sector (new_dir_entry w dir sfn) /\
  slice (new_dir_entry w dir sfn) dir 11 = sfn /\
  ld (new_dir_entry w dir sfn) (dir + DIR_Attr) = AM_ARC /\
  LD_DWORD (new_dir_entry w dir sfn) (dir + DIR_FileSize) = 0 /\
  LD_WORD (new_dir_entry w dir sfn) (dir + DIR_FstClusHI) = 0 /\
  LD_WORD (new_dir_entry w dir sfn) (dir + DIR_FstClusLO) = 0.
Proof.
  intros Hw (k & Hk & ->) Hl Hb.
  pose proof Hw as (Lw & _).
  unfold new_dir_entry; cbv zeta.
  unfold DIR_Attr, DIR_FileSize, DIR_FstClusHI, DIR_FstClusLO, DIR_WrtTime, SZ_DIRE.
  set (w0 := memset w (32 * k) 0 32).
  set (w1 := memcpy w0 (32 * k) sfn 0 11).
  set (w2 := st w1 (32 * k + 11) AM_ARC).
  set (w3 := ST_DWORD w2 (32 * k + 22) get_fattime).
  set (w4 := ST_WORD w3 (32 * k + 26) 0).
  set (w5 := ST_WORD w4 (32 * k + 20) 0).
  assert (L0 : Z.of_nat (length w0) = 512)
    by (unfold w0, memset; rewrite length_memset_nat; exact Lw).
  assert (L1 : Z.of_nat (length w1) = 512)
    by (unfold w1, memcpy; rewrite length_memcpy_nat; exact L0).
  assert (L2 : Z.of_nat (length w2) = 512) by (unfold w2; rewrite length_st; exact L1).
  assert (L3 : Z.of_nat (length w3) = 512)
    by (unfold w3; rewrite length_ST_DWORD; exact L2).
  assert (L4 : Z.of_nat (length w4) = 512)
    by (unfold w4; rewrite length_ST_WORD; exact L3).
  assert (L5 : Z.of_nat (length w5) = 512)
    by (unfold w5; rewrite length_ST_WORD; exact L4).
  splits.
  - apply sector_ST_DWORD, sector_ST_WORD, sector_ST_WORD, sector_ST_DWORD, sector_st;
      [|unfold AM_ARC; lia].
    apply sector_memcpy; [|exact Hb]. apply sector_memset; [exact Hw|lia].
  - transitivity (slice sfn 0 (Z.of_nat (length sfn))); [|apply slice_all].
    rewrite Hl; change (Z.of_nat 11) with 11.
    apply slice_ext; intros j Hj.
    rewrite ld_ST_DWORD_other by lia.
    unfold w5; rewrite ld_ST_WORD_other by lia.
    unfold w4; rewrite ld_ST_WORD_other by lia.
    unfold w3; rewrite ld_ST_DWORD_other by lia.
    unfold w2; rewrite ld_st_other by lia.
    unfold w1, memcpy; rewrite ld_memcpy_nat by (change (Z.of_nat (Z.to_nat 11)) with 11; lia).
    change (Z.of_nat (Z.to_nat 11)) with 11.
    replace ((32 * k <=? 32 * k + j) && (32 * k + j <? 32 * k + 11)) with true
      by (symmetry; lia).
    f_equal; lia.
  - rewrite ld_ST_DWORD_other by lia.
    unfold w5; rewrite ld_ST_WORD_other by lia.
    unfold w4; rewrite ld_ST_WORD_other by lia.
    unfold w3; rewrite ld_ST_DWORD_other by lia.
    unfold w2; apply ld_st_same; lia.
  - rewrite LD_DWORD_ST_DWORD by lia; reflexivity.
  - rewrite (LD_WORD_ext _ w5) by (apply ld_ST_DWORD_other; lia).
    unfold w5; rewrite LD_WORD_ST_WORD by lia; reflexivity.
  - rewrite (LD_WORD_ext _ w5) by (apply ld_ST_DWORD_other; lia).
    unfold w5; rewrite (LD_WORD_ext _ w4) by (apply ld_ST_WORD_other; lia).
    unfold w4; rewrite LD_WORD_ST_WORD by lia; reflexivity.
Qed.

(** X7.  When [f_open] returns [FR_OK], the window is on the directory
    sector recorded in the handle, and the directory entry that the handle
    points at is one of the 16 of that sector, is not a directory, and
    carries the 11 name bytes that the path converts to.  The size and the
    first cluster of the handle are those stored in that entry (0 and 0 for
    a file just created), the current cluster is the first one, the offset
    is 0, the error flag is clear, the flags are the mode, and the handle
    carries the mount id of the volume. *)
Theorem f_open_entry (fs : FATFS.t) (d : Device) (fp : FIL.t) (path : list Z)
        (mode : Z) (fs' : FATFS.t) (d' : Device) (fp' : FIL.t) :
  f_open (Some fs) d fp path mode = (FR_OK, Some fs', d', fp') ->
  dev_ok d -> sector (FATFS.win fs) ->
  FATFS.winsect fs' = FIL.dir_sect fp' /\
  file_entry (FATFS.win fs') (FIL.dir_ptr fp') (make_sfn (path_name path)) /\
  FIL.obj_size fp' = LD_DWORD (FATFS.win fs') (FIL.dir_ptr fp' + DIR_FileSize) /\
  FIL.sclust fp' =
    Z.lor (Z.shiftl (LD_WORD (FATFS.win fs') (FIL.dir_ptr fp' + DIR_FstClusHI)) 16)
          (LD_WORD (FATFS.win fs') (FIL.dir_ptr fp' + DIR_FstClusLO)) /\
  FIL.clust fp' = FIL.sclust fp' /\
  FIL.fs fp' = true /\ FIL.id fp' = FATFS.id fs /\ FIL.flag fp' = u8 mode /\
  FIL.err fp' = 0 /\ FIL.fptr fp' = 0 /\
  sector (FATFS.win fs') /\ dev_ok d'.
Proof.
  intros H Hd Hw; unfold f_open in H.
  destruct ((ld path 0 - 48 <? 0) || (ld path 0 - 48 >=? FF_VOLUMES)); [discriminate|].
  destruct (negb (ld path 1 =? 58)); [discriminate|].
  cbv zeta in H.
  destruct (negb (nz (FATFS.fs_type fs))); [discriminate|].
  destruct (move_window fs d (root_sect fs)) as [[r fs1] d1] eqn:Em.
  destruct r; try discriminate.
  destruct (move_window_sector _ _ _ _ _ _ Em Hd Hw) as (Hw1 & Hd1).
  pose proof (move_window_ok_winsect _ _ _ _ _ Em) as Es1.
  pose proof (move_window_frame _ _ _ _ _ _ Em) as W1.
  set (sfn := make_sfn (path_name path)) in *.
  pose proof (open_search_hit (Z.to_nat (root_bound fs1)) fs1 d1 sfn (root_sect fs) 0
                Hd1 Hw1 Es1 ltac:(lia) (length_make_sfn _)) as Hs.
  pose proof (open_search_frame (Z.to_nat (root_bound fs1)) fs1 d1 sfn (root_sect fs) 0)
    as Fs.
  destruct (open_search (Z.to_nat (root_bound fs1)) fs1 d1 sfn (root_sect fs) 0)
    as [fs2 d2 sect dir|r fs2 d2|fs2 d2].
  - destruct Hs as (Hd2 & Hw2 & Es2 & He).
    inversion H; subst fs' d' fp'; clear H; cbn.
    destruct (window_only_fields _ _ (window_only_trans _ _ _ W1 Fs))
      as (_ & _ & _ & _ & _ & _ & _ & _ & _ & _ & Eid).
    splits; auto.
  - destruct Fs as (_ & Hr); inversion H; subst; congruence.
  - destruct Hs as (Hd2 & Hw2).
    destruct (nz (Z.land mode (Z.lor (Z.lor FA_CREATE_ALWAYS FA_CREATE_NEW) FA_OPEN_ALWAYS)));
      [|discriminate].
    destruct (move_window fs2 d2 (root_sect fs2)) as [[r fs3] d3] eqn:Em3.
    destruct r; try discriminate.
    destruct (move_window_sector _ _ _ _ _ _ Em3 Hd2 Hw2) as (Hw3 & Hd3).
    pose proof (move_window_ok_winsect _ _ _ _ _ Em3) as Es3.
    pose proof (move_window_frame _ _ _ _ _ _ Em3) as W3.
    pose proof (open_free_slot_hit (Z.to_nat (root_bound fs3)) fs3 d3 (root_sect fs2) 0
                  Hd3 Hw3 Es3 ltac:(lia)) as Hf.
    pose proof (open_free_slot_frame (Z.to_nat (root_bound fs3)) fs3 d3 (root_sect fs2) 0)
      as Ff.
    destruct (open_free_slot (Z.to_nat (root_bound fs3)) fs3 d3 (root_sect fs2) 0)
      as [fs4 d4 sect dir|r fs4 d4|fs4 d4]; try discriminate.
    + destruct Hf as (Hd4 & Hw4 & Es4 & Hk).
      set (fs5 := FATFS.set_wflag
                    (FATFS.set_win fs4 (new_dir_entry (FATFS.win fs4) dir sfn)) 1) in H.
      destruct (new_dir_entry_spec (FATFS.win fs4) dir sfn Hw4 Hk (length_make_sfn _)
                  (bytes_make_sfn _)) as (N1 & N2 & N3 & N4 & N5 & N6).
      assert (Ew5 : FATFS.win fs5 = new_dir_entry (FATFS.win fs4) dir sfn)
        by (destruct fs4; reflexivity).
      assert (Es5 : FATFS.winsect fs5 = sect) by (destruct fs4; exact Es4).
      assert (W5 : window_only fs fs5).
      { unfold fs5; apply window_only_set_wflag, window_only_set_win.
        eapply window_only_trans; [exact W1|].
        eapply window_only_trans; [exact Fs|].
        eapply window_only_trans; [exact W3|exact Ff]. }
      destruct (sync_window fs5 d4) as [[r fs6] d6] eqn:Ey.
      assert (Hw5 : sector (FATFS.win fs5)) by (rewrite Ew5; exact N1).
      destruct (sync_window_sector _ _ _ _ _ Ey Hd4 Hw5) as (Ew6 & Es6 & Hd6 & _).
      pose proof (sync_window_frame _ _ _ _ _ Ey) as W6.
      destruct r; try (inversion H; fail).
      inversion H; subst fs' d' fp'; clear H; cbn.
      destruct (window_only_fields _ _ (window_only_trans _ _ _ W5 W6))
        as (_ & _ & _ & _ & _ & _ & _ & _ & _ & _ & Eid).
      rewrite Ew6, Ew5.
      splits; auto; try congruence.
      * split; [exact Hk|]. split; [exact N2|].
        rewrite N3; reflexivity.
      * rewrite N5, N6; reflexivity.
    + destruct Ff as (_ & Hr); inversion H; subst; congruence.
Qed.

(** "A.TXT" created on the blank volume: the handle points at the first
    entry of the root directory, which carries the name "A       TXT". *)
Lemma f_open_entry_witness :
  f_open (Some vol12) blank_dev fresh_fp (chars "0:A.TXT") mode_rw_create
    = (FR_OK, Some (ses_fs created_blank), ses_dev created_blank, ses_fp created_blank) /\
  FIL.dir_sect (ses_fp created_blank) = 3 /\ FIL.dir_ptr (ses_fp created_blank) = 0 /\
  file_entry (FATFS.win (ses_fs created_blank)) (FIL.dir_ptr (ses_fp created_blank))
             (make_sfn (path_name (chars "0:A.TXT"))) /\
  make_sfn (path_name (chars "0:A.TXT")) = chars "A       TXT".
Proof.
  assert (E : f_open (Some vol12) blank_dev fresh_fp (chars "0:A.TXT") mode_rw_create
              = (FR_OK, Some (ses_fs created_blank), ses_dev created_blank,
                 ses_fp created_blank)) by (vm_compute; reflexivity).
  pose proof (f_open_entry _ _ _ _ _ _ _ _ E dev_ok_blank_dev (m_win _ mounted_vol12))
    as (_ & F & _).
  split; [exact E|].
  split; [vm_compute; reflexivity|]. split; [vm_compute; reflexivity|].
  split; [exact F|vm_compute; reflexivity].
Defined.

(** X8.  A file that is found is opened in the same way under every mode:
    when [f_open] succeeds under a mode without a creation bit, it succeeds
    under any other mode on the same directory entry, with the same size and
    first cluster and the same effect on the volume and the card; only the
    flags of the handle differ.  So [FA_CREATE_NEW] does not refuse an
    existing file and [FA_CREATE_ALWAYS] does not empty it. *)
Theorem f_open_existing_any_mode (FatFs : option FATFS.t) (d : Device) (fp : FIL.t)
        (path : list Z) (m1 : Z) (FatFs' : option FATFS.t) (d' : Device) (fp' : FIL.t) :
  f_open FatFs d fp path m1 = (FR_OK, FatFs', d', fp') ->
  Z.land m1 FA_CREATE_ANY = 0 ->
  forall m2, f_open FatFs d fp path m2 = (FR_OK, FatFs', d', FIL.set_flag fp' (u8 m2)).
Proof.
  intros H Hm m2; unfold f_open in *.
  destruct ((ld path 0 - 48 <? 0) || (ld path 0 - 48 >=? FF_VOLUMES)); [discriminate|].
  destruct (negb (ld path 1 =? 58)); [discriminate|].
  cbv zeta in *.
  destruct FatFs as [fs|]; [|discriminate].
  destruct (negb (nz (FATFS.fs_type fs))); [discriminate|].
  destruct (move_window fs d (root_sect fs)) as [[r fs1] d1].
  destruct r; try discriminate.
  pose proof (open_search_frame (Z.to_nat (root_bound fs1)) fs1 d1
                (make_sfn (path_name path)) (root_sect fs) 0) as Fs.
  destruct (open_search (Z.to_nat (root_bound fs1)) fs1 d1
              (make_sfn (path_name path)) (root_sect fs) 0)
    as [fs2 d2 sect dir|r fs2 d2|fs2 d2].
  - inversion H; subst; reflexivity.
  - destruct Fs as (_ & Hr); inversion H; subst; congruence.
  - change (Z.lor (Z.lor FA_CREATE_ALWAYS FA_CREATE_NEW) FA_OPEN_ALWAYS)
      with FA_CREATE_ANY in H.
    rewrite Hm in H; change (nz 0) with false in H; discriminate.
Qed.

(** "LONGFILE" of 5 bytes, opened for reading and then with
    [FA_WRITE | FA_CREATE_ALWAYS] and with [FA_WRITE | FA_CREATE_NEW]. *)
Lemma f_open_existing_any_mode_witness :
  exists fs' d' fp',
    f_open (Some vol12) two_files_dev fresh_fp (chars "0:LONGFILE") FA_READ
      = (FR_OK, Some fs', d', fp') /\
    FIL.obj_size fp' = 5 /\
    f_open (Some vol12) two_files_dev fresh_fp (chars "0:LONGFILE") 10
      = (FR_OK, Some fs', d', FIL.set_flag fp' (u8 10)) /\
    f_open (Some vol12) two_files_dev fresh_fp (chars "0:LONGFILE") 6
      = (FR_OK, Some fs', d', FIL.set_flag fp' (u8 6)).
Proof.
  destruct (f_open (Some vol12) two_files_dev fresh_fp (chars "0:LONGFILE") FA_READ)
    as [[[res F'] d'] fp'] eqn:E.
  assert (R : res = FR_OK /\ FIL.obj_size fp' = 5 /\ exists fs', F' = Some fs').
  { assert (X : (res, F', d', fp')
                = f_open (Some vol12) two_files_dev fresh_fp (chars "0:LONGFILE") FA_READ)
      by (symmetry; exact E).
    vm_compute in X; inversion X; subst; split; [reflexivity|].
    split; [reflexivity|eexists; reflexivity]. }
  destruct R as (-> & Hs & fs' & ->).
  assert (M : Z.land FA_READ FA_CREATE_ANY = 0) by reflexivity.
  pose proof (f_open_existing_any_mode _ _ _ _ _ _ _ _ E M) as A.
  exists fs', d', fp'; split; [reflexivity|]. split; [exact Hs|].
  split; apply A.
Defined.

(** A scan of the root directory with a clean window only reads. *)
Lemma open_search_clean n : forall fs d sfn sect i,
  FATFS.wflag fs = 0 ->
  match open_search n fs d sfn sect i with
  | ScanHit fs' d' _ _ => log_only d d' /\ FATFS.wflag fs' = 0
  | ScanFail r fs' d' => log_only d d' /\ FATFS.wflag fs' = 0 /\ r = FR_DISK_ERR
  | ScanEnd fs' d' => log_only d d' /\ FATFS.wflag fs' = 0
  end.
Proof.
  induction n as [|n IH]; intros fs d sfn sect i Hw; cbn [open_search];
    [auto using log_only_refl|].
  destruct (negb (root_cond fs i)); [auto using log_only_refl|].
  destruct ((i >? 0) && (i mod (SS / SZ_DIRE) =? 0)).
  - destruct (move_window fs d (u32 (sect + 1))) as [[r fs1] d1] eqn:Em.
    destruct (move_window_clean _ _ _ _ _ _ Em Hw) as (L & F & _ & _ & Hr).
    assert (K : forall s j,
               match open_search n fs1 d1 sfn s j with
               | ScanHit fs' d' _ _ => log_only d d' /\ FATFS.wflag fs' = 0
               | ScanFail r fs' d' => log_only d d' /\ FATFS.wflag fs' = 0 /\ r = FR_DISK_ERR
               | ScanEnd fs' d' => log_only d d' /\ FATFS.wflag fs' = 0
               end).
    { intros s j; specialize (IH fs1 d1 sfn s j F).
      destruct (open_search n fs1 d1 sfn s j); intuition eauto using log_only_trans. }
    destruct r; try (destruct Hr; try discriminate; splits; auto; fail).
    destruct (ld (FATFS.win fs1) (0 + DIR_Name) =? 0); [auto|].
    destruct (ld (FATFS.win fs1) (0 + DIR_Name) =? DDEM); [apply K|].
    destruct (nz (Z.land (ld (FATFS.win fs1) (0 + DIR_Attr)) AM_DIR)); [apply K|].
    destruct (memcmp_eq (FATFS.win fs1) 0 sfn 11); [auto|apply K].
  - set (dir := i mod (SS / SZ_DIRE) * SZ_DIRE).
    destruct (ld (FATFS.win fs) (dir + DIR_Name) =? 0); [auto using log_only_refl|].
    destruct (ld (FATFS.win fs) (dir + DIR_Name) =? DDEM); [apply IH; exact Hw|].
    destruct (nz (Z.land (ld (FATFS.win fs) (dir + DIR_Attr)) AM_DIR));
      [apply IH; exact Hw|].
    destruct (memcmp_eq (FATFS.win fs) dir sfn 11);
      [auto using log_only_refl|apply IH; exact Hw].
Qed.

(** X9.  [f_open] under a mode without a creation bit, entered with a clean
    window, never writes: the medium and the status of the card are as
    before, the window is still clean, and the result is [FR_OK],
    [FR_NO_FILE] when no entry has the name, [FR_DISK_ERR] when a read is
    refused, or one of the three refusals of the path and the volume. *)
Theorem f_open_no_create_reads_only (FatFs : option FATFS.t) (d : Device) (fp : FIL.t)
        (path : list Z) (mode : Z)
        (res : FRESULT) (FatFs' : option FATFS.t) (d' : Device) (fp' : FIL.t) :
  f_open FatFs d fp path mode = (res, FatFs', d', fp') ->
  match FatFs with Some fs => FATFS.wflag fs = 0 | None => True end ->
  Z.land mode FA_CREATE_ANY = 0 ->
  log_only d d' /\
  match FatFs' with Some fs' => FATFS.wflag fs' = 0 | None => FatFs = None end /\
  (res = FR_OK \/ res = FR_NO_FILE \/ res = FR_DISK_ERR \/
   res = FR_INVALID_DRIVE \/ res = FR_INVALID_NAME \/ res = FR_NOT_ENABLED).
Proof.
  intros H Hw Hm; unfold f_open in H.
  destruct ((ld path 0 - 48 <? 0) || (ld path 0 - 48 >=? FF_VOLUMES)).
  { inversion H; subst; splits; auto 10 using log_only_refl.
    match goal with |- match ?F with _ => _ end => destruct F; auto end. }
  destruct (negb (ld path 1 =? 58)).
  { inversion H; subst; splits; auto 10 using log_only_refl.
    match goal with |- match ?F with _ => _ end => destruct F; auto end. }
  cbv zeta in H.
  destruct FatFs as [fs|]; [|inversion H; subst; splits; auto 10 using log_only_refl].
  destruct (negb (nz (FATFS.fs_type fs)));
    [inversion H; subst; splits; auto 10 using log_only_refl|].
  destruct (move_window fs d (root_sect fs)) as [[r fs1] d1] eqn:Em.
  destruct (move_window_clean _ _ _ _ _ _ Em Hw) as (L & F & _ & _ & Hr).
  destruct r; try (destruct Hr; try discriminate; inversion H; subst; splits; auto 10; fail).
  pose proof (open_search_clean (Z.to_nat (root_bound fs1)) fs1 d1
                (make_sfn (path_name path)) (root_sect fs) 0 F) as Hs.
  destruct (open_search (Z.to_nat (root_bound fs1)) fs1 d1
              (make_sfn (path_name path)) (root_sect fs) 0)
    as [fs2 d2 sect dir|r fs2 d2|fs2 d2].
  - destruct Hs as (L2 & F2); inversion H; subst; splits; eauto 10 using log_only_trans.
  - destruct Hs as (L2 & F2 & ->); inversion H; subst; splits; eauto 10 using log_only_trans.
  - destruct Hs as (L2 & F2).
    change (Z.lor (Z.lor FA_CREATE_ALWAYS FA_CREATE_NEW) FA_OPEN_ALWAYS)
      with FA_CREATE_ANY in H.
    rewrite Hm in H; change (nz 0) with false in H; cbv iota in H.
    inversion H; subst; splits; eauto 10 using log_only_trans.
Qed.

(** A name that is not in the directory of [two_files_dev]. *)
Lemma f_open_no_create_reads_only_witness :
  exists fs' d',
    f_open (Some vol12) two_files_dev fresh_fp (chars "0:NONE.TXT") FA_READ
      = (FR_NO_FILE, Some fs', d', FIL.set_fs fresh_fp false) /\
    sd_data d' = sd_data two_files_dev /\ FATFS.wflag fs' = 0 /\
    io_log d' = [IoRead 3 1].
Proof.
  destruct (f_open (Some vol12) two_files_dev fresh_fp (chars "0:NONE.TXT") FA_READ)
    as [[[res F'] d'] fp'] eqn:E.
  assert (W : match Some vol12 with Some fs => FATFS.wflag fs = 0 | None => True end)
    by reflexivity.
  assert (M : Z.land FA_READ FA_CREATE_ANY = 0) by reflexivity.
  destruct (f_open_no_create_reads_only _ _ _ _ _ _ _ _ _ E W M) as ((_ & _ & _ & Ed) & F & _).
  assert (X : (res, F', d', fp')
              = f_open (Some vol12) two_files_dev fresh_fp (chars "0:NONE.TXT") FA_READ)
    by (symmetry; exact E).
  destruct F' as [fs'|]; [|discriminate F].
  exists fs', d'; split; [|split; [exact Ed|split; [exact F|]]].
  - vm_compute in X; inversion X; subst; reflexivity.
  - vm_compute in X; inversion X; subst; reflexivity.
Defined.

(** ** Reading *)

Lemma get_fat_sector fs d c v fs' d' :
  get_fat fs d c = (v, fs', d') -> dev_ok d -> sector (FATFS.win fs) ->
  sector (FATFS.win fs') /\ dev_ok d'.
Proof.
  unfold get_fat; intros H Hd Hw.
  destruct ((c <? 2) || (c >=? FATFS.n_fatent fs)); [inversion H; subst; auto|].
  destruct (FATFS.fs_type fs =? FS_FAT12).
  { cbv zeta in H.
    match type of H with context [move_window ?a ?b ?s] =>
      destruct (move_window a b s) as [[r fs1] d1] eqn:E1 end.
    destruct (move_window_sector _ _ _ _ _ _ E1 Hd Hw) as (Hw1 & Hd1).
    destruct r; try (inversion H; subst; auto; fail).
    match type of H with context [move_window fs1 d1 ?s] =>
      destruct (move_window fs1 d1 s) as [[r fs2] d2] eqn:E2 end.
    destruct (move_window_sector _ _ _ _ _ _ E2 Hd1 Hw1) as (Hw2 & Hd2).
    destruct r; inversion H; subst; auto. }
  destruct (FATFS.fs_type fs =? FS_FAT16).
  { cbv zeta in H.
    match type of H with context [move_window ?a ?b ?s] =>
      destruct (move_window a b s) as [[r fs1] d1] eqn:E1 end.
    destruct (move_window_sector _ _ _ _ _ _ E1 Hd Hw) as (Hw1 & Hd1).
    destruct r; inversion H; subst; auto. }
  destruct (FATFS.fs_type fs =? FS_FAT32); [|inversion H; subst; auto].
  cbv zeta in H.
  match type of H with context [move_window ?a ?b ?s] =>
    destruct (move_window a b s) as [[r fs1] d1] eqn:E1 end.
  destruct (move_window_sector _ _ _ _ _ _ E1 Hd Hw) as (Hw1 & Hd1).
  destruct r; inversion H; subst; auto.
Qed.

Lemma length_read_sectors m n : forall s,
  (forall t, Z.of_nat (length (m t)) = 512) ->
  Z.of_nat (length (read_sectors m s n)) = 512 * Z.of_nat n.
Proof.
  induction n as [|n IH]; intros s Hm; cbn [read_sectors]; [reflexivity|].
  rewrite length_app, Nat2Z.inj_add, IH, Hm by exact Hm; lia.
Qed.

Lemma disk_read_ok d p s cc data d' :
  disk_read d p s cc = (RES_OK, data, d') ->
  data = read_sectors (sd_data d) s (Z.to_nat cc) /\ log_only d d'.
Proof.
  unfold disk_read; intros H.
  destruct (negb (p =? DEV_SD) || (cc =? 0)); [discriminate|].
  destruct (nz (Z.land (Stat d) STA_NOINIT)); [discriminate|].
  cbv zeta in H.
  destruct (any_bad _ _ _); [discriminate|].
  inversion H; subst; split; [destruct d; reflexivity|apply log_only_log].
Qed.

Lemma disk_read_log_only d p s cc r data d' :
  disk_read d p s cc = (r, data, d') -> log_only d d'.
Proof.
  unfold disk_read; intros H.
  destruct (negb (p =? DEV_SD) || (cc =? 0)); [inversion H; apply log_only_refl|].
  destruct (nz (Z.land (Stat d) STA_NOINIT)); [inversion H; apply log_only_refl|].
  cbv zeta in H.
  destruct (any_bad _ _ _); inversion H; apply log_only_log.
Qed.

Lemma length_slice a p n : 0 <= n -> Z.of_nat (length (slice a p n)) = n.
Proof. intros; unfold slice; rewrite length_map, length_seq; lia. Qed.

Lemma pow2_bounds k : 0 <= k < 8 -> 1 <= 2 ^ k <= 128.
Proof.
  intros Hk.
  assert (k = 0 \/ k = 1 \/ k = 2 \/ k = 3 \/ k = 4 \/ k = 5 \/ k = 6 \/ k = 7) by lia.
  intuition (subst; cbn; lia).
Qed.

(** The transfer part of one round of [f_read]. *)
Lemma f_read_transfer fs d fp btr :
  sound fs d -> 0 < btr < 4294967296 ->
  0 <= FIL.fptr fp < FIL.obj_size fp -> FIL.obj_size fp + 65536 <= 4294967296 ->
  let sect := clst2sect fs (FIL.clust fp) in
  let csect := u32 (FIL.fptr fp / SS) mod FATFS.csize fs in
  match
    (if sect =? 0 then let '(res, fp) := ABORT fp FR_INT_ERR in Stop res fs d fp else
     let sect := u32 (sect + csect) in
     let cc := btr / SS in
     if cc >? 0 then
       let cc := if u32 (csect + cc) >? FATFS.csize fs
                 then u32 (FATFS.csize fs - csect) else cc in
       let '(dres, data, d) := disk_read d (FATFS.pdrv fs) sect cc in
       if negb (is_RES_OK dres) then
         let '(res, fp) := ABORT fp FR_DISK_ERR in Stop res fs d fp else
       let rcnt := u32 (cc * SS) in
       let rcnt := if u32 (FIL.fptr fp + rcnt) >? FIL.obj_size fp
                   then u32 (FIL.obj_size fp - FIL.fptr fp) else rcnt in
       More fs d (FIL.set_fptr fp (u32 (FIL.fptr fp + rcnt))) rcnt
            (firstn (Z.to_nat rcnt) data)
     else
       let '(res, fs, d) := move_window fs d sect in
       match res with
       | FR_OK =>
           let rcnt := u32 (SS - u32 (FIL.fptr fp mod SS)) in
           let rcnt := if rcnt >? btr then btr else rcnt in
           let rcnt := if u32 (FIL.fptr fp + rcnt) >? FIL.obj_size fp
                       then u32 (FIL.obj_size fp - FIL.fptr fp) else rcnt in
           More fs d (FIL.set_fptr fp (u32 (FIL.fptr fp + rcnt))) rcnt
                (slice (FATFS.win fs) (FIL.fptr fp mod SS) rcnt)
       | _ => let '(res, fp) := ABORT fp res in Stop res fs d fp
       end)
  with
  | More fs' d' fp' rcnt data =>
      0 < rcnt <= btr /\ FIL.fptr fp' = FIL.fptr fp + rcnt /\
      FIL.fptr fp + rcnt <= FIL.obj_size fp /\
      Z.of_nat (length data) = rcnt /\ sound fs' d'
  | Stop res fs' d' fp' => True
  | Diverge => False
  end.
Proof.
  intros ((k & Hk & Ek) & Hd & Hw) Hb Hp Ho; cbv zeta.
  pose proof (pow2_bounds k Hk) as Hc; rewrite <- Ek in Hc.
  destruct (clst2sect fs (FIL.clust fp) =? 0); [exact I|].
  unfold SS, FF_MAX_SS.
  remember (FIL.fptr fp) as p eqn:Ep; remember (FIL.obj_size fp) as o eqn:Eo.
  remember (FATFS.csize fs) as cs eqn:Ecsz.
  assert (Hq : 0 <= p / 512 < 4294967296) by (Z.to_euclidean_division_equations; lia).
  rewrite (u32_small (p / 512)) by lia.
  assert (Hcs : 0 <= (p / 512) mod cs < cs) by (apply Z.mod_pos_bound; lia).
  remember ((p / 512) mod cs) as csect eqn:Ecs.
  assert (Hcc : 0 <= btr / 512 <= btr) by (Z.to_euclidean_division_equations; lia).
  assert (Hcc1 : 512 * (btr / 512) <= btr) by (Z.to_euclidean_division_equations; lia).
  remember (btr / 512) as cc0 eqn:Ecc0.
  destruct (cc0 >? 0) eqn:Egt.
  - rewrite (u32_small (csect + cc0)) by lia.
    rewrite (u32_small (cs - csect)) by lia.
    remember (if csect + cc0 >? cs then cs - csect else cc0) as cc eqn:Ecc.
    assert (Hcc2 : 1 <= cc <= cc0 /\ cc <= 128)
      by (subst cc; destruct (csect + cc0 >? cs) eqn:E; lia).
    destruct (disk_read d (FATFS.pdrv fs) (u32 (clst2sect fs (FIL.clust fp) + csect)) cc)
      as [[dres data] d1] eqn:Er.
    destruct dres; cbn [is_RES_OK negb]; try exact I.
    destruct (disk_read_ok _ _ _ _ _ _ Er) as (Ed & L).
    rewrite (u32_small (cc * 512)) by lia.
    rewrite (u32_small (p + cc * 512)) by lia.
    rewrite (u32_small (o - p)) by lia.
    remember (if p + cc * 512 >? o then o - p else cc * 512) as rcnt eqn:Ercnt.
    assert (Hr : 0 < rcnt <= cc * 512 /\ p + rcnt <= o)
      by (subst rcnt; destruct (p + cc * 512 >? o) eqn:E; lia).
    rewrite (u32_small (p + rcnt)) by lia.
    cbn [FIL.fptr FIL.set_fptr].
    splits; try lia.
    + rewrite length_firstn, Nat2Z.inj_min, Z2Nat.id by lia.
      rewrite Ed, length_read_sectors by (intros t; apply Hd).
      rewrite Z2Nat.id by lia; lia.
    + split; [exists k; split; [exact Hk|congruence]|].
      split; [eapply dev_ok_log_only; eassumption|exact Hw].
  - destruct (move_window fs d (u32 (clst2sect fs (FIL.clust fp) + csect)))
      as [[r fs1] d1] eqn:Em.
    destruct (move_window_sector _ _ _ _ _ _ Em Hd Hw) as (Hw1 & Hd1).
    pose proof (move_window_frame _ _ _ _ _ _ Em) as W.
    destruct (window_only_fields _ _ W) as (_ & _ & _ & _ & Ec & _).
    destruct r; try exact I.
    assert (Hm : 0 <= p mod 512 < 512) by (apply Z.mod_pos_bound; lia).
    rewrite (u32_small (p mod 512)) by lia.
    rewrite (u32_small (512 - p mod 512)) by lia.
    remember (if 512 - p mod 512 >? btr then btr else 512 - p mod 512) as r1 eqn:Er1.
    assert (Hr1 : 0 < r1 <= btr /\ r1 <= 512)
      by (subst r1; destruct (512 - p mod 512 >? btr) eqn:E; lia).
    rewrite (u32_small (p + r1)) by lia.
    rewrite (u32_small (o - p)) by lia.
    remember (if p + r1 >? o then o - p else r1) as rcnt eqn:Ercnt.
    assert (Hr : 0 < rcnt <= r1 /\ p + rcnt <= o)
      by (subst rcnt; destruct (p + r1 >? o) eqn:E; lia).
    rewrite (u32_small (p + rcnt)) by lia.
    cbn [FIL.fptr FIL.set_fptr].
    splits; try lia.
    + apply length_slice; lia.
    + split; [exists k; split; [exact Hk|congruence]|].
      split; [exact Hd1|exact Hw1].
Qed.

Lemma sound_get_fat fs d c v fs' d' :
  get_fat fs d c = (v, fs', d') -> sound fs d -> sound fs' d'.
Proof.
  intros H ((k & Hk & Ek) & Hd & Hw).
  destruct (get_fat_sector _ _ _ _ _ _ H Hd Hw) as (Hw' & Hd').
  destruct (window_only_fields _ _ (get_fat_frame _ _ _ _ _ _ H)) as (_ & _ & _ & _ & Ec & _).
  split; [exists k; split; [exact Hk|congruence]|split; assumption].
Qed.

(** One round of [f_read]: the count it takes. *)
Lemma f_read_round_count fs d fp btr :
  sound fs d -> 0 < btr < 4294967296 ->
  0 <= FIL.fptr fp < FIL.obj_size fp -> FIL.obj_size fp + 65536 <= 4294967296 ->
  match f_read_round fs d fp btr with
  | More fs' d' fp' rcnt data =>
      0 < rcnt <= btr /\ FIL.fptr fp' = FIL.fptr fp + rcnt /\
      FIL.fptr fp + rcnt <= FIL.obj_size fp /\
      Z.of_nat (length data) = rcnt /\ sound fs' d'
  | Stop res fs' d' fp' => True
  | Diverge => False
  end.
Proof.
  intros S Hb Hp Ho; unfold f_read_round.
  destruct (FIL.fptr fp =? 0).
  - cbv iota; cbn [negb].
    pose proof (f_read_transfer fs d (FIL.set_clust fp (FIL.sclust fp)) btr S Hb) as T.
    destruct fp; cbn [FIL.fptr FIL.obj_size FIL.clust FIL.set_clust FIL.sclust] in *.
    apply T; assumption.
  - destruct (FIL.fptr fp mod u32 (FATFS.csize fs * SS) =? 0).
    + destruct (get_fat fs d (FIL.clust fp)) as [[clst fs1] d1] eqn:Eg.
      pose proof (sound_get_fat _ _ _ _ _ _ Eg S) as S1.
      destruct ((clst <? 2) || (clst >=? FATFS.n_fatent fs1)); cbn [negb]; cbv iota;
        [exact I|].
      pose proof (f_read_transfer fs1 d1 (FIL.set_clust fp clst) btr S1 Hb) as T.
      destruct fp; cbn [FIL.fptr FIL.obj_size FIL.clust FIL.set_clust FIL.sclust] in *.
      apply T; assumption.
    + cbv iota; cbn [negb].
      apply (f_read_transfer fs d fp btr S Hb Hp Ho).
Qed.

(** The loop of [f_read] ends, and takes what is asked for or what is left
    of the file. *)
Lemma f_read_loop_count fuel : forall fs d fp btr got,
  sound fs d -> 0 <= btr < 4294967296 -> (Z.to_nat btr <= fuel)%nat ->
  0 <= FIL.fptr fp <= FIL.obj_size fp -> FIL.obj_size fp + 65536 <= 4294967296 ->
  exists res fs' d' fp' got',
    f_read_loop fuel fs d fp btr got = Some (res, fs', d', fp', got') /\
    Z.of_nat (length got') = Z.of_nat (length got) + (FIL.fptr fp' - FIL.fptr fp) /\
    FIL.fptr fp <= FIL.fptr fp' <= FIL.obj_size fp /\
    FIL.fptr fp' - FIL.fptr fp <= btr /\
    (res = FR_OK ->
     FIL.fptr fp' - FIL.fptr fp = Z.min btr (FIL.obj_size fp - FIL.fptr fp)).
Proof.
  induction fuel as [|fuel IH]; intros fs d fp btr got S Hb Hf Hp Ho.
  - assert (btr = 0) by lia; subst btr; cbn [f_read_loop].
    change (negb (0 >? 0)) with true; cbv iota.
    exists FR_OK, fs, d, fp, got; splits; try lia; reflexivity.
  - cbn [f_read_loop].
    destruct (btr >? 0) eqn:Eb; cbn [negb]; cbv iota.
    2:{ exists FR_OK, fs, d, fp, got; splits; try lia; reflexivity. }
    destruct (FIL.fptr fp >=? FIL.obj_size fp) eqn:Ee.
    { exists FR_OK, fs, d, fp, got; splits; try lia; reflexivity. }
    pose proof (f_read_round_count fs d fp btr S ltac:(lia) ltac:(lia) Ho) as R.
    pose proof (f_read_round_spec fs d fp btr) as R0.
    destruct (f_read_round fs d fp btr) as [fs1 d1 fp1 rcnt data|r fs1 d1 fp1|];
      [| |contradiction].
    + destruct R as (Hr & Ep & Hle & Hl & S1).
      destruct R0 as (_ & _ & Eo & _).
      rewrite (u32_small (btr - rcnt)) by lia.
      destruct (IH fs1 d1 fp1 (btr - rcnt) (got ++ data) S1)
        as (res & fs' & d' & fp' & got' & E & Hlen & Hpp & Hbb & Hok);
        try lia.
      exists res, fs', d', fp', got'; rewrite E.
      rewrite length_app, Nat2Z.inj_add in Hlen.
      rewrite Eo in *.
      splits; try lia; [reflexivity|].
      intros Hres; specialize (Hok Hres); lia.
    + destruct R0 as (_ & Hne & _ & Ep & _).
      exists r, fs1, d1, fp1, got; splits; try lia; [reflexivity|congruence].
Qed.

(** X10.  On an open handle without a latched error and with read access,
    whose offset lies inside a file that ends at least 64 KiB below 4 GiB,
    on a volume with sound geometry, [f_read] returns.  The bytes it
    delivers are as many as the offset advances, never more than asked for
    and never beyond the end of the file; the size of the file is untouched.
    When the result is [FR_OK] the count is the smaller of the count asked
    for and the bytes left in the file; with nothing asked for, or at the end
    of the file, nothing is read and nothing changes. *)
Theorem f_read_count (fs : FATFS.t) (d : Device) (fp : FIL.t) (btr : Z) :
  sound fs d ->
  FIL.fs fp = true -> FIL.err fp = 0 -> Z.land (FIL.flag fp) FA_READ <> 0 ->
  0 <= FIL.fptr fp <= FIL.obj_size fp -> FIL.obj_size fp + 65536 <= 4294967296 ->
  0 <= btr < 4294967296 ->
  exists res fs' d' fp' got,
    f_read fs d fp btr = Some (res, fs', d', fp', got) /\
    Z.of_nat (length got) = FIL.fptr fp' - FIL.fptr fp /\
    FIL.fptr fp <= FIL.fptr fp' <= FIL.obj_size fp /\
    Z.of_nat (length got) <= btr /\
    FIL.obj_size fp' = FIL.obj_size fp /\
    (res = FR_OK ->
     Z.of_nat (length got) = Z.min btr (FIL.obj_size fp - FIL.fptr fp)) /\
    (btr = 0 \/ FIL.fptr fp = FIL.obj_size fp ->
     res = FR_OK /\ got = [] /\ fs' = fs /\ d' = d /\ fp' = fp).
Proof.
  intros S Hfs Herr Hfl Hp Ho Hb.
  destruct (f_read_loop_count (Z.to_nat btr) fs d fp btr [] S Hb ltac:(lia) Hp Ho)
    as (res & fs' & d' & fp' & got & E & Hlen & Hpp & Hbb & Hok).
  assert (Ef : f_read fs d fp btr = f_read_loop (Z.to_nat btr) fs d fp btr []).
  { unfold f_read; rewrite Hfs, Herr.
    change (negb true) with false; change (nz 0) with false; cbv iota.
    replace (nz (Z.land (FIL.flag fp) FA_READ)) with true
      by (symmetry; apply nz_true; assumption).
    reflexivity. }
  exists res, fs', d', fp', got; rewrite Ef.
  cbn [length] in Hlen.
  destruct (f_read_loop_spec _ _ _ _ _ _ _ _ _ _ _ E) as (_ & _ & _ & Eo & _).
  splits; try lia; try assumption.
  - intros Hres; specialize (Hok Hres); lia.
  - intros Hz.
    assert (Z : f_read_loop (Z.to_nat btr) fs d fp btr [] = Some (FR_OK, fs, d, fp, [])).
    { destruct (Z.to_nat btr) eqn:En; cbn [f_read_loop].
      - replace (btr >? 0) with false by (symmetry; lia); reflexivity.
      - destruct (btr >? 0) eqn:Eb; [|reflexivity]. cbn [negb]; cbv iota.
        replace (FIL.fptr fp >=? FIL.obj_size fp) with true by (symmetry; lia).
        reflexivity. }
    rewrite Z in E; inversion E; subst; auto.
Qed.

Lemma dev_ok_two_files_dev : dev_ok two_files_dev.
Proof.
  intros s; unfold two_files_dev; cbn [sd_data].
  destruct (s =? 3); [|apply sector_repeat; lia].
  apply sector_check; vm_compute; reflexivity.
Qed.

Lemma sound_opened_longfile : sound (ses_fs opened_longfile) (ses_dev opened_longfile).
Proof.
  assert (E : sd_data (ses_dev opened_longfile) = sd_data two_files_dev)
    by (vm_compute; reflexivity).
  split; [exists 0; split; [lia|vm_compute; reflexivity]|split].
  - intros s; rewrite E; apply dev_ok_two_files_dev.
  - apply sector_check; vm_compute; reflexivity.
Qed.

(** A read of 100 bytes from the file of 5 bytes. *)
Lemma f_read_count_witness :
  exists res fs' d' fp' got,
    f_read (ses_fs opened_longfile) (ses_dev opened_longfile) (ses_fp opened_longfile) 100
      = Some (res, fs', d', fp', got) /\
    res = FR_OK /\ Z.of_nat (length got) = 5 /\ FIL.fptr fp' = 5.
Proof.
  assert (H1 : FIL.fs (ses_fp opened_longfile) = true) by (vm_compute; reflexivity).
  assert (H2 : FIL.err (ses_fp opened_longfile) = 0) by (vm_compute; reflexivity).
  assert (H3 : Z.land (FIL.flag (ses_fp opened_longfile)) FA_READ <> 0)
    by (vm_compute; discriminate).
  assert (H4 : 0 <= FIL.fptr (ses_fp opened_longfile)
               <= FIL.obj_size (ses_fp opened_longfile))
    by (vm_compute; split; discriminate).
  assert (H5 : FIL.obj_size (ses_fp opened_longfile) + 65536 <= 4294967296)
    by (vm_compute; discriminate).
  assert (H6 : 0 <= 100 < 4294967296) by lia.
  destruct (f_read_count _ _ _ 100 sound_opened_longfile H1 H2 H3 H4 H5 H6)
    as (res & fs' & d' & fp' & got & E & Hlen & Hpp & Hbb & Eo & Hok & _).
  assert (R : res = FR_OK).
  { assert (X : option_map (fun x => fst (fst (fst (fst x))))
                  (f_read (ses_fs opened_longfile) (ses_dev opened_longfile)
                          (ses_fp opened_longfile) 100) = Some FR_OK)
      by (vm_compute; reflexivity).
    rewrite E in X; cbn in X; congruence. }
  exists res, fs', d', fp', got; split; [exact E|]. split; [exact R|].
  specialize (Hok R).
  assert (P0 : FIL.fptr (ses_fp opened_longfile) = 0) by (vm_compute; reflexivity).
  assert (O5 : FIL.obj_size (ses_fp opened_longfile) = 5) by (vm_compute; reflexivity).
  rewrite P0, O5 in *; lia.
Defined.

(** ** Writing *)

(** One round of [f_write]: the count it takes. *)
Lemma f_write_round_count fuel fs d fp wbuff btw :
  (exists k, 0 <= k < 8 /\ FATFS.csize fs = 2 ^ k) ->
  0 < btw -> 0 <= FIL.fptr fp -> FIL.fptr fp + btw < 4294967296 ->
  match f_write_round fuel fs d fp wbuff btw with
  | More fs' d' fp' wcnt _ =>
      0 < wcnt <= btw /\ FIL.fptr fp' = FIL.fptr fp + wcnt /\
      FIL.obj_size fp' = Z.max (FIL.obj_size fp) (FIL.fptr fp') /\
      FIL.flag fp' = FIL.flag fp /\ FATFS.csize fs' = FATFS.csize fs
  | Stop res fs' d' fp' => True
  | Diverge => True
  end.
Proof.
  intros (k & Hk & Ek) Hb Hp Hs.
  pose proof (pow2_bounds k Hk) as Hc; rewrite <- Ek in Hc.
  pose proof (f_write_round_spec fuel fs d fp wbuff btw) as R0.
  unfold f_write_round in *.
  pose proof (f_write_cluster_spec fuel fs d fp) as C.
  destruct (f_write_cluster fuel fs d fp) as [fs1 d1 fp1|r fs1 d1 fp1|]; [|exact I|exact I].
  destruct C as (W & _ & Ep & Eo & Ef & _).
  destruct (hint_only_fields _ _ W) as (_ & _ & _ & _ & Ec & _).
  destruct (clst2sect fs1 (FIL.clust fp1) =? 0); [exact I|].
  cbv zeta in *.
  unfold SS, FF_MAX_SS in *.
  rewrite Ep, Ec in *.
  remember (FIL.fptr fp) as p eqn:Epp; remember (FATFS.csize fs) as cs eqn:Ecs.
  assert (Hq : 0 <= p / 512 < 4294967296) by (Z.to_euclidean_division_equations; lia).
  rewrite (u32_small (p / 512)) in * by lia.
  assert (Hcs : 0 <= (p / 512) mod cs < cs) by (apply Z.mod_pos_bound; lia).
  remember ((p / 512) mod cs) as csect eqn:Ecsect.
  assert (Hcc : 0 <= btw / 512 <= btw) by (Z.to_euclidean_division_equations; lia).
  assert (Hcc1 : 512 * (btw / 512) <= btw) by (Z.to_euclidean_division_equations; lia).
  remember (btw / 512) as cc0 eqn:Ecc0.
  destruct (cc0 >? 0) eqn:Egt.
  - rewrite (u32_small (csect + cc0)) in * by lia.
    rewrite (u32_small (cs - csect)) in * by lia.
    remember (if csect + cc0 >? cs then cs - csect else cc0) as cc eqn:Ecc.
    assert (Hcc2 : 1 <= cc <= cc0 /\ cc <= 128)
      by (subst cc; destruct (csect + cc0 >? cs) eqn:E; lia).
    destruct (disk_write d1 (FATFS.pdrv fs1) wbuff
                (u32 (clst2sect fs1 (FIL.clust fp1) + csect)) cc) as [dres d2].
    destruct (negb (is_RES_OK dres)); [exact I|].
    rewrite (u32_small (cc * 512)) in * by lia.
    destruct R0 as (_ & _ & Efl & _ & Efp & Eob).
    rewrite (u32_small (p + cc * 512)) in * by lia.
    splits; try lia; assumption.
  - destruct (move_window fs1 d1 (u32 (clst2sect fs1 (FIL.clust fp1) + csect)))
      as [[r fs2] d2] eqn:Em.
    destruct (window_only_fields _ _ (move_window_frame _ _ _ _ _ _ Em))
      as (_ & _ & _ & _ & Ec2 & _).
    destruct r; try exact I.
    assert (Hm : 0 <= p mod 512 < 512) by (apply Z.mod_pos_bound; lia).
    rewrite (u32_small (p mod 512)) in * by lia.
    rewrite (u32_small (512 - p mod 512)) in * by lia.
    remember (if 512 - p mod 512 >? btw then btw else 512 - p mod 512) as w eqn:Ew.
    assert (Hw : 0 < w <= btw /\ w <= 512)
      by (subst w; destruct (512 - p mod 512 >? btw) eqn:E; lia).
    destruct R0 as (_ & _ & Efl & _ & Efp & Eob).
    rewrite (u32_small (p + w)) in * by lia.
    splits; try lia; try assumption.
    destruct fs2; cbn in *; congruence.
Qed.

Lemma f_write_loop_count rounds : forall fuel fs d fp wbuff btw bw res fs' d' fp' bw',
  f_write_loop rounds fuel fs d fp wbuff btw bw = Some (res, fs', d', fp', bw') ->
  (exists k, 0 <= k < 8 /\ FATFS.csize fs = 2 ^ k) ->
  0 <= btw -> 0 <= FIL.fptr fp -> FIL.fptr fp + btw < 4294967296 ->
  0 <= bw -> bw + btw < 4294967296 ->
  bw <= bw' <= bw + btw /\ FIL.fptr fp' = FIL.fptr fp + (bw' - bw) /\
  (bw' = bw -> FIL.obj_size fp' = FIL.obj_size fp) /\
  (bw < bw' -> FIL.obj_size fp' = Z.max (FIL.obj_size fp) (FIL.fptr fp')) /\
  (res = FR_OK ->
   bw' = bw + btw /\ FIL.flag fp' = Z.lor (FIL.flag fp) FA_MODIFIED) /\
  (res <> FR_OK -> FIL.flag fp' = FIL.flag fp).
Proof.
  induction rounds as [|rounds IH];
    intros fuel fs d fp wbuff btw bw res fs' d' fp' bw' H K Hb Hp Hs Hw Hsum;
    cbn [f_write_loop] in H.
  - destruct (btw >? 0) eqn:Eb; cbn [negb] in H; cbv iota in H; [discriminate|].
    inversion H; subst; destruct fp; cbn; splits; try lia; try reflexivity; congruence.
  - destruct (btw >? 0) eqn:Eb; cbn [negb] in H; cbv iota in H.
    2:{ inversion H; subst; destruct fp; cbn; splits; try lia; try reflexivity;
        congruence. }
    pose proof (f_write_round_count fuel fs d fp wbuff btw K ltac:(lia) Hp Hs) as R.
    pose proof (f_write_round_spec fuel fs d fp wbuff btw) as R0.
    destruct (f_write_round fuel fs d fp wbuff btw) as [fs1 d1 fp1 wcnt data|r fs1 d1 fp1|];
      [| |discriminate].
    + destruct R as (Hc & Ep & Eo & Ef & Ec).
      rewrite (u32_small (btw - wcnt)), (u32_small (bw + wcnt)) in H by lia.
      destruct K as (k & Hk & Ek).
      apply IH in H; try lia; [|exists k; split; [exact Hk|congruence]].
      destruct H as (Hbw & Hp' & Ho1 & Ho2 & Hok & Hne).
      splits; try lia.
      * intros Hr; destruct (Hok Hr) as (-> & ->); split; [lia|congruence].
      * intros Hr; rewrite (Hne Hr); exact Ef.
    + destruct R0 as (_ & Hne & _ & Ep & Eo & Ef & _).
      inversion H; subst; splits; try lia; try assumption; congruence.
Qed.

(** X11.  When [f_write] returns on an open handle without a latched error
    and with write access, the count reported is at most the count asked
    for, the offset has advanced by exactly that count, and, if anything was
    written, the size of the file is the larger of the old size and the new
    offset, otherwise it is unchanged: a write that fails part of the way
    still accounts for what it wrote.  With [FR_OK] the whole count was
    written and the handle is marked modified; with any other result the
    flags are as before. *)
Theorem f_write_count (fuel : nat) (fs : FATFS.t) (d : Device) (fp : FIL.t)
        (buff : list Z) (btw : Z)
        (res : FRESULT) (fs' : FATFS.t) (d' : Device) (fp' : FIL.t) (bw : Z) :
  f_write fuel fs d fp buff btw = Some (res, fs', d', fp', bw) ->
  (exists k, 0 <= k < 8 /\ FATFS.csize fs = 2 ^ k) ->
  FIL.fs fp = true -> FIL.err fp = 0 -> Z.land (FIL.flag fp) FA_WRITE <> 0 ->
  0 <= btw -> 0 <= FIL.fptr fp -> FIL.fptr fp + btw < 4294967296 ->
  0 <= bw <= btw /\ FIL.fptr fp' = FIL.fptr fp + bw /\
  (bw = 0 -> FIL.obj_size fp' = FIL.obj_size fp) /\
  (0 < bw -> FIL.obj_size fp' = Z.max (FIL.obj_size fp) (FIL.fptr fp')) /\
  (res = FR_OK -> bw = btw /\ FIL.flag fp' = Z.lor (FIL.flag fp) FA_MODIFIED) /\
  (res <> FR_OK -> FIL.flag fp' = FIL.flag fp).
Proof.
  intros H K Hfs Herr Hfl Hb Hp Hs; unfold f_write in H.
  rewrite Hfs, Herr in H.
  change (negb true) with false in H; change (nz 0) with false in H; cbv iota in H.
  replace (nz (Z.land (FIL.flag fp) FA_WRITE)) with true in H
    by (symmetry; apply nz_true; assumption).
  change (negb true) with false in H; cbv iota in H.
  apply f_write_loop_count in H; try lia; try assumption.
  destruct H as (Hbw & Hp' & Ho1 & Ho2 & Hok & Hne).
  splits; try lia; try assumption.
Qed.

(** The write of 4096 bytes that stops after the first cluster of 2048. *)
Lemma f_write_count_witness :
  exists s res fs' d' fp' bw,
    created vol12c4 blank_dev = Some s /\
    f_write 1000 (ses_fs s) (ses_dev s) (ses_fp s) (pattern 4096) 4096
      = Some (res, fs', d', fp', bw) /\
    res = FR_INT_ERR /\ bw = 2048 /\
    FIL.fptr fp' = 2048 /\ FIL.obj_size fp' = 2048 /\ FIL.flag fp' = FIL.flag (ses_fp s).
Proof.
  set (s := the_session (created vol12c4 blank_dev)).
  assert (Es : created vol12c4 blank_dev = Some s) by (vm_compute; reflexivity).
  destruct (f_write 1000 (ses_fs s) (ses_dev s) (ses_fp s) (pattern 4096) 4096)
    as [[[[[res fs'] d'] fp'] bw]|] eqn:E.
  2:{ exfalso.
      assert (X : match f_write 1000 (ses_fs s) (ses_dev s) (ses_fp s) (pattern 4096) 4096
                  with Some _ => true | None => false end = true)
        by (vm_compute; reflexivity).
      rewrite E in X; discriminate X. }
  assert (K : exists k, 0 <= k < 8 /\ FATFS.csize (ses_fs s) = 2 ^ k)
    by (exists 2; split; [lia|vm_compute; reflexivity]).
  assert (H1 : FIL.fs (ses_fp s) = true) by (vm_compute; reflexivity).
  assert (H2 : FIL.err (ses_fp s) = 0) by (vm_compute; reflexivity).
  assert (H3 : Z.land (FIL.flag (ses_fp s)) FA_WRITE <> 0) by (vm_compute; discriminate).
  assert (H4 : 0 <= 4096) by lia.
  assert (H5 : 0 <= FIL.fptr (ses_fp s)) by (vm_compute; discriminate).
  assert (H6 : FIL.fptr (ses_fp s) + 4096 < 4294967296) by (vm_compute; reflexivity).
  destruct (f_write_count _ _ _ _ _ _ _ _ _ _ _ E K H1 H2 H3 H4 H5 H6)
    as (Hbw & Hp & Ho1 & Ho2 & Hok & Hne).
  assert (X : option_map (fun x => (fst (fst (fst (fst x))), snd x))
                (f_write 1000 (ses_fs s) (ses_dev s) (ses_fp s) (pattern 4096) 4096)
              = Some (FR_INT_ERR, 2048)) by (vm_compute; reflexivity).
  rewrite E in X; cbn in X; inversion X; subst res bw.
  exists s, FR_INT_ERR, fs', d', fp', 2048.
  assert (P0 : FIL.fptr (ses_fp s) = 0) by (vm_compute; reflexivity).
  assert (O0 : FIL.obj_size (ses_fp s) = 0) by (vm_compute; reflexivity).
  rewrite P0, O0 in *.
  pose proof (Ho2 ltac:(lia)) as Ho3.
  assert (Ef : FIL.flag fp' = FIL.flag (ses_fp s)) by (apply Hne; discriminate).
  splits; auto; lia.
Defined.

(** ** The search for a free cluster *)

(** One step of the scan on a stable state. *)
Lemma find_free_step fuel fs d scl clst :
  stable fs d -> 2 <= clst ->
  valid_clst fs (if clst >=? FATFS.n_fatent fs then 2 else clst) /\
  exists fs1 d1,
    window_only fs fs1 /\ stable fs1 d1 /\
    (forall t, view fs1 d1 t = view fs d t) /\
    find_free (S fuel) fs d scl clst =
      if (clst >=? FATFS.n_fatent fs) && (2 =? scl) then Some (NoFree fs d)
      else if fat_entry fs d (if clst >=? FATFS.n_fatent fs then 2 else clst) =? 0
           then Some (FreeAt (if clst >=? FATFS.n_fatent fs then 2 else clst) fs1 d1)
           else find_free fuel fs1 d1 scl
                          ((if clst >=? FATFS.n_fatent fs then 2 else clst) + 1).
Proof.
  intros S Hc.
  pose proof S as (M & _); pose proof (m_fatent _ M) as Hn.
  assert (V : valid_clst fs (if clst >=? FATFS.n_fatent fs then 2 else clst)).
  { unfold valid_clst; destruct (clst >=? FATFS.n_fatent fs) eqn:E; lia. }
  split; [exact V|].
  destruct (get_fat_stable fs d _ S V) as (fs1 & d1 & E & W & S1 & Vw).
  exists fs1, d1; splits; auto.
  cbn [find_free]; cbv zeta.
  destruct (clst >=? FATFS.n_fatent fs) eqn:Eg; cbn [andb].
  - destruct (2 =? scl); [reflexivity|].
    rewrite E; change (u32 (2 + 1)) with (2 + 1); reflexivity.
  - rewrite E; unfold valid_clst in V; rewrite (u32_small (clst + 1)) by lia; reflexivity.
Qed.

Lemma valid_clst_back fs fs' c : window_only fs fs' -> valid_clst fs' c -> valid_clst fs c.
Proof.
  intros W; destruct (window_only_fields _ _ W) as (_ & _ & En & _).
  unfold valid_clst; rewrite En; auto.
Qed.

Lemma free_ok_lift fs d fs1 d1 scl r :
  window_only fs fs1 -> (forall t, view fs1 d1 t = view fs d t) ->
  free_ok fs1 d1 scl r -> free_ok fs d scl r.
Proof.
  intros W Vw; destruct r as [[c fs' d'|fs' d']|]; cbn [free_ok]; [| |auto].
  - intros (Vc & Ec & Wc & Sc & Vv); splits.
    + eapply valid_clst_back; eassumption.
    + rewrite <- (fat_entry_same_view _ _ _ _ c W Vw); exact Ec.
    + eapply window_only_trans; eassumption.
    + exact Sc.
    + intros t; rewrite Vv; apply Vw.
  - intros (E & Wc & Sc & Vv); splits; auto.
    + eapply window_only_trans; eassumption.
    + intros t; rewrite Vv; apply Vw.
Qed.

Lemma volume_full_lift fs d fs1 d1 :
  window_only fs fs1 -> (forall t, view fs1 d1 t = view fs d t) ->
  volume_full fs d -> volume_full fs1 d1.
Proof.
  intros W Vw F c Vc; rewrite (fat_entry_same_view _ _ _ _ c W Vw).
  apply F; eapply valid_clst_back; eassumption.
Qed.

Lemma find_free_sound fuel : forall fs d scl clst,
  stable fs d -> 2 <= clst -> free_ok fs d scl (find_free fuel fs d scl clst).
Proof.
  induction fuel as [|fuel IH]; intros fs d scl clst S Hc; [exact I|].
  destruct (find_free_step fuel fs d scl clst S Hc) as (V & fs1 & d1 & W & S1 & Vw & E).
  rewrite E; clear E.
  destruct ((clst >=? FATFS.n_fatent fs) && (2 =? scl)) eqn:Ew.
  - apply andb_true_iff in Ew; destruct Ew as (_ & E2); apply Z.eqb_eq in E2.
    cbn [free_ok]; splits; auto using window_only_refl.
  - destruct (fat_entry fs d _ =? 0) eqn:E0.
    + apply Z.eqb_eq in E0; cbn [free_ok]; splits; auto.
    + apply (free_ok_lift fs d fs1 d1 scl _ W Vw), IH; [exact S1|].
      destruct (clst >=? FATFS.n_fatent fs); lia.
Qed.

(** A free cluster at or after the position of the scan is found. *)
Lemma find_free_finds fuel : forall fs d scl clst c0,
  stable fs d -> 2 <= clst <= c0 -> valid_clst fs c0 -> fat_entry fs d c0 = 0 ->
  (Z.to_nat (c0 - clst) < fuel)%nat ->
  exists c fs' d', find_free fuel fs d scl clst = Some (FreeAt c fs' d').
Proof.
  induction fuel as [|fuel IH]; intros fs d scl clst c0 S Hc V0 E0 Hf; [lia|].
  destruct (find_free_step fuel fs d scl clst S ltac:(lia)) as (V & fs1 & d1 & W & S1 & Vw & E).
  rewrite E; clear E.
  unfold valid_clst in V0.
  replace (clst >=? FATFS.n_fatent fs) with false by (symmetry; lia).
  cbn [andb].
  destruct (fat_entry fs d clst =? 0) eqn:Ec; [eauto|].
  apply Z.eqb_neq in Ec.
  assert (clst <> c0) by congruence.
  apply (IH fs1 d1 scl (clst + 1) c0 S1); try lia.
  - destruct (window_only_fields _ _ W) as (_ & _ & En & _).
    unfold valid_clst; rewrite En; exact V0.
  - rewrite (fat_entry_same_view _ _ _ _ c0 W Vw); exact E0.
Qed.

(** A scan that did not start at cluster 2 goes round. *)
Lemma find_free_wraps fuel : forall fs d scl clst c0,
  stable fs d -> 2 <= clst <= FATFS.n_fatent fs -> scl <> 2 ->
  valid_clst fs c0 -> fat_entry fs d c0 = 0 ->
  (Z.to_nat (FATFS.n_fatent fs - clst) + Z.to_nat (c0 - 2) + 1 < fuel)%nat ->
  exists c fs' d', find_free fuel fs d scl clst = Some (FreeAt c fs' d').
Proof.
  induction fuel as [|fuel IH]; intros fs d scl clst c0 S Hc Hs V0 E0 Hf; [lia|].
  destruct (find_free_step fuel fs d scl clst S ltac:(lia)) as (V & fs1 & d1 & W & S1 & Vw & E).
  rewrite E; clear E.
  replace (2 =? scl) with false by (symmetry; lia).
  rewrite andb_false_r.
  destruct (fat_entry fs d _ =? 0) eqn:Ec; [eauto|].
  apply Z.eqb_neq in Ec.
  destruct (window_only_fields _ _ W) as (_ & _ & En & _).
  assert (V1 : valid_clst fs1 c0) by (unfold valid_clst in *; rewrite En; exact V0).
  assert (E1 : fat_entry fs1 d1 c0 = 0)
    by (rewrite (fat_entry_same_view _ _ _ _ c0 W Vw); exact E0).
  unfold valid_clst in V0.
  destruct (clst >=? FATFS.n_fatent fs) eqn:Eg.
  - assert (c0 <> 2) by congruence.
    apply (find_free_finds fuel fs1 d1 scl (2 + 1) c0 S1); try assumption; lia.
  - apply (IH fs1 d1 scl (clst + 1) c0 S1); try assumption; try lia.
Qed.

(** On a full volume a scan from cluster 2 ends with a denial. *)
Lemma find_free_full_denied fuel : forall fs d clst,
  stable fs d -> volume_full fs d -> 2 <= clst <= FATFS.n_fatent fs ->
  (Z.to_nat (FATFS.n_fatent fs - clst) < fuel)%nat ->
  exists fs' d', find_free fuel fs d 2 clst = Some (NoFree fs' d').
Proof.
  induction fuel as [|fuel IH]; intros fs d clst S F Hc Hf; [lia|].
  destruct (find_free_step fuel fs d 2 clst S ltac:(lia)) as (V & fs1 & d1 & W & S1 & Vw & E).
  rewrite E; clear E.
  change (2 =? 2) with true; rewrite andb_true_r.
  destruct (clst >=? FATFS.n_fatent fs) eqn:Eg; [eauto|].
  replace (fat_entry fs d clst =? 0) with false
    by (symmetry; apply Z.eqb_neq, F; unfold valid_clst; lia).
  destruct (window_only_fields _ _ W) as (_ & _ & En & _).
  apply (IH fs1 d1 (clst + 1) S1); [| |rewrite En; lia].
  - eapply volume_full_lift; eassumption.
  - rewrite En; lia.
Qed.

(** On a full volume a scan from any other cluster does not end. *)
Lemma find_free_full_loops fuel : forall fs d scl clst,
  stable fs d -> volume_full fs d -> scl <> 2 -> 2 <= clst ->
  find_free fuel fs d scl clst = None.
Proof.
  induction fuel as [|fuel IH]; intros fs d scl clst S F Hs Hc; [reflexivity|].
  destruct (find_free_step fuel fs d scl clst S Hc) as (V & fs1 & d1 & W & S1 & Vw & E).
  rewrite E; clear E.
  replace (2 =? scl) with false by (symmetry; lia).
  rewrite andb_false_r.
  replace (fat_entry fs d _ =? 0) with false by (symmetry; apply Z.eqb_neq, F, V).
  apply IH; try assumption.
  - eapply volume_full_lift; eassumption.
  - destruct (clst >=? FATFS.n_fatent fs); lia.
Qed.

(** X12.  The scan of [f_write] for a free cluster, started at a cluster
    [scl] of the volume on a stable state.  Whatever it answers is right and
    changes nothing but the window: a cluster it returns has a FAT entry
    equal to zero, and a denial is given only by a scan that started at
    cluster 2.  If the volume has a free cluster, the scan finds one within
    two passes over the FAT.  If the volume is full, the scan from cluster 2
    ends with the denial, and the scan from any other cluster never ends. *)
Theorem find_free_scan (fs : FATFS.t) (d : Device) (scl : Z) :
  stable fs d -> 2 <= scl < FATFS.n_fatent fs ->
  (forall fuel, free_ok fs d scl (find_free fuel fs d scl scl)) /\
  ((exists c0, valid_clst fs c0 /\ fat_entry fs d c0 = 0) ->
   forall fuel, (2 * Z.to_nat (FATFS.n_fatent fs) <= fuel)%nat ->
   exists c fs' d',
     find_free fuel fs d scl scl = Some (FreeAt c fs' d') /\
     valid_clst fs c /\ fat_entry fs d c = 0) /\
  (volume_full fs d ->
   (scl = 2 ->
    forall fuel, (Z.to_nat (FATFS.n_fatent fs) <= fuel)%nat ->
    exists fs' d', find_free fuel fs d scl scl = Some (NoFree fs' d')) /\
   (scl <> 2 -> forall fuel, find_free fuel fs d scl scl = None)).
Proof.
  intros S Hs.
  splits.
  - intros fuel; apply find_free_sound; [exact S|lia].
  - intros (c0 & V0 & E0) fuel Hf.
    assert (X : exists c fs' d', find_free fuel fs d scl scl = Some (FreeAt c fs' d')).
    { unfold valid_clst in V0.
      destruct (Z.eq_dec scl 2) as [->|N].
      - apply (find_free_finds fuel fs d 2 2 c0 S); auto; lia.
      - apply (find_free_wraps fuel fs d scl scl c0 S); auto; lia. }
    destruct X as (c & fs' & d' & E).
    exists c, fs', d'; split; [exact E|].
    pose proof (find_free_sound fuel fs d scl scl S ltac:(lia)) as K.
    rewrite E in K; cbn [free_ok] in K; tauto.
  - intros F; split.
    + intros -> fuel Hf; apply find_free_full_denied; auto; lia.
    + intros N fuel; apply find_free_full_loops; auto; lia.
Qed.

(** On the blank volume the scan from cluster 2 finds cluster 2. *)
Lemma find_free_scan_witness :
  exists c fs' d',
    find_free 1000 vol12 blank_dev 2 2 = Some (FreeAt c fs' d') /\
    valid_clst vol12 c /\ fat_entry vol12 blank_dev c = 0.
Proof.
  assert (R : 2 <= 2 < FATFS.n_fatent vol12) by (vm_compute; split; [discriminate|reflexivity]).
  assert (F : exists c0, valid_clst vol12 c0 /\ fat_entry vol12 blank_dev c0 = 0).
  { exists 2; split; [unfold valid_clst; vm_compute; split; [discriminate|reflexivity]|].
    vm_compute; reflexivity. }
  assert (U : (2 * Z.to_nat (FATFS.n_fatent vol12) <= 1000)%nat)
    by (vm_compute; repeat constructor).
  exact (proj1 (proj2 (find_free_scan vol12 blank_dev 2 stable_vol12 R)) F 1000%nat U).
Defined.

(** ** Synchronising a file *)





(** ** Handles that are not open *)

Lemma rejected_detached fp : FIL.fs fp = false -> rejected fp.
Proof.
  intros H fs d fuel buff n ofs.
  unfold f_read, f_write, f_lseek, f_sync, f_close; rewrite H; cbn [negb]; splits; reflexivity.
Qed.

(** X14.  A file handle is detached by [f_close], whatever [f_close]
    returns, and by every [f_open] that does not return [FR_OK]; a directory
    iterator is detached by [f_closedir] and is not attached by an
    [f_opendir] that fails on an iterator that was not.  On a detached
    handle [f_read], [f_write], [f_lseek], [f_sync] and [f_close] return
    [FR_INVALID_OBJECT], transfer nothing and change nothing; on a detached
    iterator so do [f_readdir] and [f_closedir]. *)
Theorem closed_handle_rejected (fs : FATFS.t) (d : Device) (fp : FIL.t) (dp : DIR.t)
        (FatFs : option FATFS.t) (path : list Z) (mode : Z) :
  rejected (snd (f_close fs d fp)) /\
  (fst (fst (fst (f_open FatFs d fp path mode))) <> FR_OK ->
   rejected (snd (f_open FatFs d fp path mode))) /\
  dir_rejected (snd (f_closedir dp)) /\
  (fst (f_opendir FatFs dp path) <> FR_OK -> DIR.fs dp = false ->
   dir_rejected (snd (f_opendir FatFs dp path))).
Proof.
  assert (D : forall q, DIR.fs q = false -> dir_rejected q).
  { intros q H fs2 d2 fno; unfold f_readdir, f_closedir; rewrite H; split; reflexivity. }
  splits.
  - apply rejected_detached.
    destruct (f_close fs d fp) as [[[r fs1] d1] fp1] eqn:E; cbn [snd].
    destruct (FIL.fs fp) eqn:F.
    + apply f_close_spec in E; apply E; exact F.
    + unfold f_close in E; rewrite F in E; cbn [negb] in E.
      inversion E; subst; exact F.
  - destruct (f_open FatFs d fp path mode) as [[[r F1] d1] fp1] eqn:E; cbn [fst snd].
    intros N; apply rejected_detached.
    apply f_open_spec in E; destruct E as (_ & _ & E).
    rewrite (E N); destruct fp; reflexivity.
  - apply D; unfold f_closedir.
    destruct (DIR.fs dp) eqn:F; cbn [negb snd]; [destruct dp; reflexivity|exact F].
  - intros N F; apply D; revert N; unfold f_opendir.
    destruct ((ld path 0 - 48 <? 0) || (ld path 0 - 48 >=? FF_VOLUMES)); [intros _; exact F|].
    destruct FatFs as [v|]; [|intros _; exact F].
    destruct (negb (nz (FATFS.fs_type v))); [intros _; exact F|].
    cbn [fst]; intros N; contradiction.
Qed.

(** ** The bytes of a file *)

Lemma clean_view fs d t :
  coherent fs d -> FATFS.wflag fs = 0 -> view fs d t = sd_data d t.
Proof.
  intros C Z0; unfold view.
  destruct (t =? FATFS.winsect fs) eqn:E; [|reflexivity].
  apply Z.eqb_eq in E; subst t; apply C; exact Z0.
Qed.

Lemma get_fat_clean fs d c v fs' d' :
  get_fat fs d c = (v, fs', d') -> FATFS.wflag fs = 0 ->
  FATFS.wflag fs' = 0 /\ log_only d d'.
Proof.
  unfold get_fat; intros H Z0.
  destruct ((c <? 2) || (c >=? FATFS.n_fatent fs));
    [inversion H; subst; auto using log_only_refl|].
  destruct (FATFS.fs_type fs =? FS_FAT12).
  { cbv zeta in H.
    match type of H with context [move_window ?a ?b ?s] =>
      destruct (move_window a b s) as [[r fs1] d1] eqn:E1 end.
    destruct (move_window_clean _ _ _ _ _ _ E1 Z0) as (L1 & Z1 & _).
    destruct r; try (inversion H; subst; auto; fail).
    match type of H with context [move_window fs1 d1 ?s] =>
      destruct (move_window fs1 d1 s) as [[r fs2] d2] eqn:E2 end.
    destruct (move_window_clean _ _ _ _ _ _ E2 Z1) as (L2 & Z2 & _).
    destruct r; inversion H; subst; eauto using log_only_trans. }
  destruct (FATFS.fs_type fs =? FS_FAT16).
  { cbv zeta in H.
    match type of H with context [move_window ?a ?b ?s] =>
      destruct (move_window a b s) as [[r fs1] d1] eqn:E1 end.
    destruct (move_window_clean _ _ _ _ _ _ E1 Z0) as (L1 & Z1 & _).
    destruct r; inversion H; subst; auto. }
  destruct (FATFS.fs_type fs =? FS_FAT32); [|inversion H; subst; auto using log_only_refl].
  cbv zeta in H.
  match type of H with context [move_window ?a ?b ?s] =>
    destruct (move_window a b s) as [[r fs1] d1] eqn:E1 end.
  destruct (move_window_clean _ _ _ _ _ _ E1 Z0) as (L1 & Z1 & _).
  destruct r; inversion H; subst; auto.
Qed.

Lemma chain_same_view fs d fs' d' c n :
  window_only fs fs' -> (forall t, view fs' d' t = view fs d t) ->
  chain fs' d' c n = chain fs d c n.
Proof.
  intros W V; induction n as [|n IH]; cbn [chain]; [reflexivity|].
  rewrite IH; apply fat_entry_same_view; assumption.
Qed.

Lemma clst2sect_window_only fs fs' c : window_only fs fs' -> clst2sect fs' c = clst2sect fs c.
Proof.
  intros W; destruct (window_only_fields _ _ W) as (_ & _ & En & _ & Ec & Ed & _).
  unfold clst2sect; rewrite En, Ec, Ed; reflexivity.
Qed.

Lemma file_bytes_same_view fs d fs' d' scl p n :
  window_only fs fs' -> (forall t, view fs' d' t = view fs d t) ->
  file_bytes fs' d' scl p n = file_bytes fs d scl p n.
Proof.
  intros W V; unfold file_bytes; apply map_ext; intros k.
  unfold file_byte, file_sector.
  destruct (window_only_fields _ _ W) as (_ & _ & _ & _ & Ec & _).
  rewrite V, Ec, (chain_same_view fs d fs' d') by assumption.
  rewrite (clst2sect_window_only fs fs') by assumption; reflexivity.
Qed.

Lemma file_bytes_app fs d scl p a b :
  0 <= a -> 0 <= b ->
  file_bytes fs d scl p (a + b) = file_bytes fs d scl p a ++ file_bytes fs d scl (p + a) b.
Proof.
  intros Ha Hb; unfold file_bytes.
  rewrite Z2Nat.inj_add, seq_app, map_app by lia.
  f_equal; cbn [Nat.add].
  assert (G : forall n s,
             map (fun k => file_byte fs d scl (p + Z.of_nat k)) (seq (Z.to_nat a + s) n) =
             map (fun k => file_byte fs d scl (p + a + Z.of_nat k)) (seq s n)).
  { induction n as [|n IH]; intros s; [reflexivity|].
    cbn [seq map]; f_equal.
    - f_equal; lia.
    - replace (S (Z.to_nat a + s)) with (Z.to_nat a + S s)%nat by lia; apply IH. }
  rewrite <- (Nat.add_0_r (Z.to_nat a)) at 1; apply G.
Qed.

(** The sector of a cluster of the volume. *)
Lemma clst2sect_valid fs c :
  mounted fs -> data_area_fits fs -> valid_clst fs c ->
  clst2sect fs c = FATFS.database fs + FATFS.csize fs * (c - 2) /\
  0 < clst2sect fs c /\ clst2sect fs c + FATFS.csize fs <= 4294967296.
Proof.
  intros M (D0 & D1) V; unfold valid_clst in V.
  pose proof (m_fatent _ M) as Hn.
  destruct (m_csize _ M) as (k & Hk & Ek).
  pose proof (pow2_bounds k Hk) as Hc; rewrite <- Ek in Hc.
  assert (B : 0 <= FATFS.csize fs * (c - 2) /\
              FATFS.csize fs * (c - 2) + FATFS.csize fs
              <= FATFS.csize fs * (FATFS.n_fatent fs - 2)) by nia.
  unfold clst2sect; cbv zeta.
  rewrite (u32_small (c - 2)), (u32_small (FATFS.n_fatent fs - 2)) by lia.
  replace (c - 2 >=? FATFS.n_fatent fs - 2) with false by (symmetry; lia).
  rewrite (u32_small (FATFS.csize fs * (c - 2))) by lia.
  rewrite u32_small by lia.
  lia.
Qed.

(** A byte of a run of sectors. *)
Lemma nth_read_sectors m n : forall s j,
  (forall t, Z.of_nat (length (m t)) = 512) ->
  0 <= j < 512 * Z.of_nat n ->
  nth (Z.to_nat j) (read_sectors m s n) 0 = ld (m (s + j / 512)) (j mod 512).
Proof.
  induction n as [|n IH]; intros s j Hm Hj; [lia|].
  cbn [read_sectors].
  destruct (Z.ltb_spec j 512) as [Lt|Ge].
  - rewrite app_nth1 by (specialize (Hm s); lia).
    rewrite Z.div_small, Z.mod_small, Z.add_0_r by lia; reflexivity.
  - rewrite app_nth2 by (specialize (Hm s); lia).
    replace (Z.to_nat j - length (m s))%nat with (Z.to_nat (j - 512))
      by (specialize (Hm s); lia).
    rewrite IH by (auto; lia).
    replace j with (j - 512 + 1 * 512) at 3 4 by lia.
    rewrite Z.div_add, Z.mod_add by lia.
    f_equal; f_equal; lia.
Qed.

Lemma firstn_map_nth (l : list Z) : forall n,
  (n <= length l)%nat -> firstn n l = map (fun k => nth k l 0) (seq 0 n).
Proof.
  induction l as [|x l IH]; intros n Hn.
  - cbn [length] in Hn; replace n with 0%nat by lia; reflexivity.
  - destruct n as [|n]; [reflexivity|].
    cbn [firstn seq map nth]; f_equal.
    rewrite <- seq_shift, map_map; cbn [nth]; apply IH; cbn [length] in Hn; lia.
Qed.

Lemma disk_read_run d s cc :
  healthy d -> 0 < cc ->
  disk_read d 0 s cc =
  (RES_OK, read_sectors (sd_data d) s (Z.to_nat cc), dev_log d (IoRead s cc)).
Proof.
  intros H Hc; unfold disk_read.
  pose proof H as (H1 & H2 & H3).
  replace (negb (0 =? DEV_SD) || (cc =? 0)) with false
    by (symmetry; change (0 =? DEV_SD) with true; cbn [negb orb]; lia).
  rewrite H1; change (nz 0) with false; cbv iota zeta.
  rewrite any_bad_healthy by (unfold healthy; destruct d; simpl in *; auto).
  destruct d; reflexivity.
Qed.

Lemma stable_log_only fs d d' : stable fs d -> log_only d d' -> stable fs d'.
Proof.
  intros (M & (H1 & H2 & H3) & Hd & C) (L1 & L2 & L3 & L4).
  split; [exact M|split; [|split]].
  - unfold healthy; rewrite L1, L3; auto.
  - intros s; rewrite L4; apply Hd.
  - intros Z0; rewrite L4; apply C; exact Z0.
Qed.

Lemma readable_view fs d t : readable fs d -> view fs d t = sd_data d t.
Proof. intros ((_ & _ & _ & C) & Z0 & _); apply clean_view; assumption. Qed.

Lemma data_area_fits_window_only fs fs' :
  window_only fs fs' -> data_area_fits fs -> data_area_fits fs'.
Proof.
  intros W; destruct (window_only_fields _ _ W) as (_ & _ & En & _ & Ec & Ed & _).
  unfold data_area_fits; rewrite En, Ec, Ed; auto.
Qed.

Lemma same_sector p r :
  0 <= p -> 0 < r <= 512 - p mod 512 ->
  forall j, 0 <= j < r -> (p + j) / 512 = p / 512 /\ (p + j) mod 512 = p mod 512 + j.
Proof. intros Hp Hr j Hj; Z.to_euclidean_division_equations; lia. Qed.

Lemma same_cluster q cs t :
  0 <= q -> 0 < cs -> 0 <= t -> q mod cs + t < cs ->
  (q + t) / cs = q / cs /\ (q + t) mod cs = q mod cs + t.
Proof.
  intros Hq Hc Ht Hl.
  pose proof (Z.mod_pos_bound q cs Hc) as B.
  pose proof (Z.div_mod q cs ltac:(lia)) as E.
  split; symmetry.
  - apply (Z.div_unique_pos _ _ _ (q mod cs + t)); lia.
  - apply (Z.mod_unique_pos _ _ (q / cs)); lia.
Qed.

Lemma aligned_sector p j :
  0 <= p -> p mod 512 = 0 -> 0 <= j ->
  (p + j) / 512 = p / 512 + j / 512 /\ (p + j) mod 512 = j mod 512.
Proof. intros Hp Hm Hj; Z.to_euclidean_division_equations; lia. Qed.

(** A round of [f_read] is the search for the current cluster followed by
    the transfer. *)
Lemma f_read_round_tail fs d fp btr :
  f_read_round fs d fp btr =
  if FIL.fptr fp =? 0 then f_read_tail fs d (FIL.set_clust fp (FIL.sclust fp)) btr
  else if FIL.fptr fp mod u32 (FATFS.csize fs * SS) =? 0 then
    let '(clst, fs, d) := get_fat fs d (FIL.clust fp) in
    if (clst <? 2) || (clst >=? FATFS.n_fatent fs)
    then let '(res, fp) := ABORT fp FR_INT_ERR in Stop res fs d fp
    else f_read_tail fs d (FIL.set_clust fp clst) btr
  else f_read_tail fs d fp btr.
Proof.
  unfold f_read_round, f_read_tail.
  destruct (FIL.fptr fp =? 0); [reflexivity|].
  destruct (FIL.fptr fp mod u32 (FATFS.csize fs * SS) =? 0); [|reflexivity].
  destruct (get_fat fs d (FIL.clust fp)) as [[clst fs1] d1].
  destruct ((clst <? 2) || (clst >=? FATFS.n_fatent fs1)); reflexivity.
Qed.


(** The transfer part of one round of [f_read] on a readable state. *)
Lemma f_read_content_transfer fs d fp btr :
  readable fs d -> 0 < btr < 4294967296 ->
  0 <= FIL.fptr fp < FIL.obj_size fp -> FIL.obj_size fp + 65536 <= 4294967296 ->
  valid_clst fs (FIL.clust fp) ->
  FIL.fptr fp mod 512 = 0 \/ btr < 512 ->
  exists fs' d' rcnt,
    f_read_tail fs d fp btr
    = More fs' d' (FIL.set_fptr fp (FIL.fptr fp + rcnt)) rcnt
           (map (fun k =>
                   ld (sd_data d (clst2sect fs (FIL.clust fp)
                                  + ((FIL.fptr fp + Z.of_nat k) / 512) mod FATFS.csize fs))
                      ((FIL.fptr fp + Z.of_nat k) mod 512))
                (seq 0 (Z.to_nat rcnt))) /\
    0 < rcnt <= btr /\ FIL.fptr fp + rcnt <= FIL.obj_size fp /\
    (forall j, 0 <= j < rcnt ->
               (FIL.fptr fp + j) / 512 / FATFS.csize fs
               = FIL.fptr fp / 512 / FATFS.csize fs) /\
    readable fs' d' /\ window_only fs fs' /\ log_only d d' /\
    ((FIL.fptr fp + rcnt) mod 512 = 0 \/ btr - rcnt < 512 \/
     FIL.fptr fp + rcnt = FIL.obj_size fp).
Proof.
  intros (S & Z0 & F) Hb Hp Ho V Ha; unfold f_read_tail; cbv zeta.
  pose proof S as (M & Hh & Hd & C).
  destruct (m_csize _ M) as (k & Hk & Ek).
  pose proof (pow2_bounds k Hk) as Hc; rewrite <- Ek in Hc.
  destruct (clst2sect_valid fs (FIL.clust fp) M F V) as (Es & Hs0 & Hs1).
  replace (clst2sect fs (FIL.clust fp) =? 0) with false by (symmetry; lia).
  rewrite (m_pdrv _ M).
  unfold SS, FF_MAX_SS.
  remember (clst2sect fs (FIL.clust fp)) as s0 eqn:Es0; clear Es.
  remember (FIL.fptr fp) as p eqn:Ep; remember (FIL.obj_size fp) as o eqn:Eo.
  remember (FATFS.csize fs) as cs eqn:Ecsz.
  assert (Hq : 0 <= p / 512 < 4294967296) by (Z.to_euclidean_division_equations; lia).
  rewrite (u32_small (p / 512)) by lia.
  assert (Hcs : 0 <= (p / 512) mod cs < cs) by (apply Z.mod_pos_bound; lia).
  remember (p / 512) as q eqn:Eq.
  remember (q mod cs) as csect eqn:Ecs.
  rewrite (u32_small (s0 + csect)) by lia.
  assert (Hcc : 0 <= btr / 512 <= btr) by (Z.to_euclidean_division_equations; lia).
  assert (Hcc1 : 512 * (btr / 512) <= btr) by (Z.to_euclidean_division_equations; lia).
  assert (Hcc2 : btr < 512 -> btr / 512 = 0) by (intros; apply Z.div_small; lia).
  remember (btr / 512) as cc0 eqn:Ecc0.
  assert (Hm : 0 <= p mod 512 < 512) by (apply Z.mod_pos_bound; lia).
  destruct (cc0 >? 0) eqn:Egt.
  - (* whole sectors, from an offset on a sector boundary *)
    assert (Al : p mod 512 = 0) by (destruct Ha as [Al|Sm]; [exact Al|lia]).
    rewrite (u32_small (csect + cc0)) by lia.
    rewrite (u32_small (cs - csect)) by lia.
    remember (if csect + cc0 >? cs then cs - csect else cc0) as cc eqn:Ecc.
    assert (Hcc3 : 1 <= cc <= cc0 /\ csect + cc <= cs)
      by (subst cc; destruct (csect + cc0 >? cs) eqn:E; lia).
    rewrite (disk_read_run d (s0 + csect) cc Hh) by lia.
    cbn [is_RES_OK negb]; cbv iota.
    rewrite (u32_small (cc * 512)) by lia.
    rewrite (u32_small (p + cc * 512)) by lia.
    rewrite (u32_small (o - p)) by lia.
    remember (if p + cc * 512 >? o then o - p else cc * 512) as rcnt eqn:Ercnt.
    assert (Hr : 0 < rcnt <= cc * 512 /\ p + rcnt <= o /\
                 (rcnt = cc * 512 \/ p + rcnt = o))
      by (subst rcnt; destruct (p + cc * 512 >? o) eqn:E; lia).
    rewrite (u32_small (p + rcnt)) by lia.
    assert (J : forall j, 0 <= j < rcnt ->
                  (p + j) / 512 = q + j / 512 /\ (p + j) mod 512 = j mod 512 /\
                  0 <= j / 512 < cc /\
                  (q + j / 512) / cs = q / cs /\ (q + j / 512) mod cs = csect + j / 512).
    { intros j Hj.
      destruct (aligned_sector p j ltac:(lia) Al ltac:(lia)) as (A1 & A2).
      assert (T : 0 <= j / 512 < cc) by (Z.to_euclidean_division_equations; lia).
      destruct (same_cluster q cs (j / 512) ltac:(lia) ltac:(lia) ltac:(lia)
                  ltac:(rewrite <- Ecs; lia)) as (A3 & A4).
      rewrite Eq at 1; rewrite Ecs; splits; auto; lia. }
    exists fs, (dev_log d (IoRead (s0 + csect) cc)), rcnt; splits; try lia.
    + f_equal.
      rewrite firstn_map_nth.
      2:{ apply Nat2Z.inj_le.
          rewrite length_read_sectors by (intros t; apply Hd).
          rewrite !Z2Nat.id by lia; lia. }
      apply map_ext_in; intros i Hi; apply in_seq in Hi.
      rewrite <- (Nat2Z.id i) at 1.
      rewrite nth_read_sectors by (try (intros t; apply Hd); rewrite Z2Nat.id by lia; lia).
      destruct (J (Z.of_nat i) ltac:(lia)) as (A1 & A2 & A3 & A4 & A5).
      rewrite A1, A2, A5; f_equal; f_equal; lia.
    + intros j Hj; destruct (J j Hj) as (A1 & _ & _ & A4 & _).
      rewrite A1, A4; reflexivity.
    + split; [|split; [exact Z0|exact F]].
      apply (stable_log_only fs d); [exact S|apply log_only_log].
    + apply window_only_refl.
    + apply log_only_log.
    + destruct Hr as (_ & _ & [E|E]); [left|right; right; exact E].
      rewrite E; replace (p + cc * 512) with (p + cc * 512) by lia.
      rewrite Z.mod_add by lia; exact Al.
  - (* part of a sector, through the window *)
    assert (Hz : cc0 = 0) by lia.
    destruct (stable_move fs d (s0 + csect) S ltac:(lia))
      as (fs1 & d1 & Em & W & Ews & S1 & Ew & Vw).
    destruct (move_window_clean _ _ _ _ _ _ Em Z0) as (L1 & Z1 & _).
    rewrite Em; cbv iota.
    rewrite (u32_small (p mod 512)) by lia.
    rewrite (u32_small (512 - p mod 512)) by lia.
    remember (if 512 - p mod 512 >? btr then btr else 512 - p mod 512) as r1 eqn:Er1.
    assert (Hr1 : 0 < r1 <= btr /\ r1 <= 512 - p mod 512)
      by (subst r1; destruct (512 - p mod 512 >? btr) eqn:E; lia).
    rewrite (u32_small (p + r1)) by lia.
    rewrite (u32_small (o - p)) by lia.
    remember (if p + r1 >? o then o - p else r1) as rcnt eqn:Ercnt.
    assert (Hr : 0 < rcnt <= r1 /\ p + rcnt <= o)
      by (subst rcnt; destruct (p + r1 >? o) eqn:E; lia).
    rewrite (u32_small (p + rcnt)) by lia.
    exists fs1, d1, rcnt; splits; try lia.
    + f_equal.
      unfold slice; apply map_ext_in; intros i Hi; apply in_seq in Hi.
      destruct (same_sector p rcnt ltac:(lia) ltac:(lia) (Z.of_nat i) ltac:(lia))
        as (A1 & A2).
      rewrite A1, A2, <- Eq, <- Ecs, Ew.
      rewrite (clean_view fs d _ C Z0); reflexivity.
    + intros j Hj.
      destruct (same_sector p rcnt ltac:(lia) ltac:(lia) j Hj) as (A1 & _).
      rewrite A1, <- Eq; reflexivity.
    + split; [exact S1|split; [exact Z1|]].
      eapply data_area_fits_window_only; eassumption.
    + exact W.
    + exact L1.
    + assert (btr < 512) by (destruct (Z.ltb_spec btr 512); [assumption|];
        exfalso; Z.to_euclidean_division_equations; lia).
      lia.
Qed.

Lemma cluster_index p cs : 0 < cs -> p / (cs * 512) = p / 512 / cs.
Proof. intros H; rewrite Z.div_div by lia; f_equal; lia. Qed.

(** The transfer delivers the bytes of the file when the handle stands on
    the cluster of its offset. *)
Lemma f_read_content_tail fs d fp btr :
  readable fs d -> 0 < btr < 4294967296 ->
  0 <= FIL.fptr fp < FIL.obj_size fp -> FIL.obj_size fp + 65536 <= 4294967296 ->
  valid_clst fs (FIL.clust fp) ->
  FIL.clust fp = chain fs d (FIL.sclust fp)
                       (Z.to_nat (FIL.fptr fp / (FATFS.csize fs * 512))) ->
  FIL.fptr fp mod 512 = 0 \/ btr < 512 ->
  exists fs' d' rcnt,
    f_read_tail fs d fp btr
    = More fs' d' (FIL.set_fptr fp (FIL.fptr fp + rcnt)) rcnt
           (file_bytes fs d (FIL.sclust fp) (FIL.fptr fp) rcnt) /\
    0 < rcnt <= btr /\ FIL.fptr fp + rcnt <= FIL.obj_size fp /\
    (FIL.fptr fp + rcnt - 1) / (FATFS.csize fs * 512)
    = FIL.fptr fp / (FATFS.csize fs * 512) /\
    readable fs' d' /\ window_only fs fs' /\ log_only d d' /\
    ((FIL.fptr fp + rcnt) mod 512 = 0 \/ btr - rcnt < 512 \/
     FIL.fptr fp + rcnt = FIL.obj_size fp).
Proof.
  intros R Hb Hp Ho V Ec Ha.
  destruct (f_read_content_transfer fs d fp btr R Hb Hp Ho V Ha)
    as (fs' & d' & rcnt & E & Hr & Hle & Hj & R' & W & L & Hn).
  pose proof R as ((M & _) & _).
  destruct (m_csize _ M) as (k & Hk & Ek).
  pose proof (pow2_bounds k Hk) as Hc; rewrite <- Ek in Hc.
  exists fs', d', rcnt; splits; auto; try lia.
  - rewrite E; f_equal.
    unfold file_bytes; apply map_ext_in; intros i Hi; apply in_seq in Hi.
    unfold file_byte, file_sector.
    rewrite (readable_view fs d _ R).
    rewrite (cluster_index _ (FATFS.csize fs) ltac:(lia)).
    rewrite (Hj (Z.of_nat i)) by lia.
    rewrite <- (cluster_index _ (FATFS.csize fs) ltac:(lia)), <- Ec; reflexivity.
  - rewrite !(cluster_index _ (FATFS.csize fs) ltac:(lia)).
    replace (FIL.fptr fp + rcnt - 1) with (FIL.fptr fp + (rcnt - 1)) by lia.
    apply Hj; lia.
Qed.

Lemma readable_window fs d fs' d' :
  readable fs d -> window_only fs fs' -> stable fs' d' -> FATFS.wflag fs' = 0 ->
  readable fs' d'.
Proof.
  intros (_ & _ & F) W S Z0; split; [exact S|split; [exact Z0|]].
  eapply data_area_fits_window_only; eassumption.
Qed.

Lemma readable_same_view fs d fs' d' t :
  readable fs d -> readable fs' d' -> log_only d d' -> view fs' d' t = view fs d t.
Proof.
  intros R R' (_ & _ & _ & L).
  rewrite (readable_view _ _ _ R), (readable_view _ _ _ R'), L; reflexivity.
Qed.

(** One round of [f_read] on a readable state. *)
Lemma f_read_round_content fs d fp btr :
  readable fs d -> 0 < btr < 4294967296 ->
  0 <= FIL.fptr fp < FIL.obj_size fp -> FIL.obj_size fp + 65536 <= 4294967296 ->
  chained fs d fp -> positioned fs d fp ->
  FIL.fptr fp mod 512 = 0 \/ btr < 512 ->
  exists fs' d' rcnt c,
    f_read_round fs d fp btr
    = More fs' d' (FIL.set_fptr (FIL.set_clust fp c) (FIL.fptr fp + rcnt)) rcnt
           (file_bytes fs d (FIL.sclust fp) (FIL.fptr fp) rcnt) /\
    0 < rcnt <= btr /\ FIL.fptr fp + rcnt <= FIL.obj_size fp /\
    c = chain fs d (FIL.sclust fp)
              (Z.to_nat ((FIL.fptr fp + rcnt - 1) / (FATFS.csize fs * 512))) /\
    readable fs' d' /\ window_only fs fs' /\ log_only d d' /\
    ((FIL.fptr fp + rcnt) mod 512 = 0 \/ btr - rcnt < 512 \/
     FIL.fptr fp + rcnt = FIL.obj_size fp).
Proof.
  intros R Hb Hp Ho Hch Hpos Ha.
  pose proof R as ((M & _) & Z0 & _).
  pose proof R as (S & _).
  destruct (m_csize _ M) as (k & Hk & Ek).
  pose proof (pow2_bounds k Hk) as Hc; rewrite <- Ek in Hc.
  assert (Hbcs : u32 (FATFS.csize fs * SS) = FATFS.csize fs * 512)
    by (unfold SS, FF_MAX_SS; apply u32_small; lia).
  remember (FATFS.csize fs * 512) as bcs eqn:Eb.
  assert (Pb : 0 < bcs) by lia.
  (* the cluster of the offset *)
  remember (chain fs d (FIL.sclust fp) (Z.to_nat (FIL.fptr fp / bcs))) as c eqn:Ec.
  assert (Vc : valid_clst fs c).
  { rewrite Ec; apply Hch; [apply Z.div_pos; lia|].
    rewrite <- Eb.
    apply Z.le_lt_trans with (FIL.fptr fp); [|lia].
    rewrite Z.mul_comm; apply Z.mul_div_le; lia. }
  (* the transfer from a state that differs in the window only *)
  assert (T : forall fs1 d1,
             readable fs1 d1 -> window_only fs fs1 -> log_only d d1 ->
             exists fs' d' rcnt,
               f_read_tail fs1 d1 (FIL.set_clust fp c) btr
               = More fs' d' (FIL.set_fptr (FIL.set_clust fp c) (FIL.fptr fp + rcnt)) rcnt
                      (file_bytes fs d (FIL.sclust fp) (FIL.fptr fp) rcnt) /\
               0 < rcnt <= btr /\ FIL.fptr fp + rcnt <= FIL.obj_size fp /\
               c = chain fs d (FIL.sclust fp)
                         (Z.to_nat ((FIL.fptr fp + rcnt - 1) / bcs)) /\
               readable fs' d' /\ window_only fs fs' /\ log_only d d' /\
               ((FIL.fptr fp + rcnt) mod 512 = 0 \/ btr - rcnt < 512 \/
                FIL.fptr fp + rcnt = FIL.obj_size fp)).
  { intros fs1 d1 R1 W1 L1.
    assert (V1 : forall t, view fs1 d1 t = view fs d t)
      by (intros t; apply readable_same_view; assumption).
    destruct (window_only_fields _ _ W1) as (_ & _ & En & _ & Ecs & _).
    pose proof (f_read_content_tail fs1 d1 (FIL.set_clust fp c) btr R1 Hb) as X.
    assert (Q1 : FIL.fptr (FIL.set_clust fp c) = FIL.fptr fp) by (destruct fp; reflexivity).
    assert (Q2 : FIL.obj_size (FIL.set_clust fp c) = FIL.obj_size fp)
      by (destruct fp; reflexivity).
    assert (Q3 : FIL.sclust (FIL.set_clust fp c) = FIL.sclust fp) by (destruct fp; reflexivity).
    assert (Q4 : FIL.clust (FIL.set_clust fp c) = c) by (destruct fp; reflexivity).
    rewrite Q1, Q2, Q3, Q4, Ecs, <- Eb in X.
    rewrite (chain_same_view fs d fs1 d1) in X by assumption.
    destruct (X Hp Ho ltac:(unfold valid_clst in *; rewrite En; exact Vc) Ec Ha)
      as (fs' & d' & rcnt & E & Hr & Hle & Hsame & R' & W' & L' & Hn).
    exists fs', d', rcnt; splits; auto; try lia.
    - rewrite E, (file_bytes_same_view fs d fs1 d1) by assumption; reflexivity.
    - rewrite Hsame; exact Ec.
    - eapply window_only_trans; eassumption.
    - eapply log_only_trans; eassumption. }
  rewrite f_read_round_tail, Hbcs.
  destruct (FIL.fptr fp =? 0) eqn:E0.
  - apply Z.eqb_eq in E0.
    assert (Ecs : c = FIL.sclust fp)
      by (rewrite Ec, E0, Z.div_0_l by lia; reflexivity).
    destruct (T fs d R (window_only_refl fs) (log_only_refl d))
      as (fs' & d' & rcnt & E & Rest).
    exists fs', d', rcnt, c; split; [|exact Rest].
    replace (FIL.set_clust fp (FIL.sclust fp)) with (FIL.set_clust fp c)
      by (rewrite Ecs; reflexivity).
    exact E.
  - apply Z.eqb_neq in E0.
    specialize (Hpos ltac:(lia)); rewrite <- Eb in Hpos.
    destruct (FIL.fptr fp mod bcs =? 0) eqn:Em.
    + apply Z.eqb_eq in Em.
      assert (Q : (FIL.fptr fp - 1) / bcs + 1 = FIL.fptr fp / bcs /\
                  0 <= (FIL.fptr fp - 1) / bcs /\
                  (FIL.fptr fp - 1) / bcs * bcs < FIL.obj_size fp)
        by (Z.to_euclidean_division_equations; nia).
      destruct Q as (Q1 & Q2 & Q3).
      assert (Vp : valid_clst fs (FIL.clust fp))
        by (rewrite Hpos; apply Hch; [exact Q2|rewrite <- Eb; exact Q3]).
      destruct (get_fat_stable fs d (FIL.clust fp) S Vp) as (fs1 & d1 & Eg & W1 & S1 & V1).
      destruct (get_fat_clean _ _ _ _ _ _ Eg Z0) as (Z1 & L1).
      assert (Ev : fat_entry fs d (FIL.clust fp) = c).
      { rewrite Ec.
        replace (Z.to_nat (FIL.fptr fp / bcs))
          with (Datatypes.S (Z.to_nat ((FIL.fptr fp - 1) / bcs))) by lia.
        cbn [chain]; rewrite <- Hpos; reflexivity. }
      rewrite Eg, Ev.
      destruct (window_only_fields _ _ W1) as (_ & _ & En & _).
      unfold valid_clst in Vc.
      replace ((c <? 2) || (c >=? FATFS.n_fatent fs1)) with false
        by (symmetry; rewrite En; apply orb_false_iff; split; lia).
      destruct (T fs1 d1 (readable_window _ _ _ _ R W1 S1 Z1) W1 L1)
        as (fs' & d' & rcnt & E & Rest).
      exists fs', d', rcnt, c; split; [exact E|exact Rest].
    + apply Z.eqb_neq in Em.
      assert (Q : (FIL.fptr fp - 1) / bcs = FIL.fptr fp / bcs)
        by (Z.to_euclidean_division_equations; nia).
      assert (Ecl : FIL.clust fp = c) by (rewrite Hpos, Q; symmetry; exact Ec).
      destruct (T fs d R (window_only_refl fs) (log_only_refl d))
        as (fs' & d' & rcnt & E & Rest).
      exists fs', d', rcnt, c; split; [|exact Rest].
      rewrite <- E; f_equal; rewrite <- Ecl; destruct fp; reflexivity.
Qed.

Lemma chained_same_view fs d fs' d' fp fp' :
  window_only fs fs' -> (forall t, view fs' d' t = view fs d t) ->
  FIL.sclust fp' = FIL.sclust fp -> FIL.obj_size fp' = FIL.obj_size fp ->
  chained fs d fp -> chained fs' d' fp'.
Proof.
  intros W V Es Eo H j Hj Hlt.
  destruct (window_only_fields _ _ W) as (_ & _ & En & _ & Ec & _).
  rewrite Es, (chain_same_view fs d fs' d') by assumption.
  unfold valid_clst; rewrite En; apply H; [exact Hj|].
  rewrite <- Ec, <- Eo; exact Hlt.
Qed.

(** The loop of [f_read] on a readable state. *)
Lemma f_read_loop_content fuel : forall fs d fp btr got,
  readable fs d -> 0 <= btr < 4294967296 -> (Z.to_nat btr <= fuel)%nat ->
  0 <= FIL.fptr fp <= FIL.obj_size fp -> FIL.obj_size fp + 65536 <= 4294967296 ->
  chained fs d fp -> positioned fs d fp ->
  FIL.fptr fp mod 512 = 0 \/ btr < 512 \/ FIL.fptr fp = FIL.obj_size fp ->
  exists fs' d' c,
    f_read_loop fuel fs d fp btr got =
    Some (FR_OK, fs', d',
          FIL.set_fptr (FIL.set_clust fp c)
                       (FIL.fptr fp + Z.min btr (FIL.obj_size fp - FIL.fptr fp)),
          got ++ file_bytes fs d (FIL.sclust fp) (FIL.fptr fp)
                            (Z.min btr (FIL.obj_size fp - FIL.fptr fp))) /\
    readable fs' d' /\ window_only fs fs' /\ log_only d d' /\
    positioned fs' d'
      (FIL.set_fptr (FIL.set_clust fp c)
                    (FIL.fptr fp + Z.min btr (FIL.obj_size fp - FIL.fptr fp))).
Proof.
  assert (Stay : forall fs d fp btr got,
             readable fs d -> positioned fs d fp ->
             Z.min btr (FIL.obj_size fp - FIL.fptr fp) = 0 ->
             exists fs' d' c,
               Some (FR_OK, fs, d, fp, got) =
               Some (FR_OK, fs', d',
                     FIL.set_fptr (FIL.set_clust fp c)
                       (FIL.fptr fp + Z.min btr (FIL.obj_size fp - FIL.fptr fp)),
                     got ++ file_bytes fs d (FIL.sclust fp) (FIL.fptr fp)
                              (Z.min btr (FIL.obj_size fp - FIL.fptr fp))) /\
               readable fs' d' /\ window_only fs fs' /\ log_only d d' /\
               positioned fs' d'
                 (FIL.set_fptr (FIL.set_clust fp c)
                    (FIL.fptr fp + Z.min btr (FIL.obj_size fp - FIL.fptr fp)))).
  { intros fs d fp btr got R P E; rewrite E.
    assert (X : FIL.set_fptr (FIL.set_clust fp (FIL.clust fp)) (FIL.fptr fp + 0) = fp)
      by (rewrite Z.add_0_r; destruct fp; reflexivity).
    exists fs, d, (FIL.clust fp); rewrite X; splits;
      auto using window_only_refl, log_only_refl.
    unfold file_bytes; cbn [Z.to_nat seq map]; rewrite app_nil_r; reflexivity. }
  induction fuel as [|fuel IH]; intros fs d fp btr got R Hb Hf Hp Ho Hch Hpos Ha.
  - assert (btr = 0) by lia; subst btr; cbn [f_read_loop].
    change (negb (0 >? 0)) with true; cbv iota.
    apply Stay; auto; lia.
  - cbn [f_read_loop].
    destruct (btr >? 0) eqn:Eb; cbn [negb]; cbv iota.
    2:{ apply Stay; auto; lia. }
    destruct (FIL.fptr fp >=? FIL.obj_size fp) eqn:Ee.
    { apply Stay; auto; lia. }
    destruct (f_read_round_content fs d fp btr R ltac:(lia) ltac:(lia) Ho Hch Hpos
                ltac:(lia))
      as (fs1 & d1 & rcnt & c1 & E & Hr & Hle & Ec1 & R1 & W1 & L1 & Hn).
    rewrite E, (u32_small (btr - rcnt)) by lia.
    assert (V1 : forall t, view fs1 d1 t = view fs d t)
      by (intros t; apply readable_same_view; assumption).
    destruct (window_only_fields _ _ W1) as (_ & _ & _ & _ & Ecs & _).
    remember (FIL.set_fptr (FIL.set_clust fp c1) (FIL.fptr fp + rcnt)) as fp1 eqn:Efp1.
    assert (Q : FIL.fptr fp1 = FIL.fptr fp + rcnt /\ FIL.obj_size fp1 = FIL.obj_size fp /\
                FIL.sclust fp1 = FIL.sclust fp /\ FIL.clust fp1 = c1)
      by (subst fp1; destruct fp; cbn; auto).
    destruct Q as (Q1 & Q2 & Q3 & Q4).
    assert (Hch1 : chained fs1 d1 fp1) by (eapply chained_same_view; eassumption).
    assert (Hpos1 : positioned fs1 d1 fp1).
    { intros _; rewrite Q4, Q3, Q1, Ecs, (chain_same_view fs d fs1 d1) by assumption.
      exact Ec1. }
    assert (Ha1 : FIL.fptr fp1 mod 512 = 0 \/ btr - rcnt < 512 \/
                  FIL.fptr fp1 = FIL.obj_size fp1) by (rewrite Q1, Q2; exact Hn).
    destruct (IH fs1 d1 fp1 (btr - rcnt) (got ++ file_bytes fs d (FIL.sclust fp)
                                                 (FIL.fptr fp) rcnt) R1
                 ltac:(lia) ltac:(lia) ltac:(lia) ltac:(lia) Hch1 Hpos1 Ha1)
      as (fs' & d' & c & E' & R' & W' & L' & P').
    exists fs', d', c.
    rewrite Q1, Q2, Q3 in E'; rewrite Q1, Q2 in P'.
    rewrite (file_bytes_same_view fs d fs1 d1) in E' by assumption.
    assert (N : Z.min btr (FIL.obj_size fp - FIL.fptr fp)
                = rcnt + Z.min (btr - rcnt) (FIL.obj_size fp - (FIL.fptr fp + rcnt)))
      by lia.
    assert (X : FIL.set_fptr (FIL.set_clust fp1 c)
                  (FIL.fptr fp + rcnt
                   + Z.min (btr - rcnt) (FIL.obj_size fp - (FIL.fptr fp + rcnt)))
                = FIL.set_fptr (FIL.set_clust fp c)
                    (FIL.fptr fp + Z.min btr (FIL.obj_size fp - FIL.fptr fp))).
    { rewrite N, Efp1, Z.add_assoc; destruct fp; reflexivity. }
    rewrite X in E', P'.
    rewrite E', N, file_bytes_app, <- app_assoc by lia.
    rewrite <- N.
    splits; auto.
    + eapply window_only_trans; eassumption.
    + eapply log_only_trans; eassumption.
Qed.

(** X15.  Reading gives the bytes of the file.  On a stable volume whose
    window is not modified and whose data area lies inside the sector address
    space, for an open handle with read access and no latched error that
    stands on the cluster of the byte before its offset, over a FAT chain
    that has a cluster of the volume for every byte of the file: when the
    offset is on a sector boundary or fewer than 512 bytes are asked for,
    [f_read] returns [FR_OK] with exactly the bytes that the medium holds
    for the file from the offset on, as many as asked for or as are left in
    the file.  The offset advances by that count, the handle again stands on
    the cluster of the byte before it, and the medium is not written. *)
Theorem f_read_content (fs : FATFS.t) (d : Device) (fp : FIL.t) (btr : Z) :
  readable fs d ->
  FIL.fs fp = true -> FIL.err fp = 0 -> Z.land (FIL.flag fp) FA_READ <> 0 ->
  0 <= FIL.fptr fp <= FIL.obj_size fp -> FIL.obj_size fp + 65536 <= 4294967296 ->
  0 <= btr < 4294967296 ->
  chained fs d fp -> positioned fs d fp ->
  FIL.fptr fp mod 512 = 0 \/ btr < 512 ->
  exists fs' d' fp',
    f_read fs d fp btr =
    Some (FR_OK, fs', d', fp',
          file_bytes fs d (FIL.sclust fp) (FIL.fptr fp)
                     (Z.min btr (FIL.obj_size fp - FIL.fptr fp))) /\
    FIL.fptr fp' = FIL.fptr fp + Z.min btr (FIL.obj_size fp - FIL.fptr fp) /\
    fp' = FIL.set_fptr (FIL.set_clust fp (FIL.clust fp')) (FIL.fptr fp') /\
    positioned fs' d' fp' /\
    readable fs' d' /\ window_only fs fs' /\ log_only d d'.
Proof.
  intros R Hfs Herr Hfl Hp Ho Hb Hch Hpos Ha.
  destruct (f_read_loop_content (Z.to_nat btr) fs d fp btr [] R Hb ltac:(lia) Hp Ho
              Hch Hpos ltac:(tauto))
    as (fs' & d' & c & E & R' & W & L & P).
  assert (Ef : f_read fs d fp btr = f_read_loop (Z.to_nat btr) fs d fp btr []).
  { unfold f_read; rewrite Hfs, Herr.
    change (negb true) with false; change (nz 0) with false; cbv iota.
    replace (nz (Z.land (FIL.flag fp) FA_READ)) with true
      by (symmetry; apply nz_true; assumption).
    reflexivity. }
  eexists fs', d', _; rewrite Ef; split; [exact E|].
  splits; auto; destruct fp; reflexivity.
Qed.

Lemma readable_hello : readable vol12 hello_dev.
Proof.
  split; [|split; [reflexivity|unfold data_area_fits; simpl; lia]].
  split; [exact mounted_vol12|split; [repeat split|split]].
  - intros s; unfold hello_dev; cbn [sd_data].
    destruct (s =? 4); [|apply sector_repeat; lia].
    apply sector_check; vm_compute; reflexivity.
  - intros _; reflexivity.
Qed.

(** A read of 100 bytes from the file of 5 bytes gives "HELLO". *)
Lemma f_read_content_witness :
  exists fs' d' fp',
    f_read vol12 hello_dev five_fp 100 = Some (FR_OK, fs', d', fp', chars "HELLO") /\
    FIL.fptr fp' = 5.
Proof.
  assert (H1 : Z.land (FIL.flag five_fp) FA_READ <> 0) by (vm_compute; discriminate).
  assert (H2 : 0 <= FIL.fptr five_fp <= FIL.obj_size five_fp) by (simpl; lia).
  assert (H3 : FIL.obj_size five_fp + 65536 <= 4294967296) by (simpl; lia).
  assert (H4 : 0 <= 100 < 4294967296) by lia.
  assert (H5 : chained vol12 hello_dev five_fp).
  { intros j Hj Hlt; cbn in Hlt.
    assert (j = 0) by lia; subst j.
    unfold valid_clst; cbn; lia. }
  assert (H6 : positioned vol12 hello_dev five_fp) by (intros P; cbn in P; lia).
  assert (H7 : FIL.fptr five_fp mod 512 = 0 \/ 100 < 512) by (right; lia).
  destruct (f_read_content vol12 hello_dev five_fp 100 readable_hello eq_refl eq_refl
              H1 H2 H3 H4 H5 H6 H7)
    as (fs' & d' & fp' & E & P & _).
  assert (B : file_bytes vol12 hello_dev (FIL.sclust five_fp) (FIL.fptr five_fp)
                (Z.min 100 (FIL.obj_size five_fp - FIL.fptr five_fp)) = chars "HELLO")
    by (vm_compute; reflexivity).
  rewrite B in E.
  exists fs', d', fp'; split; [exact E|exact P].
Defined.

(** ** Seeking *)

(** The chain walk of [f_lseek] over a chain that reaches the target. *)
Lemma f_lseek_walk_chain fuel : forall fs d fp ofs m T bcs,
  stable fs d -> 0 < bcs -> 0 <= m -> FIL.fptr fp = m * bcs ->
  0 < ofs -> FIL.fptr fp + ofs = T -> T < 4294967296 ->
  FIL.clust fp = chain fs d (FIL.sclust fp) (Z.to_nat m) ->
  (forall j, 0 <= j -> j * bcs < T ->
             valid_clst fs (chain fs d (FIL.sclust fp) (Z.to_nat j))) ->
  (Z.to_nat ofs <= fuel)%nat ->
  exists fs' d' c,
    f_lseek_walk fuel fs d fp ofs bcs
    = Some (FR_OK, fs', d', FIL.set_fptr (FIL.set_clust fp c) T) /\
    c = chain fs d (FIL.sclust fp) (Z.to_nat ((T - 1) / bcs)) /\
    window_only fs fs' /\ stable fs' d' /\ (forall t, view fs' d' t = view fs d t).
Proof.
  assert (Last : forall fs d fp ofs m T bcs,
             0 < bcs -> 0 <= m -> FIL.fptr fp = m * bcs ->
             0 < ofs -> FIL.fptr fp + ofs = T -> T < 4294967296 ->
             FIL.clust fp = chain fs d (FIL.sclust fp) (Z.to_nat m) ->
             stable fs d ->
             (ofs >? bcs) = false ->
             exists fs' d' c,
               Some (FR_OK, fs, d, FIL.set_fptr fp (u32 (FIL.fptr fp + ofs)))
               = Some (FR_OK, fs', d', FIL.set_fptr (FIL.set_clust fp c) T) /\
               c = chain fs d (FIL.sclust fp) (Z.to_nat ((T - 1) / bcs)) /\
               window_only fs fs' /\ stable fs' d' /\
               (forall t, view fs' d' t = view fs d t)).
  { intros fs d fp ofs m T bcs Pb Hm Ep Ho ET HT Ec S G.
    exists fs, d, (FIL.clust fp); splits; auto using window_only_refl.
    - rewrite ET, u32_small by lia; destruct fp; reflexivity.
    - rewrite Ec; f_equal; f_equal.
      apply (Z.div_unique_pos _ _ _ (ofs - 1)); lia. }
  induction fuel as [|fuel IH]; intros fs d fp ofs m T bcs S Pb Hm Ep Ho ET HT Ec Hv Hf.
  - lia.
  - cbn [f_lseek_walk].
    destruct (ofs >? bcs) eqn:G; cbn [negb]; cbv iota.
    2:{ eapply Last; eassumption. }
    assert (Vm : valid_clst fs (FIL.clust fp)) by (rewrite Ec; apply Hv; lia).
    destruct (get_fat_stable fs d (FIL.clust fp) S Vm) as (fs1 & d1 & Eg & W1 & S1 & V1).
    rewrite Eg.
    assert (En : fat_entry fs d (FIL.clust fp)
                 = chain fs d (FIL.sclust fp) (Z.to_nat (m + 1))).
    { replace (Z.to_nat (m + 1)) with (Datatypes.S (Z.to_nat m)) by lia.
      cbn [chain]; rewrite Ec; reflexivity. }
    assert (Vn : valid_clst fs (fat_entry fs d (FIL.clust fp)))
      by (rewrite En; apply Hv; nia).
    destruct (window_only_fields _ _ W1) as (_ & _ & Ent & _).
    unfold valid_clst in Vn.
    replace ((fat_entry fs d (FIL.clust fp) <? 2)
             || (fat_entry fs d (FIL.clust fp) >=? FATFS.n_fatent fs1)) with false
      by (symmetry; rewrite Ent; apply orb_false_iff; split; lia).
    cbv zeta.
    replace (FIL.fptr (FIL.set_clust fp (fat_entry fs d (FIL.clust fp)))) with (FIL.fptr fp)
      by (destruct fp; reflexivity).
    rewrite (u32_small (FIL.fptr fp + bcs)), (u32_small (ofs - bcs)) by lia.
    remember (FIL.set_fptr (FIL.set_clust fp (fat_entry fs d (FIL.clust fp)))
                           (FIL.fptr fp + bcs)) as fp1 eqn:Efp1.
    assert (Q : FIL.fptr fp1 = (m + 1) * bcs /\ FIL.sclust fp1 = FIL.sclust fp /\
                FIL.clust fp1 = fat_entry fs d (FIL.clust fp)).
    { subst fp1; destruct fp; cbn in *; splits; auto; lia. }
    destruct Q as (Q1 & Q2 & Q3).
    destruct (IH fs1 d1 fp1 (ofs - bcs) (m + 1) T bcs S1 Pb ltac:(lia) Q1 ltac:(lia)
                 ltac:(lia) HT)
      as (fs' & d' & c & E & Ecl & W' & S' & V'); try lia.
    + rewrite Q2, Q3, En; symmetry; apply chain_same_view; assumption.
    + intros j Hj Hlt; rewrite Q2, (chain_same_view fs d fs1 d1) by assumption.
      unfold valid_clst; rewrite Ent; apply Hv; assumption.
    + exists fs', d', c; rewrite E; splits; auto.
      * f_equal; f_equal; subst fp1; destruct fp; reflexivity.
      * rewrite Ecl, Q2; apply chain_same_view; assumption.
      * eapply window_only_trans; eassumption.
      * intros t; rewrite V'; apply V1.
Qed.

(** X16.  [f_lseek] puts the handle on the cluster of its target.  On a
    stable volume, for an open handle without a latched error that stands on
    the cluster of the byte before its offset, and a FAT chain that has a
    cluster of the volume for every byte below the target: [f_lseek] returns
    [FR_OK], the offset is the target (the offset asked for, cut to the file
    size on a handle without write access), and the handle stands on the
    cluster of the byte before the target, so that a read or another seek can
    follow.  Nothing else changes in the handle, and no sector changes for
    the engine. *)
Theorem f_lseek_positions (fs : FATFS.t) (d : Device) (fp : FIL.t) (ofs : Z) :
  stable fs d ->
  FIL.fs fp = true -> FIL.err fp = 0 ->
  0 <= ofs < 4294967296 ->
  0 <= FIL.fptr fp < 4294967296 -> 0 <= FIL.obj_size fp < 4294967296 ->
  (forall j, 0 <= j -> j * (FATFS.csize fs * 512) < lseek_target fp ofs ->
             valid_clst fs (chain fs d (FIL.sclust fp) (Z.to_nat j))) ->
  positioned fs d fp ->
  exists fs' d' fp',
    f_lseek fs d fp ofs = Some (FR_OK, fs', d', fp') /\
    FIL.fptr fp' = lseek_target fp ofs /\
    fp' = FIL.set_fptr (FIL.set_clust fp (FIL.clust fp')) (FIL.fptr fp') /\
    positioned fs' d' fp' /\
    window_only fs fs' /\ stable fs' d' /\ (forall t, view fs' d' t = view fs d t).
Proof.
  intros S Hfs Herr Hofs Hfp Hob Hv Hpos.
  pose proof S as (M & _).
  destruct (m_csize _ M) as (k & Hk & Ek).
  unfold f_lseek. fold (lseek_target fp ofs).
  assert (HT : 0 <= lseek_target fp ofs < 4294967296)
    by (unfold lseek_target; destruct (_ && _); lia).
  remember (lseek_target fp ofs) as T eqn:ET.
  rewrite Hfs, Herr; cbn [negb]; change (nz 0) with false; cbv iota zeta.
  destruct (T >? 0) eqn:TP.
  2:{ exists fs, d, (FIL.set_fptr fp 0).
      split; [reflexivity|].
      split; [destruct fp; cbn [FIL.fptr FIL.set_fptr]; lia|].
      split; [destruct fp; reflexivity|].
      split; [intros P; destruct fp; cbn [FIL.fptr FIL.set_fptr] in P; lia|].
      split; [apply window_only_refl|split; [exact S|reflexivity]]. }
  assert (Hbcs : u32 (FATFS.csize fs * SS) = 2 ^ (k + 9)).
  { rewrite Ek; unfold SS, FF_MAX_SS; change 512 with (2 ^ 9).
    rewrite <- Z.pow_add_r by lia.
    apply u32_small; split; [apply Z.pow_nonneg; lia|].
    change 4294967296 with (2 ^ 32); apply Z.pow_lt_mono_r; lia. }
  assert (Hbcs' : FATFS.csize fs * 512 = 2 ^ (k + 9)).
  { rewrite Ek; change 512 with (2 ^ 9); rewrite <- Z.pow_add_r by lia; reflexivity. }
  rewrite Hbcs.
  unfold positioned in Hpos; rewrite Hbcs' in Hpos, Hv.
  assert (Pb : 0 < 2 ^ (k + 9)) by (apply Z.pow_pos_nonneg; lia).
  (* the handle and the offset after the first step *)
  assert (Adj : exists fp1 ofs1 m,
             (if (FIL.fptr fp >? 0)
                 && ((T - 1) / 2 ^ (k + 9) >=? (FIL.fptr fp - 1) / 2 ^ (k + 9))
              then (FIL.set_fptr (FIL.set_fptr fp 0)
                                 (Z.land (FIL.fptr fp - 1)
                                         (Z.lxor (u32 (2 ^ (k + 9) - 1)) 4294967295)),
                    u32 (T - FIL.fptr
                           (FIL.set_fptr (FIL.set_fptr fp 0)
                              (Z.land (FIL.fptr fp - 1)
                                      (Z.lxor (u32 (2 ^ (k + 9) - 1)) 4294967295)))))
              else (FIL.set_fptr fp 0, T)) = (fp1, ofs1) /\
             0 <= m /\ FIL.fptr fp1 = m * 2 ^ (k + 9) /\ 0 < ofs1 /\
             FIL.fptr fp1 + ofs1 = T /\
             fp1 = FIL.set_fptr fp (FIL.fptr fp1) /\
             (FIL.fptr fp1 <> 0 ->
              FIL.clust fp = chain fs d (FIL.sclust fp) (Z.to_nat m))).
  { destruct ((FIL.fptr fp >? 0)
              && ((T - 1) / 2 ^ (k + 9) >=? (FIL.fptr fp - 1) / 2 ^ (k + 9))) eqn:C.
    - exists (FIL.set_fptr fp ((FIL.fptr fp - 1) / 2 ^ (k + 9) * 2 ^ (k + 9))),
             (T - (FIL.fptr fp - 1) / 2 ^ (k + 9) * 2 ^ (k + 9)),
             ((FIL.fptr fp - 1) / 2 ^ (k + 9)).
      apply andb_true_iff in C; destruct C as (C1 & C2).
      rewrite cluster_mask by lia.
      remember (2 ^ (k + 9)) as bcs eqn:Eb.
      assert (R1 : 0 <= (FIL.fptr fp - 1) / bcs * bcs <= FIL.fptr fp - 1).
      { split; [apply Z.mul_nonneg_nonneg; [apply Z.div_pos|]; lia|].
        rewrite Z.mul_comm; apply Z.mul_div_le; lia. }
      assert (R2 : (FIL.fptr fp - 1) / bcs * bcs <= T - 1).
      { apply Z.le_trans with ((T - 1) / bcs * bcs).
        - apply Z.mul_le_mono_nonneg_r; lia.
        - rewrite Z.mul_comm; apply Z.mul_div_le; lia. }
      assert (R3 : 0 <= (FIL.fptr fp - 1) / bcs) by (apply Z.div_pos; lia).
      split; [destruct fp; cbn [FIL.fptr FIL.set_fptr] in *;
              rewrite u32_small by lia; reflexivity|].
      split; [exact R3|].
      split; [destruct fp; reflexivity|].
      split; [lia|].
      split; [destruct fp; cbn [FIL.fptr FIL.set_fptr]; lia|].
      split; [destruct fp; reflexivity|].
      intros _; apply Hpos; lia.
    - exists (FIL.set_fptr fp 0), T, 0.
      split; [reflexivity|].
      split; [lia|].
      split; [destruct fp; reflexivity|].
      split; [lia|].
      split; [destruct fp; cbn [FIL.fptr FIL.set_fptr]; lia|].
      split; [destruct fp; reflexivity|].
      intros N; exfalso; apply N; destruct fp; reflexivity. }
  destruct Adj as (fp1 & ofs1 & m & -> & Hm & Ep1 & Ho1 & ET1 & Efp1 & Hcl).
  assert (Q : FIL.sclust fp1 = FIL.sclust fp /\ FIL.clust fp1 = FIL.clust fp)
    by (rewrite Efp1; destruct fp; split; reflexivity).
  destruct Q as (Q1 & Q2).
  assert (V0 : valid_clst fs (FIL.sclust fp)) by (apply (Hv 0); lia).
  unfold valid_clst in V0.
  rewrite Q1.
  replace (FIL.sclust fp =? 0) with false by (symmetry; lia).
  remember (if FIL.fptr fp1 =? 0 then FIL.set_clust fp1 (FIL.sclust fp) else fp1)
    as fp2 eqn:Efp2.
  assert (Q' : FIL.fptr fp2 = FIL.fptr fp1 /\ FIL.sclust fp2 = FIL.sclust fp /\
               FIL.clust fp2 = chain fs d (FIL.sclust fp) (Z.to_nat m) /\
               forall c x, FIL.set_fptr (FIL.set_clust fp2 c) x
                           = FIL.set_fptr (FIL.set_clust fp c) x).
  { subst fp2; destruct (FIL.fptr fp1 =? 0) eqn:Z0.
    - apply Z.eqb_eq in Z0.
      assert (m = 0) by nia; subst m.
      rewrite Efp1; destruct fp; cbn [chain Z.to_nat]; splits; reflexivity.
    - apply Z.eqb_neq in Z0; splits; auto.
      + rewrite Q2; apply Hcl; exact Z0.
      + intros c x; rewrite Efp1; destruct fp; reflexivity. }
  destruct Q' as (P1 & P2 & P3 & P4).
  destruct (f_lseek_walk_chain (Z.to_nat ofs1) fs d fp2 ofs1 m T (2 ^ (k + 9)) S Pb Hm
              ltac:(lia) Ho1 ltac:(lia) ltac:(lia) ltac:(rewrite P2; exact P3)
              ltac:(rewrite P2; exact Hv) ltac:(lia))
    as (fs' & d' & c & E & Ec & W & S' & V).
  rewrite P4 in E; rewrite P2 in Ec.
  exists fs', d', (FIL.set_fptr (FIL.set_clust fp c) T).
  split; [exact E|].
  split; [destruct fp; reflexivity|].
  split; [destruct fp; reflexivity|].
  split; [|split; [exact W|split; [exact S'|exact V]]].
  intros _.
  destruct (window_only_fields _ _ W) as (_ & _ & _ & _ & Ecs & _).
  rewrite Ecs, Hbcs'.
  replace (FIL.sclust (FIL.set_fptr (FIL.set_clust fp c) T)) with (FIL.sclust fp)
    by (destruct fp; reflexivity).
  replace (FIL.fptr (FIL.set_fptr (FIL.set_clust fp c) T)) with T
    by (destruct fp; reflexivity).
  replace (FIL.clust (FIL.set_fptr (FIL.set_clust fp c) T)) with c
    by (destruct fp; reflexivity).
  rewrite (chain_same_view fs d fs' d') by assumption.
  exact Ec.
Qed.

Lemma stable_linked : stable vol12 linked_dev.
Proof.
  split; [exact mounted_vol12|split; [repeat split|split]].
  - intros s; unfold linked_dev; cbn [sd_data].
    destruct (s =? 1); [|apply sector_repeat; lia].
    apply sector_check; vm_compute; reflexivity.
  - intros _; reflexivity.
Qed.

(** A seek from offset 100 to offset 1100 walks from cluster 2 to
    cluster 4. *)
Lemma f_lseek_positions_witness :
  exists fs' d' fp',
    f_lseek vol12 linked_dev three_fp 1100 = Some (FR_OK, fs', d', fp') /\
    FIL.fptr fp' = 1100 /\ FIL.clust fp' = 4.
Proof.
  assert (T : lseek_target three_fp 1100 = 1100) by reflexivity.
  assert (H1 : 0 <= 1100 < 4294967296) by lia.
  assert (H2 : 0 <= FIL.fptr three_fp < 4294967296) by (simpl; lia).
  assert (H3 : 0 <= FIL.obj_size three_fp < 4294967296) by (simpl; lia).
  assert (H4 : forall j, 0 <= j ->
                 j * (FATFS.csize vol12 * 512) < lseek_target three_fp 1100 ->
                 valid_clst vol12 (chain vol12 linked_dev (FIL.sclust three_fp)
                                         (Z.to_nat j))).
  { intros j Hj Hlt; rewrite T in Hlt; change (FATFS.csize vol12 * 512) with 512 in Hlt.
    assert (C : j = 0 \/ j = 1 \/ j = 2) by lia.
    destruct C as [->|[->| ->]]; vm_compute; split; try discriminate; reflexivity. }
  assert (H5 : positioned vol12 linked_dev three_fp) by (intros _; reflexivity).
  destruct (f_lseek_positions vol12 linked_dev three_fp 1100 stable_linked eq_refl eq_refl
              H1 H2 H3 H4 H5)
    as (fs' & d' & fp' & E & P & _).
  assert (X : option_map (fun r => FIL.clust (snd r)) (f_lseek vol12 linked_dev three_fp 1100)
              = Some 4) by (vm_compute; reflexivity).
  rewrite E in X; cbn [option_map snd] in X.
  exists fs', d', fp'; split; [exact E|split; [rewrite P; exact T|congruence]].
Defined.

(** ** Reading a directory *)

Lemma root_cond_bound fs i : 0 <= i -> root_cond fs i = (i <? root_bound fs).
Proof.
  intros Hi; unfold root_cond, root_bound.
  destruct (FATFS.fs_type fs =? FS_FAT32); cbn [andb].
  - destruct (Z.ltb_spec i (FATFS.n_rootdir fs)), (Z.ltb_spec i 512),
      (Z.ltb_spec i (Z.max (FATFS.n_rootdir fs) 512)); cbn [orb]; try reflexivity; lia.
  - destruct (Z.ltb_spec i (FATFS.n_rootdir fs)),
      (Z.ltb_spec i (Z.max (FATFS.n_rootdir fs) 0)); cbn [orb]; try reflexivity; lia.
Qed.

Lemma skipped_same_view fs d fs' d' s0 i :
  (forall t, view fs' d' t = view fs d t) -> skipped fs d s0 i -> skipped fs' d' s0 i.
Proof. intros V; unfold skipped, slot_byte; rewrite !V; auto. Qed.

(** The loop of [f_readdir] on a stable state, entered at entry [i] with the
    window on the sector of the entry before it. *)
Lemma f_readdir_loop_next (dp : DIR.t) (fno : FILINFO) (start s0 : Z) n :
  forall fs d i sect,
  stable fs d -> 0 <= start <= i -> i <= 65535 -> root_bound fs <= 65535 ->
  0 <= s0 -> s0 + 4096 <= 4294967296 ->
  (Z.to_nat (root_bound fs - i) <= n)%nat ->
  sect = s0 + (if i =? start then i / 16 else (i - 1) / 16) ->
  FATFS.winsect fs = sect ->
  exists fs' d' i',
    i <= i' /\ (forall j, i <= j < i' -> skipped fs d s0 j /\ j < root_bound fs) /\
    stable fs' d' /\ window_only fs fs' /\ (forall t, view fs' d' t = view fs d t) /\
    ((listed fs d s0 i' /\ i' < root_bound fs /\
      f_readdir_loop n fs d dp fno start sect i
      = (FR_OK, fs', d', DIR.set_index dp (i' + 1), slot_info fs d s0 i')) \/
     ((root_bound fs <= i' \/ slot_byte fs d s0 i' DIR_Name = 0) /\
      f_readdir_loop n fs d dp fno start sect i
      = (FR_OK, fs', d', DIR.set_index dp i', fno))).
Proof.
  assert (End : forall fs d i, stable fs d -> 0 <= i <= 65535 ->
             root_bound fs <= i \/ slot_byte fs d s0 i DIR_Name = 0 ->
             forall fs1 d1, stable fs1 d1 -> window_only fs fs1 ->
             (forall t, view fs1 d1 t = view fs d t) ->
             exists fs' d' i',
               i <= i' /\ (forall j, i <= j < i' -> skipped fs d s0 j /\ j < root_bound fs) /\
               stable fs' d' /\ window_only fs fs' /\
               (forall t, view fs' d' t = view fs d t) /\
               ((listed fs d s0 i' /\ i' < root_bound fs /\
                 (FR_OK, fs1, d1, DIR.set_index dp (u16 i), fno)
                 = (FR_OK, fs', d', DIR.set_index dp (i' + 1), slot_info fs d s0 i')) \/
                ((root_bound fs <= i' \/ slot_byte fs d s0 i' DIR_Name = 0) /\
                 (FR_OK, fs1, d1, DIR.set_index dp (u16 i), fno)
                 = (FR_OK, fs', d', DIR.set_index dp i', fno)))).
  { intros fs d i S Hi Hend fs1 d1 S1 W1 V1.
    exists fs1, d1, i; splits; auto; try lia.
    right; split; [exact Hend|].
    unfold u16; rewrite Z.mod_small by lia; reflexivity. }
  induction n as [|n IH]; intros fs d i sect S Hi Hi2 Hb Hs0 Hs1 Hn Esect Ews.
  - cbn [f_readdir_loop].
    apply (End fs d i S ltac:(lia) ltac:(left; lia) fs d S (window_only_refl fs));
      reflexivity.
  - cbn [f_readdir_loop]; rewrite root_cond_bound by lia.
    destruct (Z.ltb_spec i (root_bound fs)) as [Lt|Ge]; cbn [negb]; cbv iota.
    2:{ apply (End fs d i S ltac:(lia) ltac:(left; lia) fs d S (window_only_refl fs));
          reflexivity. }
    change (SS / SZ_DIRE) with 16; change SZ_DIRE with 32.
    assert (Hq : 0 <= i / 16 < 4096) by (Z.to_euclidean_division_equations; lia).
    (* the window after the move to the sector of entry [i] *)
    assert (Mv : exists fs1 d1,
               (if (i >? start) && (i mod 16 =? 0)
                then let '(res, fs, d) := move_window fs d (u32 (sect + 1)) in
                     (res, fs, d, u32 (sect + 1))
                else (FR_OK, fs, d, sect)) = (FR_OK, fs1, d1, s0 + i / 16) /\
               stable fs1 d1 /\ window_only fs fs1 /\
               (forall t, view fs1 d1 t = view fs d t) /\
               FATFS.winsect fs1 = s0 + i / 16 /\
               FATFS.win fs1 = view fs d (s0 + i / 16)).
    { destruct ((i >? start) && (i mod 16 =? 0)) eqn:C.
      - apply andb_true_iff in C; destruct C as (C1 & C2).
        assert (E1 : sect + 1 = s0 + i / 16).
        { rewrite Esect; replace (i =? start) with false by (symmetry; lia).
          Z.to_euclidean_division_equations; lia. }
        cbv zeta; rewrite E1, u32_small by lia.
        destruct (stable_move fs d (s0 + i / 16) S ltac:(lia))
          as (fs1 & d1 & Em & W & Es & S1 & Ew & V).
        exists fs1, d1; rewrite Em; splits; auto.
      - assert (E1 : sect = s0 + i / 16).
        { rewrite Esect; destruct (Z.eqb_spec i start) as [->|N]; [reflexivity|].
          apply andb_false_iff in C; destruct C as [C|C]; [lia|].
          Z.to_euclidean_division_equations; lia. }
        exists fs, d; rewrite <- E1; splits; auto using window_only_refl.
        rewrite <- Ews; symmetry; apply view_win. }
    destruct Mv as (fs1 & d1 & -> & S1 & W1 & V1 & Es1 & Ew1).
    cbv iota zeta.
    assert (Erb : root_bound fs1 = root_bound fs).
    { destruct (window_only_fields _ _ W1) as (Et & _ & _ & _ & _ & _ & _ & En & _).
      unfold root_bound; rewrite Et, En; reflexivity. }
    assert (B0 : ld (FATFS.win fs1) (i mod 16 * 32 + DIR_Name) = slot_byte fs d s0 i DIR_Name)
      by (rewrite Ew1; reflexivity).
    assert (B1 : ld (FATFS.win fs1) (i mod 16 * 32 + DIR_Attr) = slot_byte fs d s0 i DIR_Attr)
      by (rewrite Ew1; reflexivity).
    rewrite B0, B1.
    assert (Next : slot_byte fs d s0 i DIR_Name <> 0 ->
                   slot_byte fs d s0 i DIR_Name = DDEM \/
                   Z.land (slot_byte fs d s0 i DIR_Attr) 8 <> 0 ->
                   exists fs' d' i',
                     i <= i' /\ (forall j, i <= j < i' -> skipped fs d s0 j /\ j < root_bound fs) /\
                     stable fs' d' /\ window_only fs fs' /\
                     (forall t, view fs' d' t = view fs d t) /\
                     ((listed fs d s0 i' /\ i' < root_bound fs /\
                       f_readdir_loop n fs1 d1 dp fno start (s0 + i / 16) (i + 1)
                       = (FR_OK, fs', d', DIR.set_index dp (i' + 1), slot_info fs d s0 i')) \/
                      ((root_bound fs <= i' \/ slot_byte fs d s0 i' DIR_Name = 0) /\
                       f_readdir_loop n fs1 d1 dp fno start (s0 + i / 16) (i + 1)
                       = (FR_OK, fs', d', DIR.set_index dp i', fno)))).
    { intros N0 Sk.
      destruct (IH fs1 d1 (i + 1) (s0 + i / 16) S1 ltac:(lia) ltac:(lia)
                   ltac:(rewrite Erb; exact Hb) Hs0 Hs1 ltac:(rewrite Erb; lia))
        as (fs' & d' & i' & Hle & Hsk & S' & W' & V' & R).
      - replace (i + 1 =? start) with false by (symmetry; lia).
        replace (i + 1 - 1) with i by lia; reflexivity.
      - exact Es1.
      - exists fs', d', i'; splits; try lia; auto.
        + intros j Hj.
          destruct (Z.eq_dec j i) as [->|Nj]; [split; [split; assumption|exact Lt]|].
          destruct (Hsk j ltac:(lia)) as (Sj & Bj).
          split; [|rewrite <- Erb; exact Bj].
          revert Sj; unfold skipped, slot_byte; rewrite !V1; auto.
        + eapply window_only_trans; eassumption.
        + intros t; rewrite V'; apply V1.
        + assert (Q : forall k, slot_byte fs1 d1 s0 i' k = slot_byte fs d s0 i' k)
            by (intros k; unfold slot_byte; rewrite V1; reflexivity).
          assert (Q2 : slot_info fs1 d1 s0 i' = slot_info fs d s0 i')
            by (unfold slot_info; rewrite V1; reflexivity).
          unfold listed in *; rewrite !Q, Q2, Erb in R; exact R. }
    destruct (Z.eqb_spec (slot_byte fs d s0 i DIR_Name) 0) as [Z0|N0].
    { apply (End fs d i S ltac:(lia) ltac:(right; exact Z0) fs1 d1 S1 W1 V1). }
    destruct (Z.eqb_spec (slot_byte fs d s0 i DIR_Name) DDEM) as [ZD|ND].
    { apply Next; [exact N0|left; exact ZD]. }
    destruct (nz (Z.land (slot_byte fs d s0 i DIR_Attr) 8)) eqn:EA.
    { apply Next; [exact N0|right; apply nz_true; exact EA]. }
    apply nz_false in EA.
    exists fs1, d1, i; splits; auto; try lia.
    left; split; [split; [exact N0|split; [exact ND|exact EA]]|].
    split; [exact Lt|].
    unfold u16; rewrite Z.mod_small by lia.
    rewrite <- B1; unfold slot_info; cbv zeta; rewrite <- Ew1; reflexivity.
Qed.

(** One call of [f_readdir] with a [FILINFO]: the entries it passes over,
    the entry it stops at and what it reports. *)
Lemma f_readdir_step (fs : FATFS.t) (d : Device) (dp : DIR.t) (fno : FILINFO) :
  stable fs d -> DIR.fs dp = true ->
  0 <= DIR.index dp <= 65535 -> root_bound fs <= 65535 ->
  0 <= dir_start fs dp -> dir_start fs dp + 4096 <= 4294967296 ->
  exists fs' d' i,
    DIR.index dp <= i /\
    (forall j, DIR.index dp <= j < i ->
               skipped fs d (dir_start fs dp) j /\ j < root_bound fs) /\
    stable fs' d' /\ window_only fs fs' /\ (forall t, view fs' d' t = view fs d t) /\
    ((listed fs d (dir_start fs dp) i /\ i < root_bound fs /\
      f_readdir fs d dp (Some fno)
      = (FR_OK, fs', d', DIR.set_index dp (i + 1),
         Some (slot_info fs d (dir_start fs dp) i))) \/
     ((root_bound fs <= i \/ slot_byte fs d (dir_start fs dp) i DIR_Name = 0) /\
      f_readdir fs d dp (Some fno)
      = (FR_OK, fs', d', DIR.set_index dp i,
         Some (mkFILINFO (fsize fno) (fdate fno) (ftime fno) (fattrib fno) [])))).
Proof.
  intros S Hfs Hi Hb Hs0 Hs1.
  unfold f_readdir; rewrite Hfs; cbn [negb]; cbv iota zeta.
  fold (dir_start fs dp).
  change (SS / SZ_DIRE) with 16.
  assert (Hq : 0 <= DIR.index dp / 16 < 4096) by (Z.to_euclidean_division_equations; lia).
  rewrite u32_small by lia.
  destruct (stable_move fs d (dir_start fs dp + DIR.index dp / 16) S ltac:(lia))
    as (fs1 & d1 & Em & W1 & Es1 & S1 & Ew1 & V1).
  rewrite Em; cbv iota.
  assert (Erb : root_bound fs1 = root_bound fs).
  { destruct (window_only_fields _ _ W1) as (Et & _ & _ & _ & _ & _ & _ & En & _).
    unfold root_bound; rewrite Et, En; reflexivity. }
  destruct (f_readdir_loop_next dp
              (mkFILINFO (fsize fno) (fdate fno) (ftime fno) (fattrib fno) [])
              (DIR.index dp) (dir_start fs dp)
              (Z.to_nat (root_bound fs1 - DIR.index dp)) fs1 d1 (DIR.index dp)
              (dir_start fs dp + DIR.index dp / 16) S1 ltac:(lia) ltac:(lia)
              ltac:(rewrite Erb; exact Hb) Hs0 Hs1 ltac:(lia)
              ltac:(rewrite Z.eqb_refl; reflexivity) Es1)
    as (fs' & d' & i & Hle & Hsk & S' & W' & V' & R).
  assert (Q : forall j k, slot_byte fs1 d1 (dir_start fs dp) j k
                          = slot_byte fs d (dir_start fs dp) j k)
    by (intros j k; unfold slot_byte; rewrite V1; reflexivity).
  assert (Q2 : forall j, slot_info fs1 d1 (dir_start fs dp) j
                         = slot_info fs d (dir_start fs dp) j)
    by (intros j; unfold slot_info; rewrite V1; reflexivity).
  exists fs', d', i; splits; auto.
  - intros j Hj; destruct (Hsk j Hj) as (Sj & Bj).
    split; [|rewrite <- Erb; exact Bj].
    revert Sj; unfold skipped; rewrite !Q; auto.
  - eapply window_only_trans; eassumption.
  - intros t; rewrite V'; apply V1.
  - destruct R as [(L & Lt & E)|(En & E)]; [left|right]; rewrite E.
    + unfold listed in *; rewrite !Q in L; rewrite Q2, <- Erb; auto.
    + rewrite Q, Erb in En; auto.
Qed.

(** X17.  One call of [f_readdir] with a [FILINFO], on a stable volume and
    an open iterator whose directory lies inside the sector address space.
    The call returns [FR_OK] and passes over deleted entries and volume
    labels only.  Either it stops at the first entry from the iterator's
    index on that is neither: it reports the size, date, time, attribute and
    name of that entry and leaves the index behind it.  Or it stops at the
    end of the directory, which is the first entry whose name starts with a
    zero byte or the end of the table: it reports an empty name and leaves
    the index there, so that every later call reports the end again.  No
    sector changes for the engine. *)
Theorem f_readdir_next (fs : FATFS.t) (d : Device) (dp : DIR.t) (fno : FILINFO) :
  stable fs d -> DIR.fs dp = true ->
  0 <= DIR.index dp <= 65535 -> root_bound fs <= 65535 ->
  0 <= dir_start fs dp -> dir_start fs dp + 4096 <= 4294967296 ->
  exists fs' d' i,
    DIR.index dp <= i /\
    (forall j, DIR.index dp <= j < i -> skipped fs d (dir_start fs dp) j) /\
    stable fs' d' /\ window_only fs fs' /\ (forall t, view fs' d' t = view fs d t) /\
    ((listed fs d (dir_start fs dp) i /\ i < root_bound fs /\
      f_readdir fs d dp (Some fno)
      = (FR_OK, fs', d', DIR.set_index dp (i + 1),
         Some (slot_info fs d (dir_start fs dp) i))) \/
     ((root_bound fs <= i \/ slot_byte fs d (dir_start fs dp) i DIR_Name = 0) /\
      f_readdir fs d dp (Some fno)
      = (FR_OK, fs', d', DIR.set_index dp i,
         Some (mkFILINFO (fsize fno) (fdate fno) (ftime fno) (fattrib fno) [])))).
Proof.
  intros S Hfs Hi Hb Hs0 Hs1.
  destruct (f_readdir_step fs d dp fno S Hfs Hi Hb Hs0 Hs1)
    as (fs' & d' & i & Hle & Hsk & R).
  exists fs', d', i; split; [exact Hle|split; [|exact R]].
  intros j Hj; exact (proj1 (Hsk j Hj)).
Qed.

Lemma stable_listing : stable vol12 listing_dev.
Proof.
  split; [exact mounted_vol12|split; [repeat split|split]].
  - intros s; unfold listing_dev; cbn [sd_data].
    destruct (s =? 3); [|apply sector_repeat; lia].
    apply sector_check; vm_compute; reflexivity.
  - intros _; reflexivity.
Qed.

(** The first call on a directory that starts with a deleted entry and a
    volume label reports the third entry, "A.TEX" of 7 bytes. *)
Lemma f_readdir_next_witness :
  exists fs' d' fno',
    f_readdir vol12 listing_dev dp0 (Some (mkFILINFO 0 0 0 0 []))
    = (FR_OK, fs', d', DIR.set_index dp0 3, Some fno') /\
    fname fno' = chars "A.TEX" /\ fsize fno' = 7.
Proof.
  assert (H1 : 0 <= DIR.index dp0 <= 65535) by (simpl; lia).
  assert (H2 : root_bound vol12 <= 65535) by (vm_compute; discriminate).
  assert (H3 : 0 <= dir_start vol12 dp0) by (vm_compute; discriminate).
  assert (H4 : dir_start vol12 dp0 + 4096 <= 4294967296) by (vm_compute; discriminate).
  destruct (f_readdir_next vol12 listing_dev dp0 (mkFILINFO 0 0 0 0 []) stable_listing
              eq_refl H1 H2 H3 H4)
    as (fs' & d' & i & Hle & Hsk & _ & _ & _ & R).
  assert (X : (let '(_, _, _, dp, fno) :=
                 f_readdir vol12 listing_dev dp0 (Some (mkFILINFO 0 0 0 0 [])) in
               (DIR.index dp, option_map fname fno, option_map fsize fno))
              = (3, Some (chars "A.TEX"), Some 7)) by (vm_compute; reflexivity).
  destruct R as [(L & Lt & E)|(En & E)]; rewrite E in X; rewrite E;
    cbn [option_map DIR.index DIR.set_index fname fsize] in X.
  - assert (Ei : i + 1 = 3) by congruence.
    rewrite Ei.
    exists fs', d', (slot_info vol12 listing_dev (dir_start vol12 dp0) i).
    split; [reflexivity|split; congruence].
  - exfalso; congruence.
Defined.

(** ** File status *)










(** ** Lines *)

Lemma file_bytes_0 fs d scl p : file_bytes fs d scl p 0 = [].
Proof. reflexivity. Qed.

Lemma file_bytes_1 fs d scl p : file_bytes fs d scl p 1 = [file_byte fs d scl p].
Proof.
  unfold file_bytes; change (Z.to_nat 1) with 1%nat; cbn [seq map].
  rewrite Z.add_0_r; reflexivity.
Qed.

Lemma file_bytes_cons fs d scl p n :
  0 <= n ->
  file_bytes fs d scl p (1 + n) = file_byte fs d scl p :: file_bytes fs d scl (p + 1) n.
Proof.
  intros Hn; rewrite file_bytes_app, file_bytes_1 by lia; reflexivity.
Qed.

Lemma file_byte_same_view fs d fs' d' scl i :
  window_only fs fs' -> (forall t, view fs' d' t = view fs d t) ->
  file_byte fs' d' scl i = file_byte fs d scl i.
Proof.
  intros W V; unfold file_byte, file_sector.
  destruct (window_only_fields _ _ W) as (_ & _ & _ & _ & Ec & _).
  rewrite V, Ec, (chain_same_view fs d fs' d') by assumption.
  rewrite (clst2sect_window_only fs fs') by assumption; reflexivity.
Qed.

Lemma gets_count_cons c l :
  gets_count (c :: l) = (if negb (c =? 10) && negb (c =? 13) then 1 else 0) + gets_count l.
Proof.
  unfold gets_count; cbn [filter].
  destruct (negb (c =? 10) && negb (c =? 13)); cbn [length]; lia.
Qed.

(** A read of one byte from a file that is read back as the medium holds
    it. *)
Lemma f_read_byte fs d fp :
  reads_file fs d fp ->
  exists fs' d' fp',
    f_read fs d fp 1 =
    Some (FR_OK, fs', d', fp',
          file_bytes fs d (FIL.sclust fp) (FIL.fptr fp)
                     (Z.min 1 (FIL.obj_size fp - FIL.fptr fp))) /\
    reads_file fs' d' fp' /\
    FIL.fptr fp' = FIL.fptr fp + Z.min 1 (FIL.obj_size fp - FIL.fptr fp) /\
    FIL.obj_size fp' = FIL.obj_size fp /\ FIL.sclust fp' = FIL.sclust fp /\
    window_only fs fs' /\ (forall t, view fs' d' t = view fs d t) /\ log_only d d'.
Proof.
  intros (R & Hfs & Herr & Hfl & Hp & Ho & Hch & Hpos).
  assert (Hb : 0 <= 1 < 4294967296) by lia.
  assert (Ha : FIL.fptr fp mod 512 = 0 \/ 1 < 512 \/ FIL.fptr fp = FIL.obj_size fp)
    by (right; left; lia).
  destruct (f_read_loop_content (Z.to_nat 1) fs d fp 1 [] R Hb (Nat.le_refl _) Hp Ho
              Hch Hpos Ha)
    as (fs' & d' & c & E & R' & W & L & P).
  assert (Ef : f_read fs d fp 1 = f_read_loop (Z.to_nat 1) fs d fp 1 []).
  { unfold f_read; rewrite Hfs, Herr.
    change (negb true) with false; change (nz 0) with false; cbv iota.
    replace (nz (Z.land (FIL.flag fp) FA_READ)) with true
      by (symmetry; apply nz_true; assumption).
    reflexivity. }
  assert (V : forall t, view fs' d' t = view fs d t)
    by (intros t; apply readable_same_view; assumption).
  remember (FIL.set_fptr (FIL.set_clust fp c)
              (FIL.fptr fp + Z.min 1 (FIL.obj_size fp - FIL.fptr fp))) as fp' eqn:Efp.
  assert (Q : FIL.fs fp' = FIL.fs fp /\ FIL.err fp' = FIL.err fp /\
              FIL.flag fp' = FIL.flag fp /\ FIL.obj_size fp' = FIL.obj_size fp /\
              FIL.sclust fp' = FIL.sclust fp /\
              FIL.fptr fp' = FIL.fptr fp + Z.min 1 (FIL.obj_size fp - FIL.fptr fp))
    by (subst fp'; destruct fp; cbn; tauto).
  destruct Q as (Q1 & Q2 & Q3 & Q4 & Q5 & Q6).
  exists fs', d', fp'; rewrite Ef, E.
  split; [reflexivity|].
  split; [|tauto].
  unfold reads_file; rewrite Q1, Q2, Q3, Q4, Q6.
  split; [exact R'|].
  split; [exact Hfs|split; [exact Herr|split; [exact Hfl|split; [lia|split; [exact Ho|]]]]].
  split; [|exact P].
  apply (chained_same_view fs d fs' d' fp fp'); assumption.
Qed.

(** The loop of [f_gets], entered with [i] characters counted and [line]
    stored: the bytes of the file that it consumes. *)
Lemma f_gets_loop_content (len : Z) fuel : forall fs d fp i line,
  reads_file fs d fp ->
  (Z.to_nat (FIL.obj_size fp - FIL.fptr fp) < fuel)%nat ->
  exists fs' d' fp' n,
    f_gets_loop fuel fs d fp len i line =
    Some (fs', d', fp',
          i + gets_count (file_bytes fs d (FIL.sclust fp) (FIL.fptr fp) n),
          line ++ gets_stored (file_bytes fs d (FIL.sclust fp) (FIL.fptr fp) n)) /\
    0 <= n <= FIL.obj_size fp - FIL.fptr fp /\
    FIL.fptr fp' = FIL.fptr fp + n /\
    (forall m, 0 <= m < n ->
               i + gets_count (file_bytes fs d (FIL.sclust fp) (FIL.fptr fp) m) < len - 1 /\
               (0 < m -> file_byte fs d (FIL.sclust fp) (FIL.fptr fp + m - 1) <> 10)) /\
    (n = FIL.obj_size fp - FIL.fptr fp \/
     (0 < n /\ file_byte fs d (FIL.sclust fp) (FIL.fptr fp + n - 1) = 10) \/
     len - 1 <= i + gets_count (file_bytes fs d (FIL.sclust fp) (FIL.fptr fp) n)) /\
    Z.of_nat (length (gets_stored (file_bytes fs d (FIL.sclust fp) (FIL.fptr fp) n)))
    <= Z.max 0 (len - 1 - i) /\
    reads_file fs' d' fp' /\
    FIL.obj_size fp' = FIL.obj_size fp /\ FIL.sclust fp' = FIL.sclust fp /\
    window_only fs fs' /\ (forall t, view fs' d' t = view fs d t) /\ log_only d d'.
Proof.
  induction fuel as [|fuel IH]; intros fs d fp i line C Hf; [lia|].
  pose proof C as (_ & _ & _ & _ & Hp & _).
  cbn [f_gets_loop].
  destruct (i <? len - 1) eqn:Lt; cbn [negb]; cbv iota.
  2:{ (* the buffer is full *)
    apply Z.ltb_ge in Lt.
    exists fs, d, fp, 0.
    rewrite file_bytes_0; unfold gets_stored; cbn [filter length].
    change (gets_count []) with 0.
    rewrite !Z.add_0_r, app_nil_r.
    split; [reflexivity|].
    split; [lia|split; [reflexivity|split; [intros m Hm; lia|]]].
    split; [right; right; lia|].
    split; [cbn; lia|].
    split; [exact C|split; [reflexivity|split; [reflexivity|]]].
    split; [apply window_only_refl|split; [reflexivity|apply log_only_refl]]. }
  apply Z.ltb_lt in Lt.
  destruct (f_read_byte fs d fp C)
    as (fs1 & d1 & fp1 & E & C1 & Ep & Eo & Es & W1 & V1 & L1).
  rewrite E; cbn [FRESULT_eqb negb orb].
  destruct (Z.eq_dec (FIL.fptr fp) (FIL.obj_size fp)) as [Eof|Neof].
  { (* the end of the file *)
    replace (Z.min 1 (FIL.obj_size fp - FIL.fptr fp)) with 0 in * by lia.
    rewrite file_bytes_0; cbn [length].
    change (Z.of_nat 0 =? 1) with false; cbn [negb]; cbv iota.
    exists fs1, d1, fp1, 0.
    rewrite file_bytes_0; unfold gets_stored; cbn [filter length].
    change (gets_count []) with 0.
    rewrite Z.add_0_r, app_nil_r.
    split; [reflexivity|].
    split; [lia|split; [exact Ep|split; [intros m Hm; lia|]]].
    split; [left; lia|].
    split; [cbn; lia|].
    split; [exact C1|split; [exact Eo|split; [exact Es|]]].
    split; [exact W1|split; [exact V1|exact L1]]. }
  replace (Z.min 1 (FIL.obj_size fp - FIL.fptr fp)) with 1 in * by lia.
  rewrite file_bytes_1; cbn [length].
  change (Z.of_nat 1 =? 1) with true; cbn [negb]; cbv iota zeta.
  change (ld [file_byte fs d (FIL.sclust fp) (FIL.fptr fp)] 0)
    with (file_byte fs d (FIL.sclust fp) (FIL.fptr fp)).
  remember (file_byte fs d (FIL.sclust fp) (FIL.fptr fp)) as c eqn:Ec.
  (* what the rest of the loop gives, seen from before the read *)
  assert (Rest : forall i1 line1 k,
             (k = if negb (c =? 10) && negb (c =? 13) then 1 else 0) ->
             i1 = i + k -> c <> 10 ->
             line1 = line ++ gets_stored [c] ->
             exists fs' d' fp' n,
               f_gets_loop fuel fs1 d1 fp1 len i1 line1 =
               Some (fs', d', fp',
                     i + gets_count (file_bytes fs d (FIL.sclust fp) (FIL.fptr fp) n),
                     line ++ gets_stored (file_bytes fs d (FIL.sclust fp) (FIL.fptr fp) n)) /\
               0 <= n <= FIL.obj_size fp - FIL.fptr fp /\
               FIL.fptr fp' = FIL.fptr fp + n /\
               (forall m, 0 <= m < n ->
                  i + gets_count (file_bytes fs d (FIL.sclust fp) (FIL.fptr fp) m) < len - 1 /\
                  (0 < m -> file_byte fs d (FIL.sclust fp) (FIL.fptr fp + m - 1) <> 10)) /\
               (n = FIL.obj_size fp - FIL.fptr fp \/
                (0 < n /\ file_byte fs d (FIL.sclust fp) (FIL.fptr fp + n - 1) = 10) \/
                len - 1 <= i + gets_count (file_bytes fs d (FIL.sclust fp) (FIL.fptr fp) n)) /\
               Z.of_nat (length (gets_stored
                                   (file_bytes fs d (FIL.sclust fp) (FIL.fptr fp) n)))
               <= Z.max 0 (len - 1 - i) /\
               reads_file fs' d' fp' /\
               FIL.obj_size fp' = FIL.obj_size fp /\ FIL.sclust fp' = FIL.sclust fp /\
               window_only fs fs' /\ (forall t, view fs' d' t = view fs d t) /\
               log_only d d').
  { intros i1 line1 k Hk Hi1 N10 Hline1.
    assert (Hf1 : (Z.to_nat (FIL.obj_size fp1 - FIL.fptr fp1) < fuel)%nat)
      by (rewrite Eo, Ep; lia).
    destruct (IH fs1 d1 fp1 i1 line1 C1 Hf1)
      as (fs' & d' & fp' & n & E' & Hn & Ep' & Hm & Hstop & Hlen & C' & Eo' & Es' & W' & V'
          & L').
    rewrite Es, Ep in *.
    assert (FB : forall m, file_bytes fs1 d1 (FIL.sclust fp) (FIL.fptr fp + 1) m
                           = file_bytes fs d (FIL.sclust fp) (FIL.fptr fp + 1) m)
      by (intros m; apply file_bytes_same_view; assumption).
    assert (Fb : forall j, file_byte fs1 d1 (FIL.sclust fp) j
                           = file_byte fs d (FIL.sclust fp) j)
      by (intros j; apply file_byte_same_view; assumption).
    assert (Cons : forall m, 0 <= m ->
               file_bytes fs d (FIL.sclust fp) (FIL.fptr fp) (1 + m)
               = c :: file_bytes fs d (FIL.sclust fp) (FIL.fptr fp + 1) m)
      by (intros m Hm0; rewrite file_bytes_cons by lia; rewrite <- Ec; reflexivity).
    assert (Cnt : forall m, 0 <= m ->
               gets_count (file_bytes fs d (FIL.sclust fp) (FIL.fptr fp) (1 + m))
               = k + gets_count (file_bytes fs d (FIL.sclust fp) (FIL.fptr fp + 1) m))
      by (intros m Hm0; rewrite Cons, gets_count_cons, Hk by lia; reflexivity).
    assert (Sto : forall m, 0 <= m ->
               gets_stored (file_bytes fs d (FIL.sclust fp) (FIL.fptr fp) (1 + m))
               = gets_stored [c]
                 ++ gets_stored (file_bytes fs d (FIL.sclust fp) (FIL.fptr fp + 1) m)).
    { intros m Hm0; rewrite Cons by lia; unfold gets_stored; cbn [filter].
      destruct (negb (c =? 13)); reflexivity. }
    assert (Hk01 : 0 <= k <= 1) by (rewrite Hk; destruct (_ && _); lia).
    assert (Hk1 : Z.of_nat (length (gets_stored [c])) = k).
    { rewrite Hk; unfold gets_stored; cbn [filter].
      replace (c =? 10) with false by (symmetry; lia); cbn [negb andb].
      destruct (negb (c =? 13)); reflexivity. }
    exists fs', d', fp', (1 + n).
    rewrite E', Cnt, Sto, !FB by lia.
    split; [rewrite Hi1, Hline1, Z.add_assoc, app_assoc; reflexivity|].
    split; [lia|split; [lia|split]].
    { intros m Hm1.
      destruct (Z.eq_dec m 0) as [->|Nm].
      - rewrite file_bytes_0; change (gets_count []) with 0; split; lia.
      - replace m with (1 + (m - 1)) at 1 by lia.
        rewrite Cnt by lia.
        destruct (Hm (m - 1) ltac:(lia)) as (A & B).
        rewrite FB in A.
        split; [lia|intros _].
        destruct (Z.eq_dec m 1) as [->|Nm1].
        + replace (FIL.fptr fp + 1 - 1) with (FIL.fptr fp) by lia.
          rewrite <- Ec; exact N10.
        + specialize (B ltac:(lia)); rewrite Fb in B.
          replace (FIL.fptr fp + m - 1) with (FIL.fptr fp + 1 + (m - 1) - 1) by lia.
          exact B. }
    split.
    { destruct Hstop as [A|[(A & B)|A]].
      - left; lia.
      - right; left; split; [lia|].
        rewrite Fb in B.
        replace (FIL.fptr fp + (1 + n) - 1) with (FIL.fptr fp + 1 + n - 1) by lia.
        exact B.
      - right; right; rewrite FB in A; lia. }
    split.
    { rewrite length_app, Nat2Z.inj_add, Hk1.
      rewrite FB in Hlen; lia. }
    split; [exact C'|split; [congruence|split; [congruence|]]].
    split; [eapply window_only_trans; eassumption|].
    split; [intros t; rewrite V'; apply V1|eapply log_only_trans; eassumption]. }
  destruct (Z.eqb_spec c 10) as [E10|N10].
  - (* a line feed ends the line *)
    exists fs1, d1, fp1, 1.
    rewrite file_bytes_1, <- Ec.
    replace (gets_count [c]) with 0 by (rewrite E10; reflexivity).
    replace (gets_stored [c]) with [c] by (rewrite E10; reflexivity).
    rewrite Z.add_0_r.
    split; [reflexivity|].
    split; [lia|split; [exact Ep|split]].
    { intros m Hm; assert (m = 0) by lia; subst m.
      rewrite file_bytes_0; change (gets_count []) with 0; split; lia. }
    split.
    { right; left; split; [lia|].
      replace (FIL.fptr fp + 1 - 1) with (FIL.fptr fp) by lia.
      rewrite <- Ec; exact E10. }
    split; [cbn [length]; lia|].
    split; [exact C1|split; [exact Eo|split; [exact Es|]]].
    split; [exact W1|split; [exact V1|exact L1]].
  - destruct (Z.eqb_spec c 13) as [E13|N13]; cbn [negb]; cbv iota.
    + (* a carriage return is dropped *)
      apply (Rest i line 0).
      * replace (c =? 13) with true by (symmetry; lia).
        rewrite andb_false_r; reflexivity.
      * lia.
      * exact N10.
      * unfold gets_stored; cbn [filter].
        replace (c =? 13) with true by (symmetry; lia).
        cbn [negb]; rewrite app_nil_r; reflexivity.
    + (* a character of the line *)
      apply (Rest (i + 1) (line ++ [c]) 1).
      * replace (c =? 13) with false by (symmetry; lia).
        replace (c =? 10) with false by (symmetry; lia); reflexivity.
      * reflexivity.
      * exact N10.
      * unfold gets_stored; cbn [filter].
        replace (c =? 13) with false by (symmetry; lia); reflexivity.
Qed.

(** X19.  [f_gets] on a handle from which the file is read back as the
    medium holds it returns, and what it stores is taken from the file.  It
    consumes [n] bytes of the file from the offset on and moves the offset
    behind them.  The buffer receives these bytes in their order without the
    carriage returns, at most [len - 1] of them before the terminator.  The
    count [n] is the first at which the loop stops: at no earlier count had
    [len - 1] characters other than line feed and carriage return been
    consumed or was the byte last consumed a line feed; at [n] the file has
    ended, or the byte last consumed is a line feed, or [len - 1] such
    characters have been consumed.  The call returns [buff] when at least
    one character other than line feed and carriage return was consumed and
    [NULL] otherwise: at the end of the file, with [len] below 2, and also
    for a line that holds nothing but a line feed, although that line feed
    was consumed and stored.  The medium is not written. *)
Theorem f_gets_line (fuel : nat) (fs : FATFS.t) (d : Device) (fp : FIL.t) (len : Z) :
  reads_file fs d fp ->
  (Z.to_nat (FIL.obj_size fp - FIL.fptr fp) < fuel)%nat ->
  exists fs' d' fp' n,
    f_gets fuel fs d fp len =
    Some (fs', d', fp',
          gets_stored (file_bytes fs d (FIL.sclust fp) (FIL.fptr fp) n),
          gets_count (file_bytes fs d (FIL.sclust fp) (FIL.fptr fp) n) >? 0) /\
    0 <= n <= FIL.obj_size fp - FIL.fptr fp /\
    FIL.fptr fp' = FIL.fptr fp + n /\
    (forall m, 0 <= m < n ->
               gets_count (file_bytes fs d (FIL.sclust fp) (FIL.fptr fp) m) < len - 1 /\
               (0 < m -> file_byte fs d (FIL.sclust fp) (FIL.fptr fp + m - 1) <> 10)) /\
    (n = FIL.obj_size fp - FIL.fptr fp \/
     (0 < n /\ file_byte fs d (FIL.sclust fp) (FIL.fptr fp + n - 1) = 10) \/
     len - 1 <= gets_count (file_bytes fs d (FIL.sclust fp) (FIL.fptr fp) n)) /\
    Z.of_nat (length (gets_stored (file_bytes fs d (FIL.sclust fp) (FIL.fptr fp) n)))
    <= Z.max 0 (len - 1) /\
    reads_file fs' d' fp' /\ FIL.obj_size fp' = FIL.obj_size fp /\
    window_only fs fs' /\ log_only d d'.
Proof.
  intros C Hf.
  destruct (f_gets_loop_content len fuel fs d fp 0 [] C Hf)
    as (fs' & d' & fp' & n & E & Hn & Ep & Hm & Hstop & Hlen & C' & Eo & _ & W & _ & L).
  exists fs', d', fp', n.
  unfold f_gets; rewrite E; cbn [app]; rewrite Z.add_0_l.
  split; [reflexivity|].
  split; [exact Hn|split; [exact Ep|split]].
  { intros m Hm0; destruct (Hm m Hm0) as (A & B); split; [lia|exact B]. }
  split; [destruct Hstop as [A|[A|A]]; [left; exact A|right; left; exact A|right; right; lia]|].
  split; [rewrite Z.sub_0_r in Hlen; exact Hlen|].
  split; [exact C'|split; [exact Eo|split; [exact W|exact L]]].
Qed.

Lemma reads_file_crlf : reads_file vol12 crlf_dev crlf_fp.
Proof.
  split; [|split; [reflexivity|split; [reflexivity|split; [vm_compute; discriminate|]]]].
  - split; [|split; [reflexivity|unfold data_area_fits; simpl; lia]].
    split; [exact mounted_vol12|split; [repeat split|split]].
    + intros s; unfold crlf_dev; cbn [sd_data].
      destruct (s =? 4); [|apply sector_repeat; lia].
      apply sector_check; vm_compute; reflexivity.
    + intros _; reflexivity.
  - split; [cbn; lia|split; [cbn; lia|split]].
    + intros j Hj Hlt; cbn in Hlt.
      assert (j = 0) by lia; subst j.
      unfold valid_clst; cbn; lia.
    + intros P; cbn in P; lia.
Qed.

Lemma reads_file_lines : reads_file vol12 lines_dev lines_fp.
Proof.
  split; [|split; [reflexivity|split; [reflexivity|split; [vm_compute; discriminate|]]]].
  - split; [|split; [reflexivity|unfold data_area_fits; simpl; lia]].
    split; [exact mounted_vol12|split; [repeat split|split]].
    + intros s; unfold lines_dev; cbn [sd_data].
      destruct (s =? 4); [|apply sector_repeat; lia].
      apply sector_check; vm_compute; reflexivity.
    + intros _; reflexivity.
  - split; [cbn; lia|split; [cbn; lia|split]].
    + intros j Hj Hlt; cbn in Hlt.
      assert (j = 0) by lia; subst j.
      unfold valid_clst; cbn; lia.
    + intros P; cbn in P; lia.
Qed.

(** Of the file "A", CR, LF, "B", CR, LF, [f_gets] stores "A" and the line
    feed and moves the offset behind the three bytes consumed.  Of the file
    that starts with an empty line it stores the line feed, moves the offset
    behind it, and returns [NULL]. *)
Lemma f_gets_line_witness :
  (exists fs' d' fp',
     f_gets 10 vol12 crlf_dev crlf_fp 20 = Some (fs', d', fp', [65; 10], true) /\
     FIL.fptr fp' = 3) /\
  (exists fs' d' fp',
     f_gets 10 vol12 lines_dev lines_fp 20 = Some (fs', d', fp', [10], false) /\
     FIL.fptr fp' = 1).
Proof.
  split.
  - assert (Hf : (Z.to_nat (FIL.obj_size crlf_fp - FIL.fptr crlf_fp) < 10)%nat)
      by (vm_compute; lia).
    destruct (f_gets_line 10 vol12 crlf_dev crlf_fp 20 reads_file_crlf Hf)
      as (fs' & d' & fp' & n & E & _).
    assert (X : option_map (fun x => (FIL.fptr (snd (fst (fst x))), snd (fst x), snd x))
                  (f_gets 10 vol12 crlf_dev crlf_fp 20) = Some (3, [65; 10], true))
      by (vm_compute; reflexivity).
    rewrite E in X; cbn [option_map fst snd] in X.
    exists fs', d', fp'; split; [rewrite E; congruence|congruence].
  - assert (Hf : (Z.to_nat (FIL.obj_size lines_fp - FIL.fptr lines_fp) < 10)%nat)
      by (vm_compute; lia).
    destruct (f_gets_line 10 vol12 lines_dev lines_fp 20 reads_file_lines Hf)
      as (fs' & d' & fp' & n & E & _).
    assert (X : option_map (fun x => (FIL.fptr (snd (fst (fst x))), snd (fst x), snd x))
                  (f_gets 10 vol12 lines_dev lines_fp 20) = Some (1, [10], false))
      by (vm_compute; reflexivity).
    rewrite E in X; cbn [option_map fst snd] in X.
    exists fs', d', fp'; split; [rewrite E; congruence|congruence].
Defined.

(** ** Writing characters and strings *)

(** A write of one byte. *)
Lemma f_write_one fuel fs d fp b res fs' d' fp' bw :
  f_write fuel fs d fp [b] 1 = Some (res, fs', d', fp', bw) ->
  can_write fs fp -> FIL.fptr fp + 1 < 4294967296 ->
  (res = FR_OK ->
   bw = 1 /\ FIL.fptr fp' = FIL.fptr fp + 1 /\
   FIL.obj_size fp' = Z.max (FIL.obj_size fp) (FIL.fptr fp + 1) /\
   can_write fs' fp') /\
  (res <> FR_OK ->
   FIL.fptr fp <= FIL.fptr fp' <= FIL.fptr fp + 1 /\ FIL.err fp' <> 0).
Proof.
  intros H (K & Hfs & Herr & Hfl & Hp) Hs.
  pose proof H as H0.
  unfold f_write in H.
  rewrite Hfs, Herr in H.
  change (negb true) with false in H; change (nz 0) with false in H; cbv iota in H.
  replace (nz (Z.land (FIL.flag fp) FA_WRITE)) with true in H
    by (symmetry; apply nz_true; assumption).
  change (negb true) with false in H; cbv iota in H.
  pose proof (f_write_loop_spec _ _ _ _ _ _ _ _ _ _ _ _ _ H) as (Hh & Herr1 & Herr2 & Hfs' & _).
  apply f_write_loop_count in H; try lia; try assumption.
  destruct H as (Hbw & Hp' & Ho1 & Ho2 & Hok & Hne).
  split.
  - intros R; destruct (Hok R) as (Eb & Efl).
    assert (bw = 1) by lia; subst bw.
    split; [reflexivity|].
    split; [lia|].
    split; [rewrite (Ho2 ltac:(lia)), Hp'; lia|].
    split; [|split; [congruence|split; [rewrite (Herr2 R); exact Herr|split; [|lia]]]].
    + destruct K as (k & Hk & Ek).
      destruct (hint_only_fields _ _ Hh) as (_ & _ & _ & _ & Ec & _).
      exists k; split; [exact Hk|congruence].
    + rewrite Efl; intros Z0; apply Hfl.
      apply Z.bits_inj'; intros i Hi; rewrite Z.bits_0.
      assert (T : Z.testbit (Z.land (Z.lor (FIL.flag fp) FA_MODIFIED) FA_WRITE) i = false)
        by (rewrite Z0; apply Z.bits_0).
      rewrite Z.land_spec, Z.lor_spec in T; rewrite Z.land_spec.
      destruct (Z.testbit FA_WRITE i) eqn:Tw; [|apply andb_false_r].
      rewrite andb_true_r in *.
      apply orb_false_iff in T; apply T.
  - intros N; split; [lia|].
    rewrite (Herr1 N); apply FRESULT_code_nz; exact N.
Qed.

Lemma f_puts_from_spec fuel (str : list Z) : forall fs d fp n r fs' d' fp',
  f_puts_from fuel fs d fp str n = Some (r, fs', d', fp') ->
  can_write fs fp -> Forall (fun c => 0 < c < 256) str -> 0 <= n ->
  FIL.fptr fp + Z.of_nat (length str) < 4294967296 ->
  (r = n + Z.of_nat (length str) /\
   FIL.fptr fp' = FIL.fptr fp + Z.of_nat (length str) /\
   FIL.obj_size fp' = (if Z.of_nat (length str) =? 0 then FIL.obj_size fp
                       else Z.max (FIL.obj_size fp) (FIL.fptr fp')) /\
   can_write fs' fp') \/
  (r = -1 /\ FIL.fptr fp <= FIL.fptr fp' <= FIL.fptr fp + Z.of_nat (length str) /\
   FIL.err fp' <> 0).
Proof.
  induction str as [|c str IH]; intros fs d fp n r fs' d' fp' H C F Hn Hs;
    cbn [f_puts_from] in H.
  - inversion H; subst; left; cbn [length]; splits; auto; lia.
  - inversion F as [|c0 l0 Hc F']; subst c0 l0.
    replace (nz c) with true in H by (symmetry; apply nz_true; lia).
    cbn [negb] in H; cbv iota in H.
    cbn [length] in Hs |- *; rewrite Nat2Z.inj_succ in Hs |- *; unfold Z.succ in Hs |- *.
    unfold f_putc in H.
    destruct (f_write fuel fs d fp [u8 c] 1) as [[[[[res fs1] d1] fp1] bw]|] eqn:E;
      [|discriminate].
    destruct (f_write_one _ _ _ _ _ _ _ _ _ _ E C ltac:(lia)) as (Hok & Hbad).
    destruct (FRESULT_eqb res FR_OK) eqn:Er; cbn [negb orb] in H.
    2:{ assert (N : res <> FR_OK) by (intros ->; discriminate Er).
        change (-1 =? -1) with true in H; cbv iota in H.
        inversion H; subst; right; destruct (Hbad N) as (Hp & He).
        split; [reflexivity|split; [lia|exact He]]. }
    assert (R : res = FR_OK) by (destruct res; try discriminate Er; reflexivity).
    destruct (Hok R) as (Eb & Ep & Eo & C1).
    rewrite Eb in H; change (1 =? 1) with true in H; cbn [negb] in H; cbv iota in H.
    replace (c =? -1) with false in H by (symmetry; lia).
    apply IH in H; try assumption; try lia.
    destruct H as [(Er' & Ep' & Eo' & C')|(Er' & Hp' & He')]; [left|right].
    + splits; try lia; auto.
      replace (Z.of_nat (length str) + 1 =? 0) with false by (symmetry; lia).
      rewrite Eo'; destruct (Z.of_nat (length str) =? 0) eqn:E0; lia.
    + split; [exact Er'|split; [lia|exact He']].
Qed.

(** X20.  [f_puts] of a string of characters 1 to 255 on a writable handle
    without a latched error, when it returns: either every character was
    written, the result is the length of the string, the offset has advanced
    by that length and the file has grown to the new offset if that lies
    beyond its old size; or a write failed, the result is -1, the error is
    latched in the handle and the offset stands behind the characters that
    were written before. *)
Theorem f_puts_count (fuel : nat) (fs : FATFS.t) (d : Device) (fp : FIL.t) (str : list Z)
        (r : Z) (fs' : FATFS.t) (d' : Device) (fp' : FIL.t) :
  f_puts fuel fs d fp str = Some (r, fs', d', fp') ->
  can_write fs fp -> Forall (fun c => 0 < c < 256) str ->
  FIL.fptr fp + Z.of_nat (length str) < 4294967296 ->
  (r = Z.of_nat (length str) /\
   FIL.fptr fp' = FIL.fptr fp + Z.of_nat (length str) /\
   FIL.obj_size fp' = (if Z.of_nat (length str) =? 0 then FIL.obj_size fp
                       else Z.max (FIL.obj_size fp) (FIL.fptr fp')) /\
   can_write fs' fp') \/
  (r = -1 /\ FIL.fptr fp <= FIL.fptr fp' <= FIL.fptr fp + Z.of_nat (length str) /\
   FIL.err fp' <> 0).
Proof.
  intros H C F Hs.
  apply (f_puts_from_spec fuel str fs d fp 0 r fs' d' fp' H C F ltac:(lia) Hs).
Qed.

(** "HI" written to the file just created on the blank volume. *)
Lemma f_puts_count_witness :
  exists fs' d' fp',
    f_puts 1000 (ses_fs created_blank) (ses_dev created_blank) (ses_fp created_blank)
           (chars "HI") = Some (2, fs', d', fp') /\
    FIL.fptr fp' = 2 /\ FIL.obj_size fp' = 2.
Proof.
  destruct (f_puts 1000 (ses_fs created_blank) (ses_dev created_blank)
                   (ses_fp created_blank) (chars "HI"))
    as [[[[r fs'] d'] fp']|] eqn:E.
  2:{ exfalso.
      assert (X : match f_puts 1000 (ses_fs created_blank) (ses_dev created_blank)
                          (ses_fp created_blank) (chars "HI")
                  with Some _ => true | None => false end = true)
        by (vm_compute; reflexivity).
      rewrite E in X; discriminate X. }
  assert (C : can_write (ses_fs created_blank) (ses_fp created_blank)).
  { split; [exists 0; split; [lia|vm_compute; reflexivity]|].
    splits; try (vm_compute; reflexivity); vm_compute; discriminate. }
  assert (F : Forall (fun c => 0 < c < 256) (chars "HI"))
    by (repeat constructor).
  assert (Hs : FIL.fptr (ses_fp created_blank) + Z.of_nat (length (chars "HI"))
               < 4294967296) by (vm_compute; reflexivity).
  assert (P0 : FIL.fptr (ses_fp created_blank) = 0) by (vm_compute; reflexivity).
  assert (O0 : FIL.obj_size (ses_fp created_blank) = 0) by (vm_compute; reflexivity).
  assert (X : option_map (fun x => fst (fst (fst x)))
                (f_puts 1000 (ses_fs created_blank) (ses_dev created_blank)
                        (ses_fp created_blank) (chars "HI")) = Some 2)
    by (vm_compute; reflexivity).
  rewrite E in X; cbn [option_map fst] in X.
  assert (R : r = 2) by congruence.
  destruct (f_puts_count _ _ _ _ _ _ _ _ _ E C F Hs) as [(Er & Ep & Eo & _)|(Er & _)];
    [|exfalso; lia].
  change (Z.of_nat (length (chars "HI"))) with 2 in *.
  change (2 =? 0) with false in Eo; cbv iota in Eo.
  rewrite P0 in Ep; rewrite O0, Ep in Eo.
  exists fs', d', fp'; rewrite R; split; [reflexivity|split; [lia|lia]].
Defined.

(** ** Whole sectors from an offset inside a sector *)

(** X21.  A read of exactly 512 bytes from an offset that is not on a sector
    boundary, with at least 512 bytes left in the file, on a readable state
    and a positioned handle: [f_read] returns [FR_OK] and advances the
    offset by 512, but the bytes it delivers are the 512 bytes of the sector
    that holds the offset, from the start of that sector, and not the bytes
    of the file from the offset on.  The transfer goes from the medium to
    the caller's buffer without the window, and the offset inside the sector
    is not applied. *)
Theorem f_read_whole_sector_unaligned (fs : FATFS.t) (d : Device) (fp : FIL.t) :
  readable fs d ->
  FIL.fs fp = true -> FIL.err fp = 0 -> Z.land (FIL.flag fp) FA_READ <> 0 ->
  0 <= FIL.fptr fp -> FIL.fptr fp + 512 <= FIL.obj_size fp ->
  FIL.obj_size fp + 65536 <= 4294967296 ->
  chained fs d fp -> positioned fs d fp ->
  FIL.fptr fp mod 512 <> 0 ->
  f_read fs d fp 512 =
  Some (FR_OK, fs,
        dev_log d (IoRead (file_sector fs d (FIL.sclust fp) (FIL.fptr fp)) 1),
        FIL.set_fptr fp (FIL.fptr fp + 512),
        sd_data d (file_sector fs d (FIL.sclust fp) (FIL.fptr fp))) /\
  sd_data d (file_sector fs d (FIL.sclust fp) (FIL.fptr fp))
  = file_bytes fs d (FIL.sclust fp) (FIL.fptr fp - FIL.fptr fp mod 512) 512.
Proof.
  intros R Hfs Herr Hfl Hp Hle Ho Hch Hpos Hna.
  pose proof R as (S & Z0 & F).
  pose proof S as (M & Hh & Hd & C).
  destruct (m_csize _ M) as (k & Hk & Ek).
  pose proof (pow2_bounds k Hk) as Hc; rewrite <- Ek in Hc.
  assert (Hm : 0 <= FIL.fptr fp mod 512 < 512) by (apply Z.mod_pos_bound; lia).
  assert (Hpp : 0 < FIL.fptr fp).
  { destruct (Z.eq_dec (FIL.fptr fp) 0) as [Z1|N]; [|lia].
    exfalso; apply Hna; rewrite Z1; reflexivity. }
  assert (Hbcs : u32 (FATFS.csize fs * SS) = FATFS.csize fs * 512)
    by (unfold SS, FF_MAX_SS; apply u32_small; lia).
  assert (Hnb : FIL.fptr fp mod (FATFS.csize fs * 512) <> 0).
  { intros Z1; apply Hna.
    rewrite (Z.mul_comm (FATFS.csize fs)) in Z1.
    rewrite Z.rem_mul_r in Z1 by lia.
    pose proof (Z.mod_pos_bound (FIL.fptr fp / 512) (FATFS.csize fs) ltac:(lia)).
    nia. }
  assert (Ecl : FIL.clust fp
                = chain fs d (FIL.sclust fp)
                        (Z.to_nat (FIL.fptr fp / (FATFS.csize fs * 512)))).
  { rewrite (Hpos Hpp); f_equal; f_equal.
    Z.to_euclidean_division_equations; nia. }
  assert (Vc : valid_clst fs (FIL.clust fp)).
  { rewrite Ecl; apply Hch; [apply Z.div_pos; lia|].
    apply Z.le_lt_trans with (FIL.fptr fp); [|lia].
    rewrite Z.mul_comm; apply Z.mul_div_le; lia. }
  destruct (clst2sect_valid fs (FIL.clust fp) M F Vc) as (_ & Hs0 & Hs1).
  assert (Hq : 0 <= FIL.fptr fp / 512 < 4294967296)
    by (Z.to_euclidean_division_equations; lia).
  assert (Hcs : 0 <= (FIL.fptr fp / 512) mod FATFS.csize fs < FATFS.csize fs)
    by (apply Z.mod_pos_bound; lia).
  assert (Es : file_sector fs d (FIL.sclust fp) (FIL.fptr fp)
               = clst2sect fs (FIL.clust fp) + (FIL.fptr fp / 512) mod FATFS.csize fs)
    by (unfold file_sector; rewrite <- Ecl; reflexivity).
  split.
  - unfold f_read; rewrite Hfs, Herr.
    change (negb true) with false; change (nz 0) with false; cbv iota.
    replace (nz (Z.land (FIL.flag fp) FA_READ)) with true
      by (symmetry; apply nz_true; assumption).
    cbn [negb]; cbv iota.
    remember (Z.to_nat 512) as n eqn:En.
    destruct n as [|n]; [discriminate En|]; clear En.
    cbn [f_read_loop].
    change (negb (512 >? 0)) with false; cbv iota.
    replace (FIL.fptr fp >=? FIL.obj_size fp) with false by (symmetry; lia).
    rewrite f_read_round_tail, Hbcs.
    replace (FIL.fptr fp =? 0) with false by (symmetry; lia).
    replace (FIL.fptr fp mod (FATFS.csize fs * 512) =? 0) with false by (symmetry; lia).
    unfold f_read_tail; cbv zeta.
    replace (clst2sect fs (FIL.clust fp) =? 0) with false by (symmetry; lia).
    rewrite (m_pdrv _ M).
    unfold SS, FF_MAX_SS.
    change (512 / 512) with 1; change (1 >? 0) with true; cbv iota.
    rewrite (u32_small (FIL.fptr fp / 512)) by lia.
    rewrite (u32_small (clst2sect fs (FIL.clust fp) + _)) by lia.
    rewrite (u32_small ((FIL.fptr fp / 512) mod FATFS.csize fs + 1)) by lia.
    replace ((FIL.fptr fp / 512) mod FATFS.csize fs + 1 >? FATFS.csize fs) with false
      by (symmetry; lia).
    rewrite (disk_read_run d _ 1 Hh) by lia.
    cbn [is_RES_OK negb]; cbv iota.
    change (u32 (1 * 512)) with 512.
    rewrite (u32_small (FIL.fptr fp + 512)) by lia.
    replace (FIL.fptr fp + 512 >? FIL.obj_size fp) with false by (symmetry; lia).
    cbv iota; rewrite ?(u32_small (FIL.fptr fp + 512)) by lia.
    change (u32 (512 - 512)) with 0.
    destruct n; cbn [f_read_loop]; change (negb (0 >? 0)) with true; cbv iota;
      rewrite <- Es; cbn [app]; change (Z.to_nat 1) with 1%nat; cbn [read_sectors];
      rewrite app_nil_r, firstn_all2 by (specialize (Hd (file_sector fs d (FIL.sclust fp)
                                                           (FIL.fptr fp))); destruct Hd; lia);
      reflexivity.
  - pose proof (Hd (file_sector fs d (FIL.sclust fp) (FIL.fptr fp))) as (L & _).
    transitivity (firstn (Z.to_nat 512) (sd_data d (file_sector fs d (FIL.sclust fp)
                                                      (FIL.fptr fp)))).
    { symmetry; apply firstn_all2; lia. }
    rewrite firstn_map_nth by lia.
    unfold file_bytes; apply map_ext_in; intros i Hi; apply in_seq in Hi.
    unfold file_byte.
    rewrite (readable_view fs d _ R).
    assert (A : (FIL.fptr fp - FIL.fptr fp mod 512 + Z.of_nat i) / 512 = FIL.fptr fp / 512 /\
                (FIL.fptr fp - FIL.fptr fp mod 512 + Z.of_nat i) mod 512 = Z.of_nat i)
      by (Z.to_euclidean_division_equations; lia).
    destruct A as (A1 & A2).
    assert (A3 : file_sector fs d (FIL.sclust fp)
                   (FIL.fptr fp - FIL.fptr fp mod 512 + Z.of_nat i)
                 = file_sector fs d (FIL.sclust fp) (FIL.fptr fp)).
    { unfold file_sector.
      rewrite !(cluster_index _ (FATFS.csize fs) ltac:(lia)), A1; reflexivity. }
    rewrite A3, A2; unfold ld; rewrite Nat2Z.id; reflexivity.
Qed.

Lemma readable_linked_hello : readable vol12 linked_hello_dev.
Proof.
  split; [|split; [reflexivity|unfold data_area_fits; simpl; lia]].
  split; [exact mounted_vol12|split; [repeat split|split]].
  - intros s; unfold linked_hello_dev; cbn [sd_data].
    destruct (s =? 1); [apply sector_check; vm_compute; reflexivity|].
    destruct (s =? 4); [apply sector_check; vm_compute; reflexivity|].
    apply sector_repeat; lia.
  - intros _; reflexivity.
Qed.

(** From offset 2 of a file that starts with "HELLO", a read of 512 bytes
    delivers the sector from its start, "HELLO" included, where the file
    continues with "LLO". *)
Lemma f_read_whole_sector_unaligned_witness :
  exists d',
    f_read vol12 linked_hello_dev inside_fp 512
    = Some (FR_OK, vol12, d', FIL.set_fptr inside_fp 514,
            put_list zero_sector 0 (chars "HELLO")) /\
    file_bytes vol12 linked_hello_dev 2 2 3 = chars "LLO".
Proof.
  assert (H1 : Z.land (FIL.flag inside_fp) FA_READ <> 0) by (vm_compute; discriminate).
  assert (H2 : 0 <= FIL.fptr inside_fp) by (simpl; lia).
  assert (H3 : FIL.fptr inside_fp + 512 <= FIL.obj_size inside_fp) by (simpl; lia).
  assert (H4 : FIL.obj_size inside_fp + 65536 <= 4294967296) by (simpl; lia).
  assert (H5 : chained vol12 linked_hello_dev inside_fp).
  { intros j Hj Hlt; cbn in Hlt.
    assert (C : j = 0 \/ j = 1) by lia.
    destruct C as [->| ->]; vm_compute; split; try discriminate; reflexivity. }
  assert (H6 : positioned vol12 linked_hello_dev inside_fp) by (intros _; reflexivity).
  assert (H7 : FIL.fptr inside_fp mod 512 <> 0) by (vm_compute; discriminate).
  destruct (f_read_whole_sector_unaligned vol12 linked_hello_dev inside_fp
              readable_linked_hello eq_refl eq_refl H1 H2 H3 H4 H5 H6 H7) as (E & _).
  assert (Es : file_sector vol12 linked_hello_dev (FIL.sclust inside_fp)
                 (FIL.fptr inside_fp) = 4) by (vm_compute; reflexivity).
  rewrite Es in E.
  eexists; split; [exact E|vm_compute; reflexivity].
Defined.

(** ** Opening a file twice *)

Lemma root_bound_window_only fs fs' : window_only fs fs' -> root_bound fs' = root_bound fs.
Proof.
  intros W; destruct (window_only_fields _ _ W) as (Et & _ & _ & _ & _ & _ & _ & En & _).
  unfold root_bound; rewrite Et, En; reflexivity.
Qed.

Lemma passed_same_view fs d fs' d' s0 sfn j :
  (forall t, view fs' d' t = view fs d t) -> passed fs d s0 sfn j -> passed fs' d' s0 sfn j.
Proof. intros V; unfold passed, slot_byte, slot_match; rewrite !V; auto. Qed.

Lemma found_same_view fs d fs' d' s0 sfn j :
  (forall t, view fs' d' t = view fs d t) -> found fs d s0 sfn j -> found fs' d' s0 sfn j.
Proof. intros V; unfold found, slot_byte, slot_match; rewrite !V; auto. Qed.

(** The window after the step of a directory walk to entry [i]. *)
Lemma walk_step fs d s0 i sect :
  stable fs d -> 0 <= i -> 0 <= s0 -> s0 + i / 16 < 4294967296 ->
  sect = s0 + (if i =? 0 then 0 else (i - 1) / 16) ->
  FATFS.winsect fs = sect ->
  exists fs1 d1,
    (if (i >? 0) && (i mod 16 =? 0)
     then let '(res, fs, d) := move_window fs d (u32 (sect + 1)) in
          (res, fs, d, u32 (sect + 1), 0)
     else (FR_OK, fs, d, sect, i mod 16 * 32))
    = (FR_OK, fs1, d1, s0 + i / 16, i mod 16 * 32) /\
    stable fs1 d1 /\ window_only fs fs1 /\
    (forall t, view fs1 d1 t = view fs d t) /\
    FATFS.winsect fs1 = s0 + i / 16 /\
    FATFS.win fs1 = view fs d (s0 + i / 16).
Proof.
  intros S Hi Hs0 Hs1 Esect Ews.
  assert (Hq : 0 <= i / 16) by (apply Z.div_pos; lia).
  destruct ((i >? 0) && (i mod 16 =? 0)) eqn:C.
  - apply andb_true_iff in C; destruct C as (C1 & C2).
    assert (E1 : sect + 1 = s0 + i / 16).
    { rewrite Esect; replace (i =? 0) with false by (symmetry; lia).
      Z.to_euclidean_division_equations; lia. }
    rewrite E1, u32_small by lia.
    destruct (stable_move fs d (s0 + i / 16) S ltac:(lia))
      as (fs1 & d1 & Em & W & Es & S1 & Ew & V).
    exists fs1, d1; rewrite Em; splits; auto.
    f_equal; apply Z.eqb_eq in C2; rewrite C2; reflexivity.
  - assert (E1 : sect = s0 + i / 16).
    { rewrite Esect; destruct (Z.eqb_spec i 0) as [->|N]; [reflexivity|].
      apply andb_false_iff in C; destruct C as [C|C]; [lia|].
      Z.to_euclidean_division_equations; lia. }
    exists fs, d; rewrite <- E1; splits; auto using window_only_refl.
    rewrite <- Ews; symmetry; apply view_win.
Qed.

(** The search of [f_open] on a stable state, entered at entry [i] with the
    window on the sector of the entry before it. *)
Lemma open_search_spec (sfn : list Z) (s0 : Z) n : forall fs d i sect,
  stable fs d -> 0 <= i -> root_bound fs <= 65536 ->
  0 <= s0 -> s0 + 4096 < 4294967296 ->
  (Z.to_nat (root_bound fs - i) <= n)%nat ->
  sect = s0 + (if i =? 0 then 0 else (i - 1) / 16) ->
  FATFS.winsect fs = sect ->
  exists fs' d' k,
    i <= k /\ (forall j, i <= j < k -> passed fs d s0 sfn j) /\
    stable fs' d' /\ window_only fs fs' /\ (forall t, view fs' d' t = view fs d t) /\
    ((k < root_bound fs /\ found fs d s0 sfn k /\
      FATFS.winsect fs' = s0 + k / 16 /\
      open_search n fs d sfn sect i = ScanHit fs' d' (s0 + k / 16) (k mod 16 * 32)) \/
     ((root_bound fs <= k \/ slot_byte fs d s0 k DIR_Name = 0) /\
      open_search n fs d sfn sect i = ScanEnd fs' d')).
Proof.
  induction n as [|n IH]; intros fs d i sect S Hi Hb Hs0 Hs1 Hn Esect Ews.
  - cbn [open_search].
    exists fs, d, i; splits; auto using window_only_refl; try lia;
      try (right; split; [left; lia|reflexivity]).
  - cbn [open_search]; rewrite root_cond_bound by lia.
    destruct (Z.ltb_spec i (root_bound fs)) as [Lt|Ge]; cbn [negb]; cbv iota.
    2:{ exists fs, d, i; splits; auto using window_only_refl; try lia;
          try (right; split; [left; lia|reflexivity]). }
    change (SS / SZ_DIRE) with 16; change SZ_DIRE with 32.
    assert (Hq : 0 <= i / 16 < 4096) by (Z.to_euclidean_division_equations; lia).
    destruct (walk_step fs d s0 i sect S Hi Hs0 ltac:(lia) Esect Ews)
      as (fs1 & d1 & -> & S1 & W1 & V1 & Es1 & Ew1).
    cbv iota zeta.
    assert (Erb : root_bound fs1 = root_bound fs) by (apply root_bound_window_only; exact W1).
    assert (B0 : ld (FATFS.win fs1) (i mod 16 * 32 + DIR_Name) = slot_byte fs d s0 i DIR_Name)
      by (rewrite Ew1; reflexivity).
    assert (B1 : ld (FATFS.win fs1) (i mod 16 * 32 + DIR_Attr) = slot_byte fs d s0 i DIR_Attr)
      by (rewrite Ew1; reflexivity).
    assert (B2 : memcmp_eq (FATFS.win fs1) (i mod 16 * 32) sfn 11 = slot_match fs d s0 sfn i)
      by (rewrite Ew1; reflexivity).
    rewrite B0, B1, B2.
    assert (Next : passed fs d s0 sfn i ->
                   exists fs' d' k,
                     i <= k /\ (forall j, i <= j < k -> passed fs d s0 sfn j) /\
                     stable fs' d' /\ window_only fs fs' /\
                     (forall t, view fs' d' t = view fs d t) /\
                     ((k < root_bound fs /\ found fs d s0 sfn k /\
                       FATFS.winsect fs' = s0 + k / 16 /\
                       open_search n fs1 d1 sfn (s0 + i / 16) (i + 1)
                       = ScanHit fs' d' (s0 + k / 16) (k mod 16 * 32)) \/
                      ((root_bound fs <= k \/ slot_byte fs d s0 k DIR_Name = 0) /\
                       open_search n fs1 d1 sfn (s0 + i / 16) (i + 1) = ScanEnd fs' d'))).
    { intros P.
      destruct (IH fs1 d1 (i + 1) (s0 + i / 16) S1 ltac:(lia) ltac:(rewrite Erb; exact Hb)
                   Hs0 Hs1 ltac:(rewrite Erb; lia))
        as (fs' & d' & k & Hle & Hps & S' & W' & V' & R).
      - replace (i + 1 =? 0) with false by (symmetry; lia).
        replace (i + 1 - 1) with i by lia; reflexivity.
      - exact Es1.
      - exists fs', d', k; splits; try lia; auto.
        + intros j Hj.
          destruct (Z.eq_dec j i) as [->|Nj]; [exact P|].
          assert (Pj : passed fs1 d1 s0 sfn j) by (apply Hps; lia).
          revert Pj; unfold passed, slot_byte, slot_match; rewrite !V1; auto.
        + eapply window_only_trans; eassumption.
        + intros t; rewrite V'; apply V1.
        + destruct R as [(Lt' & Fk & Ew' & E)|(En & E)]; [left|right].
          * rewrite Erb in Lt'; splits; auto.
            revert Fk; unfold found, slot_byte, slot_match; rewrite !V1; auto.
          * rewrite Erb in En; split; [|exact E].
            destruct En as [A|A]; [left; exact A|right].
            revert A; unfold slot_byte; rewrite V1; auto. }
    destruct (Z.eqb_spec (slot_byte fs d s0 i DIR_Name) 0) as [Z0|N0].
    { exists fs1, d1, i; splits; auto; try lia;
        try (right; split; [right; exact Z0|reflexivity]). }
    destruct (Z.eqb_spec (slot_byte fs d s0 i DIR_Name) DDEM) as [ZD|ND].
    { apply Next; split; [exact N0|left; exact ZD]. }
    destruct (nz (Z.land (slot_byte fs d s0 i DIR_Attr) AM_DIR)) eqn:EA.
    { apply Next; split; [exact N0|right; left; apply nz_true; exact EA]. }
    apply nz_false in EA.
    destruct (slot_match fs d s0 sfn i) eqn:Em.
    2:{ apply Next; split; [exact N0|right; right; exact Em]. }
    exists fs1, d1, i; splits; auto; try lia.
    left; splits; auto.
    split; [exact N0|split; [exact ND|split; [exact EA|exact Em]]].
Qed.

(** The search for a vacant entry. *)
Lemma open_free_slot_spec (s0 : Z) n : forall fs d i sect,
  stable fs d -> 0 <= i -> root_bound fs <= 65536 ->
  0 <= s0 -> s0 + 4096 < 4294967296 ->
  (Z.to_nat (root_bound fs - i) <= n)%nat ->
  sect = s0 + (if i =? 0 then 0 else (i - 1) / 16) ->
  FATFS.winsect fs = sect ->
  exists fs' d' k,
    i <= k /\ (forall j, i <= j < k -> ~ vacant fs d s0 j) /\
    stable fs' d' /\ window_only fs fs' /\ (forall t, view fs' d' t = view fs d t) /\
    ((k < root_bound fs /\ vacant fs d s0 k /\
      FATFS.winsect fs' = s0 + k / 16 /\ FATFS.win fs' = view fs d (s0 + k / 16) /\
      open_free_slot n fs d sect i = ScanHit fs' d' (s0 + k / 16) (k mod 16 * 32)) \/
     (root_bound fs <= k /\ open_free_slot n fs d sect i = ScanEnd fs' d')).
Proof.
  induction n as [|n IH]; intros fs d i sect S Hi Hb Hs0 Hs1 Hn Esect Ews.
  - cbn [open_free_slot].
    exists fs, d, i; splits; auto using window_only_refl; try lia;
      try (right; split; [lia|reflexivity]).
  - cbn [open_free_slot]; rewrite root_cond_bound by lia.
    destruct (Z.ltb_spec i (root_bound fs)) as [Lt|Ge]; cbn [negb]; cbv iota.
    2:{ exists fs, d, i; splits; auto using window_only_refl; try lia;
          try (right; split; [lia|reflexivity]). }
    change (SS / SZ_DIRE) with 16; change SZ_DIRE with 32.
    assert (Hq : 0 <= i / 16 < 4096) by (Z.to_euclidean_division_equations; lia).
    destruct (walk_step fs d s0 i sect S Hi Hs0 ltac:(lia) Esect Ews)
      as (fs1 & d1 & -> & S1 & W1 & V1 & Es1 & Ew1).
    cbv iota zeta.
    assert (Erb : root_bound fs1 = root_bound fs) by (apply root_bound_window_only; exact W1).
    assert (B0 : ld (FATFS.win fs1) (i mod 16 * 32 + DIR_Name) = slot_byte fs d s0 i DIR_Name)
      by (rewrite Ew1; reflexivity).
    rewrite B0.
    destruct ((slot_byte fs d s0 i DIR_Name =? 0) || (slot_byte fs d s0 i DIR_Name =? DDEM))
      eqn:Ev.
    + exists fs1, d1, i; splits; auto; try lia.
      left; splits; auto.
      apply orb_true_iff in Ev; destruct Ev as [A|A]; [left|right]; lia.
    + apply orb_false_iff in Ev; destruct Ev as (A1 & A2).
      destruct (IH fs1 d1 (i + 1) (s0 + i / 16) S1 ltac:(lia) ltac:(rewrite Erb; exact Hb)
                   Hs0 Hs1 ltac:(rewrite Erb; lia))
        as (fs' & d' & k & Hle & Hps & S' & W' & V' & R).
      * replace (i + 1 =? 0) with false by (symmetry; lia).
        replace (i + 1 - 1) with i by lia; reflexivity.
      * exact Es1.
      * exists fs', d', k; splits; try lia; auto.
        -- intros j Hj.
           destruct (Z.eq_dec j i) as [->|Nj]; [intros [A|A]; lia|].
           assert (Pj : ~ vacant fs1 d1 s0 j) by (apply Hps; lia).
           revert Pj; unfold vacant, slot_byte; rewrite !V1; auto.
        -- eapply window_only_trans; eassumption.
        -- intros t; rewrite V'; apply V1.
        -- destruct R as [(Lt' & Fk & Ews' & Ew' & E)|(En & E)]; [left|right].
           ++ rewrite Erb in Lt'; splits; auto.
              ** revert Fk; unfold vacant, slot_byte; rewrite !V1; auto.
              ** rewrite Ew'; apply V1.
           ++ rewrite Erb in En; split; [exact En|exact E].
Qed.

Lemma passed_not_found fs d s0 sfn k : passed fs d s0 sfn k -> found fs d s0 sfn k -> False.
Proof.
  intros (_ & [A|[A|A]]) (_ & B & C & D); [contradiction|contradiction|].
  rewrite A in D; discriminate.
Qed.

Lemma ld_memset_nat n : forall a p v j,
  0 <= p -> 0 <= j -> j < p \/ p + Z.of_nat n <= j ->
  ld (memset_nat a p v n) j = ld a j.
Proof.
  induction n as [|n IH]; intros a p v j Hp Hj Ho; cbn [memset_nat]; [reflexivity|].
  rewrite IH by lia.
  apply ld_st_other; lia.
Qed.

Lemma ld_memcpy_out n a p src q j :
  0 <= p -> 0 <= j -> j < p \/ p + Z.of_nat n <= j ->
  ld (memcpy_nat a p src q n) j = ld a j.
Proof.
  revert a p q; induction n as [|n IH]; intros a p q Hp Hj Ho; cbn [memcpy_nat];
    [reflexivity|].
  rewrite IH by lia.
  apply ld_st_other; lia.
Qed.

(** The new entry leaves the rest of the sector as it was. *)
Lemma new_dir_entry_frame w dir sfn j :
  0 <= dir -> 0 <= j -> j < dir \/ dir + 32 <= j ->
  ld (new_dir_entry w dir sfn) j = ld w j.
Proof.
  intros Hd Hj Ho; unfold new_dir_entry; cbv zeta.
  unfold DIR_Attr, DIR_FileSize, DIR_FstClusHI, DIR_FstClusLO, DIR_WrtTime, SZ_DIRE.
  rewrite ld_ST_DWORD_other by lia.
  rewrite ld_ST_WORD_other by lia.
  rewrite ld_ST_WORD_other by lia.
  rewrite ld_ST_DWORD_other by lia.
  rewrite ld_st_other by lia.
  unfold memcpy, memset.
  rewrite ld_memcpy_out by (change (Z.of_nat (Z.to_nat 11)) with 11; lia).
  apply ld_memset_nat; change (Z.of_nat (Z.to_nat 32)) with 32; lia.
Qed.

Lemma ld_slice a p n j : 0 <= j < n -> ld (slice a p n) j = ld a (p + j).
Proof.
  intros Hj; unfold slice.
  set (f := fun k : nat => ld a (p + Z.of_nat k)).
  unfold ld at 1.
  rewrite (nth_indep _ 0 (f 0%nat)) by (rewrite length_map, length_seq; lia).
  rewrite (map_nth f), seq_nth by lia.
  unfold f; f_equal; lia.
Qed.

Lemma memcmp_eq_of_slice a p b : slice a p 11 = b -> memcmp_eq a p b 11 = true.
Proof.
  intros <-; unfold memcmp_eq; apply forallb_forall; intros k Hk; apply in_seq in Hk.
  apply Z.eqb_eq; rewrite ld_slice by (change (Z.to_nat 11) with 11%nat in Hk; lia).
  reflexivity.
Qed.

(** No byte of the 8.3 form of a name of bytes is zero. *)
Lemma sfn_base_nonzero p : forall sfn k,
  Forall (fun c => 0 <= c < 256) p -> 0 <= k ->
  (forall j, 0 <= j < Z.of_nat (length sfn) -> ld sfn j <> 0) ->
  forall j, 0 <= j < Z.of_nat (length sfn) -> ld (snd (sfn_base p sfn k)) j <> 0.
Proof.
  induction p as [|c p IH]; intros sfn k F Hk H; cbn [sfn_base]; [exact H|].
  inversion F as [|c0 l0 Hc F']; subst c0 l0.
  destruct (nz c && negb (c =? 46) && (k <? 8)) eqn:E; [|exact H].
  apply andb_true_iff in E; destruct E as (E & _).
  apply andb_true_iff in E; destruct E as (E & _).
  intros j Hj.
  rewrite <- (length_st sfn k (upcase c)) in Hj.
  apply (IH (st sfn k (upcase c)) (k + 1) F' ltac:(lia)); [|exact Hj].
  intros i Hi; rewrite length_st in Hi.
  destruct (Z.eq_dec i k) as [->|N].
  - rewrite ld_st_same by lia.
    apply nz_true; rewrite upcase_nz by exact Hc; exact E.
  - rewrite ld_st_other by lia; apply H; exact Hi.
Qed.

Lemma sfn_ext_nonzero p : forall sfn k,
  Forall (fun c => 0 <= c < 256) p -> 0 <= k ->
  (forall j, 0 <= j < Z.of_nat (length sfn) -> ld sfn j <> 0) ->
  forall j, 0 <= j < Z.of_nat (length sfn) -> ld (sfn_ext p sfn k) j <> 0.
Proof.
  induction p as [|c p IH]; intros sfn k F Hk H; cbn [sfn_ext]; [exact H|].
  inversion F as [|c0 l0 Hc F']; subst c0 l0.
  destruct (nz c && (k <? 11)) eqn:E; [|exact H].
  apply andb_true_iff in E; destruct E as (E & _).
  intros j Hj.
  rewrite <- (length_st sfn k (upcase c)) in Hj.
  apply (IH (st sfn k (upcase c)) (k + 1) F' ltac:(lia)); [|exact Hj].
  intros i Hi; rewrite length_st in Hi.
  destruct (Z.eq_dec i k) as [->|N].
  - rewrite ld_st_same by lia.
    apply nz_true; rewrite upcase_nz by exact Hc; exact E.
  - rewrite ld_st_other by lia; apply H; exact Hi.
Qed.

Lemma Forall_sfn_base_rest p : forall sfn k,
  Forall (fun c => 0 <= c < 256) p ->
  Forall (fun c => 0 <= c < 256) (fst (sfn_base p sfn k)).
Proof.
  induction p as [|c p IH]; intros sfn k F; cbn [sfn_base]; [exact F|].
  inversion F as [|c0 l0 Hc F']; subst c0 l0.
  destruct (nz c && negb (c =? 46) && (k <? 8)); [apply IH; exact F'|exact F].
Qed.

Lemma make_sfn_nonzero p :
  Forall (fun c => 0 <= c < 256) p -> forall j, 0 <= j < 11 -> ld (make_sfn p) j <> 0.
Proof.
  intros F; unfold make_sfn.
  assert (H0 : forall j, 0 <= j < Z.of_nat (length (repeat 32 11)) ->
                         ld (repeat 32 11) j <> 0).
  { intros j Hj; rewrite repeat_length in Hj; unfold ld.
    rewrite nth_repeat_lt by lia; discriminate. }
  pose proof (sfn_base_nonzero p (repeat 32 11) 0 F ltac:(lia) H0) as B.
  pose proof (Forall_sfn_base_rest p (repeat 32 11) 0 F) as Fr.
  pose proof (length_sfn_base p (repeat 32 11) 0) as L.
  destruct (sfn_base p (repeat 32 11) 0) as [r sfn]; cbn [fst snd] in *.
  rewrite repeat_length in *.
  assert (B' : forall j, 0 <= j < Z.of_nat (length sfn) -> ld sfn j <> 0)
    by (intros j Hj; apply B; rewrite L in Hj; exact Hj).
  destruct r as [|c r]; [intros j Hj; apply B; exact Hj|].
  destruct (c =? 46); [|intros j Hj; apply B; exact Hj].
  inversion Fr as [|c0 l0 Hc F']; subst c0 l0.
  intros j Hj; apply sfn_ext_nonzero; try assumption; lia.
Qed.

Lemma forallb_ext_in (f g : nat -> bool) (l : list nat) :
  (forall x, In x l -> f x = g x) -> forallb f l = forallb g l.
Proof.
  induction l as [|x l IH]; intros H; cbn [forallb]; [reflexivity|].
  rewrite (H x (or_introl eq_refl)), IH; [reflexivity|].
  intros y Hy; apply H; right; exact Hy.
Qed.

Lemma Forall_skipn_bytes (n : nat) : forall l : list Z,
  Forall (fun c => 0 <= c < 256) l -> Forall (fun c => 0 <= c < 256) (skipn n l).
Proof.
  induction n as [|n IH]; intros l F; [exact F|].
  destruct l as [|x l]; [exact F|].
  inversion F; subst; cbn [skipn]; apply IH; assumption.
Qed.

Lemma sector_view fs d t : stable fs d -> sector (view fs d t).
Proof.
  intros (M & _ & Hd & _); unfold view.
  destruct (t =? FATFS.winsect fs); [apply (m_win _ M)|apply Hd].
Qed.

Lemma root_sect_window_only fs fs' : window_only fs fs' -> root_sect fs' = root_sect fs.
Proof.
  intros W; destruct (window_only_fields _ _ W) as (Et & _ & _ & _ & _ & _ & Ed & _).
  unfold root_sect; rewrite Et, Ed, (clst2sect_window_only fs fs') by assumption.
  reflexivity.
Qed.

(** What [f_open] does on drive 0 of a stable volume: it stops at the first
    entry that matches, or, with a creation bit and no such entry before the
    end mark, writes a new entry into the first vacant one. *)
Lemma f_open_forward fs d fp path mode :
  stable fs d -> ld path 0 = 48 -> ld path 1 = 58 ->
  root_bound fs <= 65536 -> 0 <= root_sect fs -> root_sect fs + 4096 < 4294967296 ->
  Forall (fun c => 0 <= c < 256) path ->
  exists r fs1 d1 fp1,
    f_open (Some fs) d fp path mode = (r, Some fs1, d1, fp1) /\
    stable fs1 d1 /\ window_only fs fs1 /\
    ((exists k,
        0 <= k < root_bound fs /\
        found fs d (root_sect fs) (make_sfn (path_name path)) k /\
        (forall j, 0 <= j < k -> passed fs d (root_sect fs) (make_sfn (path_name path)) j) /\
        (forall t, view fs1 d1 t = view fs d t) /\
        r = FR_OK /\ fp1 = entry_handle fs d (root_sect fs) k mode) \/
     (exists k,
        0 <= k < root_bound fs /\ vacant fs d (root_sect fs) k /\
        (forall j, 0 <= j < k ->
                   ~ vacant fs d (root_sect fs) j /\
                   passed fs d (root_sect fs) (make_sfn (path_name path)) j) /\
        (forall t, view fs1 d1 t =
                   if t =? root_sect fs + k / 16
                   then new_dir_entry (view fs d t) (k mod 16 * 32)
                                      (make_sfn (path_name path))
                   else view fs d t) /\
        r = FR_OK /\
        fp1 = FIL.mk true (FATFS.id fs) (u8 mode) 0 0 0 (root_sect fs + k / 16)
                     (k mod 16 * 32) 0 0) \/
     r <> FR_OK).
Proof.
  intros S H0 H1 Hb Hs0 Hs1 Fp.
  pose proof S as (M & _).
  unfold f_open; rewrite H0, H1.
  change ((48 - 48 <? 0) || (48 - 48 >=? FF_VOLUMES)) with false.
  change (negb (58 =? 58)) with false; cbv iota zeta.
  assert (T : nz (FATFS.fs_type fs) = true).
  { apply nz_true; destruct (m_type _ M) as [E|[E|E]]; rewrite E; discriminate. }
  rewrite T; cbn [negb]; cbv iota.
  remember (make_sfn (path_name path)) as sfn eqn:Esfn.
  remember (root_sect fs) as s0 eqn:Es0.
  destruct (stable_move fs d s0 S ltac:(lia)) as (fsA & dA & Em & WA & EsA & SA & EwA & VA).
  rewrite Em; cbv iota.
  assert (ErbA : root_bound fsA = root_bound fs) by (apply root_bound_window_only; exact WA).
  destruct (open_search_spec sfn s0 (Z.to_nat (root_bound fsA)) fsA dA 0 s0 SA ltac:(lia)
              ltac:(rewrite ErbA; exact Hb) Hs0 Hs1 ltac:(lia)
              ltac:(change (0 =? 0) with true; cbv iota; lia) EsA)
    as (fsB & dB & k & Hk & Hps & SB & WB & VB & R).
  assert (WfB : window_only fs fsB) by (eapply window_only_trans; eassumption).
  assert (VfB : forall t, view fsB dB t = view fs d t) by (intros t; rewrite VB; apply VA).
  assert (Hps' : forall j, 0 <= j < k -> passed fs d s0 sfn j).
  { intros j Hj; specialize (Hps j Hj); revert Hps.
    unfold passed, slot_byte, slot_match; rewrite !VA; auto. }
  destruct R as [(Lt & Fk & EwsB & E)|(En & E)]; rewrite E; clear E.
  - (* an entry matches *)
    exists FR_OK, fsB, dB, (entry_handle fs d s0 k mode); splits; auto.
    + unfold entry_handle; cbv zeta.
      destruct (window_only_fields _ _ WfB) as (_ & _ & _ & _ & _ & _ & _ & _ & _ & _ & Eid).
      rewrite Eid, <- VfB, <- EwsB, view_win; reflexivity.
    + left; exists k; splits; auto; try lia.
      revert Fk; unfold found, slot_byte, slot_match; rewrite !VA; auto.
  - (* the end of the directory *)
    destruct (nz (Z.land mode (Z.lor (Z.lor FA_CREATE_ALWAYS FA_CREATE_NEW) FA_OPEN_ALWAYS))).
    2:{ exists FR_NO_FILE, fsB, dB, (FIL.set_fs fp false); splits; auto.
        right; right; discriminate. }
    rewrite (root_sect_window_only fs fsB WfB), <- Es0.
    destruct (stable_move fsB dB s0 SB ltac:(lia))
      as (fsC & dC & EmC & WC & EsC & SC & EwC & VC).
    rewrite EmC; cbv iota.
    assert (WfC : window_only fs fsC) by (eapply window_only_trans; eassumption).
    assert (VfC : forall t, view fsC dC t = view fs d t) by (intros t; rewrite VC; apply VfB).
    assert (ErbC : root_bound fsC = root_bound fs) by (apply root_bound_window_only; exact WfC).
    destruct (open_free_slot_spec s0 (Z.to_nat (root_bound fsC)) fsC dC 0 s0 SC ltac:(lia)
                ltac:(rewrite ErbC; exact Hb) Hs0 Hs1 ltac:(lia)
                ltac:(change (0 =? 0) with true; cbv iota; lia) EsC)
      as (fsD & dD & k' & Hk' & Hnv & SD & WD & VD & R).
    assert (WfD : window_only fs fsD) by (eapply window_only_trans; eassumption).
    assert (VfD : forall t, view fsD dD t = view fs d t) by (intros t; rewrite VD; apply VfC).
    destruct R as [(Lt' & Vk & EwsD & EwD & E)|(Ge & E)]; rewrite E; clear E.
    2:{ exists FR_DENIED, fsD, dD, (FIL.set_fs fp false); splits; auto.
        right; right; discriminate. }
    (* the new entry *)
    pose proof SD as (MD & HhD & HdD & CD).
    assert (Kd : exists q, 0 <= q < 16 /\ k' mod 16 * 32 = 32 * q).
    { exists (k' mod 16); split; [apply Z.mod_pos_bound; lia|lia]. }
    assert (Ls : length sfn = 11%nat) by (rewrite Esfn; apply length_make_sfn).
    assert (Bs : forall j, 0 <= ld sfn j < 256) by (rewrite Esfn; apply bytes_make_sfn).
    destruct (new_dir_entry_spec (FATFS.win fsD) (k' mod 16 * 32) sfn (m_win _ MD) Kd Ls Bs)
      as (Sw & _).
    remember (new_dir_entry (FATFS.win fsD) (k' mod 16 * 32) sfn) as w' eqn:Ew'.
    destruct (store_stable fsD dD w' MD HhD HdD Sw) as (WE & SE & VE).
    remember (FATFS.set_wflag (FATFS.set_win fsD w') 1) as fsE eqn:EfsE.
    assert (QE : FATFS.win fsE = w' /\ FATFS.winsect fsE = s0 + k' / 16 /\
                 FATFS.wflag fsE = 1 /\ FATFS.pdrv fsE = 0).
    { subst fsE; splits.
      - destruct fsD; reflexivity.
      - rewrite <- EwsD; destruct fsD; reflexivity.
      - destruct fsD; reflexivity.
      - rewrite <- (m_pdrv _ MD); destruct fsD; reflexivity. }
    destruct QE as (Q1 & Q2 & Q3 & Q4).
    destruct (sync_window_healthy fsE dD HhD HdD Q4 ltac:(rewrite Q1; exact Sw))
      as (fsF & dF & EsF & WF & EwF & EwsF & HhF & HdF & Hdirty & _).
    destruct (Hdirty ltac:(lia)) as (ZF & DF).
    rewrite EsF; cbv iota.
    assert (WfF : window_only fs fsF).
    { eapply window_only_trans; [exact WfD|].
      eapply window_only_trans; eassumption. }
    assert (SF : stable fsF dF).
    { split; [|split; [exact HhF|split; [exact HdF|]]].
      - apply (mounted_window_only fs fsF M WfF); [rewrite EwsF, Q2|rewrite EwF, Q1; exact Sw].
        assert (0 <= k' / 16 < 4096) by (Z.to_euclidean_division_equations; lia).
        lia.
      - intros _; rewrite DF, EwsF, Z.eqb_refl; exact EwF. }
    exists FR_OK, fsF, dF,
      (FIL.mk true (FATFS.id fs) (u8 mode) 0 0 0 (s0 + k' / 16) (k' mod 16 * 32) 0 0).
    splits; auto.
    + destruct (window_only_fields _ _ WfF) as (_ & _ & _ & _ & _ & _ & _ & _ & _ & _ & Eid).
      rewrite Eid; reflexivity.
    + right; left; exists k'.
      assert (Vk' : vacant fs d s0 k')
        by (revert Vk; unfold vacant, slot_byte; rewrite !VfC; auto).
      assert (Hnv' : forall j, 0 <= j < k' -> ~ vacant fs d s0 j).
      { intros j Hj; specialize (Hnv j Hj); revert Hnv.
        unfold vacant, slot_byte; rewrite !VfC; auto. }
      assert (Hkk : k' <= k).
      { destruct (Z.le_gt_cases k' k) as [A|A]; [exact A|exfalso].
        destruct En as [B|B]; [rewrite ErbA in B; lia|].
        apply (Hnv' k ltac:(lia)); left.
        revert B; unfold slot_byte; rewrite VA; auto. }
      splits; auto; try lia.
      * intros j Hj; split; [apply Hnv'; exact Hj|apply Hps'; lia].
      * intros t; unfold view at 1; rewrite EwsF, Q2.
        destruct (t =? s0 + k' / 16) eqn:Et.
        -- apply Z.eqb_eq in Et; subst t.
           rewrite EwF, Q1, Ew', EwD, VfC; reflexivity.
        -- rewrite DF, Q2, Et.
           rewrite <- VfD; unfold view; rewrite EwsD, Et; reflexivity.
Qed.

(** [f_open] stops at the first entry that matches. *)
Lemma f_open_hit fs d fp path mode k :
  stable fs d -> ld path 0 = 48 -> ld path 1 = 58 ->
  root_bound fs <= 65536 -> 0 <= root_sect fs -> root_sect fs + 4096 < 4294967296 ->
  Forall (fun c => 0 <= c < 256) path ->
  0 <= k < root_bound fs ->
  found fs d (root_sect fs) (make_sfn (path_name path)) k ->
  (forall j, 0 <= j < k -> passed fs d (root_sect fs) (make_sfn (path_name path)) j) ->
  exists fs1 d1,
    f_open (Some fs) d fp path mode
    = (FR_OK, Some fs1, d1, entry_handle fs d (root_sect fs) k mode) /\
    stable fs1 d1 /\ window_only fs fs1 /\ (forall t, view fs1 d1 t = view fs d t).
Proof.
  intros S H0 H1 Hb Hs0 Hs1 Fp Hk Fk Hps.
  (* the search itself, as in [f_open_forward] *)
  pose proof S as (M & _).
  unfold f_open; rewrite H0, H1.
  change ((48 - 48 <? 0) || (48 - 48 >=? FF_VOLUMES)) with false.
  change (negb (58 =? 58)) with false; cbv iota zeta.
  assert (T : nz (FATFS.fs_type fs) = true).
  { apply nz_true; destruct (m_type _ M) as [E|[E|E]]; rewrite E; discriminate. }
  rewrite T; cbn [negb]; cbv iota.
  remember (make_sfn (path_name path)) as sfn eqn:Esfn.
  remember (root_sect fs) as s0 eqn:Es0.
  destruct (stable_move fs d s0 S ltac:(lia)) as (fsA & dA & Em & WA & EsA & SA & EwA & VA).
  rewrite Em; cbv iota.
  assert (ErbA : root_bound fsA = root_bound fs) by (apply root_bound_window_only; exact WA).
  destruct (open_search_spec sfn s0 (Z.to_nat (root_bound fsA)) fsA dA 0 s0 SA ltac:(lia)
              ltac:(rewrite ErbA; exact Hb) Hs0 Hs1 ltac:(lia)
              ltac:(change (0 =? 0) with true; cbv iota; lia) EsA)
    as (fsB & dB & k2 & Hk2 & Hps2 & SB & WB & VB & R).
  assert (WfB : window_only fs fsB) by (eapply window_only_trans; eassumption).
  assert (VfB : forall t, view fsB dB t = view fs d t) by (intros t; rewrite VB; apply VA).
  assert (Hps2' : forall j, 0 <= j < k2 -> passed fs d s0 sfn j).
  { intros j Hj; specialize (Hps2 j Hj); revert Hps2.
    unfold passed, slot_byte, slot_match; rewrite !VA; auto. }
  assert (Ek : k2 = k).
  { destruct (Z.lt_trichotomy k2 k) as [A|[A|A]]; [exfalso|exact A|exfalso].
    - specialize (Hps k2 ltac:(lia)).
      destruct R as [(_ & Fk2 & _)|([B|B] & _)].
      + apply (passed_not_found fs d s0 sfn k2 Hps).
        revert Fk2; unfold found, slot_byte, slot_match; rewrite !VA; auto.
      + rewrite ErbA in B; lia.
      + destruct Hps as (N0 & _); apply N0.
        revert B; unfold slot_byte; rewrite VA; auto.
    - exact (passed_not_found fs d s0 sfn k (Hps2' k ltac:(lia)) Fk). }
  subst k2.
  destruct R as [(Lt & _ & EwsB & E)|([B|B] & _)].
  - rewrite E.
    exists fsB, dB; splits; auto.
    unfold entry_handle; cbv zeta.
    destruct (window_only_fields _ _ WfB) as (_ & _ & _ & _ & _ & _ & _ & _ & _ & _ & Eid).
    rewrite Eid, <- VfB, <- EwsB, view_win; reflexivity.
  - exfalso; rewrite ErbA in B; lia.
  - exfalso; destruct Fk as (N0 & _); apply N0.
    revert B; unfold slot_byte; rewrite VA; auto.
Qed.

(** X22.  A file that [f_open] has opened or created is found again.  On
    drive 0 of a stable volume whose root directory lies inside the sector
    address space, for a path of bytes whose 8.3 name does not start with
    the byte 0xE5: when [f_open] returns [FR_OK], whether it found the file
    or wrote a new directory entry for it, every further [f_open] of the
    same path returns [FR_OK] as well, whatever its mode, with a handle on
    the same directory entry, the same size and first cluster, that differs
    from the first handle in the flag byte only; the second call changes no
    sector for the engine. *)
Theorem f_open_again (fs : FATFS.t) (d : Device) (fp : FIL.t) (path : list Z) (mode : Z)
        (fs1 : FATFS.t) (d1 : Device) (fp1 : FIL.t) :
  f_open (Some fs) d fp path mode = (FR_OK, Some fs1, d1, fp1) ->
  stable fs d ->
  root_bound fs <= 65536 -> 0 <= root_sect fs -> root_sect fs + 4096 < 4294967296 ->
  Forall (fun c => 0 <= c < 256) path ->
  ld (make_sfn (path_name path)) 0 <> DDEM ->
  forall (fp2 : FIL.t) (mode2 : Z),
  exists fs2 d2,
    f_open (Some fs1) d1 fp2 path mode2
    = (FR_OK, Some fs2, d2, FIL.set_flag fp1 (u8 mode2)) /\
    stable fs2 d2 /\ window_only fs1 fs2 /\ (forall t, view fs2 d2 t = view fs1 d1 t).
Proof.
  intros H S Hb Hs0 Hs1 Fp HE fp2 mode2.
  assert (H0 : ld path 0 = 48 /\ ld path 1 = 58).
  { revert H; unfold f_open.
    destruct ((ld path 0 - 48 <? 0) || (ld path 0 - 48 >=? FF_VOLUMES)) eqn:A;
      [intros H; discriminate H|].
    destruct (negb (ld path 1 =? 58)) eqn:B; [intros H; discriminate H|].
    intros _; apply orb_false_iff in A; destruct A as (A1 & A2).
    apply negb_false_iff in B; unfold FF_VOLUMES in A2; lia. }
  destruct H0 as (H0 & H1).
  destruct (f_open_forward fs d fp path mode S H0 H1 Hb Hs0 Hs1 Fp)
    as (r & fsX & dX & fpX & E & SX & WX & Cases).
  rewrite E in H.
  assert (Q : r = FR_OK /\ fsX = fs1 /\ dX = d1 /\ fpX = fp1).
  { assert (A : fst (fst (fst (r, Some fsX, dX, fpX)))
                = fst (fst (fst (FR_OK, Some fs1, d1, fp1)))) by (rewrite H; reflexivity).
    assert (B : snd (fst (fst (r, Some fsX, dX, fpX)))
                = snd (fst (fst (FR_OK, Some fs1, d1, fp1)))) by (rewrite H; reflexivity).
    assert (C : snd (fst (r, Some fsX, dX, fpX))
                = snd (fst (FR_OK, Some fs1, d1, fp1))) by (rewrite H; reflexivity).
    assert (D : snd (r, Some fsX, dX, fpX) = snd (FR_OK, Some fs1, d1, fp1))
      by (rewrite H; reflexivity).
    cbn [fst snd] in A, B, C, D.
    splits; auto; congruence. }
  destruct Q as (-> & -> & -> & ->); clear H.
  remember (make_sfn (path_name path)) as sfn eqn:Esfn.
  remember (root_sect fs) as s0 eqn:Es0.
  assert (Ers : root_sect fs1 = s0) by (rewrite Es0; apply root_sect_window_only; exact WX).
  assert (Erb : root_bound fs1 = root_bound fs) by (apply root_bound_window_only; exact WX).
  destruct (window_only_fields _ _ WX) as (_ & _ & _ & _ & _ & _ & _ & _ & _ & _ & Eid).
  destruct Cases as [(k & Hk & Fk & Hps & V & _ & Efp)|[(k & Hk & Vk & Hnv & V & _ & Efp)|N]];
    [| |contradiction].
  - (* the file was there *)
    destruct (f_open_hit fs1 d1 fp2 path mode2 k SX H0 H1 ltac:(rewrite Erb; exact Hb)
                ltac:(rewrite Ers; exact Hs0) ltac:(rewrite Ers; exact Hs1) Fp
                ltac:(rewrite Erb; exact Hk))
      as (fs2 & d2 & E2 & S2 & W2 & V2).
    + rewrite Ers, <- Esfn.
      revert Fk; unfold found, slot_byte, slot_match; rewrite !V; auto.
    + intros j Hj; rewrite Ers, <- Esfn.
      specialize (Hps j Hj); revert Hps.
      unfold passed, slot_byte, slot_match; rewrite !V; auto.
    + exists fs2, d2; rewrite E2; splits; auto.
      rewrite Ers, Efp; unfold entry_handle; cbv zeta.
      rewrite V, Eid; reflexivity.
  - (* the file was created in entry [k] *)
    assert (Hq : 0 <= k mod 16 < 16) by (apply Z.mod_pos_bound; lia).
    (* the entries other than [k] are as they were *)
    assert (Other : forall j b, 0 <= j -> j <> k -> 0 <= b < 32 ->
                      slot_byte fs1 d1 s0 j b = slot_byte fs d s0 j b).
    { intros j b Hj Nj Hbb; unfold slot_byte; rewrite V.
      destruct (Z.eqb_spec (s0 + j / 16) (s0 + k / 16)) as [Es|Ns]; [|reflexivity].
      rewrite Es; apply new_dir_entry_frame; try lia.
      - assert (0 <= j mod 16 < 16) by (apply Z.mod_pos_bound; lia); lia.
      - assert (j mod 16 <> k mod 16)
          by (intros Em; apply Nj; rewrite (Z.div_mod j 16), (Z.div_mod k 16) by lia; lia).
        assert (0 <= j mod 16 < 16) by (apply Z.mod_pos_bound; lia); lia. }
    assert (OtherM : forall j, 0 <= j -> j <> k ->
                       slot_match fs1 d1 s0 sfn j = slot_match fs d s0 sfn j).
    { intros j Hj Nj; unfold slot_match, memcmp_eq.
      apply forallb_ext_in; intros i Hi; apply in_seq in Hi.
      change (Z.to_nat 11) with 11%nat in Hi.
      pose proof (Other j (Z.of_nat i) Hj Nj ltac:(lia)) as O.
      unfold slot_byte in O; rewrite O; reflexivity. }
    assert (Fn : Forall (fun c => 0 <= c < 256) (path_name path)).
    { unfold path_name; cbv zeta.
      destruct ((ld (skipn 2 path) 0 =? 47) || (ld (skipn 2 path) 0 =? 92));
        [apply Forall_skipn_bytes|]; apply Forall_skipn_bytes; exact Fp. }
    assert (Kd : exists q, 0 <= q < 16 /\ k mod 16 * 32 = 32 * q)
      by (exists (k mod 16); split; [exact Hq|lia]).
    assert (Ls : length sfn = 11%nat) by (rewrite Esfn; apply length_make_sfn).
    assert (Bs : forall j, 0 <= ld sfn j < 256) by (rewrite Esfn; apply bytes_make_sfn).
    destruct (new_dir_entry_spec (view fs d (s0 + k / 16)) (k mod 16 * 32) sfn
                (sector_view fs d _ S) Kd Ls Bs)
      as (_ & N1 & N2 & N3 & N4 & N5).
    assert (Vk1 : view fs1 d1 (s0 + k / 16)
                  = new_dir_entry (view fs d (s0 + k / 16)) (k mod 16 * 32) sfn)
      by (rewrite V, Z.eqb_refl; reflexivity).
    assert (Fk1 : found fs1 d1 s0 sfn k).
    { unfold found, slot_byte, slot_match; rewrite Vk1.
      assert (B0 : ld (new_dir_entry (view fs d (s0 + k / 16)) (k mod 16 * 32) sfn)
                      (k mod 16 * 32 + DIR_Name) = ld sfn 0).
      { rewrite <- N1 at 2; rewrite ld_slice by lia; reflexivity. }
      rewrite B0, N2.
      split; [rewrite Esfn; apply make_sfn_nonzero; [exact Fn|lia]|].
      split; [exact HE|].
      split; [reflexivity|apply memcmp_eq_of_slice; exact N1]. }
    assert (Hps1 : forall j, 0 <= j < k -> passed fs1 d1 s0 sfn j).
    { intros j Hj; destruct (Hnv j Hj) as (_ & P).
      revert P; unfold passed.
      rewrite !(Other j) by (unfold DIR_Name, DIR_Attr; lia).
      rewrite OtherM by lia; auto. }
    destruct (f_open_hit fs1 d1 fp2 path mode2 k SX H0 H1 ltac:(rewrite Erb; exact Hb)
                ltac:(rewrite Ers; exact Hs0) ltac:(rewrite Ers; exact Hs1) Fp
                ltac:(rewrite Erb; exact Hk)
                ltac:(rewrite Ers, <- Esfn; exact Fk1)
                ltac:(rewrite Ers, <- Esfn; exact Hps1))
      as (fs2 & d2 & E2 & S2 & W2 & V2).
    exists fs2, d2; rewrite E2; splits; auto.
    rewrite Ers, Efp; unfold entry_handle; cbv zeta.
    rewrite Vk1, N3, N4, N5, Eid; reflexivity.
Qed.

(** "A.TXT", created on the blank volume, is found by a second [f_open]
    for reading. *)
Lemma f_open_again_witness :
  exists fs2 d2,
    f_open (Some (ses_fs created_blank)) (ses_dev created_blank) fresh_fp
           (chars "0:A.TXT") FA_READ
    = (FR_OK, Some fs2, d2, FIL.set_flag (ses_fp created_blank) (u8 FA_READ)) /\
    FIL.dir_sect (ses_fp created_blank) = 3 /\ FIL.dir_ptr (ses_fp created_blank) = 0.
Proof.
  assert (E : f_open (Some vol12) blank_dev fresh_fp (chars "0:A.TXT") mode_rw_create
              = (FR_OK, Some (ses_fs created_blank), ses_dev created_blank,
                 ses_fp created_blank)) by (vm_compute; reflexivity).
  assert (H2 : root_bound vol12 <= 65536) by (vm_compute; discriminate).
  assert (H3 : 0 <= root_sect vol12) by (vm_compute; discriminate).
  assert (H4 : root_sect vol12 + 4096 < 4294967296) by (vm_compute; reflexivity).
  assert (H5 : Forall (fun c => 0 <= c < 256) (chars "0:A.TXT"))
    by (repeat constructor; discriminate).
  assert (H6 : ld (make_sfn (path_name (chars "0:A.TXT"))) 0 <> DDEM)
    by (vm_compute; discriminate).
  destruct (f_open_again vol12 blank_dev fresh_fp (chars "0:A.TXT") mode_rw_create
              _ _ _ E stable_vol12 H2 H3 H4 H5 H6 fresh_fp FA_READ)
    as (fs2 & d2 & E2 & _).
  exists fs2, d2; split; [exact E2|split; vm_compute; reflexivity].
Defined.

(** ** Whole sectors and the modified window *)

(** X23.  A read of 512 bytes from an offset on a sector boundary that does
    not start a cluster other than the first, inside a file with a valid
    chain, on a stable volume: [f_read] returns [FR_OK] with the bytes that
    the medium holds in the sector of the offset, cut to what is left of the
    file.  The volume object is untouched: the window is neither consulted
    nor written back, so when it holds that sector, modified by a write that
    has not been synchronised, the bytes delivered are the old ones of the
    medium and not the ones written. *)
Theorem f_read_sector_bypasses_window (fs : FATFS.t) (d : Device) (fp : FIL.t) :
  stable fs d -> data_area_fits fs ->
  FIL.fs fp = true -> FIL.err fp = 0 -> Z.land (FIL.flag fp) FA_READ <> 0 ->
  0 <= FIL.fptr fp < FIL.obj_size fp -> FIL.obj_size fp + 65536 <= 4294967296 ->
  chained fs d fp -> positioned fs d fp ->
  FIL.fptr fp mod 512 = 0 ->
  FIL.fptr fp = 0 \/ FIL.fptr fp mod (FATFS.csize fs * 512) <> 0 ->
  f_read fs d fp 512 =
  Some (FR_OK, fs,
        dev_log d (IoRead (file_sector fs d (FIL.sclust fp) (FIL.fptr fp)) 1),
        FIL.set_fptr
          (FIL.set_clust fp (chain fs d (FIL.sclust fp)
                                   (Z.to_nat (FIL.fptr fp / (FATFS.csize fs * 512)))))
          (FIL.fptr fp + Z.min 512 (FIL.obj_size fp - FIL.fptr fp)),
        firstn (Z.to_nat (Z.min 512 (FIL.obj_size fp - FIL.fptr fp)))
               (sd_data d (file_sector fs d (FIL.sclust fp) (FIL.fptr fp)))).
Proof.
  intros S F Hfs Herr Hfl Hp Ho Hch Hpos Hal Hin.
  pose proof S as (M & Hh & Hd & C).
  destruct (m_csize _ M) as (k & Hk & Ek).
  pose proof (pow2_bounds k Hk) as Hc; rewrite <- Ek in Hc.
  assert (Hbcs : u32 (FATFS.csize fs * SS) = FATFS.csize fs * 512)
    by (unfold SS, FF_MAX_SS; apply u32_small; lia).
  remember (chain fs d (FIL.sclust fp) (Z.to_nat (FIL.fptr fp / (FATFS.csize fs * 512))))
    as c eqn:Ec.
  assert (Vc : valid_clst fs c).
  { rewrite Ec; apply Hch; [apply Z.div_pos; lia|].
    apply Z.le_lt_trans with (FIL.fptr fp); [|lia].
    rewrite Z.mul_comm; apply Z.mul_div_le; lia. }
  destruct (clst2sect_valid fs c M F Vc) as (_ & Hs0 & Hs1).
  assert (Hq : 0 <= FIL.fptr fp / 512 < 4294967296)
    by (Z.to_euclidean_division_equations; lia).
  assert (Hcs : 0 <= (FIL.fptr fp / 512) mod FATFS.csize fs < FATFS.csize fs)
    by (apply Z.mod_pos_bound; lia).
  assert (Es : file_sector fs d (FIL.sclust fp) (FIL.fptr fp)
               = clst2sect fs c + (FIL.fptr fp / 512) mod FATFS.csize fs)
    by (unfold file_sector; rewrite <- Ec; reflexivity).
  remember (Z.min 512 (FIL.obj_size fp - FIL.fptr fp)) as n eqn:En.
  (* the transfer, from the handle that stands on cluster [c] *)
  assert (T : forall fp1, FIL.clust fp1 = c -> FIL.fptr fp1 = FIL.fptr fp ->
                FIL.obj_size fp1 = FIL.obj_size fp ->
                FIL.set_fptr fp1 (FIL.fptr fp + n)
                = FIL.set_fptr (FIL.set_clust fp c) (FIL.fptr fp + n) ->
                forall m,
                match f_read_tail fs d fp1 512 with
                | More fs2 d2 fp2 rcnt data =>
                    f_read_loop m fs2 d2 fp2 (u32 (512 - rcnt)) ([] ++ data)
                | Stop res fs2 d2 fp2 => Some (res, fs2, d2, fp2, [])
                | Diverge => None
                end
                = Some (FR_OK, fs,
                        dev_log d (IoRead (file_sector fs d (FIL.sclust fp) (FIL.fptr fp)) 1),
                        FIL.set_fptr (FIL.set_clust fp c) (FIL.fptr fp + n),
                        firstn (Z.to_nat n)
                               (sd_data d (file_sector fs d (FIL.sclust fp) (FIL.fptr fp))))).
  { intros fp1 Q1 Q2 Q3 Q4 m.
    unfold f_read_tail; cbv zeta; rewrite Q1, Q2, Q3.
    replace (clst2sect fs c =? 0) with false by (symmetry; lia).
    rewrite (m_pdrv _ M).
    unfold SS, FF_MAX_SS.
    change (512 / 512) with 1; change (1 >? 0) with true; cbv iota.
    rewrite (u32_small (FIL.fptr fp / 512)) by lia.
    rewrite (u32_small (clst2sect fs c + _)) by lia.
    rewrite (u32_small ((FIL.fptr fp / 512) mod FATFS.csize fs + 1)) by lia.
    replace ((FIL.fptr fp / 512) mod FATFS.csize fs + 1 >? FATFS.csize fs) with false
      by (symmetry; lia).
    rewrite (disk_read_run d _ 1 Hh) by lia.
    cbn [is_RES_OK negb]; cbv iota.
    change (u32 (1 * 512)) with 512.
    rewrite (u32_small (FIL.fptr fp + 512)) by lia.
    rewrite (u32_small (FIL.obj_size fp - FIL.fptr fp)) by lia.
    assert (En' : (if FIL.fptr fp + 512 >? FIL.obj_size fp
                   then FIL.obj_size fp - FIL.fptr fp else 512) = n)
      by (rewrite En; destruct (FIL.fptr fp + 512 >? FIL.obj_size fp) eqn:G; lia).
    rewrite En'.
    rewrite (u32_small (FIL.fptr fp + n)), (u32_small (512 - n)) by lia.
    rewrite <- Es; cbn [app]; change (Z.to_nat 1) with 1%nat; cbn [read_sectors].
    rewrite app_nil_r.
    assert (X : forall got,
               f_read_loop m fs (dev_log d (IoRead (file_sector fs d (FIL.sclust fp)
                                                                 (FIL.fptr fp)) 1))
                           (FIL.set_fptr fp1 (FIL.fptr fp + n)) (512 - n) got
               = Some (FR_OK, fs,
                       dev_log d (IoRead (file_sector fs d (FIL.sclust fp) (FIL.fptr fp)) 1),
                       FIL.set_fptr fp1 (FIL.fptr fp + n), got)).
    { intros got.
      assert (G : negb (512 - n >? 0) = true \/
                  (FIL.fptr (FIL.set_fptr fp1 (FIL.fptr fp + n))
                   >=? FIL.obj_size (FIL.set_fptr fp1 (FIL.fptr fp + n))) = true).
      { destruct (Z.eq_dec n 512) as [->|N]; [left; reflexivity|right].
        replace (FIL.fptr (FIL.set_fptr fp1 (FIL.fptr fp + n))) with (FIL.fptr fp + n)
          by (destruct fp1; reflexivity).
        replace (FIL.obj_size (FIL.set_fptr fp1 (FIL.fptr fp + n))) with (FIL.obj_size fp)
          by (rewrite <- Q3; destruct fp1; reflexivity).
        lia. }
      destruct m; cbn [f_read_loop];
        (destruct G as [G|G]; [rewrite G; reflexivity|]);
        destruct (negb (512 - n >? 0)); [reflexivity|rewrite G; reflexivity
                                        |reflexivity|rewrite G; reflexivity]. }
    rewrite X, Q4; reflexivity. }
  unfold f_read; rewrite Hfs, Herr.
  change (negb true) with false; change (nz 0) with false; cbv iota.
  replace (nz (Z.land (FIL.flag fp) FA_READ)) with true
    by (symmetry; apply nz_true; assumption).
  cbn [negb]; cbv iota.
  remember (Z.to_nat 512) as m eqn:Em.
  destruct m as [|m]; [discriminate Em|]; clear Em.
  cbn [f_read_loop].
  change (negb (512 >? 0)) with false; cbv iota.
  replace (FIL.fptr fp >=? FIL.obj_size fp) with false by (symmetry; lia).
  rewrite f_read_round_tail, Hbcs.
  destruct (Z.eqb_spec (FIL.fptr fp) 0) as [Z0|N0].
  - assert (Ecs : c = FIL.sclust fp)
      by (rewrite Ec, Z0, Z.div_0_l by lia; reflexivity).
    replace (FIL.set_clust fp (FIL.sclust fp)) with (FIL.set_clust fp c)
      by (rewrite Ecs; reflexivity).
    apply T. all: try (destruct fp; reflexivity).
  - destruct Hin as [Z0|Hin]; [contradiction|].
    replace (FIL.fptr fp mod (FATFS.csize fs * 512) =? 0) with false by (symmetry; lia).
    assert (Ecl : FIL.clust fp = c).
    { rewrite (Hpos ltac:(lia)), Ec; f_equal; f_equal.
      pose proof (Z.mod_pos_bound (FIL.fptr fp) (FATFS.csize fs * 512) ltac:(lia)) as Hm.
      pose proof (Z.div_mod (FIL.fptr fp) (FATFS.csize fs * 512) ltac:(lia)) as Hdm.
      symmetry;
        apply Z.div_unique with (r := FIL.fptr fp mod (FATFS.csize fs * 512) - 1); lia. }
    apply T. all: auto.
    rewrite <- Ecl; destruct fp; reflexivity.
Qed.

Lemma sd_data_rewound_ten :
  sd_data (ses_dev rewound_ten)
  = fun s => if (1 <=? s) && (s <? 1 + 1) then chunk fat_written (s - 1)
             else if (3 <=? s) && (s <? 3 + 1) then chunk dir_written (s - 3)
             else zero_sector.
Proof. vm_compute; reflexivity. Qed.

Lemma stable_rewound_ten : stable (ses_fs rewound_ten) (ses_dev rewound_ten).
Proof.
  split; [|split; [|split]].
  - apply mkMounted.
    + left; vm_compute; reflexivity.
    + vm_compute; reflexivity.
    + vm_compute; split; [discriminate|reflexivity].
    + intros _; vm_compute; discriminate.
    + intros H; vm_compute in H; discriminate H.
    + exists 0; split; [lia|vm_compute; reflexivity].
    + vm_compute; split; [discriminate|reflexivity].
    + vm_compute; split; [discriminate|reflexivity].
    + vm_compute; split; [discriminate|reflexivity].
    + apply sector_check; vm_compute; reflexivity.
  - split; [vm_compute; reflexivity|split; [vm_compute; reflexivity|]].
    intros s; reflexivity.
  - intros s; rewrite sd_data_rewound_ten.
    destruct ((1 <=? s) && (s <? 1 + 1)) eqn:A.
    { assert (s = 1) by lia; subst s; apply sector_check; vm_compute; reflexivity. }
    destruct ((3 <=? s) && (s <? 3 + 1)) eqn:B.
    { assert (s = 3) by lia; subst s; apply sector_check; vm_compute; reflexivity. }
    apply sector_repeat; lia.
  - intros H; vm_compute in H; discriminate H.
Qed.

(** Ten bytes 0..9 are written to the new file and the offset is set back
    to 0.  The window holds them, as sector 4, not yet written to the
    medium; a read of 512 bytes delivers ten zero bytes. *)
Lemma f_read_sector_bypasses_window_witness :
  FATFS.winsect (ses_fs rewound_ten) = 4 /\ FATFS.wflag (ses_fs rewound_ten) = 1 /\
  firstn 10 (FATFS.win (ses_fs rewound_ten)) = pattern 10 /\
  exists d' fp',
    f_read (ses_fs rewound_ten) (ses_dev rewound_ten) (ses_fp rewound_ten) 512
    = Some (FR_OK, ses_fs rewound_ten, d', fp', repeat 0 10%nat).
Proof.
  assert (H1 : data_area_fits (ses_fs rewound_ten)) by (vm_compute; split; [reflexivity|discriminate]).
  assert (H2 : FIL.fs (ses_fp rewound_ten) = true) by (vm_compute; reflexivity).
  assert (H3 : FIL.err (ses_fp rewound_ten) = 0) by (vm_compute; reflexivity).
  assert (H4 : Z.land (FIL.flag (ses_fp rewound_ten)) FA_READ <> 0)
    by (vm_compute; discriminate).
  assert (H5 : 0 <= FIL.fptr (ses_fp rewound_ten) < FIL.obj_size (ses_fp rewound_ten))
    by (vm_compute; split; [discriminate|reflexivity]).
  assert (H6 : FIL.obj_size (ses_fp rewound_ten) + 65536 <= 4294967296)
    by (vm_compute; discriminate).
  assert (H7 : chained (ses_fs rewound_ten) (ses_dev rewound_ten) (ses_fp rewound_ten)).
  { intros j Hj Hlt.
    assert (Eo : FIL.obj_size (ses_fp rewound_ten) = 10) by (vm_compute; reflexivity).
    assert (Ec : FATFS.csize (ses_fs rewound_ten) = 1) by (vm_compute; reflexivity).
    rewrite Eo, Ec in Hlt.
    assert (j = 0) by lia; subst j.
    vm_compute; split; [discriminate|reflexivity]. }
  assert (H8 : positioned (ses_fs rewound_ten) (ses_dev rewound_ten) (ses_fp rewound_ten)).
  { intros Hp; vm_compute in Hp; discriminate Hp. }
  assert (H9 : FIL.fptr (ses_fp rewound_ten) mod 512 = 0) by (vm_compute; reflexivity).
  assert (H10 : FIL.fptr (ses_fp rewound_ten) = 0 \/
                FIL.fptr (ses_fp rewound_ten)
                  mod (FATFS.csize (ses_fs rewound_ten) * 512) <> 0)
    by (left; vm_compute; reflexivity).
  pose proof (f_read_sector_bypasses_window _ _ _ stable_rewound_ten
                H1 H2 H3 H4 H5 H6 H7 H8 H9 H10) as E.
  split; [vm_compute; reflexivity|].
  split; [vm_compute; reflexivity|].
  split; [vm_compute; reflexivity|].
  assert (Eb : firstn (Z.to_nat (Z.min 512 (FIL.obj_size (ses_fp rewound_ten)
                                             - FIL.fptr (ses_fp rewound_ten))))
                      (sd_data (ses_dev rewound_ten)
                               (file_sector (ses_fs rewound_ten) (ses_dev rewound_ten)
                                            (FIL.sclust (ses_fp rewound_ten))
                                            (FIL.fptr (ses_fp rewound_ten))))
               = repeat 0 10%nat) by (vm_compute; reflexivity).
  rewrite Eb in E.
  eexists; eexists; exact E.
Defined.

(** ** The cluster mapper at the end of the sector address space *)

(** C4 fails on the code.  [f_mount] accepts the partition at sector
    0xFFFFFF00: the volume is mounted, its 400 FAT entries give the clusters
    2..399, and its data area starts at sector 0xFFFFFF04.  The sector of
    cluster 254 would be 2^32; the 32-bit sum wraps, and [clst2sect] maps
    this cluster of the volume to 0, the invalid marker, and the clusters
    behind it to the sectors from 1 on, which lie before the partition. *)
Lemma clst2sect_wraps_on_mounted_volume :
  (let '(res, fs, _, _) := f_mount None 0 high_card (Some fresh_fs) drive0 1 in (res, fs))
  = (FR_OK, Some high_mounted) /\
  mounted high_mounted /\
  FATFS.n_fatent high_mounted = 400 /\ FATFS.database high_mounted = 4294967044 /\
  FATFS.csize high_mounted = 1 /\ FATFS.volbase high_mounted = 4294967040 /\
  valid_clst high_mounted 254 /\
  clst2sect high_mounted 254 = 0 /\
  FATFS.database high_mounted + (254 - 2) * FATFS.csize high_mounted = 4294967296 /\
  valid_clst high_mounted 255 /\ clst2sect high_mounted 255 = 1.
Proof.
  split; [vm_compute; reflexivity|].
  split.
  { apply mkMounted.
    - left; vm_compute; reflexivity.
    - vm_compute; reflexivity.
    - vm_compute; split; [discriminate|reflexivity].
    - intros _; vm_compute; discriminate.
    - intros H; vm_compute in H; discriminate H.
    - exists 0; split; [lia|vm_compute; reflexivity].
    - vm_compute; split; [discriminate|reflexivity].
    - vm_compute; split; [discriminate|reflexivity].
    - vm_compute; split; [discriminate|reflexivity].
    - apply sector_check; vm_compute; reflexivity. }
  split; [vm_compute; reflexivity|].
  split; [vm_compute; reflexivity|].
  split; [vm_compute; reflexivity|].
  split; [vm_compute; reflexivity|].
  split; [vm_compute; split; [discriminate|reflexivity]|].
  split; [vm_compute; reflexivity|].
  split; [vm_compute; reflexivity|].
  split; [vm_compute; split; [discriminate|reflexivity]|].
  vm_compute; reflexivity.
Qed.

(** ** The lookup of a name *)

(** The comparison of the search is the equality of the 11 name bytes. *)
Lemma slot_match_bytes fs d s0 sfn k :
  slot_match fs d s0 sfn k = true <->
  (forall n, 0 <= n < 11 -> slot_byte fs d s0 k (DIR_Name + n) = ld sfn n).
Proof.
  unfold slot_match, memcmp_eq, slot_byte, DIR_Name.
  rewrite forallb_forall; split.
  - intros H n Hn.
    specialize (H (Z.to_nat n)).
    rewrite Z2Nat.id in H by lia.
    rewrite Z.add_0_l; apply Z.eqb_eq, H, in_seq.
    change (Z.to_nat 11) with 11%nat; lia.
  - intros H j Hj; apply in_seq in Hj; change (Z.to_nat 11) with 11%nat in Hj.
    apply Z.eqb_eq.
    rewrite <- (H (Z.of_nat j)) by lia.
    rewrite Z.add_0_l; reflexivity.
Qed.

(** Without a creation bit, [f_open] fails with [FR_NO_FILE] when the search
    reaches the end of the directory. *)
Lemma f_open_miss fs d fp path mode k :
  stable fs d -> ld path 0 = 48 -> ld path 1 = 58 ->
  root_bound fs <= 65536 -> 0 <= root_sect fs -> root_sect fs + 4096 < 4294967296 ->
  0 <= k <= root_bound fs ->
  k = root_bound fs \/ slot_byte fs d (root_sect fs) k DIR_Name = 0 ->
  (forall j, 0 <= j < k -> passed fs d (root_sect fs) (make_sfn (path_name path)) j) ->
  Z.land mode creation_bits = 0 ->
  exists fs1 d1,
    f_open (Some fs) d fp path mode = (FR_NO_FILE, Some fs1, d1, FIL.set_fs fp false) /\
    stable fs1 d1 /\ window_only fs fs1 /\ (forall t, view fs1 d1 t = view fs d t).
Proof.
  intros S H0 H1 Hb Hs0 Hs1 Hk Hend Hps Hmode.
  pose proof S as (M & _).
  unfold f_open; rewrite H0, H1.
  change ((48 - 48 <? 0) || (48 - 48 >=? FF_VOLUMES)) with false.
  change (negb (58 =? 58)) with false; cbv iota zeta.
  assert (T : nz (FATFS.fs_type fs) = true).
  { apply nz_true; destruct (m_type _ M) as [E|[E|E]]; rewrite E; discriminate. }
  rewrite T; cbn [negb]; cbv iota.
  remember (make_sfn (path_name path)) as sfn eqn:Esfn.
  remember (root_sect fs) as s0 eqn:Es0.
  destruct (stable_move fs d s0 S ltac:(lia)) as (fsA & dA & Em & WA & EsA & SA & EwA & VA).
  rewrite Em; cbv iota.
  assert (ErbA : root_bound fsA = root_bound fs) by (apply root_bound_window_only; exact WA).
  destruct (open_search_spec sfn s0 (Z.to_nat (root_bound fsA)) fsA dA 0 s0 SA ltac:(lia)
              ltac:(rewrite ErbA; exact Hb) Hs0 Hs1 ltac:(lia)
              ltac:(change (0 =? 0) with true; cbv iota; lia) EsA)
    as (fsB & dB & k2 & Hk2 & Hps2 & SB & WB & VB & R).
  assert (WfB : window_only fs fsB) by (eapply window_only_trans; eassumption).
  assert (VfB : forall t, view fsB dB t = view fs d t) by (intros t; rewrite VB; apply VA).
  assert (Hps2' : forall j, 0 <= j < k2 -> passed fs d s0 sfn j).
  { intros j Hj; specialize (Hps2 j Hj); revert Hps2.
    unfold passed, slot_byte, slot_match; rewrite !VA; auto. }
  destruct R as [(Lt & Fk2 & _)|(_ & E)].
  - (* no entry can have matched *)
    exfalso.
    assert (Fk : found fs d s0 sfn k2)
      by (revert Fk2; unfold found, slot_byte, slot_match; rewrite !VA; auto).
    rewrite ErbA in Lt.
    destruct (Z.lt_ge_cases k2 k) as [A|A].
    + exact (passed_not_found fs d s0 sfn k2 (Hps k2 ltac:(lia)) Fk).
    + destruct Hend as [B|B]; [lia|].
      destruct (Z.eq_dec k2 k) as [->|N].
      * destruct Fk as (N0 & _); contradiction.
      * destruct (Hps2' k ltac:(lia)) as (N0 & _); contradiction.
  - rewrite E.
    fold creation_bits.
    replace (nz (Z.land mode creation_bits)) with false
      by (symmetry; apply nz_false; exact Hmode).
    exists fsB, dB; split; [reflexivity|split; [exact SB|split; [exact WfB|exact VfB]]].
Qed.

Lemma stable_two_files : stable vol12 two_files_dev.
Proof.
  split; [exact mounted_vol12|split; [repeat split|split]].
  - exact dev_ok_two_files_dev.
  - intros _; reflexivity.
Qed.

(** C7, amended.  [f_open] looks a file up by the 11 bytes [make_sfn] of its
    name.  On drive 0 of a stable volume whose root directory lies inside
    the sector address space, the search goes past the entries that are
    deleted, are directories or carry other name bytes, and opens the first
    entry before the end of the directory that is none of these, whatever
    the mode; when it reaches the end of the table or an end mark first, a
    call without a creation bit fails with [FR_NO_FILE].  An entry carries
    the name when its 11 name bytes equal the 11 bytes of the conversion.
    The name acts through its conversion only.  For a base of at most 8 and
    an extension of at most 3 characters the conversion is the 8.3 form:
    upper case, padded with spaces, split at the first dot.  Names that
    differ in the case of letters only have the same 11 bytes.  A name whose
    base has more than 8 characters is not rejected: it has the 11 bytes of
    its first 8 characters, without extension; an extension of more than 3
    characters is cut to its first 3. *)
Theorem lookup_name_8_3 :
  (forall fs d fp path mode,
      stable fs d -> ld path 0 = 48 -> ld path 1 = 58 ->
      root_bound fs <= 65536 -> 0 <= root_sect fs -> root_sect fs + 4096 < 4294967296 ->
      Forall (fun c => 0 <= c < 256) path ->
      (forall k,
          0 <= k < root_bound fs ->
          found fs d (root_sect fs) (make_sfn (path_name path)) k ->
          (forall j, 0 <= j < k ->
                     passed fs d (root_sect fs) (make_sfn (path_name path)) j) ->
          exists fs1 d1,
            f_open (Some fs) d fp path mode
            = (FR_OK, Some fs1, d1, entry_handle fs d (root_sect fs) k mode) /\
            (forall t, view fs1 d1 t = view fs d t)) /\
      (forall k,
          0 <= k <= root_bound fs ->
          k = root_bound fs \/ slot_byte fs d (root_sect fs) k DIR_Name = 0 ->
          (forall j, 0 <= j < k ->
                     passed fs d (root_sect fs) (make_sfn (path_name path)) j) ->
          Z.land mode creation_bits = 0 ->
          exists fs1 d1,
            f_open (Some fs) d fp path mode
            = (FR_NO_FILE, Some fs1, d1, FIL.set_fs fp false) /\
            (forall t, view fs1 d1 t = view fs d t))) /\
  (forall fs d s0 sfn k,
      slot_match fs d s0 sfn k = true <->
      (forall n, 0 <= n < 11 -> slot_byte fs d s0 k (DIR_Name + n) = ld sfn n)) /\
  (forall FatFs d fp p q mode,
      ld p 0 = ld q 0 -> ld p 1 = ld q 1 ->
      make_sfn (path_name p) = make_sfn (path_name q) ->
      f_open FatFs d fp p mode = f_open FatFs d fp q mode) /\
  (forall base ext,
      Forall base_char base -> (length base <= 8)%nat ->
      Forall ext_char ext -> (length ext <= 3)%nat ->
      make_sfn (base ++ 46 :: ext) = name83 base ext /\
      make_sfn base = name83 base []) /\
  (forall p q,
      Forall (fun c => 0 <= c < 256) p -> Forall (fun c => 0 <= c < 256) q ->
      map upcase p = map upcase q -> make_sfn p = make_sfn q) /\
  (forall base c rest,
      Forall base_char base -> length base = 8%nat -> c <> 46 ->
      make_sfn (base ++ c :: rest) = name83 base []) /\
  (forall base ext rest,
      Forall base_char base -> (length base <= 8)%nat ->
      Forall ext_char ext -> length ext = 3%nat ->
      make_sfn (base ++ 46 :: ext ++ rest) = name83 base ext).
Proof.
  split; [|split; [|split; [|split; [|split; [|split]]]]].
  - intros fs d fp path mode S H0 H1 Hb Hs0 Hs1 Fp; split.
    + intros k Hk Fk Hps.
      destruct (f_open_hit fs d fp path mode k S H0 H1 Hb Hs0 Hs1 Fp Hk Fk Hps)
        as (fs1 & d1 & E & _ & _ & V).
      exists fs1, d1; split; [exact E|exact V].
    + intros k Hk Hend Hps Hmode.
      destruct (f_open_miss fs d fp path mode k S H0 H1 Hb Hs0 Hs1 Hk Hend Hps Hmode)
        as (fs1 & d1 & E & _ & _ & V).
      exists fs1, d1; split; [exact E|exact V].
  - exact slot_match_bytes.
  - exact f_open_by_sfn.
  - intros base ext Hb Lb He Le; split.
    + rewrite <- (app_nil_r ext) at 1.
      apply make_sfn_dot; auto.
    + rewrite <- (app_nil_r base) at 1.
      apply make_sfn_nodot; auto.
  - intros p q Hp Hq E.
    rewrite <- (make_sfn_upcase p), <- (make_sfn_upcase q), E by assumption.
    reflexivity.
  - intros base c rest Hb Lb Hc.
    apply make_sfn_nodot; auto; [lia|].
    right; left; split; [assumption|]. exists c, rest; auto.
  - intros base ext rest Hb Lb He Le.
    apply make_sfn_dot; auto; lia.
Qed.

(** On the directory that holds "LONGFILE" and "A.TEX": "longfilename.txt"
    opens the first entry and "a.text" the second, "nosuch.bin" is not
    found. *)
Lemma lookup_name_8_3_witness :
  make_sfn (chars "readme.md") = chars "README  MD " /\
  make_sfn (chars "ReadMe.Md") = make_sfn (chars "README.MD") /\
  make_sfn (chars "LONGFILENAME.TXT") = chars "LONGFILE   " /\
  make_sfn (chars "a.text") = chars "A       TEX" /\
  f_open (Some vol12) two_files_dev fresh_fp (chars "0:LONGFILENAME.TXT") FA_READ =
  f_open (Some vol12) two_files_dev fresh_fp (chars "0:longfile") FA_READ /\
  (exists fs1 d1,
      f_open (Some vol12) two_files_dev fresh_fp (chars "0:longfilename.txt") FA_READ
      = (FR_OK, Some fs1, d1, entry_handle vol12 two_files_dev (root_sect vol12) 0 FA_READ)) /\
  (exists fs1 d1,
      f_open (Some vol12) two_files_dev fresh_fp (chars "0:a.text") FA_READ
      = (FR_OK, Some fs1, d1, entry_handle vol12 two_files_dev (root_sect vol12) 1 FA_READ)) /\
  (exists fs1 d1,
      f_open (Some vol12) two_files_dev fresh_fp (chars "0:nosuch.bin") FA_READ
      = (FR_NO_FILE, Some fs1, d1, fresh_fp)).
Proof.
  destruct lookup_name_8_3 as (Hlook & _ & Hopen & Hfit & Hcase & Hbase & Hext).
  assert (Hb : root_bound vol12 <= 65536) by (vm_compute; discriminate).
  assert (Hs0 : 0 <= root_sect vol12) by (vm_compute; discriminate).
  assert (Hs1 : root_sect vol12 + 4096 < 4294967296) by (vm_compute; reflexivity).
  split; [|split; [|split; [|split; [|split; [|split; [|split]]]]]].
  - apply (Hfit (chars "readme") (chars "md"));
      try (simpl; lia);
      repeat constructor; unfold base_char, ext_char; simpl; lia.
  - apply (Hcase (chars "ReadMe.Md") (chars "README.MD"));
      [repeat constructor; simpl; lia ..|reflexivity].
  - apply (Hbase (chars "LONGFILE") 78 (chars "AME.TXT"));
      [repeat constructor; unfold base_char; simpl; lia|reflexivity|lia].
  - apply (Hext (chars "a") (chars "tex") (chars "t"));
      try (simpl; lia); try reflexivity;
      repeat constructor; unfold base_char, ext_char; simpl; lia.
  - apply Hopen; reflexivity.
  - assert (Fp : Forall (fun c => 0 <= c < 256) (chars "0:longfilename.txt"))
      by (repeat constructor; discriminate).
    destruct (Hlook vol12 two_files_dev fresh_fp (chars "0:longfilename.txt") FA_READ
                    stable_two_files eq_refl eq_refl Hb Hs0 Hs1 Fp) as (Hit & _).
    assert (Hk : 0 <= 0 < root_bound vol12) by (vm_compute; split; [discriminate|reflexivity]).
    assert (Fk : found vol12 two_files_dev (root_sect vol12)
                       (make_sfn (path_name (chars "0:longfilename.txt"))) 0).
    { split; [vm_compute; discriminate|split; [vm_compute; discriminate|]].
      split; vm_compute; reflexivity. }
    destruct (Hit 0 Hk Fk ltac:(intros j Hj; lia)) as (fs1 & d1 & E & _).
    exists fs1, d1; exact E.
  - assert (Fp : Forall (fun c => 0 <= c < 256) (chars "0:a.text"))
      by (repeat constructor; discriminate).
    destruct (Hlook vol12 two_files_dev fresh_fp (chars "0:a.text") FA_READ
                    stable_two_files eq_refl eq_refl Hb Hs0 Hs1 Fp) as (Hit & _).
    assert (Hk : 0 <= 1 < root_bound vol12) by (vm_compute; split; [discriminate|reflexivity]).
    assert (Fk : found vol12 two_files_dev (root_sect vol12)
                       (make_sfn (path_name (chars "0:a.text"))) 1).
    { split; [vm_compute; discriminate|split; [vm_compute; discriminate|]].
      split; vm_compute; reflexivity. }
    assert (Hps : forall j, 0 <= j < 1 ->
                    passed vol12 two_files_dev (root_sect vol12)
                           (make_sfn (path_name (chars "0:a.text"))) j).
    { intros j Hj; assert (j = 0) by lia; subst j.
      split; [vm_compute; discriminate|right; right; vm_compute; reflexivity]. }
    destruct (Hit 1 Hk Fk Hps) as (fs1 & d1 & E & _).
    exists fs1, d1; exact E.
  - assert (Fp : Forall (fun c => 0 <= c < 256) (chars "0:nosuch.bin"))
      by (repeat constructor; discriminate).
    destruct (Hlook vol12 two_files_dev fresh_fp (chars "0:nosuch.bin") FA_READ
                    stable_two_files eq_refl eq_refl Hb Hs0 Hs1 Fp) as (_ & Miss).
    assert (Hk : 0 <= 2 <= root_bound vol12) by (vm_compute; split; discriminate).
    assert (Hend : 2 = root_bound vol12 \/
                   slot_byte vol12 two_files_dev (root_sect vol12) 2 DIR_Name = 0)
      by (right; vm_compute; reflexivity).
    assert (Hps : forall j, 0 <= j < 2 ->
                    passed vol12 two_files_dev (root_sect vol12)
                           (make_sfn (path_name (chars "0:nosuch.bin"))) j).
    { intros j Hj; assert (C : j = 0 \/ j = 1) by lia.
      destruct C as [->| ->];
        (split; [vm_compute; discriminate|right; right; vm_compute; reflexivity]). }
    destruct (Miss 2 Hk Hend Hps eq_refl) as (fs1 & d1 & E & _).
    exists fs1, d1; exact E.
Defined.
